(** * AdaptiFocus: the decision pipeline of [backend/agents]

    A shallow embedding of [context_agent.py], [pattern_agent.py],
    [intervention_agent.py], [coordinator.py], the labelling of an event
    in [api/routes/events.py] and the thresholds of [config.py], with
    the properties of the natural-language specification stated and
    proved (or refuted) over it, and further properties read off the
    code.

    Conventions.
    - A Python [float] is a binary64 number: the kernel's primitive
      [float], whose operations round to nearest-even as CPython's do.
      A decimal literal of the source is the literal of the same spelling
      here (both denote the nearest binary64 number).
    - A Python [int] is a [Z]; a [str] is a [string] of bytes, its
      UTF-8 encoding; [None] is [None] of an [option].  Where character
      classes, the case of letters or whitespace matter (the regular
      expressions, [lower], [split], [strip]) the model is Python's on
      ASCII text, and the theorems that turn on them assume
      [Str.isascii].
    - A [dict] whose order is observable is an association list in
      insertion order; a [set] of literals is the list of its elements.
    - A call that may raise is an [option]: [None] is the exception. *)

From Stdlib Require Import ZArith List String Ascii Bool Lia Floats.
From Stdlib Require Import DecimalString Permutation Sorted.
Import ListNotations.

Set Warnings "-inexact-float".

Local Open Scope Z_scope.

(* ------------------------------------------------------------------ *)
(** * Python numbers *)

Module Py.

(** [float(n)] for an [int] n: the nearest binary64 number, ties to even
    (exact below 2^53; CPython raises [OverflowError] from 2^1024 on,
    where this yields an infinity). *)
Definition of_Z (n : Z) : float :=
  SF2Prim (binary_normalize prec emax n 0 false).

(** The builtins [max(a, b)] and [min(a, b)] on two floats: the first
    argument is kept unless the second compares strictly beyond it. *)
Definition max (a b : float) : float := if PrimFloat.ltb a b then b else a.
Definition min (a b : float) : float := if PrimFloat.ltb b a then b else a.

(** [x > y] and [x >= y] on floats. *)
Definition gtb (x y : float) : bool := PrimFloat.ltb y x.
Definition geb (x y : float) : bool := PrimFloat.leb y x.

(** [int(x)]: truncation toward zero; [OverflowError] on an infinity and
    [ValueError] on a NaN. *)
Definition int_of_spec (x : spec_float) : option Z :=
  match x with
  | S754_zero _ => Some 0
  | S754_finite s m e =>
      let a := if 0 <=? e then Z.pos m * 2 ^ e else Z.pos m / 2 ^ (- e) in
      Some (if s then - a else a)
  | S754_infinity _ | S754_nan => None
  end.

Definition int (x : float) : option Z := int_of_spec (Prim2SF x).

(** Division of a non-negative [n] by a positive [d], rounded to the
    nearest integer, ties to even. *)
Definition div_half_even (n d : Z) : Z :=
  let q := n / d in
  let r := n mod d in
  if 2 * r <? d then q
  else if d <? 2 * r then q + 1
  else if Z.even q then q else q + 1.

(** The integer nearest to |x| * 10^3 (ties to even), for a finite x
    with a fractional part. *)
Definition milli_of_spec (x : spec_float) : Z :=
  match x with
  | S754_finite _ m e => div_half_even (Z.pos m * 1000) (2 ^ (- e))
  | _ => 0
  end.

(** [round(x, 3)]: the decimal expansion of x correctly rounded to three
    places (ties to even on the exact value), read back as a float.
    Zeros, infinities, NaN and integral values are returned unchanged. *)
Definition round3 (x : float) : float :=
  match Prim2SF x with
  | S754_finite s m e =>
      if 0 <=? e then x
      else
        let r := PrimFloat.div (of_Z (milli_of_spec (S754_finite s m e)))
                               (of_Z 1000) in
        if s then PrimFloat.opp r else r
  | _ => x
  end.

(** [round(x)]: the nearest integer, ties to even (an exception on an
    infinity or a NaN). *)
Definition round0 (x : float) : option Z :=
  match Prim2SF x with
  | S754_zero _ => Some 0
  | S754_finite s m e =>
      let a := if 0 <=? e then Z.pos m * 2 ^ e
               else div_half_even (Z.pos m) (2 ^ (- e)) in
      Some (if s then - a else a)
  | S754_infinity _ | S754_nan => None
  end.

(** [sum(xs)] over floats, accumulated left to right from [0]. *)
Definition sum (xs : list float) : float :=
  fold_left PrimFloat.add xs (of_Z 0).

(** [str(n)] for an [int]. *)
Definition str_of_Z (n : Z) : string :=
  NilZero.string_of_int (Z.to_int n).

(** Whether [k / 1000] and its opposite lie in [-1, 1]. *)
Definition unit_quotient (k : nat) : bool :=
  let r := PrimFloat.div (of_Z (Z.of_nat k)) (of_Z 1000) in
  PrimFloat.leb (-1) r && PrimFloat.leb r 1
  && PrimFloat.leb (-1) (PrimFloat.opp r) && PrimFloat.leb (PrimFloat.opp r) 1.

(** |x| <= 2^k, for a zero or a finite x. *)
Definition within (x : spec_float) (k : Z) : Prop :=
  match x with
  | S754_zero _ => True
  | S754_finite _ m e => e <= k /\ Z.pos m <= 2 ^ (k - e)
  | S754_infinity _ | S754_nan => False
  end.

(** The sign bit. *)
Definition sign_of (x : spec_float) : bool :=
  match x with
  | S754_zero s | S754_infinity s | S754_finite s _ _ => s
  | S754_nan => false
  end.

End Py.

(* ------------------------------------------------------------------ *)
(** * Strings *)

Module Str.

Local Open Scope string_scope.

Definition is_empty (s : string) : bool :=
  match s with EmptyString => true | _ => false end.

(** [s.startswith(p)] *)
Fixpoint startswith (s p : string) : bool :=
  match p, s with
  | EmptyString, _ => true
  | String c p', String d s' => Ascii.eqb c d && startswith s' p'
  | String _ _, EmptyString => false
  end.

(** [s.endswith(p)] *)
Definition endswith (s p : string) : bool :=
  let n := String.length s in
  let k := String.length p in
  Nat.leb k n && String.eqb (substring (n - k) k s) p.

(** [p in s] for strings: p occurs as a contiguous substring. *)
Fixpoint contains (s p : string) : bool :=
  startswith s p ||
  match s with
  | EmptyString => false
  | String _ s' => contains s' p
  end.

(** [x in S] for a set of string literals. *)
Definition mem (x : string) (S : list string) : bool :=
  existsb (String.eqb x) S.

Definition lower_ascii (c : ascii) : ascii :=
  let n := nat_of_ascii c in
  if (Nat.leb 65 n && Nat.leb n 90)%bool then ascii_of_nat (n + 32) else c.

(** [s.lower()] on ASCII: the letters A-Z are lowered, every other byte
    is kept. *)
Fixpoint lower (s : string) : string :=
  match s with
  | EmptyString => EmptyString
  | String c s' => String (lower_ascii c) (lower s')
  end.

(** [s.isascii()] *)
Fixpoint isascii (s : string) : bool :=
  match s with
  | EmptyString => true
  | String c s' => Nat.ltb (nat_of_ascii c) 128 && isascii s'
  end.

(** [len(s)]: the number of code points, which in UTF-8 is the number
    of bytes that are not continuation bytes (0x80-0xBF). *)
Fixpoint len (s : string) : nat :=
  match s with
  | EmptyString => O
  | String c s' =>
      let n := nat_of_ascii c in
      if (Nat.leb 128 n && Nat.ltb n 192)%bool then len s' else S (len s')
  end.

(** The whitespace of [str.split()], [str.strip()] and of the regex class
    [\s], on ASCII: tab, line feed, vertical tab, form feed, carriage
    return, the four separators 0x1c-0x1f, and the space. *)
Definition is_space (c : ascii) : bool :=
  let n := nat_of_ascii c in
  ((Nat.leb 9 n && Nat.leb n 13) || (Nat.leb 28 n && Nat.leb n 32))%bool.

Fixpoint lstrip (s : string) : string :=
  match s with
  | String c s' => if is_space c then lstrip s' else s
  | EmptyString => EmptyString
  end.

Fixpoint rev_acc (s acc : string) : string :=
  match s with
  | EmptyString => acc
  | String c s' => rev_acc s' (String c acc)
  end.

Definition rev (s : string) : string := rev_acc s EmptyString.

(** [s.strip()] on ASCII. *)
Definition strip (s : string) : string := rev (lstrip (rev (lstrip s))).

(** [s.split()] on ASCII: the maximal runs of non-whitespace
    characters. *)
Fixpoint split_acc (s : string) (cur : string) : list string :=
  match s with
  | EmptyString => if is_empty cur then [] else [rev cur]
  | String c s' =>
      if is_space c
      then (if is_empty cur then split_acc s' EmptyString
            else rev cur :: split_acc s' EmptyString)
      else split_acc s' (String c cur)
  end.

Definition split (s : string) : list string := split_acc s EmptyString.

(** [sep.join(xs)] *)
Fixpoint join (sep : string) (xs : list string) : string :=
  match xs with
  | [] => EmptyString
  | [x] => x
  | x :: rest => x ++ sep ++ join sep rest
  end.

End Str.

(* ------------------------------------------------------------------ *)
(** * config.py: the agent thresholds *)

Module Config.

Definition NUDGE_THRESHOLD_SECONDS : Z := 30.
Definition WARN_THRESHOLD_SECONDS : Z := 120.
Definition SOFT_BLOCK_THRESHOLD_SECONDS : Z := 300.
Definition HARD_BLOCK_THRESHOLD_SECONDS : Z := 600.

Local Open Scope string_scope.

(** The escalation levels with their ranks. *)
Definition INTERVENTION_LEVELS : list (string * Z) :=
  [ ("none", 0); ("nudge", 1); ("warn", 2); ("soft_block", 3);
    ("hard_block", 4) ]%Z.

End Config.

(** [l.append(x)] *)
Definition append {A : Type} (l : list A) (x : A) : list A := l ++ [x].

(** [d.get(k)] on a dictionary with string keys. *)
Fixpoint dict_get {V : Type} (d : list (string * V)) (k : string) : option V :=
  match d with
  | [] => None
  | (k', v) :: rest => if String.eqb k' k then Some v else dict_get rest k
  end.

(* ------------------------------------------------------------------ *)
(** * intervention_agent.py *)

Module InterventionAgent.

Import Config.
Local Open Scope string_scope.

Definition NUDGE_MESSAGES : list (string -> string) :=
  [ (fun _ => "📚 Gentle reminder — you're in a study session. Ready to refocus?");
    (fun _ => "💡 Quick check-in: Is this helping you with your study goal?");
    (fun _ => "🎯 You started a focused session. Want to get back on track?") ].

Definition WARN_MESSAGES : list (string -> string) :=
  [ (fun duration =>
       "⚠️ You've been on a distracting site for " ++ duration ++ ". "
       ++ "Your focus score is dropping.");
    (fun duration =>
       "📉 Focus alert: " ++ duration ++ " on non-study content. "
       ++ "Your study session goal is at risk.") ].

Definition SOFT_BLOCK_MESSAGES : list (string -> string) :=
  [ (fun duration =>
       "🛑 Extended distraction detected (" ++ duration ++ "). "
       ++ "Take a breath — this page will be accessible in 15 seconds if you choose.");
    (fun duration =>
       "⏸️ Focus pause: You've spent " ++ duration
       ++ " away from your study topic. " ++ "Continuing in 15 seconds...") ].

Definition HARD_BLOCK_MESSAGES : list (string -> string) :=
  [ (fun duration =>
       "🚫 Maximum distraction threshold reached (" ++ duration ++ "). "
       ++ "This site is blocked for the remainder of your study session. "
       ++ "Click 'Override' if you genuinely need access.") ].

(** [_format_duration] *)
Definition _format_duration (seconds : Z) : string :=
  if (seconds <? 60)%Z then Py.str_of_Z seconds ++ "s"
  else
    let minutes := (seconds / 60)%Z in
    let remaining_secs := (seconds mod 60)%Z in
    if (remaining_secs =? 0)%Z then Py.str_of_Z minutes ++ "m"
    else Py.str_of_Z minutes ++ "m " ++ Py.str_of_Z remaining_secs ++ "s".

(** The fields of [context_result] and [pattern_result] the agent reads;
    [None] is a missing key. *)
Record ContextFields := {
  cf_classification : option string;
  cf_context_score : option float;
  cf_confidence : option float
}.

Record PatternFields := {
  pf_domain_risk_scores : option (list (string * float))
}.

Record Input := {
  context_result : option ContextFields;
  pattern_result : option PatternFields;
  time_on_current_seconds : Z;
  current_domain : option string;
  session_active : bool;
  total_distraction_seconds_today : Z;
  interventions_today : Z
}.

Record Decision := {
  should_intervene : bool;
  level : string;
  message : string;
  urgency : float;
  cooldown_seconds : Z
}.

(** [context.get("classification", "neutral")] and
    [context.get("confidence", 0.0)], with [context] itself defaulting to
    the empty dictionary. *)
Definition classification_of (data : Input) : string :=
  match context_result data with
  | Some c => match cf_classification c with Some s => s | None => "neutral" end
  | None => "neutral"
  end.

Definition confidence_of (data : Input) : float :=
  match context_result data with
  | Some c => match cf_confidence c with Some x => x | None => 0.0%float end
  | None => 0.0%float
  end.

(** The guard of the early return: no intervention for study or neutral
    content, nor below the confidence floor. *)
Definition no_intervention_needed (data : Input) : bool :=
  negb (String.eqb (classification_of data) "distraction")
  || PrimFloat.ltb (confidence_of data) 0.3%float.

(** [pattern.get("domain_risk_scores", {}).get(current_domain, 0.5)] *)
Definition domain_risk_of (data : Input) : float :=
  let scores :=
    match pattern_result data with
    | Some p => match pf_domain_risk_scores p with Some d => d | None => [] end
    | None => []
    end in
  match current_domain data with
  | Some k => match dict_get scores k with Some r => r | None => 0.5%float end
  | None => 0.5%float
  end.

(** [int(base * factor)] *)
Definition scaled (base : Z) (factor : float) : option Z :=
  Py.int (PrimFloat.mul (Py.of_Z base) factor).

Record Thresholds := {
  adjusted_nudge : Z;
  adjusted_warn : Z;
  adjusted_soft : Z;
  adjusted_hard : Z
}.

(** The adjusted thresholds for a domain risk: each base scaled by the
    risk multiplier and truncated, then, in a session, scaled by 0.7 and
    truncated again. *)
Definition thresholds_for (domain_risk : float) (session_active : bool)
  : option Thresholds :=
  let risk_multiplier := Py.max 0.5%float (1.0 - (domain_risk * 0.5))%float in
  match scaled NUDGE_THRESHOLD_SECONDS risk_multiplier,
        scaled WARN_THRESHOLD_SECONDS risk_multiplier,
        scaled SOFT_BLOCK_THRESHOLD_SECONDS risk_multiplier,
        scaled HARD_BLOCK_THRESHOLD_SECONDS risk_multiplier with
  | Some n, Some w, Some s, Some h =>
      if session_active then
        match scaled n 0.7%float, scaled w 0.7%float,
              scaled s 0.7%float, scaled h 0.7%float with
        | Some n', Some w', Some s', Some h' =>
            Some {| adjusted_nudge := n'; adjusted_warn := w';
                    adjusted_soft := s'; adjusted_hard := h' |}
        | _, _, _, _ => None
        end
      else Some {| adjusted_nudge := n; adjusted_warn := w;
                   adjusted_soft := s; adjusted_hard := h |}
  | _, _, _, _ => None
  end.

Definition adjusted_thresholds (data : Input) : option Thresholds :=
  thresholds_for (domain_risk_of data) (session_active data).

(** [MESSAGES[interventions_today % len(MESSAGES)].format(duration=...)] *)
Definition pick (pool : list (string -> string)) (i : Z) (duration : string)
  : string :=
  nth (Z.to_nat (i mod Z.of_nat (List.length pool))) pool (fun _ => "") duration.

(** [InterventionAgent.analyze] *)
Definition analyze (data : Input) : option Decision :=
  let time_on_current := time_on_current_seconds data in
  if no_intervention_needed data then
    Some {| should_intervene := false; level := "none"; message := "";
            urgency := 0.0%float; cooldown_seconds := 30 |}
  else
    match adjusted_thresholds data with
    | None => None
    | Some th =>
        let duration_str := _format_duration time_on_current in
        let i := interventions_today data in
        if (adjusted_hard th <=? time_on_current)%Z then
          Some {| should_intervene := true; level := "hard_block";
                  message := pick HARD_BLOCK_MESSAGES i duration_str;
                  urgency := 1.0%float; cooldown_seconds := 0 |}
        else if (adjusted_soft th <=? time_on_current)%Z then
          Some {| should_intervene := true; level := "soft_block";
                  message := pick SOFT_BLOCK_MESSAGES i duration_str;
                  urgency := 0.8%float; cooldown_seconds := 15 |}
        else if (adjusted_warn th <=? time_on_current)%Z then
          Some {| should_intervene := true; level := "warn";
                  message := pick WARN_MESSAGES i duration_str;
                  urgency := 0.6%float; cooldown_seconds := 30 |}
        else if (adjusted_nudge th <=? time_on_current)%Z then
          Some {| should_intervene := true; level := "nudge";
                  message := pick NUDGE_MESSAGES i duration_str;
                  urgency := 0.3%float; cooldown_seconds := 60 |}
        else
          Some {| should_intervene := false; level := "none"; message := "";
                  urgency := 0.0%float;
                  cooldown_seconds :=
                    Z.max 5 (adjusted_nudge th - time_on_current) |}
    end.

(** The rank of a level name in [INTERVENTION_LEVELS]. *)
Definition level_rank (l : string) : option Z := dict_get INTERVENTION_LEVELS l.

(** The same request at another dwell time. *)
Definition with_time (data : Input) (t : Z) : Input :=
  {| context_result := context_result data;
     pattern_result := pattern_result data;
     time_on_current_seconds := t;
     current_domain := current_domain data;
     session_active := session_active data;
     total_distraction_seconds_today := total_distraction_seconds_today data;
     interventions_today := interventions_today data |}.

Definition ascending (th : Thresholds) : bool :=
  ((0 <? adjusted_nudge th) && (adjusted_nudge th <? adjusted_warn th)
   && (adjusted_warn th <? adjusted_soft th)
   && (adjusted_soft th <? adjusted_hard th))%Z.

(** [int(n * 0.7)], and -1 when it raises. *)
Definition session_scaled (n : Z) : Z :=
  match scaled n 0.7%float with Some x => x | None => -1 end.

(** The session scaling at [i], [i + 1] and [i + 2]: defined, not
    decreasing over one step, increasing over two, and positive from 14
    on. *)
Definition session_step_ok (i : nat) : bool :=
  let n := Z.of_nat i in
  ((0 <=? session_scaled n)
   && (session_scaled n <=? session_scaled (n + 1))
   && (session_scaled n <? session_scaled (n + 2))
   && ((n <? 14) || (0 <? session_scaled n)))%Z.

End InterventionAgent.

(* ------------------------------------------------------------------ *)
(** * The intervention policy as the specification words it

    The thresholds as products that are never truncated, and the level
    as the highest one whose product the dwell time reaches. *)

Module StatedPolicy.

Import Config InterventionAgent.
Local Open Scope string_scope.

Definition stated_threshold (base : Z) (data : Input) : float :=
  let risk := domain_risk_of data in
  let multiplier := Py.max 0.5%float (1.0 - (risk * 0.5))%float in
  let t := (Py.of_Z base * multiplier)%float in
  if session_active data then (t * 0.7)%float else t.

Definition stated_level (data : Input) : string :=
  let dwell := Py.of_Z (time_on_current_seconds data) in
  if Py.geb dwell (stated_threshold HARD_BLOCK_THRESHOLD_SECONDS data)
  then "hard_block"
  else if Py.geb dwell (stated_threshold SOFT_BLOCK_THRESHOLD_SECONDS data)
  then "soft_block"
  else if Py.geb dwell (stated_threshold WARN_THRESHOLD_SECONDS data)
  then "warn"
  else if Py.geb dwell (stated_threshold NUDGE_THRESHOLD_SECONDS data)
  then "nudge"
  else "none".

End StatedPolicy.

(* ------------------------------------------------------------------ *)
(** * The regular expressions of the keyword tables

    [re.search(pattern, title, re.IGNORECASE)] on an ASCII title, for
    the fragment of the pattern language the tables of
    [context_agent.py] use: literals,
    groups, alternation, the classes [\s] and [\d], the word boundary
    [\b], escaped punctuation, and the quantifiers [?], [*], [+], [{n}]
    and [{n,m}]. *)

Module Regex.

Inductive re : Type :=
| Eps
| Fail
| Chr (c : ascii)
| Digit
| Space
| WordB
| Seq (a b : re)
| Alt (a b : re)
| Opt (a : re)
| Star (a : re).

(** ** Parsing a pattern *)

Local Open Scope char_scope.

Definition is_digit (c : ascii) : bool :=
  let n := nat_of_ascii c in (Nat.leb 48 n && Nat.leb n 57)%bool.

(** [\w] on ASCII: letters, digits and the underscore. *)
Definition is_word (c : ascii) : bool :=
  let n := nat_of_ascii c in
  ((Nat.leb 48 n && Nat.leb n 57) || (Nat.leb 65 n && Nat.leb n 90)
   || (Nat.leb 97 n && Nat.leb n 122) || Nat.eqb n 95)%bool.

Fixpoint repeat_re (r : re) (n : nat) : re :=
  match n with
  | O => Eps
  | S n' => Seq r (repeat_re r n')
  end.

Fixpoint repeat_opt (r : re) (n : nat) : re :=
  match n with
  | O => Eps
  | S n' => Opt (Seq r (repeat_opt r n'))
  end.

(** A decimal number at the head of [s]. *)
Fixpoint read_nat (s : string) (acc : nat) : nat * string :=
  match s with
  | String c s' =>
      if is_digit c then read_nat s' (10 * acc + (nat_of_ascii c - 48))%nat
      else (acc, s)
  | EmptyString => (acc, s)
  end.

(** The quantifier, if any, that follows an atom. *)
Definition quantified (a : re) (s : string) : option (re * string) :=
  match s with
  | String "?" s' => Some (Opt a, s')
  | String "*" s' => Some (Star a, s')
  | String "+" s' => Some (Seq a (Star a), s')
  | String "{" s' =>
      let (n, s1) := read_nat s' O in
      match s1 with
      | String "}" s2 => Some (repeat_re a n, s2)
      | String "," s2 =>
          let (m, s3) := read_nat s2 O in
          match s3 with
          | String "}" s4 => Some (Seq (repeat_re a n) (repeat_opt a (m - n)), s4)
          | _ => None
          end
      | _ => None
      end
  | _ => Some (a, s)
  end.

Definition escaped (c : ascii) : re :=
  match c with
  | "b" => WordB
  | "s" => Space
  | "d" => Digit
  | _ => if is_word c then Fail else Chr c
  end.

Definition is_meta (c : ascii) : bool :=
  match c with
  | "." | "^" | "$" | "[" | "]" | "*" | "+" | "?" | "{" | "}" => true
  | _ => false
  end.

Fixpoint parse_alt (fuel : nat) (s : string) : option (re * string) :=
  match fuel with
  | O => None
  | S f =>
      match parse_seq f s with
      | Some (a, String "|" s') =>
          match parse_alt f s' with
          | Some (b, s'') => Some (Alt a b, s'')
          | None => None
          end
      | other => other
      end
  end
with parse_seq (fuel : nat) (s : string) : option (re * string) :=
  match fuel with
  | O => None
  | S f =>
      match s with
      | EmptyString | String "|" _ | String ")" _ => Some (Eps, s)
      | _ =>
          match parse_atom f s with
          | Some (a, s1) =>
              match quantified a s1 with
              | Some (a', s2) =>
                  match parse_seq f s2 with
                  | Some (b, s3) => Some (Seq a' b, s3)
                  | None => None
                  end
              | None => None
              end
          | None => None
          end
      end
  end
with parse_atom (fuel : nat) (s : string) : option (re * string) :=
  match fuel with
  | O => None
  | S f =>
      match s with
      | String "(" s' =>
          match parse_alt f s' with
          | Some (a, String ")" s'') => Some (a, s'')
          | _ => None
          end
      | String "\" (String c s') => Some (escaped c, s')
      | String c s' => if is_meta c then None else Some (Chr c, s')
      | EmptyString => None
      end
  end.

(** [re.compile]: a pattern outside the fragment compiles to [Fail]
    (none of the tables has one). *)
Definition compile (pattern : string) : re :=
  match parse_alt (3 * String.length pattern + 3) pattern with
  | Some (r, EmptyString) => r
  | _ => Fail
  end.

(** ** Matching *)

(** A position in the subject: the character before it, if any, and the
    rest of the subject. *)
Definition pos : Type := option ascii * string.

Definition word_before (q : pos) : bool :=
  match fst q with Some c => is_word c | None => false end.

Definition word_after (q : pos) : bool :=
  match snd q with String c _ => is_word c | EmptyString => false end.

Definition step (ok : ascii -> bool) (q : pos) : list pos :=
  match snd q with
  | String c s' => if ok c then [(Some c, s')] else []
  | EmptyString => []
  end.

(** Zero or more rounds of [f], each from an end position of the round
    before; a match never needs more rounds than characters are left. *)
Fixpoint star_iter (f : pos -> list pos) (fuel : nat) (q : pos) : list pos :=
  match fuel with
  | O => [q]
  | S n => q :: flat_map (star_iter f n) (f q)
  end.

(** The end positions of the matches of [r] that start at [q], letters
    compared without regard to case. *)
Fixpoint run (r : re) (q : pos) : list pos :=
  match r with
  | Eps => [q]
  | Fail => []
  | Chr c => step (fun x => Ascii.eqb (Str.lower_ascii x) (Str.lower_ascii c)) q
  | Digit => step is_digit q
  | Space => step Str.is_space q
  | WordB => if xorb (word_before q) (word_after q) then [q] else []
  | Seq a b => flat_map (run b) (run a q)
  | Alt a b => run a q ++ run b q
  | Opt a => run a q ++ [q]
  | Star a => star_iter (run a) (String.length (snd q)) q
  end.

Definition matches_at (r : re) (q : pos) : bool :=
  match run r q with [] => false | _ :: _ => true end.

Fixpoint search_from (r : re) (prev : option ascii) (s : string) : bool :=
  matches_at r (prev, s)
  || match s with
     | String c s' => search_from r (Some c) s'
     | EmptyString => false
     end.

(** [bool(re.search(pattern, subject, re.IGNORECASE))] *)
Definition search (pattern subject : string) : bool :=
  search_from (compile pattern) None subject.

End Regex.

(* ------------------------------------------------------------------ *)
(** * What a match is *)

Module Matching.

Import Regex.

(** What it is for a pattern to match a stretch of the subject, from one
    position to another, under [re.IGNORECASE]: a literal matches the
    character that equals it up to the case of the letters A-Z, [\d] a
    digit, [\s] a whitespace character, [\b] the empty stretch between a
    word character and something else (the ends of the subject
    included); a sequence matches its parts one after the other, an
    alternation either part, [a?] the empty stretch or [a], and [a*] any
    number of stretches of [a] in a row. *)
Inductive Match : re -> pos -> pos -> Prop :=
| match_eps q : Match Eps q q
| match_chr c x prev rest :
    Str.lower_ascii x = Str.lower_ascii c ->
    Match (Chr c) (prev, String x rest) (Some x, rest)
| match_digit x prev rest :
    is_digit x = true -> Match Digit (prev, String x rest) (Some x, rest)
| match_space x prev rest :
    Str.is_space x = true -> Match Space (prev, String x rest) (Some x, rest)
| match_boundary q : word_before q <> word_after q -> Match WordB q q
| match_seq a b q q1 q2 :
    Match a q q1 -> Match b q1 q2 -> Match (Seq a b) q q2
| match_left a b q q' : Match a q q' -> Match (Alt a b) q q'
| match_right a b q q' : Match b q q' -> Match (Alt a b) q q'
| match_some a q q' : Match a q q' -> Match (Opt a) q q'
| match_none a q : Match (Opt a) q q
| match_zero a q : Match (Star a) q q
| match_more a q q1 q2 :
    Match a q q1 -> Match (Star a) q1 q2 -> Match (Star a) q q2.

(** The last character of a string, if any. *)
Fixpoint last_char (s : string) : option ascii :=
  match s with
  | EmptyString => None
  | String c EmptyString => Some c
  | String _ s' => last_char s'
  end.

(** [re.search] succeeds when the pattern matches a stretch that starts
    somewhere in the subject. *)
Definition Found (r : re) (subject : string) : Prop :=
  exists pre post q,
    subject = (pre ++ post)%string /\ Match r (last_char pre, post) q.

End Matching.

(* ------------------------------------------------------------------ *)
(** * context_agent.py *)

Module ContextAgent.

Local Open Scope string_scope.

(** ** Domain categories and keyword tables *)

Definition STUDY_DOMAINS : list string :=
  [ "scholar.google.com"; "arxiv.org"; "ieee.org"; "ieeexplore.ieee.org";
    "acm.org"; "dl.acm.org"; "researchgate.net"; "semanticscholar.org";
    "sciencedirect.com"; "springer.com"; "jstor.org";
    "github.com"; "gitlab.com"; "stackoverflow.com"; "stackexchange.com";
    "developer.mozilla.org"; "docs.python.org"; "devdocs.io";
    "docs.google.com"; "sheets.google.com"; "slides.google.com";
    "notion.so"; "overleaf.com"; "sharelatex.com";
    "coursera.org"; "edx.org"; "udemy.com"; "khanacademy.org";
    "leetcode.com"; "hackerrank.com"; "geeksforgeeks.org";
    "mit.edu"; "ocw.mit.edu"; "stanford.edu"; "harvard.edu";
    "ox.ac.uk"; "cam.ac.uk"; "berkeley.edu" ].

Definition MIXED_DOMAINS : list string :=
  [ "youtube.com"; "reddit.com"; "medium.com"; "quora.com";
    "twitter.com"; "x.com" ].

Definition DISTRACTION_DOMAINS : list string :=
  [ "facebook.com"; "instagram.com"; "tiktok.com";
    "netflix.com"; "hulu.com"; "twitch.tv"; "9gag.com";
    "buzzfeed.com"; "disneyplus.com"; "primevideo.com" ].

Definition STUDY_KEYWORDS : list string :=
  [ "\b(algorithm|data\s*structure|machine\s*learning|deep\s*learning|neural\s*network)s?\b";
    "\b(research|paper|thesis|dissertation|survey|abstract)s?\b";
    "\b(programming|coding|software|developer|engineering)s?\b";
    "\b(lecture|tutorial|course|lesson|class|assignment|homework|syllabus)s?\b";
    "\b(database|network|security|system\s*design|architecture)s?\b";
    "\b(python|java|javascript|typescript|c\+\+|rust|golang|react|node)s?\b";
    "\b(ieee|acm|arxiv|conference|journal|proceedings)s?\b";
    "\b(exam|quiz|test|study|review|notes|textbook)s?\b";
    "\b(math|calculus|algebra|statistics|probability|physics|chemistry|biology)s?\b";
    "\b(MIT|Stanford|Harvard|Oxford|Cambridge|Berkeley)\b";
    "\b(CS\s?\d|6\.\d{3}|CS\d{2,3}|COMP\s?\d|EE\s?\d|MATH\s?\d)\b";
    "\b(introduction\s+to|fundamentals\s+of|principles\s+of|learn)\b";
    "\b(how\s+to\s+(code|program|build|implement|solve|debug))s?\b";
    "\b(documentation|docs|reference|guide|manual|handbook|API)s?\b";
    "\b(open\s*courseware|OCW|MOOC|coursework|curriculum)s?\b";
    "\b(analysis|computing|informatics|data\s*science|AI|NLP|CV)\b" ].

Definition DISTRACTION_KEYWORDS : list string :=
  [ "\b(viral|meme|celebrity|gossip|prank|fails?|bloopers?)s?\b";
    "\b(gaming|gameplay|twitch|lets?\s*play|walkthrough|speedrun)s?\b";
    "\b(funny|comedy|entertainment|trending|react(ion)?s?)s?\b";
    "\b(shopping|sale|discount|deal|coupon|unboxing)s?\b";
    "\b(drama|reality\s*TV|vlog|mukbang|ASMR|compilation)s?\b";
    "\b(shorts|reel|story|tiktok|snap)s?\b" ].

Definition ADULT_DOMAINS : list string :=
  [ "pornhub.com"; "xvideos.com"; "xnxx.com"; "xhamster.com";
    "redtube.com"; "youporn.com"; "chaturbate.com"; "onlyfans.com" ].

Definition ADULT_KEYWORDS : list string :=
  [ "\b(porn|porno|pornography|xxx|nsfw|sex|camgirl|adult\s*video)s?\b" ].

(** ** Inputs and outputs *)

Record Input := {
  current_url : option string;
  current_title : option string;
  current_domain : option string;
  study_topic : option string;
  session_active : bool;
  recent_domains : list string
}.

Record Result := {
  classification : string;
  confidence : float;
  topic_relevance : float;
  context_score : float;
  reasons : list string;
  is_adult : bool
}.

(** [f"{domain}"] for an optional domain. *)
Definition fmt (domain : option string) : string :=
  match domain with Some d => d | None => "None" end.

Definition quote : string := String (ascii_of_nat 34) EmptyString.
Definition newline : string := String (ascii_of_nat 10) EmptyString.

(** ** Private scoring methods *)

(** [_score_domain] *)
Definition _score_domain (domain : option string) : float :=
  match domain with
  | None => 0.0%float
  | Some domain =>
      if Str.is_empty domain then 0.0%float
      else if Str.mem domain ADULT_DOMAINS then (-2.0)%float
      else if Str.mem domain STUDY_DOMAINS then 0.8%float
      else if Str.mem domain MIXED_DOMAINS then 0.0%float
      else if Str.mem domain DISTRACTION_DOMAINS then (-0.8)%float
      else if existsb (fun dd => Str.endswith domain ("." ++ dd)) ADULT_DOMAINS
      then (-2.0)%float
      else if existsb (fun sd => Str.endswith domain ("." ++ sd)) STUDY_DOMAINS
      then 0.6%float
      else if existsb (fun md => Str.endswith domain ("." ++ md)) MIXED_DOMAINS
      then 0.0%float
      else if existsb (fun dd => Str.endswith domain ("." ++ dd)) DISTRACTION_DOMAINS
      then (-0.6)%float
      else 0.0%float
  end.

(** [sum(1 for kw in keywords if re.search(kw, title, re.IGNORECASE))] *)
Definition count_hits (keywords : list string) (title : string) : Z :=
  fold_left (fun acc kw => if Regex.search kw title then (acc + 1)%Z else acc)
            keywords 0%Z.

(** The loop over [ADULT_KEYWORDS], left at the first hit. *)
Fixpoint any_hit (keywords : list string) (title : string) : bool :=
  match keywords with
  | [] => false
  | kw :: rest => if Regex.search kw title then true else any_hit rest title
  end.

(** [_score_title_regex], with the matcher of [Regex]: the library's on
    an ASCII title. *)
Definition _score_title_regex (title : string) : float :=
  if Str.is_empty title then 0.0%float
  else if any_hit ADULT_KEYWORDS title then (-2.0)%float
  else
    let study_hits := count_hits STUDY_KEYWORDS title in
    let distraction_hits := count_hits DISTRACTION_KEYWORDS title in
    if (distraction_hits <? study_hits)%Z
    then Py.min 0.7%float (Py.of_Z study_hits * 0.2)%float
    else if (study_hits <? distraction_hits)%Z
    then Py.max (-0.7)%float (Py.of_Z distraction_hits * -0.2)%float
    else 0.0%float.

(** The same scorer over whatever the library answers, for a title in
    any script: [search kw title] stands for
    [bool(re.search(kw, title, re.IGNORECASE))]. *)
Definition count_hits_with (search : string -> string -> bool)
           (keywords : list string) (title : string) : Z :=
  fold_left (fun acc kw => if search kw title then (acc + 1)%Z else acc)
            keywords 0%Z.

Fixpoint any_hit_with (search : string -> string -> bool)
         (keywords : list string) (title : string) : bool :=
  match keywords with
  | [] => false
  | kw :: rest => if search kw title then true
                  else any_hit_with search rest title
  end.

Definition score_title_with (search : string -> string -> bool)
           (title : string) : float :=
  if Str.is_empty title then 0.0%float
  else if any_hit_with search ADULT_KEYWORDS title then (-2.0)%float
  else
    let study_hits := count_hits_with search STUDY_KEYWORDS title in
    let distraction_hits := count_hits_with search DISTRACTION_KEYWORDS title in
    if (distraction_hits <? study_hits)%Z
    then Py.min 0.7%float (Py.of_Z study_hits * 0.2)%float
    else if (study_hits <? distraction_hits)%Z
    then Py.max (-0.7)%float (Py.of_Z distraction_hits * -0.2)%float
    else 0.0%float.

Definition stop_words : list string :=
  [ "the"; "a"; "an"; "in"; "on"; "at"; "to"; "for"; "of";
    "and"; "or"; "is"; "it"; "with"; "-"; "|"; "—" ].

(** [set(text.lower().split()) - stop_words], without repetitions, on
    ASCII text. *)
Definition words_of (text : string) : list string :=
  filter (fun w => negb (Str.mem w stop_words))
         (nodup string_dec (Str.split (Str.lower text))).

(** [_compute_topic_relevance] *)
Definition _compute_topic_relevance (topic title : string) : float :=
  let topic_words := words_of topic in
  let title_words := words_of title in
  match topic_words with
  | [] => 0.0%float
  | _ =>
      let overlap := filter (fun w => Str.mem w title_words) topic_words in
      (Py.of_Z (Z.of_nat (List.length overlap))
       / Py.of_Z (Z.of_nat (List.length topic_words)))%float
  end.

(** [sum(s * (i + 1) for i, s in enumerate(scores))], from index [i]. *)
Fixpoint weighted_from (i : Z) (scores : list float) (acc : float) : float :=
  match scores with
  | [] => acc
  | s :: rest => weighted_from (i + 1) rest (acc + s * Py.of_Z (i + 1))%float
  end.

(** [sum(i + 1 for i in range(n))] *)
Fixpoint weight_total (n : nat) : Z :=
  match n with
  | O => 0%Z
  | S k => (weight_total k + Z.of_nat (S k))%Z
  end.

(** [_score_trajectory] *)
Definition _score_trajectory (recent_domains : list string) : float :=
  match recent_domains with
  | [] => 0.0%float
  | _ =>
      let last5 := skipn (List.length recent_domains - 5) recent_domains in
      let scores :=
        map (fun d => if Str.mem d STUDY_DOMAINS then 1.0%float
                      else if Str.mem d DISTRACTION_DOMAINS then (-1.0)%float
                      else 0.0%float) last5 in
      match scores with
      | [] => 0.0%float
      | _ =>
          let weighted := weighted_from 0 scores (Py.of_Z 0) in
          let max_weight := weight_total (List.length scores) in
          if (0 <? max_weight)%Z then (weighted / Py.of_Z max_weight)%float
          else 0.0%float
      end
  end.

(** Membership of a hostname in a catalogue set, and being a subdomain
    of one of its members: the hostname ends with a dot and the member. *)
Definition listed (h : string) (S : list string) : Prop := In h S.

Definition subdomain_of (h : string) (S : list string) : Prop :=
  exists d pre, In d S /\ h = pre ++ "." ++ d.

(** A hostname in none of the four catalogue sets. *)
Definition unlisted (h : string) : Prop :=
  ~ listed h ADULT_DOMAINS /\ ~ listed h STUDY_DOMAINS
  /\ ~ listed h MIXED_DOMAINS /\ ~ listed h DISTRACTION_DOMAINS.

(** The keyword patterns of a table that a title matches. *)
Definition hits (keywords : list string) (title : string) : list string :=
  filter (fun kw => Regex.search kw title) keywords.

Section Agent.

(** [urlparse(url).hostname]; [None] when there is none or the parse
    raises. *)
Variable urlparse_hostname : string -> option string.

(** Whether the semantic classifier is configured: the [genai] package
    was imported and [GEMINI_API_KEY] is set. *)
Variable gemini_configured : bool.

(** The text of the model's answer to a prompt; [None] when the call
    raises. *)
Variable generate_content : string -> option string.

(** [_extract_domain] *)
Definition _extract_domain (url : option string) : option string :=
  match url with
  | None => None
  | Some url =>
      if Str.is_empty url then None
      else
        let host := match urlparse_hostname url with Some h => h | None => "" end in
        let host := if Str.startswith host "www."
                    then substring 4 (String.length host - 4) host else host in
        let host := Str.lower host in
        if Str.is_empty host then None else Some host
  end.

(** [_ask_gemini_classification] (the memoisation of the method does not
    change the value it returns for a title); [len(title)] counts code
    points. *)
Definition _ask_gemini_classification (title : string) : string :=
  if Str.is_empty title || Nat.ltb (Str.len title) 5 then "neutral"
  else
    let prompt :=
      "You are categorizing browsing history for a university student's productivity app. "
      ++ "Is the following video/page title strictly for studying/academics, strictly for entertainment/distraction "
      ++ "(like anime, video games, vlogs, memes), or neutral?" ++ newline ++ newline
      ++ "Title: " ++ quote ++ title ++ quote ++ newline ++ newline
      ++ "Respond with EXACTLY ONE WORD from this list: [study, distraction, neutral]" in
    match generate_content prompt with
    | Some response =>
        let text := Str.lower (Str.strip response) in
        if Str.contains text "distraction" then "distraction"
        else if Str.contains text "study" then "study"
        else "neutral"
    | None => "neutral"
    end.

(** The title score and the reasons after step 2, before the keyword
    reason is considered. *)
Definition title_step (domain : option string) (title : string)
           (reasons : list string) : float * list string :=
  let mixed := match domain with
               | Some d => Str.mem d MIXED_DOMAINS
               | None => false
               end in
  if mixed && gemini_configured then
    let llm_result := _ask_gemini_classification title in
    if String.eqb llm_result "distraction" then
      ((-0.8)%float,
       append reasons "AI determined the video/page content is entertainment or distracting")
    else if String.eqb llm_result "study" then
      (0.8%float,
       append reasons "AI determined the video/page content is study or academic material")
    else (_score_title_regex title, reasons)
  else (_score_title_regex title, reasons).

(** [cond and "AI" not in reasons[-1] if reasons else True] *)
Definition keyword_reason_due (cond : bool) (reasons : list string) : bool :=
  match reasons with
  | [] => true
  | _ => cond && negb (Str.contains (last reasons "") "AI")
  end.

(** The two lists [analyze] grows as it goes: [scores] and [reasons]. *)
Definition State : Type := list float * list string.

(** Step 1: the domain score and its reason. *)
Definition domain_step (domain : option string) (domain_score : float)
           (st : State) : State :=
  let '(scores, reasons) := st in
  (append scores domain_score,
   if Py.gtb domain_score 0
   then append reasons ("Domain '" ++ fmt domain
                        ++ "' is associated with study/productivity")
   else if PrimFloat.ltb domain_score 0
   then append reasons ("Domain '" ++ fmt domain ++ "' is typically a distraction")
   else reasons).

(** Step 2, after the title score is known: the score and the keyword
    reason. *)
Definition keyword_step (title_score : float) (st : State) : State :=
  let '(scores, reasons) := st in
  (append scores title_score,
   if keyword_reason_due (Py.gtb title_score 0) reasons
   then append reasons "Page title contains study-related keywords"
   else if keyword_reason_due (PrimFloat.ltb title_score 0) reasons
   then append reasons "Page title contains distraction-related keywords"
   else reasons).

(** Step 3: the title can flip the domain classification. *)
Definition override_step (domain : option string)
           (domain_score title_score : float) (st : State) : State :=
  let '(scores, reasons) := st in
  if PrimFloat.leb domain_score 0 && Py.gtb title_score 0 then
    let override_bonus := (1.0 + title_score)%float in
    (append scores override_bonus,
     append reasons ("Study content detected on '" ++ fmt domain
                     ++ "' — title suggests academic use"))
  else if Py.geb domain_score 0 && PrimFloat.ltb title_score 0 then
    let override_penalty := (-0.8 + title_score)%float in
    (append scores override_penalty,
     append reasons ("Distraction content detected on '" ++ fmt domain
                     ++ "' — title suggests non-academic use"))
  else (scores, reasons).

(** Step 4: the topic relevance and its boost. *)
Definition topic_step (study_topic : option string) (title : string)
           (domain_score : float) (st : State) : float * State :=
  let '(scores, reasons) := st in
  match study_topic with
  | Some topic =>
      if negb (Str.is_empty topic) && negb (Str.is_empty title) then
        let topic_relevance := _compute_topic_relevance topic title in
        if Py.gtb topic_relevance 0.3 then
          let relevance_boost :=
            if PrimFloat.ltb domain_score 0 then 0.8%float else 0.5%float in
          (topic_relevance,
           (append scores relevance_boost,
            append reasons ("Page is relevant to study topic '" ++ topic ++ "'")))
        else (topic_relevance, (scores, reasons))
      else (0.0%float, (scores, reasons))
  | None => (0.0%float, (scores, reasons))
  end.

(** Step 5: the session penalty. *)
Definition session_step (session_active : bool)
           (domain_score title_score : float) (st : State) : State :=
  let '(scores, reasons) := st in
  if session_active && PrimFloat.ltb domain_score 0
     && PrimFloat.leb title_score 0
  then (append scores (-0.3)%float,
        append reasons "Distraction detected during an active study session")
  else (scores, reasons).

(** Step 6: the recent browsing trajectory. *)
Definition trajectory_step (recent_domains : list string) (st : State)
  : State :=
  let '(scores, reasons) := st in
  let trajectory_score := _score_trajectory recent_domains in
  if Py.gtb (PrimFloat.abs trajectory_score) 0.1 then
    (append scores (trajectory_score * 0.5)%float,
     if PrimFloat.ltb trajectory_score 0
     then append reasons "Recent browsing trend is shifting toward distractions"
     else append reasons "Recent browsing trend is focused on study content")
  else (scores, reasons).

(** [max(-1.0, min(1.0, sum(scores) / max(len(scores), 1)))] *)
Definition clamp (x : float) : float := Py.max (-1.0) (Py.min 1.0 x).

Definition mean (scores : list float) : float :=
  (Py.sum scores / Py.of_Z (Z.max (Z.of_nat (List.length scores)) 1))%float.

(** The aggregation and the result. *)
Definition aggregate (domain_score title_score topic_relevance : float)
           (st : State) : Result :=
  let '(scores, reasons) := st in
  let is_adult := PrimFloat.leb domain_score (-2.0)
                  || PrimFloat.leb title_score (-2.0) in
  if is_adult then
    let context_score := (-1.0)%float in
    let classification := "distraction" in
    let confidence := 1.0%float in
    let reasons :=
      if negb (Str.mem "Explicit/adult content detected" reasons)
      then append reasons "Explicit/adult content detected" else reasons in
    {| classification := classification;
       confidence := Py.round3 confidence;
       topic_relevance := Py.round3 topic_relevance;
       context_score := Py.round3 context_score;
       reasons := reasons;
       is_adult := is_adult |}
  else
    let context_score := mean scores in
    let context_score := clamp context_score in
    let classification :=
      if Py.gtb context_score 0.2 then "study"
      else if PrimFloat.ltb context_score (-0.2) then "distraction"
      else "neutral" in
    let confidence := Py.min 1.0 (PrimFloat.abs context_score * 1.5)%float in
    {| classification := classification;
       confidence := Py.round3 confidence;
       topic_relevance := Py.round3 topic_relevance;
       context_score := Py.round3 context_score;
       reasons := reasons;
       is_adult := is_adult |}.

(** [data.get("current_domain") or _extract_domain(url)] *)
Definition domain_of (data : Input) : option string :=
  match current_domain data with
  | Some d => if Str.is_empty d then _extract_domain (current_url data)
              else Some d
  | None => _extract_domain (current_url data)
  end.

(** [data.get("current_title", "") or ""] *)
Definition title_of (data : Input) : string :=
  match current_title data with Some t => t | None => "" end.

(** [ContextAgent.analyze] *)
Definition analyze (data : Input) : Result :=
  let title := title_of data in
  let domain := domain_of data in
  let st : State := ([], []) in
  (* 1. Domain classification *)
  let domain_score := _score_domain domain in
  let st := domain_step domain domain_score st in
  (* 2. Title keyword analysis (or LLM override) *)
  let scored := title_step domain title (snd st) in
  let title_score := fst scored in
  let st := keyword_step title_score (fst st, snd scored) in
  (* 3. Context override *)
  let st := override_step domain domain_score title_score st in
  (* 4. Topic relevance *)
  let relevant := topic_step (study_topic data) title domain_score st in
  let topic_relevance := fst relevant in
  let st := snd relevant in
  (* 5. Session context penalty *)
  let st := session_step (session_active data) domain_score title_score st in
  (* 6. Recent browsing trajectory *)
  let st := trajectory_step (recent_domains data) st in
  (* Aggregate *)
  aggregate domain_score title_score topic_relevance st.

(** The title score of a request, as step 2 computes it. *)
Definition title_score_of (data : Input) : float :=
  fst (title_step (domain_of data) (title_of data) []).

End Agent.

End ContextAgent.

(* ------------------------------------------------------------------ *)
(** * The keyword patterns as trees *)

Module KeywordPatterns.

Import Regex.
Local Open Scope string_scope.

(** The characters of a text, one after the other. *)
Fixpoint chars (s : string) : list re :=
  match s with
  | EmptyString => []
  | String c s' => Chr c :: chars s'
  end.

(** A sequence and an alternation of patterns. *)
Fixpoint cat (l : list re) : re :=
  match l with
  | [] => Eps
  | a :: l' => Seq a (cat l')
  end.

Fixpoint alt (l : list re) : re :=
  match l with
  | [] => Fail
  | [a] => a
  | a :: l' => Alt a (alt l')
  end.

(** A word, and two words with [\s*], [\s+] or [\s?] between them. *)
Definition word (w : string) : re := cat (chars w).

Definition spaces : re := Star Space.
Definition spaces1 : re := Seq Space (Star Space).

Definition joined (a : string) (sep : re) (b : string) : re :=
  cat (chars a ++ [sep] ++ chars b).

(** [\b(a|b|...)s?\b] and [\b(a|b|...)\b] *)
Definition keywords (alternatives : list re) : re :=
  cat [WordB; alt alternatives; Opt (Chr "s"); WordB].

Definition names (alternatives : list re) : re :=
  cat [WordB; alt alternatives; WordB].

(** [\d{3}] and [\d{2,3}] *)
Definition digits3 : re := cat [Digit; Digit; Digit].
Definition digits2or3 : re := Seq (cat [Digit; Digit]) (Opt (Seq Digit Eps)).

Definition STUDY_PATTERNS : list re :=
  [ keywords [ word "algorithm"; joined "data" spaces "structure";
               joined "machine" spaces "learning";
               joined "deep" spaces "learning";
               joined "neural" spaces "network" ];
    keywords [ word "research"; word "paper"; word "thesis";
               word "dissertation"; word "survey"; word "abstract" ];
    keywords [ word "programming"; word "coding"; word "software";
               word "developer"; word "engineering" ];
    keywords [ word "lecture"; word "tutorial"; word "course"; word "lesson";
               word "class"; word "assignment"; word "homework";
               word "syllabus" ];
    keywords [ word "database"; word "network"; word "security";
               joined "system" spaces "design"; word "architecture" ];
    keywords [ word "python"; word "java"; word "javascript";
               word "typescript"; word "c++"; word "rust"; word "golang";
               word "react"; word "node" ];
    keywords [ word "ieee"; word "acm"; word "arxiv"; word "conference";
               word "journal"; word "proceedings" ];
    keywords [ word "exam"; word "quiz"; word "test"; word "study";
               word "review"; word "notes"; word "textbook" ];
    keywords [ word "math"; word "calculus"; word "algebra";
               word "statistics"; word "probability"; word "physics";
               word "chemistry"; word "biology" ];
    names [ word "MIT"; word "Stanford"; word "Harvard"; word "Oxford";
            word "Cambridge"; word "Berkeley" ];
    names [ cat (chars "CS" ++ [Opt Space; Digit]);
            cat (chars "6." ++ [digits3]);
            cat (chars "CS" ++ [digits2or3]);
            cat (chars "COMP" ++ [Opt Space; Digit]);
            cat (chars "EE" ++ [Opt Space; Digit]);
            cat (chars "MATH" ++ [Opt Space; Digit]) ];
    names [ joined "introduction" spaces1 "to";
            joined "fundamentals" spaces1 "of";
            joined "principles" spaces1 "of"; word "learn" ];
    keywords [ cat (chars "how" ++ [spaces1] ++ chars "to" ++ [spaces1]
                    ++ [ alt [ word "code"; word "program"; word "build";
                               word "implement"; word "solve";
                               word "debug" ] ]) ];
    keywords [ word "documentation"; word "docs"; word "reference";
               word "guide"; word "manual"; word "handbook"; word "API" ];
    keywords [ joined "open" spaces "courseware"; word "OCW"; word "MOOC";
               word "coursework"; word "curriculum" ];
    names [ word "analysis"; word "computing"; word "informatics";
            joined "data" spaces "science"; word "AI"; word "NLP";
            word "CV" ] ].

Definition DISTRACTION_PATTERNS : list re :=
  [ keywords [ word "viral"; word "meme"; word "celebrity"; word "gossip";
               word "prank"; cat (chars "fail" ++ [Opt (Chr "s")]);
               cat (chars "blooper" ++ [Opt (Chr "s")]) ];
    keywords [ word "gaming"; word "gameplay"; word "twitch";
               cat (chars "let" ++ [Opt (Chr "s"); spaces] ++ chars "play");
               word "walkthrough"; word "speedrun" ];
    keywords [ word "funny"; word "comedy"; word "entertainment";
               word "trending";
               cat (chars "react" ++ [Opt (word "ion"); Opt (Chr "s")]) ];
    keywords [ word "shopping"; word "sale"; word "discount"; word "deal";
               word "coupon"; word "unboxing" ];
    keywords [ word "drama"; joined "reality" spaces "TV"; word "vlog";
               word "mukbang"; word "ASMR"; word "compilation" ];
    keywords [ word "shorts"; word "reel"; word "story"; word "tiktok";
               word "snap" ] ].

Definition ADULT_PATTERNS : list re :=
  [ keywords [ word "porn"; word "porno"; word "pornography"; word "xxx";
               word "nsfw"; word "sex"; word "camgirl";
               joined "adult" spaces "video" ] ].

End KeywordPatterns.

(* ------------------------------------------------------------------ *)
(** * Dictionaries, counters and sorting *)

Module Dict.

Section Keyed.

Variable K : Type.
Variable eqb : K -> K -> bool.

(** [d[k] += v] on a [defaultdict(int)] or a [Counter]: a new key goes
    to the end. *)
Fixpoint add (d : list (K * Z)) (k : K) (v : Z) : list (K * Z) :=
  match d with
  | [] => [(k, v)]
  | (k', n) :: rest =>
      if eqb k' k then (k', n + v) :: rest else (k', n) :: add rest k v
  end.

(** [d.get(k, 0)] *)
Fixpoint get (d : list (K * Z)) (k : K) : Z :=
  match d with
  | [] => 0
  | (k', n) :: rest => if eqb k' k then n else get rest k
  end.

(** [d[k].append(v)] on a [defaultdict(list)]. *)
Fixpoint push (d : list (K * list Z)) (k : K) (v : Z) : list (K * list Z) :=
  match d with
  | [] => [(k, [v])]
  | (k', l) :: rest =>
      if eqb k' k then (k', l ++ [v]) :: rest else (k', l) :: push rest k v
  end.

(** Counting the elements of a list one by one, as a loop over a
    [Counter] does. *)
Definition tally (ks : list K) (c : list (K * Z)) : list (K * Z) :=
  fold_left (fun c k => add c k 1) ks c.

End Keyed.

Section Sorting.

Variable A : Type.
Variable ltb : A -> A -> bool.

(** Stable sorting by the comparison [<] alone, as [sorted] does. *)
Fixpoint insert_desc (x : A) (l : list A) : list A :=
  match l with
  | [] => [x]
  | y :: l' => if ltb x y then y :: insert_desc x l' else x :: l
  end.

(** [sorted(l, reverse=True)]: descending, equal elements in their
    original order. *)
Definition sorted_desc (l : list A) : list A := fold_right insert_desc [] l.

Fixpoint insert_asc (x : A) (l : list A) : list A :=
  match l with
  | [] => [x]
  | y :: l' => if ltb y x then y :: insert_asc x l' else x :: l
  end.

(** [sorted(l)] *)
Definition sorted_asc (l : list A) : list A := fold_right insert_asc [] l.

End Sorting.

(** [Counter.most_common(n)]: the [n] largest counts, descending, ties in
    the order the keys were first counted. *)
Definition most_common {K : Type} (n : nat) (c : list (K * Z)) : list (K * Z) :=
  firstn n (sorted_desc (K * Z) (fun a b => snd a <? snd b) c).

End Dict.

Arguments Dict.add {K} eqb d k v.
Arguments Dict.get {K} eqb d k.
Arguments Dict.push {K} eqb d k v.
Arguments Dict.tally {K} eqb ks c.
Arguments Dict.sorted_desc {A} ltb l.
Arguments Dict.sorted_asc {A} ltb l.
Arguments Dict.insert_desc {A} ltb x l.
Arguments Dict.insert_asc {A} ltb x l.

(* ------------------------------------------------------------------ *)
(** * pattern_agent.py *)

Module PatternAgent.

Local Open Scope string_scope.

Definition DISTRACTION_DOMAINS : list string :=
  [ "youtube.com"; "facebook.com"; "twitter.com"; "x.com";
    "instagram.com"; "tiktok.com"; "reddit.com"; "netflix.com";
    "hulu.com"; "twitch.tv"; "9gag.com"; "buzzfeed.com" ].

Definition PRODUCTIVE_DOMAINS : list string :=
  [ "github.com"; "gitlab.com"; "stackoverflow.com"; "stackexchange.com";
    "docs.google.com"; "notion.so"; "scholar.google.com";
    "arxiv.org"; "ieee.org"; "acm.org"; "medium.com" ].

Record Event := {
  url : option string;
  domain : option string;
  title : option string;
  duration_seconds : Z;
  timestamp : option string;
  is_distraction : bool;
  category : option string
}.

Inductive PatternData : Type :=
| VulnerableHours (hours : list Z)
| DomainRisks (risks : list (string * float))
| Chains (chains : list (list string))
| DwellDomains (domains : list (string * Z)).

Record Pattern := {
  type : string;
  description : string;
  confidence : float;
  data : PatternData
}.

Record Result := {
  patterns : list Pattern;
  hourly_vulnerability : list (Z * float);
  domain_risk_scores : list (string * float);
  distraction_chains : list (list string)
}.

Definition pair_eqb (a b : string * string) : bool :=
  String.eqb (fst a) (fst b) && String.eqb (snd a) (snd b).

Definition triple_eqb (a b : string * string * string) : bool :=
  pair_eqb (fst a) (fst b) && String.eqb (snd a) (snd b).

(** [a / b] on two [int]s with [b] non-zero, both below 2^53: they
    convert exactly, and the quotient is rounded once, as Python rounds
    it.  The theorems that use it bound the operands. *)
Definition truediv (a b : Z) : float := (Py.of_Z a / Py.of_Z b)%float.

(** [list(pair)] and [list(triple)] *)
Definition list_of_pair (p : string * string) : list string :=
  [fst p; snd p].

Definition list_of_triple (t : string * string * string) : list string :=
  [fst (fst t); snd (fst t); snd t].

(** The pairs and the triples of consecutive elements of a sequence, in
    order, and the number of times a value occurs in a list. *)
Fixpoint pairs_of (l : list string) : list (string * string) :=
  match l with
  | [] => []
  | a :: rest =>
      match rest with
      | [] => []
      | b :: _ => (a, b) :: pairs_of rest
      end
  end.

Fixpoint triples_of (l : list string) : list (string * string * string) :=
  match l with
  | [] => []
  | a :: rest =>
      match rest with
      | b :: c :: _ => (a, b, c) :: triples_of rest
      | _ => []
      end
  end.

Definition occurrences {A : Type} (eqb : A -> A -> bool) (x : A)
           (l : list A) : Z :=
  Z.of_nat (List.length (filter (eqb x) l)).

(** A triple that is one domain three times. *)
Definition collapses (t : string * string * string) : Prop :=
  fst (fst t) = snd (fst t) /\ snd (fst t) = snd t.

Section Agent.

(** [urlparse(url).hostname]; [None] when there is none or the parse
    raises. *)
Variable urlparse_hostname : string -> option string.

(** [datetime.fromisoformat(timestamp).hour]; [None] when it raises. *)
Variable fromisoformat_hour : string -> option Z.

(** [_extract_domain] *)
Definition _extract_domain (url : option string) : option string :=
  match url with
  | None => None
  | Some url =>
      if Str.is_empty url then None
      else
        let host := match urlparse_hostname url with Some h => h | None => "" end in
        let host := if Str.startswith host "www."
                    then substring 4 (String.length host - 4) host else host in
        let host := Str.lower host in
        if Str.is_empty host then None else Some host
  end.

(** [_hour_bucket] *)
Definition _hour_bucket (timestamp : option string) : option Z :=
  match timestamp with
  | None => None
  | Some t => if Str.is_empty t then None else fromisoformat_hour t
  end.

(** [ev.get("domain") or _extract_domain(ev.get("url"))] *)
Definition domain_of (ev : Event) : option string :=
  match domain ev with
  | Some d => if Str.is_empty d then _extract_domain (url ev) else Some d
  | None => _extract_domain (url ev)
  end.

(** [ev.get("is_distraction") or (domain and domain in DISTRACTION_DOMAINS)] *)
Definition is_distr (ev : Event) : bool :=
  is_distraction ev
  || match domain_of ev with
     | Some d => Str.mem d DISTRACTION_DOMAINS
     | None => false
     end.

(** [max(0, int(ev.get("duration_seconds", 0)))] *)
Definition dur_of (ev : Event) : Z := Z.max 0 (duration_seconds ev).

(** [_analyze_hourly_vulnerability] *)
Definition _analyze_hourly_vulnerability (events : list Event)
  : list (Z * float) :=
  let '(hour_total, hour_distraction) :=
    fold_left
      (fun '(tot, dis) ev =>
         match _hour_bucket (timestamp ev) with
         | None => (tot, dis)
         | Some hour =>
             let dur := dur_of ev in
             let tot := Dict.add Z.eqb tot hour dur in
             if is_distr ev then (tot, Dict.add Z.eqb dis hour dur)
             else (tot, dis)
         end)
      events ([], []) in
  map (fun h =>
         let total := Dict.get Z.eqb hour_total h in
         if (0 <? total)%Z
         then (h, Py.round3 (truediv (Dict.get Z.eqb hour_distraction h) total))
         else (h, 0.0%float))
      (map Z.of_nat (seq 0 24)).

(** [_analyze_domain_risks] *)
Definition _analyze_domain_risks (events : list Event)
  : list (string * float) :=
  let '(domain_total, domain_distraction) :=
    fold_left
      (fun '(tot, dis) ev =>
         match domain_of ev with
         | None => (tot, dis)
         | Some d =>
             let dur := dur_of ev in
             let tot := Dict.add String.eqb tot d dur in
             if is_distraction ev || Str.mem d DISTRACTION_DOMAINS
             then (tot, Dict.add String.eqb dis d dur)
             else (tot, dis)
         end)
      events ([], []) in
  let result :=
    flat_map
      (fun '(d, total) =>
         if (0 <? total)%Z
         then [(d, Py.round3 (truediv (Dict.get String.eqb domain_distraction d) total))]
         else [])
      domain_total in
  Dict.sorted_desc (fun a b => PrimFloat.ltb (snd a) (snd b)) result.

(** The ordered domain sequence of the distraction events. *)
Fixpoint distraction_sequence (events : list Event) : list string :=
  match events with
  | [] => []
  | ev :: rest =>
      match domain_of ev with
      | Some d => if is_distr ev then d :: distraction_sequence rest
                  else distraction_sequence rest
      | None => distraction_sequence rest
      end
  end.

(** [pair[0] != pair[1]] *)
Definition not_loop (pair : string * string) : bool :=
  negb (String.eqb (fst pair) (snd pair)).

(** The counter of the pairs [(sequence[i], sequence[i + 1])] that are
    not self-loops. *)
Definition count_bigrams (sequence : list string)
  : list (string * string * Z) :=
  fold_left
    (fun bigrams i =>
       let pair := (nth i sequence "", nth (i + 1) sequence "") in
       if not_loop pair then Dict.add pair_eqb bigrams pair 1
       else bigrams)
    (seq 0 (List.length sequence - 1)) [].

(** [len(set(triple)) > 1] *)
Definition varied (triple : string * string * string) : bool :=
  let '(a, b, c) := triple in
  negb (String.eqb a b && String.eqb b c).

(** The counter of the triples of consecutive domains that do not
    collapse to a single domain. *)
Definition count_trigrams (sequence : list string)
  : list (string * string * string * Z) :=
  fold_left
    (fun trigrams i =>
       let triple := (nth i sequence "", nth (i + 1) sequence "",
                      nth (i + 2) sequence "") in
       if varied triple then Dict.add triple_eqb trigrams triple 1
       else trigrams)
    (seq 0 (List.length sequence - 2)) [].

(** [_detect_distraction_chains] *)
Definition _detect_distraction_chains (events : list Event)
  : list (list string) :=
  let min_chain_length := 2%nat in
  let sequence := distraction_sequence events in
  if Nat.ltb (List.length sequence) min_chain_length then []
  else
    let bigrams := count_bigrams sequence in
    let trigrams := count_trigrams sequence in
    (map (fun tc => list_of_triple (fst tc))
         (filter (fun tc => 2 <=? snd tc)%Z (Dict.most_common 5 trigrams))
     ++ map (fun pc => list_of_pair (fst pc))
            (filter (fun pc => 3 <=? snd pc)%Z (Dict.most_common 5 bigrams)))%list.

(** [_detect_long_dwells]; [None] when [round] raises. *)
Definition _detect_long_dwells (events : list Event)
  : option (list (string * Z)) :=
  let threshold_seconds := 120%Z in
  let domain_durations :=
    fold_left
      (fun acc ev =>
         match domain_of ev with
         | Some d => if is_distr ev then Dict.push String.eqb acc d (dur_of ev)
                     else acc
         | None => acc
         end)
      events [] in
  let long_dwells :=
    fold_left
      (fun (acc : option (list (string * Z))) (entry : string * list Z) =>
         let '(d, durations) := entry in
         match acc with
         | None => None
         | Some l =>
             let avg :=
               match durations with
               | [] => Py.of_Z 0
               | _ => truediv (fold_left Z.add durations 0%Z)
                              (Z.of_nat (List.length durations))
               end in
             if Py.geb avg (Py.of_Z threshold_seconds) then
               match Py.round0 avg with
               | Some r => Some (l ++ [(d, r)])%list
               | None => None
               end
             else Some l
         end)
      domain_durations (Some []) in
  match long_dwells with
  | Some l => Some (Dict.sorted_desc (fun a b => (snd a <? snd b)%Z) l)
  | None => None
  end.

(** [sum(table[k] for k in keys) / len(keys)], rounded to three places. *)
Definition mean3 (xs : list float) : float :=
  Py.round3 (Py.sum xs / Py.of_Z (Z.of_nat (List.length xs)))%float.

Definition lookup_float {K : Type} (eqb : K -> K -> bool)
           (d : list (K * float)) (k : K) : float :=
  match find (fun kv => eqb (fst kv) k) d with
  | Some kv => snd kv
  | None => 0.0%float
  end.

(** [PatternAgent.analyze]; [events] is [None] when the key is missing. *)
Definition analyze (events : option (list Event)) : option Result :=
  let events := match events with Some l => l | None => [] end in
  match events with
  | [] =>
      Some {| patterns := []; hourly_vulnerability := [];
              domain_risk_scores := []; distraction_chains := [] |}
  | _ =>
      let patterns : list Pattern := [] in
      (* 1. Hourly vulnerability analysis *)
      let hourly_vuln := _analyze_hourly_vulnerability events in
      let vulnerable_hours :=
        map fst (filter (fun hs => Py.gtb (snd hs) 0.5) hourly_vuln) in
      let patterns :=
        match vulnerable_hours with
        | [] => patterns
        | _ =>
            append patterns
              {| type := "time_vulnerability";
                 description :=
                   "High distraction risk during hours: "
                   ++ Str.join ", "
                        (map (fun h => Py.str_of_Z h ++ ":00")
                             (Dict.sorted_asc Z.ltb vulnerable_hours));
                 confidence :=
                   mean3 (map (lookup_float Z.eqb hourly_vuln) vulnerable_hours);
                 data := VulnerableHours (Dict.sorted_asc Z.ltb vulnerable_hours) |}
        end in
      (* 2. Domain risk scoring *)
      let domain_risks := _analyze_domain_risks events in
      let high_risk_domains :=
        map fst (filter (fun ds => Py.gtb (snd ds) 0.6) domain_risks) in
      let patterns :=
        match high_risk_domains with
        | [] => patterns
        | _ =>
            append patterns
              {| type := "high_risk_domains";
                 description :=
                   "These domains consistently lead to extended distraction: "
                   ++ Str.join ", " (firstn 5 high_risk_domains);
                 confidence :=
                   mean3 (map (lookup_float String.eqb domain_risks)
                              high_risk_domains);
                 data :=
                   DomainRisks
                     (map (fun d => (d, lookup_float String.eqb domain_risks d))
                          (firstn 10 high_risk_domains)) |}
        end in
      (* 3. Distraction chains *)
      let chains := _detect_distraction_chains events in
      let patterns :=
        match chains with
        | [] => patterns
        | first :: _ =>
            append patterns
              {| type := "distraction_chain";
                 description :=
                   "Common distraction sequences detected: "
                   ++ Str.join " → " first;
                 confidence := 0.7%float;
                 data := Chains (firstn 5 chains) |}
        end in
      (* 4. Long dwell detection *)
      match _detect_long_dwells events with
      | None => None
      | Some long_dwell =>
          let patterns :=
            match long_dwell with
            | [] => patterns
            | _ =>
                append patterns
                  {| type := "long_dwell";
                     description :=
                       "Excessive time on distracting sites: "
                       ++ Str.join ", "
                            (map (fun '(d, s) =>
                                    d ++ " (" ++ Py.str_of_Z s ++ "s avg)")
                                 (firstn 3 long_dwell));
                     confidence := 0.8%float;
                     data := DwellDomains (firstn 10 long_dwell) |}
            end in
          Some {| patterns := patterns;
                  hourly_vulnerability := hourly_vuln;
                  domain_risk_scores := domain_risks;
                  distraction_chains := chains |}
      end
  end.

End Agent.

End PatternAgent.

(* ------------------------------------------------------------------ *)
(** * coordinator.py *)

Module CoordinatorAgent.

Local Open Scope string_scope.

(** The request; [None] is a missing key. *)
Record Input := {
  current_url : option string;
  current_title : option string;
  current_domain : option string;
  time_on_current_seconds : option Z;
  study_topic : option string;
  session_active : option bool;
  session_id : option Z;
  recent_domains : option (list string);
  historical_events : option (list PatternAgent.Event);
  total_distraction_seconds_today : option Z;
  interventions_today : option Z
}.

Record Output := {
  decision : InterventionAgent.Decision;
  context : ContextAgent.Result;
  patterns : PatternAgent.Result
}.

(** [data.get(key, default)] *)
Definition get {A : Type} (field : option A) (default : A) : A :=
  match field with Some v => v | None => default end.

(** The keys of a context result and of a pattern result that
    [InterventionAgent] reads. *)
Definition context_fields (r : ContextAgent.Result)
  : InterventionAgent.ContextFields :=
  {| InterventionAgent.cf_classification := Some (ContextAgent.classification r);
     InterventionAgent.cf_context_score := Some (ContextAgent.context_score r);
     InterventionAgent.cf_confidence := Some (ContextAgent.confidence r) |}.

Definition pattern_fields (r : PatternAgent.Result)
  : InterventionAgent.PatternFields :=
  {| InterventionAgent.pf_domain_risk_scores :=
       Some (PatternAgent.domain_risk_scores r) |}.

(** The thresholds of the default risk 0.5, out of a session and in
    one. *)
Definition default_thresholds (session : bool) : InterventionAgent.Thresholds :=
  if session
  then {| InterventionAgent.adjusted_nudge := 15;
          InterventionAgent.adjusted_warn := 62;
          InterventionAgent.adjusted_soft := 157;
          InterventionAgent.adjusted_hard := 315 |}
  else {| InterventionAgent.adjusted_nudge := 22;
          InterventionAgent.adjusted_warn := 90;
          InterventionAgent.adjusted_soft := 225;
          InterventionAgent.adjusted_hard := 450 |}.

Section Agent.

Variable urlparse_hostname : string -> option string.
Variable gemini_configured : bool.
Variable generate_content : string -> option string.
Variable fromisoformat_hour : string -> option Z.

(** The request the coordinator hands to [ContextAgent], and the one it
    hands to [InterventionAgent]. *)
Definition context_request (data : Input) : ContextAgent.Input :=
  {| ContextAgent.current_url := current_url data;
     ContextAgent.current_title := current_title data;
     ContextAgent.current_domain := current_domain data;
     ContextAgent.study_topic := study_topic data;
     ContextAgent.session_active := get (session_active data) false;
     ContextAgent.recent_domains := get (recent_domains data) [] |}.

Definition intervention_request (data : Input)
           (context_result : ContextAgent.Result)
           (pattern_result : PatternAgent.Result) : InterventionAgent.Input :=
  {| InterventionAgent.context_result := Some (context_fields context_result);
     InterventionAgent.pattern_result := Some (pattern_fields pattern_result);
     InterventionAgent.time_on_current_seconds :=
       get (time_on_current_seconds data) 0%Z;
     InterventionAgent.current_domain := current_domain data;
     InterventionAgent.session_active := get (session_active data) false;
     InterventionAgent.total_distraction_seconds_today :=
       get (total_distraction_seconds_today data) 0%Z;
     InterventionAgent.interventions_today :=
       get (interventions_today data) 0%Z |}.

(** [CoordinatorAgent.analyze]; [None] when one of the agents raises. *)
Definition analyze (data : Input) : option Output :=
  (* Step 1: pattern analysis on historical data *)
  match PatternAgent.analyze urlparse_hostname fromisoformat_hour
          (Some (get (historical_events data) [])) with
  | None => None
  | Some pattern_result =>
      (* Step 2: context analysis on current state *)
      let context_result :=
        ContextAgent.analyze urlparse_hostname gemini_configured
                             generate_content (context_request data) in
      (* Step 3: intervention decision *)
      match InterventionAgent.analyze
              (intervention_request data context_result pattern_result) with
      | None => None
      | Some intervention_result =>
          Some {| decision := intervention_result;
                  context := context_result;
                  patterns := pattern_result |}
      end
  end.

End Agent.

End CoordinatorAgent.

(* ------------------------------------------------------------------ *)
(** * api/routes/events.py *)

Module EventsRoute.

Local Open Scope string_scope.

(** [EventCreate] of [api/models/schemas.py]: the event the extension
    submits.  A [datetime] is kept as its ISO string. *)
Record EventCreate := {
  url : option string;
  domain : option string;
  title : option string;
  duration_seconds : Z;
  category : option string;
  session_id : option Z;
  timestamp : option string
}.

(** The columns of [BrowsingEvent] that [create_event] sets. *)
Record BrowsingEvent := {
  row_timestamp : string;
  row_url : option string;
  row_domain : option string;
  row_title : option string;
  row_duration_seconds : Z;
  row_is_distraction : bool;
  row_distraction_score : float;
  row_category : option string;
  row_session_id : option Z
}.

Section Route.

Variable urlparse_hostname : string -> option string.
Variable gemini_configured : bool.
Variable generate_content : string -> option string.

(** [datetime.utcnow()] *)
Variable utcnow : string.

(** [event.domain or _extract_domain(event.url)] *)
Definition domain_of (event : EventCreate) : option string :=
  match domain event with
  | Some d => if Str.is_empty d
              then ContextAgent._extract_domain urlparse_hostname (url event)
              else Some d
  | None => ContextAgent._extract_domain urlparse_hostname (url event)
  end.

(** The request of the quick classification. *)
Definition context_request (event : EventCreate) : ContextAgent.Input :=
  {| ContextAgent.current_url := url event;
     ContextAgent.current_title := title event;
     ContextAgent.current_domain := domain_of event;
     ContextAgent.study_topic := None;
     ContextAgent.session_active :=
       match session_id event with Some _ => true | None => false end;
     ContextAgent.recent_domains := [] |}.

(** [domain and domain in DISTRACTION_DOMAINS] *)
Definition known_distraction (domain : option string) : bool :=
  match domain with
  | Some d => negb (Str.is_empty d) && Str.mem d ContextAgent.DISTRACTION_DOMAINS
  | None => false
  end.

(** [create_event]: the row it adds to the database (which then gives
    it an id) and returns. *)
Definition create_event (event : EventCreate) : BrowsingEvent :=
  let domain := domain_of event in
  (* Quick classification via context agent *)
  let context :=
    ContextAgent.analyze urlparse_hostname gemini_configured generate_content
                         (context_request event) in
  let is_distraction :=
    String.eqb (ContextAgent.classification context) "distraction" in
  let distraction_score :=
    Py.max 0.0 (- ContextAgent.context_score context)%float in
  (* Fallback: check known distraction domains *)
  let '(is_distraction, distraction_score) :=
    if negb is_distraction && known_distraction domain
    then (true, Py.max distraction_score 0.7)
    else (is_distraction, distraction_score) in
  {| row_timestamp := match timestamp event with Some t => t | None => utcnow end;
     row_url := url event;
     row_domain := domain;
     row_title := title event;
     row_duration_seconds := duration_seconds event;
     row_is_distraction := is_distraction;
     row_distraction_score := distraction_score;
     row_category :=
       match category event with
       | Some c => if Str.is_empty c
                   then Some (ContextAgent.classification context)
                   else Some c
       | None => Some (ContextAgent.classification context)
       end;
     row_session_id := session_id event |}.

End Route.

End EventsRoute.

(* ------------------------------------------------------------------ *)
(** * Concrete requests *)

Module Examples.

Local Open Scope string_scope.

Section Intervention.

Import InterventionAgent.

(** The decision of the early return. *)
Definition no_intervention : Decision :=
  {| should_intervene := false; level := "none"; message := "";
     urgency := 0.0%float; cooldown_seconds := 30 |}.

Definition request (cls : string) (conf : float)
           (risks : list (string * float)) (session : bool) (dwell : Z)
  : Input :=
  {| context_result :=
       Some {| cf_classification := Some cls; cf_context_score := None;
               cf_confidence := Some conf |};
     pattern_result := Some {| pf_domain_risk_scores := Some risks |};
     time_on_current_seconds := dwell;
     current_domain := Some "youtube.com";
     session_active := session;
     total_distraction_seconds_today := 0;
     interventions_today := 0 |}.

(** A distracting page of a domain without a risk score, 22 seconds in,
    outside a session. *)
Definition request_22s : Input := request "distraction" 0.8 [] false 22.

(** A study page. *)
Definition request_study : Input := request "study" 0.8 [] true 60.

End Intervention.

Section Context.

Import ContextAgent.

Definition page (domain title : string) : ContextAgent.Input :=
  {| current_url := None;
     current_title := Some title;
     current_domain := Some domain;
     study_topic := None;
     session_active := false;
     recent_domains := [] |}.

(** The home page of a mixed domain: the request of the case "YouTube
    homepage" of [tests/test_context_override.py], whose other keys are
    missing. *)
Definition youtube_homepage : ContextAgent.Input :=
  {| current_url := None;
     current_title := Some "YouTube";
     current_domain := Some "youtube.com";
     study_topic := None;
     session_active := false;
     recent_domains := [] |}.

(** A study title on a severe domain, in a session, after study pages. *)
Definition severe_page : ContextAgent.Input :=
  {| current_url := None;
     current_title := Some "Machine Learning Lecture Notes";
     current_domain := Some "pornhub.com";
     study_topic := Some "machine learning";
     session_active := true;
     recent_domains := ["github.com"; "arxiv.org"] |}.

(** No URL parser is needed when the domain is given. *)
Definition no_hostname (url : string) : option string := None.

(** A semantic classifier that always fails. *)
Definition no_answer (prompt : string) : option string := None.

End Context.

Section Patterns.

Import PatternAgent.

(** An event flagged as a distraction, at a domain. *)
Definition flagged (d : string) : Event :=
  {| url := None; domain := Some d; title := None; duration_seconds := 60;
     timestamp := None; is_distraction := true; category := None |}.

(** An event that carries no flag. *)
Definition unflagged (d : string) : Event :=
  {| url := None; domain := Some d; title := None; duration_seconds := 60;
     timestamp := None; is_distraction := false; category := None |}.

(** youtube, reddit, instagram, three times over. *)
Definition spiral : list string :=
  [ "youtube"; "reddit"; "instagram"; "youtube"; "reddit"; "instagram";
    "youtube"; "reddit"; "instagram" ].

Definition spiral_com : list string :=
  [ "youtube.com"; "reddit.com"; "instagram.com";
    "youtube.com"; "reddit.com"; "instagram.com";
    "youtube.com"; "reddit.com"; "instagram.com" ].

(** The empty result. *)
Definition empty_result : Result :=
  {| patterns := []; hourly_vulnerability := [];
     domain_risk_scores := []; distraction_chains := [] |}.

End Patterns.

End Examples.

(* ------------------------------------------------------------------ *)
(** * Notions of the properties

    Requests that differ in one key, the grid of the risks of three
    decimals, the marks of the trajectory, the seconds a history spends
    on a domain or in an hour, and the tables that are checked by
    computation. *)

Module Variants.

Import InterventionAgent.

(** The same request with another session flag, and with another count
    of earlier interventions. *)
Definition with_session (data : Input) (active : bool) : Input :=
  {| context_result := context_result data;
     pattern_result := pattern_result data;
     time_on_current_seconds := time_on_current_seconds data;
     current_domain := current_domain data;
     session_active := active;
     total_distraction_seconds_today := total_distraction_seconds_today data;
     interventions_today := interventions_today data |}.

Definition with_interventions (data : Input) (i : Z) : Input :=
  {| context_result := context_result data;
     pattern_result := pattern_result data;
     time_on_current_seconds := time_on_current_seconds data;
     current_domain := current_domain data;
     session_active := session_active data;
     total_distraction_seconds_today := total_distraction_seconds_today data;
     interventions_today := i |}.

(** The session factor never raises a threshold. *)
Definition session_tight_ok (i : nat) : bool :=
  (session_scaled (Z.of_nat i) <=? Z.of_nat i)%Z.

(** A risk score with three decimals, as [PatternAgent] rounds them:
    [k / 1000]. *)
Definition milli_risk (k : Z) : float := (Py.of_Z k / Py.of_Z 1000)%float.

(** [a] is nowhere above [b]. *)
Definition tighter (a b : Thresholds) : bool :=
  ((adjusted_nudge a <=? adjusted_nudge b)
   && (adjusted_warn a <=? adjusted_warn b)
   && (adjusted_soft a <=? adjusted_soft b)
   && (adjusted_hard a <=? adjusted_hard b))%Z.

Definition halved (session : bool) : Thresholds :=
  if session
  then {| adjusted_nudge := 10; adjusted_warn := 42;
          adjusted_soft := 105; adjusted_hard := 210 |}
  else {| adjusted_nudge := 15; adjusted_warn := 60;
          adjusted_soft := 150; adjusted_hard := 300 |}.

Definition full (session : bool) : Thresholds :=
  if session
  then {| adjusted_nudge := 21; adjusted_warn := 84;
          adjusted_soft := 210; adjusted_hard := 420 |}
  else {| adjusted_nudge := 30; adjusted_warn := 120;
          adjusted_soft := 300; adjusted_hard := 600 |}.

(** The thresholds of the risks [i / 1000] and [(i + 1) / 1000]: both
    defined, the second nowhere above the first, and both between the
    thresholds of risk 1 and those of risk 0. *)
Definition risk_step_ok (session : bool) (i : nat) : bool :=
  let k := Z.of_nat i in
  match thresholds_for (milli_risk k) session,
        thresholds_for (milli_risk (k + 1)) session with
  | Some a, Some b =>
      tighter b a && tighter (halved session) b && tighter a (full session)
  | _, _ => false
  end.

End Variants.

Module Grid.

Import Variants.

(** Whether [i / 1000] lies in [0, 1]. *)
Definition unit_risk (i : nat) : bool :=
  PrimFloat.leb 0 (milli_risk (Z.of_nat i))
  && PrimFloat.leb (milli_risk (Z.of_nat i)) 1.

End Grid.

Module Trajectory.

Import ContextAgent.

(** How [_score_trajectory] marks a recent domain, and the weighted mean
    it takes of the marks. *)
Inductive mark : Type := Study | Distraction | Other.

Definition domain_mark (d : string) : mark :=
  if Str.mem d STUDY_DOMAINS then Study
  else if Str.mem d DISTRACTION_DOMAINS then Distraction
  else Other.

Definition mark_value (m : mark) : float :=
  match m with
  | Study => 1.0%float
  | Distraction => (-1.0)%float
  | Other => 0.0%float
  end.

Definition weighted_mean (scores : list float) : float :=
  match scores with
  | [] => 0.0%float
  | _ =>
      let weighted := weighted_from 0 scores (Py.of_Z 0) in
      let max_weight := weight_total (List.length scores) in
      if (0 <? max_weight)%Z then (weighted / Py.of_Z max_weight)%float
      else 0.0%float
  end.

Definition is_study (m : mark) : bool :=
  match m with Study => true | _ => false end.

Definition is_distraction (m : mark) : bool :=
  match m with Distraction => true | _ => false end.

(** All the lists of [n] marks. *)
Fixpoint mark_lists (n : nat) : list (list mark) :=
  match n with
  | O => [[]]
  | S k => flat_map (fun l => [Study :: l; Distraction :: l; Other :: l])
                    (mark_lists k)
  end.

(** The weighted mean of a list of marks lies in [-1, 1], is not
    negative without a distraction among them and not positive without a
    study domain. *)
Definition mean_ok (ms : list mark) : bool :=
  let v := weighted_mean (map mark_value ms) in
  PrimFloat.leb (-1) v && PrimFloat.leb v 1
  && (existsb is_distraction ms || PrimFloat.leb 0 v)
  && (existsb is_study ms || PrimFloat.leb v 0).

End Trajectory.

Module Penalty.

Import ContextAgent Trajectory.
Local Open Scope string_scope.

(** The same request with another session flag. *)
Definition in_session (data : Input) (active : bool) : Input :=
  {| current_url := current_url data;
     current_title := current_title data;
     current_domain := current_domain data;
     study_topic := study_topic data;
     session_active := active;
     recent_domains := recent_domains data |}.

(** The label the aggregation gives a list of scores. *)
Definition label (scores : list float) : string :=
  let context_score := clamp (mean scores) in
  if Py.gtb context_score 0.2 then "study"
  else if PrimFloat.ltb context_score (-0.2) then "distraction"
  else "neutral".

(** Labels in order of leniency. *)
Definition label_rank (l : string) : Z :=
  if String.eqb l "study" then 2
  else if String.eqb l "distraction" then 0
  else 1.

(** The scores of a page to which the session penalty applies (its
    domain score [d] is negative, its title score [t] is not positive):
    the two scores, the topic boost if there is one, the penalty in a
    session, and the trajectory term of the marks of the last domains. *)
Definition penalised (d t : float) (boosted active : bool) (ms : list mark)
  : list float :=
  let scores := [d; t] in
  let scores := if boosted then append scores 0.8%float else scores in
  let scores := if active then append scores (-0.3)%float else scores in
  let trajectory_score := weighted_mean (map mark_value ms) in
  if Py.gtb (PrimFloat.abs trajectory_score) 0.1
  then append scores (trajectory_score * 0.5)%float
  else scores.

(** Whether, for these marks, the label in a session is at most as
    lenient as the label out of one, whatever the two scores are. *)
Definition penalty_ok (ms : list mark) : bool :=
  forallb
    (fun d =>
       forallb
         (fun t =>
            forallb
              (fun boosted =>
                 (label_rank (label (penalised d t boosted true ms))
                  <=? label_rank (label (penalised d t boosted false ms)))%Z)
              [true; false])
         [ (-0.8)%float; (-0.7)%float; (-0.6000000000000001)%float;
           (-0.4)%float; (-0.2)%float; 0.0%float ])
    [ (-0.8)%float; (-0.6)%float ].

End Penalty.

Module Order.

(** The place of a number that is not negative among such numbers: its
    exponent, then its mantissa. *)
Definition order_key (x : spec_float) : Z :=
  match x with
  | S754_finite false m e => (e + 1075) * 2 ^ 53 + Z.pos m
  | _ => 0
  end.

End Order.

Module Usage.

Import PatternAgent.

(** The seconds of the events that a test selects. *)
Definition seconds (sel : Event -> bool) (events : list Event) : Z :=
  fold_right (fun ev acc => if sel ev then dur_of ev + acc else acc) 0 events.

Definition total_time (events : list Event) : Z :=
  seconds (fun _ => true) events.

Section Keyed.

Variable K : Type.
Variable eqb : K -> K -> bool.
Variable key_of : Event -> option K.
Variable flag : Event -> K -> bool.

(** One round of the loops of [_analyze_hourly_vulnerability] and
    [_analyze_domain_risks]: the seconds of an event go to the total of
    its key, and to the distraction total of its key when it counts as a
    distraction. *)
Definition account (acc : list (K * Z) * list (K * Z)) (ev : Event)
  : list (K * Z) * list (K * Z) :=
  let '(tot, dis) := acc in
  match key_of ev with
  | None => (tot, dis)
  | Some k =>
      let dur := dur_of ev in
      let tot := Dict.add eqb tot k dur in
      if flag ev k then (tot, Dict.add eqb dis k dur) else (tot, dis)
  end.

Definition has_key (k : K) (ev : Event) : bool :=
  match key_of ev with Some k' => eqb k' k | None => false end.

End Keyed.

Section Spent.

Variable urlparse_hostname : string -> option string.
Variable fromisoformat_hour : string -> option Z.

(** The seconds spent on a domain, and those of them that count as
    distraction: the event is flagged or the domain is a known
    distraction. *)
Definition at_domain (d : string) (ev : Event) : bool :=
  has_key string String.eqb (domain_of urlparse_hostname) d ev.

Definition time_on (d : string) (events : list Event) : Z :=
  seconds (at_domain d) events.

Definition distraction_time_on (d : string) (events : list Event) : Z :=
  seconds (fun ev => at_domain d ev
                     && (is_distraction ev || Str.mem d DISTRACTION_DOMAINS))
          events.

(** The seconds spent in an hour of the day, and those of them that
    count as distraction. *)
Definition at_hour (h : Z) (ev : Event) : bool :=
  has_key Z Z.eqb (fun ev => _hour_bucket fromisoformat_hour (timestamp ev))
          h ev.

Definition time_at (h : Z) (events : list Event) : Z :=
  seconds (at_hour h) events.

Definition distraction_time_at (h : Z) (events : list Event) : Z :=
  seconds (fun ev => at_hour h ev && is_distr urlparse_hostname ev) events.

End Spent.

End Usage.

Module Confident.

Import Variants.

(** Whether [i / 1000] is at least 0.3. *)
Definition confident_risk (i : nat) : bool :=
  PrimFloat.leb 0.3 (milli_risk (Z.of_nat i)).

End Confident.

(* ------------------------------------------------------------------ *)
(** * More requests *)

Module Scenarios.

Import Examples.
Local Open Scope string_scope.

(** A distracting page ten seconds in: too early for a nudge. *)
Definition request_10s : InterventionAgent.Input :=
  request "distraction" 0.8 [] false 10.


(** A timestamp parser that puts every event at nine o'clock. *)
Definition at_nine (timestamp : string) : option Z := Some 9.

Definition stamped (ev : PatternAgent.Event) : PatternAgent.Event :=
  {| PatternAgent.url := PatternAgent.url ev;
     PatternAgent.domain := PatternAgent.domain ev;
     PatternAgent.title := PatternAgent.title ev;
     PatternAgent.duration_seconds := PatternAgent.duration_seconds ev;
     PatternAgent.timestamp := Some "2024-03-01T09:30:00";
     PatternAgent.is_distraction := PatternAgent.is_distraction ev;
     PatternAgent.category := PatternAgent.category ev |}.

(** Four minutes of history: two on reddit.com, one on github.com and
    two on example.org, one of them flagged. *)
Definition history : list PatternAgent.Event :=
  [ flagged "reddit.com"; unflagged "github.com"; flagged "example.org";
    unflagged "example.org"; unflagged "reddit.com" ].

(** A history without a distraction. *)
Definition clean_history : list PatternAgent.Event :=
  [ unflagged "github.com"; unflagged "example.org"; unflagged "arxiv.org" ].

(** A page titled after the study topic. *)
Definition on_topic : ContextAgent.Input :=
  {| ContextAgent.current_url := None;
     ContextAgent.current_title := Some "Linear Algebra for Beginners";
     ContextAgent.current_domain := Some "example.org";
     ContextAgent.study_topic := Some "linear algebra";
     ContextAgent.session_active := true;
     ContextAgent.recent_domains := [] |}.

(** A long stay on one distraction. *)
Definition binge (seconds : Z) : PatternAgent.Event :=
  {| PatternAgent.url := None; PatternAgent.domain := Some "netflix.com";
     PatternAgent.title := None; PatternAgent.duration_seconds := seconds;
     PatternAgent.timestamp := None; PatternAgent.is_distraction := true;
     PatternAgent.category := None |}.

(** A request to the coordinator: a page of a domain, some seconds in,
    after [history]. *)
Definition visit (domain : option string) (title : string) (seconds : Z)
  : CoordinatorAgent.Input :=
  {| CoordinatorAgent.current_url := Some "https://www.reddit.com/r/all";
     CoordinatorAgent.current_title := Some title;
     CoordinatorAgent.current_domain := domain;
     CoordinatorAgent.time_on_current_seconds := Some seconds;
     CoordinatorAgent.study_topic := None;
     CoordinatorAgent.session_active := Some true;
     CoordinatorAgent.session_id := None;
     CoordinatorAgent.recent_domains := None;
     CoordinatorAgent.historical_events := Some history;
     CoordinatorAgent.total_distraction_seconds_today := None;
     CoordinatorAgent.interventions_today := None |}.

End Scenarios.

(** Case analysis on every integer comparison of the goal. *)
Ltac split_leb :=
  repeat match goal with
         | |- context [ (?a <=? ?b)%Z ] => destruct (Z.leb_spec a b)
         end.

(* ================================================================== *)
(** * Properties *)

(** ** Comparisons of binary64 numbers *)

Module FloatFacts.

Lemma compare_cont_swap (p q : positive) :
  Pos.compare_cont Eq q p = CompOpp (Pos.compare_cont Eq p q).
Proof. symmetry. exact (Pos.compare_cont_antisym p q Eq). Qed.

Lemma SFcompare_swap (x y : spec_float) :
  SFcompare y x = option_map CompOpp (SFcompare x y).
Proof.
  destruct x as [sx | sx | | sx mx ex], y as [sy | sy | | sy my ey];
    simpl; try reflexivity;
    try (destruct sx; reflexivity); try (destruct sy; reflexivity);
    try (destruct sx, sy; reflexivity).
  destruct sx, sy; try reflexivity; f_equal;
    rewrite (Z.compare_antisym ey ex), (compare_cont_swap mx my);
    destruct (ey ?= ex); simpl; try reflexivity;
    destruct (Pos.compare_cont Eq mx my); reflexivity.
Qed.

(** [a <= b] excludes [b < a]. *)
Lemma leb_not_ltb (a b : float) :
  PrimFloat.leb a b = true -> PrimFloat.ltb b a = false.
Proof.
  rewrite leb_spec, ltb_spec. unfold SFleb, SFltb.
  rewrite (SFcompare_swap (Prim2SF a) (Prim2SF b)).
  destruct (SFcompare (Prim2SF a) (Prim2SF b)) as [[ | | ] | ]; simpl;
    congruence.
Qed.

(** [a < b] excludes [b <= a]. *)
Lemma ltb_not_leb (a b : float) :
  PrimFloat.ltb a b = true -> PrimFloat.leb b a = false.
Proof.
  rewrite leb_spec, ltb_spec. unfold SFleb, SFltb.
  rewrite (SFcompare_swap (Prim2SF a) (Prim2SF b)).
  destruct (SFcompare (Prim2SF a) (Prim2SF b)) as [[ | | ] | ]; simpl;
    congruence.
Qed.

Lemma ltb_leb (a b : float) :
  PrimFloat.ltb a b = true -> PrimFloat.leb a b = true.
Proof.
  rewrite leb_spec, ltb_spec. unfold SFleb, SFltb.
  destruct (SFcompare (Prim2SF a) (Prim2SF b)) as [[ | | ] | ]; congruence.
Qed.

(** A mantissa is below two to the number of its digits. *)
Lemma digits_bound (m : positive) : Z.pos m < 2 ^ Z.pos (digits2_pos m).
Proof.
  induction m as [p IH | p IH | ]; simpl digits2_pos.
  - rewrite Pos2Z.inj_succ, Z.pow_succ_r by lia. lia.
  - rewrite Pos2Z.inj_succ, Z.pow_succ_r by lia. lia.
  - reflexivity.
Qed.

(** The mantissa of a binary64 number has at most 53 digits. *)
Lemma valid_mantissa (s : bool) (m : positive) (e : Z) :
  valid_binary (S754_finite s m e) = true -> Z.pos m < 2 ^ 53.
Proof.
  simpl. unfold bounded, canonical_mantissa, fexp, emin, prec, emax.
  intros H. apply andb_true_iff in H. destruct H as [H _].
  apply Z.eqb_eq in H.
  assert (Hd : Z.pos (digits2_pos m) <= 53) by lia.
  pose proof (digits_bound m) as Hm.
  assert (2 ^ Z.pos (digits2_pos m) <= 2 ^ 53)
    by (apply Z.pow_le_mono_r; lia).
  lia.
Qed.

Lemma one_spec : Prim2SF 1%float = S754_finite false 4503599627370496 (-52).
Proof. vm_compute. reflexivity. Qed.

Lemma minus_one_spec :
  Prim2SF (-1)%float = S754_finite true 4503599627370496 (-52).
Proof. vm_compute. reflexivity. Qed.

(** A positive number below 1, and a negative one above -1, has a
    mantissa below two to the opposite of its (negative) exponent. *)
Lemma below_one (x : float) (m : positive) (e : Z) :
  Prim2SF x = S754_finite false m e ->
  PrimFloat.ltb x 1 = true ->
  e < 0 /\ Z.pos m < 2 ^ (- e).
Proof.
  intros E H. pose proof (Prim2SF_valid x) as V. rewrite E in V.
  apply valid_mantissa in V.
  rewrite ltb_spec, E, one_spec in H. unfold SFltb, SFcompare in H.
  destruct (Z.compare_spec e (-52)) as [-> | Hlt | Hgt]; try discriminate.
  - split; [ lia | ].
    change (- -52) with 52.
    destruct (Pos.compare_cont Eq m 4503599627370496) eqn:C; try discriminate.
    change (2 ^ 52) with (Z.pos 4503599627370496).
    apply Pos2Z.pos_lt_pos, Pos.compare_lt_iff. exact C.
  - split; [ lia | ].
    assert (2 ^ 53 <= 2 ^ (- e)) by (apply Z.pow_le_mono_r; lia). lia.
Qed.

Lemma above_minus_one (x : float) (m : positive) (e : Z) :
  Prim2SF x = S754_finite true m e ->
  PrimFloat.ltb (-1) x = true ->
  e < 0 /\ Z.pos m < 2 ^ (- e).
Proof.
  intros E H. pose proof (Prim2SF_valid x) as V. rewrite E in V.
  apply valid_mantissa in V.
  rewrite ltb_spec, E, minus_one_spec in H. unfold SFltb, SFcompare in H.
  destruct (Z.compare_spec (-52) e) as [<- | Hlt | Hgt]; try discriminate.
  - split; [ lia | ].
    change (- -52) with 52.
    rewrite (compare_cont_swap m 4503599627370496) in H.
    destruct (Pos.compare_cont Eq m 4503599627370496) eqn:C; try discriminate.
    change (2 ^ 52) with (Z.pos 4503599627370496).
    apply Pos2Z.pos_lt_pos, Pos.compare_lt_iff. exact C.
  - split; [ lia | ].
    assert (2 ^ 53 <= 2 ^ (- e)) by (apply Z.pow_le_mono_r; lia). lia.
Qed.

Lemma div_half_even_bound (n d : Z) :
  0 < d -> 0 <= n < 1000 * d -> 0 <= Py.div_half_even n d <= 1000.
Proof.
  intros Hd Hn. unfold Py.div_half_even.
  assert (Hq : 0 <= n / d < 1000).
  { split; [ apply Z.div_pos; lia | apply Z.div_lt_upper_bound; lia ]. }
  destruct (2 * (n mod d) <? d); [ lia | ].
  destruct (d <? 2 * (n mod d)); [ lia | ].
  destruct (Z.even (n / d)); lia.
Qed.

Lemma unit_quotients_checked : forallb Py.unit_quotient (seq 0 1001) = true.
Proof. vm_compute. reflexivity. Qed.

Lemma unit_quotient_bounds (k : Z) (s : bool) :
  0 <= k <= 1000 ->
  let r := (Py.of_Z k / Py.of_Z 1000)%float in
  let y := if s then (- r)%float else r in
  PrimFloat.leb (-1) y = true /\ PrimFloat.leb y 1 = true.
Proof.
  intros Hk r y.
  pose proof unit_quotients_checked as H.
  rewrite forallb_forall in H. specialize (H (Z.to_nat k)).
  assert (Hin : In (Z.to_nat k) (seq 0 1001)) by (apply in_seq; lia).
  specialize (H Hin). unfold Py.unit_quotient in H.
  rewrite Z2Nat.id in H by lia. fold r in H.
  repeat (apply andb_true_iff in H; destruct H as [H ?]).
  subst y. destruct s; split; assumption.
Qed.

(** Rounding to three places keeps a number of the open unit interval in
    the closed one. *)
Lemma round3_unit (x : float) :
  PrimFloat.ltb (-1) x = true -> PrimFloat.ltb x 1 = true ->
  PrimFloat.leb (-1) (Py.round3 x) = true
  /\ PrimFloat.leb (Py.round3 x) 1 = true.
Proof.
  intros Hlo Hhi. unfold Py.round3.
  destruct (Prim2SF x) as [s | s | | s m e] eqn:E;
    try (split; apply ltb_leb; assumption).
  destruct (0 <=? e) eqn:He; [ split; apply ltb_leb; assumption | ].
  assert (Hm : e < 0 /\ Z.pos m < 2 ^ (- e)).
  { destruct s; [ apply (above_minus_one x) | apply (below_one x) ];
      assumption. }
  destruct Hm as [Hneg Hm].
  apply unit_quotient_bounds.
  unfold Py.milli_of_spec. apply div_half_even_bound.
  - apply Z.pow_pos_nonneg; lia.
  - lia.
Qed.

Lemma fexp_eq (e : Z) : fexp prec emax e = Z.max (e - 53) (-1074).
Proof. reflexivity. Qed.

Lemma digits_lower (m : positive) : 2 ^ (Z.pos (digits2_pos m) - 1) <= Z.pos m.
Proof.
  induction m as [p IH | p IH | ]; simpl digits2_pos.
  - rewrite Pos2Z.inj_succ.
    replace (Z.succ (Z.pos (digits2_pos p)) - 1)
      with (Z.succ (Z.pos (digits2_pos p) - 1)) by lia.
    rewrite Z.pow_succ_r by lia. lia.
  - rewrite Pos2Z.inj_succ.
    replace (Z.succ (Z.pos (digits2_pos p)) - 1)
      with (Z.succ (Z.pos (digits2_pos p) - 1)) by lia.
    rewrite Z.pow_succ_r by lia. lia.
  - simpl. lia.
Qed.

(** A non-negative number at most 2^n has at most n + 1 digits. *)
Lemma digits_le (m n : Z) : 0 <= m -> 0 <= n -> m <= 2 ^ n -> Zdigits2 m <= n + 1.
Proof.
  intros Hm Hn H. destruct m as [ | p | p]; simpl; try lia.
  pose proof (digits_lower p) as Hl.
  destruct (Z.le_gt_cases (Z.pos (digits2_pos p)) (n + 1)) as [ | Hgt];
    [ assumption | exfalso ].
  assert (2 ^ n < 2 ^ (Z.pos (digits2_pos p) - 1))
    by (apply Z.pow_lt_mono_r; lia).
  lia.
Qed.

(** A positive number below 2^n has at most n digits. *)
Lemma digits_lt (p : positive) (n : Z) :
  0 <= n -> Z.pos p < 2 ^ n -> Z.pos (digits2_pos p) <= n.
Proof.
  intros Hn H. pose proof (digits_lower p) as Hl.
  destruct (Z.le_gt_cases (Z.pos (digits2_pos p)) n) as [ | Hgt];
    [ assumption | exfalso ].
  assert (2 ^ n <= 2 ^ (Z.pos (digits2_pos p) - 1))
    by (apply Z.pow_le_mono_r; lia).
  lia.
Qed.

Lemma shr_1_m (mrs : shr_record) :
  0 <= shr_m mrs -> shr_m (shr_1 mrs) = shr_m mrs / 2.
Proof.
  destruct mrs as [m r s]. simpl. intros Hm.
  destruct m as [ | [p | p | ] | p]; simpl; try lia.
  - reflexivity.
  - apply (Z.div_unique _ _ _ 1); lia.
  - apply (Z.div_unique _ _ _ 0); lia.
  - reflexivity.
Qed.

Lemma pow2_xI (p : positive) :
  2 ^ Z.pos p~1 = 2 * (2 ^ Z.pos p * 2 ^ Z.pos p).
Proof.
  replace (Z.pos p~1) with (1 + (Z.pos p + Z.pos p)) by lia.
  rewrite !Z.pow_add_r by lia. reflexivity.
Qed.

Lemma pow2_xO (p : positive) : 2 ^ Z.pos p~0 = 2 ^ Z.pos p * 2 ^ Z.pos p.
Proof.
  replace (Z.pos p~0) with (Z.pos p + Z.pos p) by lia.
  rewrite !Z.pow_add_r by lia. reflexivity.
Qed.

Lemma iter_shr_m (p : positive) (mrs : shr_record) :
  0 <= shr_m mrs ->
  shr_m (iter_pos shr_1 p mrs) = shr_m mrs / 2 ^ Z.pos p.
Proof.
  revert mrs. induction p as [p IH | p IH | ]; intros mrs Hm; simpl iter_pos.
  - assert (Hp : 0 < 2 ^ Z.pos p) by (apply Z.pow_pos_nonneg; lia).
    assert (H1 : 0 <= shr_m (shr_1 mrs)).
    { rewrite shr_1_m by assumption. apply Z.div_pos; lia. }
    assert (H2 : 0 <= shr_m (iter_pos shr_1 p (shr_1 mrs))).
    { rewrite IH by assumption. apply Z.div_pos; lia. }
    rewrite IH, IH, shr_1_m by assumption.
    rewrite !Z.div_div by lia. rewrite pow2_xI. reflexivity.
  - assert (Hp : 0 < 2 ^ Z.pos p) by (apply Z.pow_pos_nonneg; lia).
    assert (H2 : 0 <= shr_m (iter_pos shr_1 p mrs)).
    { rewrite IH by assumption. apply Z.div_pos; lia. }
    rewrite IH, IH by assumption.
    rewrite !Z.div_div by lia. rewrite pow2_xO. reflexivity.
  - rewrite shr_1_m by assumption. reflexivity.
Qed.

(** What [shr_fexp] does to the mantissa and the exponent. *)
Lemma shr_fexp_cases (m e : Z) (l : location) :
  0 <= m ->
  let mrs := fst (shr_fexp prec emax m e l) in
  let e' := snd (shr_fexp prec emax m e l) in
  (e' = e /\ shr_m mrs = m)
  \/ (e < e' /\ e' = fexp prec emax (Zdigits2 m + e)
      /\ shr_m mrs = m / 2 ^ (e' - e)).
Proof.
  intros Hm. unfold shr_fexp, shr.
  assert (Hrec : shr_m (shr_record_of_loc m l) = m).
  { destruct l as [ | [ | | ]]; reflexivity. }
  set (f := fexp prec emax (Zdigits2 m + e)).
  destruct (f - e) as [ | p | p] eqn:E; cbn [fst snd].
  - left. auto.
  - right. split; [ lia | ]. split; [ lia | ].
    rewrite iter_shr_m by (rewrite Hrec; exact Hm).
    rewrite Hrec. do 2 f_equal. lia.
  - left. auto.
Qed.

Lemma round_nearest_even_bounds (m : Z) (l : location) :
  m <= round_nearest_even m l <= m + 1.
Proof.
  destruct l as [ | [ | | ]]; simpl; try lia.
  destruct (Z.even m); lia.
Qed.

(** Rounding a mantissa below 2^(k - ex) gives a zero or a finite
    number of magnitude at most 2^k, with the sign asked for. *)
Lemma binary_round_aux_within (s : bool) (mx : positive) (ex k : Z) :
  -1074 <= k <= 1023 -> ex <= 971 -> ex <= k ->
  Z.pos mx < 2 ^ (k - ex) ->
  let y := binary_round_aux prec emax s (Z.pos mx) ex loc_Exact in
  Py.within y k /\ Py.sign_of y = s.
Proof.
  intros Hk Hex Hexk Hmx. unfold binary_round_aux.
  pose proof (shr_fexp_cases (Z.pos mx) ex loc_Exact ltac:(lia)) as H1.
  destruct (shr_fexp prec emax (Z.pos mx) ex loc_Exact) as [mrs1 e1].
  simpl fst in H1. simpl snd in H1.
  set (m1 := round_nearest_even (shr_m mrs1) (loc_of_shr_record mrs1)).
  assert (Hd : Zdigits2 (Z.pos mx) + ex <= k).
  { change (Zdigits2 (Z.pos mx)) with (Z.pos (digits2_pos mx)).
    pose proof (digits_lt mx (k - ex) ltac:(lia) Hmx). lia. }
  assert (H0 : 0 <= shr_m mrs1 < 2 ^ (k - e1) /\ e1 <= k /\ e1 <= 971).
  { destruct H1 as [[-> ->] | [Hlt [He ->]]].
    - repeat split; lia.
    - rewrite fexp_eq in He.
      assert (Hp : 0 < 2 ^ (e1 - ex)) by (apply Z.pow_pos_nonneg; lia).
      repeat split; try lia.
      + apply Z.div_pos; lia.
      + apply Z.div_lt_upper_bound; [ exact Hp | ].
        rewrite <- Z.pow_add_r by lia.
        replace (e1 - ex + (k - e1)) with (k - ex) by lia. exact Hmx. }
  destruct H0 as [[Hm0 Hm0'] [He1 He1']].
  pose proof (round_nearest_even_bounds (shr_m mrs1) (loc_of_shr_record mrs1))
    as Hr. fold m1 in Hr.
  assert (Hm1 : 0 <= m1 <= 2 ^ (k - e1)) by lia.
  pose proof (shr_fexp_cases m1 e1 loc_Exact ltac:(lia)) as H2.
  destruct (shr_fexp prec emax m1 e1 loc_Exact) as [mrs2 e2].
  simpl fst in H2. simpl snd in H2.
  assert (H3 : 0 <= shr_m mrs2 <= 2 ^ (k - e2) /\ e2 <= k /\ e2 <= 971).
  { destruct H2 as [[-> ->] | [Hlt [He ->]]].
    - repeat split; lia.
    - rewrite fexp_eq in He.
      pose proof (digits_le m1 (k - e1) ltac:(lia) ltac:(lia) ltac:(lia)).
      assert (Hp : 0 < 2 ^ (e2 - e1)) by (apply Z.pow_pos_nonneg; lia).
      repeat split; try lia.
      + apply Z.div_pos; lia.
      + apply Z.div_le_upper_bound; [ exact Hp | ].
        rewrite <- Z.pow_add_r by lia.
        replace (e2 - e1 + (k - e2)) with (k - e1) by lia. lia. }
  destruct H3 as [[Hm2 Hm2'] [He2 He2']].
  destruct (shr_m mrs2) as [ | m2 | m2]; cbn iota.
  - split; [ exact I | reflexivity ].
  - replace (e2 <=? emax - prec) with true
      by (symmetry; apply Z.leb_le; unfold emax, prec; lia).
    split; [ split; assumption | reflexivity ].
  - lia.
Qed.

Lemma within_mono (x : spec_float) (a k : Z) :
  Py.within x a -> a <= k -> Py.within x k.
Proof.
  destruct x as [s | s | | s m e]; simpl; try tauto.
  intros [He Hm] Hk. split; [ lia | ].
  assert (2 ^ (a - e) <= 2 ^ (k - e)) by (apply Z.pow_le_mono_r; lia).
  lia.
Qed.

Lemma pow2_pos (n : Z) : 0 <= n -> 0 < 2 ^ n.
Proof. intros H. apply Z.pow_pos_nonneg; lia. Qed.

(** The product of two numbers within 2^a and 2^b is within
    2^(a + b + 1), and has the sign of the product. *)
Lemma SFmul_within (x y : spec_float) (a b : Z) :
  Py.within x a -> Py.within y b ->
  -1075 <= a + b -> a + b <= 971 ->
  Py.within (SFmul prec emax x y) (a + b + 1)
  /\ Py.sign_of (SFmul prec emax x y) = xorb (Py.sign_of x) (Py.sign_of y).
Proof.
  intros Hx Hy Hlo Hhi.
  destruct x as [sx | sx | | sx mx ex], y as [sy | sy | | sy my ey];
    simpl in Hx, Hy; try contradiction; try (simpl; auto; fail).
  destruct Hx as [Hex Hmx], Hy as [Hey Hmy].
  unfold SFmul.
  apply binary_round_aux_within; try lia.
  rewrite Pos2Z.inj_mul.
  assert (Ha : 0 < 2 ^ (a - ex)) by (apply pow2_pos; lia).
  assert (Hb : 0 < 2 ^ (b - ey)) by (apply pow2_pos; lia).
  replace (a + b + 1 - (ex + ey)) with (1 + ((a - ex) + (b - ey))) by lia.
  rewrite !Z.pow_add_r by lia. change (2 ^ 1) with 2.
  assert (Z.pos mx * Z.pos my <= 2 ^ (a - ex) * 2 ^ (b - ey))
    by (apply Z.mul_le_mono_nonneg; lia).
  lia.
Qed.

Lemma iter_xO (m d : positive) :
  Z.pos (Pos.iter xO m d) = Z.pos m * 2 ^ Z.pos d.
Proof.
  induction d as [ | d IH] using Pos.peano_ind.
  - simpl. lia.
  - rewrite Pos.iter_succ, Pos2Z.inj_xO, IH, Pos2Z.inj_succ,
      Z.pow_succ_r by lia.
    lia.
Qed.

(** Aligning a mantissa to a lower exponent keeps the value. *)
Lemma shl_align_spec (m : positive) (e e' : Z) :
  let r := shl_align m e e' in
  snd r <= e /\ (e' <= e -> snd r = e')
  /\ Z.pos (fst r) = Z.pos m * 2 ^ (e - snd r).
Proof.
  unfold shl_align. destruct (e' - e) as [ | d | d] eqn:E; cbn [fst snd].
  - rewrite Z.sub_diag. split; [ lia | split; [ lia | simpl; lia ] ].
  - rewrite Z.sub_diag. split; [ lia | split; [ lia | simpl; lia ] ].
  - split; [ lia | split; [ lia | ] ].
    rewrite iter_xO. do 2 f_equal. lia.
Qed.

Lemma binary_round_within (s : bool) (m : positive) (e k : Z) :
  -1074 <= k <= 1023 -> e <= 971 -> e <= k ->
  Z.pos m < 2 ^ (k - e) ->
  Py.within (binary_round prec emax s m e) k.
Proof.
  intros Hk He Hek Hm. unfold binary_round.
  pose proof (shl_align_spec m e (fexp prec emax (Z.pos (digits2_pos m) + e)))
    as [Hle [_ Hval]].
  destruct (shl_align m e (fexp prec emax (Z.pos (digits2_pos m) + e)))
    as [mz ez]. cbn [fst snd] in Hle, Hval.
  apply binary_round_aux_within; try lia.
  rewrite Hval.
  assert (Hp : 0 < 2 ^ (e - ez)) by (apply pow2_pos; lia).
  replace (k - ez) with ((k - e) + (e - ez)) by lia.
  rewrite Z.pow_add_r by lia.
  apply Z.mul_lt_mono_pos_r; assumption.
Qed.

Lemma binary_normalize_within (m e k : Z) (szero : bool) :
  -1074 <= k <= 1023 -> e <= 971 -> e <= k ->
  Z.abs m < 2 ^ (k - e) ->
  Py.within (binary_normalize prec emax m e szero) k.
Proof.
  intros Hk He Hek Hm. unfold binary_normalize.
  destruct m as [ | p | p].
  - exact I.
  - apply binary_round_within; try assumption.
  - apply binary_round_within; try assumption.
Qed.

(** The difference of two numbers within 2^a and 2^b is within
    2^(max a b + 2). *)
Lemma SFsub_within (x y : spec_float) (a b k : Z) :
  Py.within x a -> Py.within y b ->
  k = Z.max a b + 2 -> -1074 <= k <= 1023 -> a <= 971 -> b <= 971 ->
  Py.within (SFsub prec emax x y) k.
Proof.
  intros Hx Hy Hk Hrange Ha Hb.
  destruct x as [sx | sx | | sx mx ex], y as [sy | sy | | sy my ey];
    simpl in Hx, Hy; try contradiction.
  - simpl. destruct sx, sy; exact I.
  - apply (within_mono (S754_finite (negb sy) my ey) b); [ exact Hy | lia ].
  - apply (within_mono (S754_finite sx mx ex) a); [ exact Hx | lia ].
  - destruct Hx as [Hex Hmx], Hy as [Hey Hmy]. unfold SFsub.
    set (ez := Z.min ex ey).
    pose proof (shl_align_spec mx ex ez) as [_ [Hx1 Hx2]].
    pose proof (shl_align_spec my ey ez) as [_ [Hy1 Hy2]].
    rewrite Hx1 in Hx2 by lia. rewrite Hy1 in Hy2 by lia.
    set (X := Z.pos (fst (shl_align mx ex ez))) in *.
    set (Y := Z.pos (fst (shl_align my ey ez))) in *.
    apply binary_normalize_within; try lia.
    assert (HX : X <= 2 ^ (Z.max a b - ez)).
    { rewrite Hx2.
      replace (Z.max a b - ez) with ((Z.max a b - ex) + (ex - ez)) by lia.
      rewrite Z.pow_add_r by lia.
      apply Z.mul_le_mono_nonneg_r; [ apply Z.lt_le_incl, pow2_pos; lia | ].
      assert (2 ^ (a - ex) <= 2 ^ (Z.max a b - ex))
        by (apply Z.pow_le_mono_r; lia).
      lia. }
    assert (HY : Y <= 2 ^ (Z.max a b - ez)).
    { rewrite Hy2.
      replace (Z.max a b - ez) with ((Z.max a b - ey) + (ey - ez)) by lia.
      rewrite Z.pow_add_r by lia.
      apply Z.mul_le_mono_nonneg_r; [ apply Z.lt_le_incl, pow2_pos; lia | ].
      assert (2 ^ (b - ey) <= 2 ^ (Z.max a b - ey))
        by (apply Z.pow_le_mono_r; lia).
      lia. }
    replace (k - ez) with (2 + (Z.max a b - ez)) by lia.
    rewrite Z.pow_add_r by lia. change (2 ^ 2) with 4.
    assert (0 < 2 ^ (Z.max a b - ez)) by (apply pow2_pos; lia).
    assert (0 < X) by (unfold X; lia).
    assert (0 < Y) by (unfold Y; lia).
    unfold cond_Zopp. destruct sx, sy; lia.
Qed.

Lemma zero_spec : Prim2SF 0%float = S754_zero false.
Proof. vm_compute. reflexivity. Qed.

Lemma half_spec :
  Prim2SF 0.5%float = S754_finite false 4503599627370496 (-53).
Proof. vm_compute. reflexivity. Qed.

(** A number of [0, 1] is within 2^0 and not negative. *)
Lemma unit_within (r : float) :
  PrimFloat.leb 0 r = true -> PrimFloat.leb r 1 = true ->
  Py.within (Prim2SF r) 0.
Proof.
  intros Hlo Hhi. pose proof (Prim2SF_valid r) as V.
  rewrite leb_spec, zero_spec in Hlo. rewrite leb_spec, one_spec in Hhi.
  unfold SFleb, SFcompare in Hlo, Hhi.
  destruct (Prim2SF r) as [s | s | | s m e]; try discriminate.
  - exact I.
  - destruct s; discriminate.
  - destruct s; [ discriminate | ].
    apply valid_mantissa in V.
    destruct (Z.compare_spec e (-52)) as [-> | Hlt | Hgt]; try discriminate.
    + split; [ lia | ]. change (2 ^ (0 - -52)) with (Z.pos 4503599627370496).
      apply Pos2Z.pos_le_pos. unfold Pos.le. fold (Pos.compare m 4503599627370496).
      destruct (Pos.compare_cont Eq m 4503599627370496) eqn:C;
        try discriminate; unfold Pos.compare; rewrite C; discriminate.
    + split; [ lia | ].
      assert (2 ^ 53 <= 2 ^ (0 - e)) by (apply Z.pow_le_mono_r; lia). lia.
Qed.

Lemma mul_within (x y : float) (a b : Z) :
  Py.within (Prim2SF x) a -> Py.within (Prim2SF y) b ->
  -1075 <= a + b -> a + b <= 971 ->
  Py.within (Prim2SF (x * y)) (a + b + 1)
  /\ Py.sign_of (Prim2SF (x * y))
     = xorb (Py.sign_of (Prim2SF x)) (Py.sign_of (Prim2SF y)).
Proof.
  intros Hx Hy Hlo Hhi. rewrite mul_spec. apply SFmul_within; assumption.
Qed.

Lemma sub_within (x y : float) (a b k : Z) :
  Py.within (Prim2SF x) a -> Py.within (Prim2SF y) b ->
  k = Z.max a b + 2 -> -1074 <= k <= 1023 -> a <= 971 -> b <= 971 ->
  Py.within (Prim2SF (x - y)) k.
Proof.
  intros Hx Hy Hk Hr Ha Hb. rewrite sub_spec.
  apply (SFsub_within _ _ a b); assumption.
Qed.

(** [max(0.5, b)] is positive, and within 2^k when [b] is. *)
Lemma max_half_within (b : float) (k : Z) :
  -1 <= k -> Py.within (Prim2SF b) k ->
  Py.within (Prim2SF (Py.max 0.5 b)) k
  /\ Py.sign_of (Prim2SF (Py.max 0.5 b)) = false.
Proof.
  intros Hk Hb. unfold Py.max.
  destruct (PrimFloat.ltb 0.5 b) eqn:E.
  - split; [ exact Hb | ].
    rewrite ltb_spec, half_spec in E. unfold SFltb, SFcompare in E.
    destruct (Prim2SF b) as [s | s | | s m e]; simpl in Hb;
      try contradiction; try discriminate.
    destruct s; [ discriminate | reflexivity ].
  - rewrite half_spec. split; [ | reflexivity ].
    apply (within_mono _ (-1)); [ | lia ].
    simpl. split; [ lia | ]. change (2 ^ (-1 - -53)) with 4503599627370496. lia.
Qed.

(** The two shifts of a rounding, with the error they leave: the result
    has mantissa m2 and exponent e2, where m2 * 2^(e2 - ex) is within
    2 * 2^(e2 - ex) of the mantissa rounded. *)
Lemma binary_round_aux_value (s : bool) (mx : positive) (ex k : Z) :
  -1074 <= k <= 1023 -> ex <= 971 -> ex <= k ->
  Z.pos mx < 2 ^ (k - ex) ->
  exists m2 e2,
    0 <= m2
    /\ binary_round_aux prec emax s (Z.pos mx) ex loc_Exact
       = match m2 with
         | Z.pos p => S754_finite s p e2
         | _ => S754_zero s
         end
    /\ ex <= e2 <= Z.max ex (Z.max (k - 52) (-1074))
    /\ Z.pos mx - 2 * 2 ^ (e2 - ex) <= m2 * 2 ^ (e2 - ex)
       <= Z.pos mx + 2 * 2 ^ (e2 - ex).
Proof.
  intros Hk Hex Hexk Hmx. unfold binary_round_aux.
  pose proof (shr_fexp_cases (Z.pos mx) ex loc_Exact ltac:(lia)) as H1.
  destruct (shr_fexp prec emax (Z.pos mx) ex loc_Exact) as [mrs1 e1].
  simpl fst in H1. simpl snd in H1.
  set (m0 := shr_m mrs1) in *.
  set (m1 := round_nearest_even m0 (loc_of_shr_record mrs1)).
  assert (Hd : Zdigits2 (Z.pos mx) + ex <= k).
  { change (Zdigits2 (Z.pos mx)) with (Z.pos (digits2_pos mx)).
    pose proof (digits_lt mx (k - ex) ltac:(lia) Hmx). lia. }
  assert (H0 : ex <= e1 <= Z.max ex (Z.max (k - 53) (-1074))
               /\ m0 = Z.pos mx / 2 ^ (e1 - ex)).
  { destruct H1 as [[-> Hm] | [Hlt [He Hm]]].
    - rewrite Z.sub_diag, Z.div_1_r. split; [ lia | exact Hm ].
    - rewrite fexp_eq in He. split; [ lia | exact Hm ]. }
  destruct H0 as [He1 Hm0].
  set (P1 := 2 ^ (e1 - ex)) in *.
  assert (HP1 : 0 < P1) by (apply pow2_pos; lia).
  assert (Hm0b : m0 * P1 <= Z.pos mx < (m0 + 1) * P1).
  { rewrite Hm0. pose proof (Z.mul_div_le (Z.pos mx) P1 HP1).
    pose proof (Z.mul_succ_div_gt (Z.pos mx) P1 HP1). lia. }
  assert (Hm0n : 0 <= m0 < 2 ^ (k - e1)).
  { split; [ rewrite Hm0; apply Z.div_pos; lia | ].
    rewrite Hm0. apply Z.div_lt_upper_bound; [ exact HP1 | ].
    unfold P1. rewrite <- Z.pow_add_r by lia.
    replace (e1 - ex + (k - e1)) with (k - ex) by lia. exact Hmx. }
  pose proof (round_nearest_even_bounds m0 (loc_of_shr_record mrs1)) as Hr.
  fold m1 in Hr.
  pose proof (shr_fexp_cases m1 e1 loc_Exact ltac:(lia)) as H2.
  destruct (shr_fexp prec emax m1 e1 loc_Exact) as [mrs2 e2].
  simpl fst in H2. simpl snd in H2.
  set (m2 := shr_m mrs2) in *.
  assert (H3 : e1 <= e2 <= Z.max e1 (Z.max (k - 52) (-1074))
               /\ m2 = m1 / 2 ^ (e2 - e1)).
  { destruct H2 as [[-> Hm] | [Hlt [He Hm]]].
    - rewrite Z.sub_diag, Z.div_1_r. split; [ lia | exact Hm ].
    - rewrite fexp_eq in He.
      pose proof (digits_le m1 (k - e1) ltac:(lia) ltac:(lia) ltac:(lia)).
      split; [ lia | exact Hm ]. }
  destruct H3 as [He2 Hm2].
  set (P2 := 2 ^ (e2 - e1)) in *.
  assert (HP2 : 0 < P2) by (apply pow2_pos; lia).
  assert (Hm2b : m2 * P2 <= m1 < (m2 + 1) * P2).
  { rewrite Hm2. pose proof (Z.mul_div_le m1 P2 HP2).
    pose proof (Z.mul_succ_div_gt m1 P2 HP2). lia. }
  assert (Hm2n : 0 <= m2) by (rewrite Hm2; apply Z.div_pos; lia).
  assert (HP : 2 ^ (e2 - ex) = P1 * P2).
  { unfold P1, P2. rewrite <- Z.pow_add_r by lia. f_equal. lia. }
  exists m2, e2. split; [ exact Hm2n | ]. split.
  - destruct m2 as [ | p | p]; try reflexivity; try lia.
    replace (e2 <=? emax - prec) with true
      by (symmetry; apply Z.leb_le; unfold emax, prec; lia).
    reflexivity.
  - split; [ lia | ]. rewrite HP. nia.
Qed.

(** [int(c * m)] for two positive numbers whose product is below 2^51
    and has a negative exponent: within one of the integer part of the
    exact product. *)
Lemma mul_int_near (c m : float) (B mm : positive) (eb em k : Z) :
  Prim2SF c = S754_finite false B eb ->
  Prim2SF m = S754_finite false mm em ->
  -1074 <= k <= 51 -> eb + em <= -1 -> eb + em <= k ->
  Z.pos B * Z.pos mm < 2 ^ (k - (eb + em)) ->
  exists n,
    Py.int (c * m) = Some n
    /\ Z.pos B * Z.pos mm / 2 ^ (- (eb + em)) - 1 <= n
       <= Z.pos B * Z.pos mm / 2 ^ (- (eb + em)) + 1.
Proof.
  intros Hc Hm Hk Hneg Hek Hbound.
  unfold Py.int. rewrite mul_spec, Hc, Hm. unfold SF64mul, SFmul.
  cbn [xorb]. set (ex := eb + em) in *.
  rewrite <- Pos2Z.inj_mul in Hbound |- *.
  destruct (binary_round_aux_value false (B * mm) ex k
              ltac:(lia) ltac:(lia) Hek Hbound)
    as [m2 [e2 [Hm2 [-> [He2 Hval]]]]].
  set (MX := Z.pos (B * mm)) in *.
  set (P := 2 ^ (e2 - ex)) in *.
  set (Q := 2 ^ (- e2)).
  set (D := 2 ^ (- ex)).
  assert (HP : 0 < P) by (apply pow2_pos; lia).
  assert (HQ : 2 <= Q).
  { change 2 with (2 ^ 1). apply Z.pow_le_mono_r; lia. }
  assert (HD : D = P * Q).
  { unfold D, P, Q. rewrite <- Z.pow_add_r by lia. f_equal. lia. }
  assert (HD0 : 0 < D) by (apply pow2_pos; lia).
  assert (Hn : exists n, Py.int_of_spec
                           match m2 with
                           | Z.pos p => S754_finite false p e2
                           | _ => S754_zero false
                           end = Some n /\ n = m2 / Q).
  { destruct m2 as [ | p | p]; try lia.
    - exists 0. split; reflexivity.
    - eexists. split; [ reflexivity | ]. cbv zeta.
      destruct (Z.leb_spec 0 e2); [ lia | reflexivity ]. }
  destruct Hn as [n [-> Hn]]. exists n. split; [ reflexivity | ].
  pose proof (Z.mul_div_le m2 Q ltac:(lia)) as Hlo.
  pose proof (Z.mul_succ_div_gt m2 Q ltac:(lia)) as Hhi.
  rewrite <- Hn in Hlo, Hhi.
  split.
  - assert (MX / D < n + 2); [ | lia ].
    apply Z.div_lt_upper_bound; [ exact HD0 | ]. rewrite HD. nia.
  - assert (n - 1 <= MX / D); [ | lia ].
    apply Z.div_le_lower_bound; [ exact HD0 | ]. rewrite HD. nia.
Qed.

(** The mantissa of a binary64 number of exponent above -1074 has
    exactly 53 digits. *)
Lemma normal_mantissa (s : bool) (m : positive) (e : Z) :
  valid_binary (S754_finite s m e) = true -> -1074 < e ->
  2 ^ 52 <= Z.pos m.
Proof.
  simpl. unfold bounded, canonical_mantissa, fexp, emin, prec, emax.
  intros H He. apply andb_true_iff in H. destruct H as [H _].
  apply Z.eqb_eq in H.
  assert (Hd : Z.pos (digits2_pos m) = 53) by lia.
  pose proof (digits_lower m) as Hl. rewrite Hd in Hl. exact Hl.
Qed.

End FloatFacts.

(** ** The intervention policy *)

Module InterventionFacts.

Import Config InterventionAgent Examples FloatFacts.
Local Open Scope string_scope.

(** The dwell time does not enter the thresholds. *)
Lemma thresholds_with_time (data : Input) (t : Z) :
  adjusted_thresholds (with_time data t) = adjusted_thresholds data.
Proof. reflexivity. Qed.

(** The gate of a request whose context is a confident distraction. *)
Lemma gate_open (data : Input) (c : ContextFields) (x : float) :
  context_result data = Some c ->
  cf_classification c = Some "distraction" ->
  cf_confidence c = Some x ->
  PrimFloat.leb 0.3 x = true ->
  no_intervention_needed data = false.
Proof.
  intros Hc Hcls Hconf Hx.
  unfold no_intervention_needed, classification_of, confidence_of.
  rewrite Hc, Hcls, Hconf. simpl.
  apply FloatFacts.leb_not_ltb. exact Hx.
Qed.

(** The multiplier of a risk of [0, 1] is positive and within 2^2. *)
Lemma multiplier_within (risk : float) :
  PrimFloat.leb 0 risk = true -> PrimFloat.leb risk 1 = true ->
  let m := Py.max 0.5%float (1.0 - (risk * 0.5))%float in
  Py.within (Prim2SF m) 2 /\ Py.sign_of (Prim2SF m) = false.
Proof.
  intros Hlo Hhi m. subst m.
  pose proof (unit_within risk Hlo Hhi) as Hr.
  assert (Hhalf : Py.within (Prim2SF 0.5%float) (-1)).
  { rewrite half_spec. simpl. split; [ lia | ].
    change (2 ^ (-1 - -53)) with 4503599627370496. lia. }
  destruct (mul_within risk 0.5%float 0 (-1) Hr Hhalf ltac:(lia) ltac:(lia))
    as [Ha _].
  assert (Hone : Py.within (Prim2SF 1%float) 0).
  { rewrite one_spec. simpl. split; [ lia | ].
    change (2 ^ (0 - -52)) with 4503599627370496. lia. }
  pose proof (sub_within 1%float (risk * 0.5)%float 0 (0 + -1 + 1) 2 Hone Ha
                ltac:(lia) ltac:(lia) ltac:(lia) ltac:(lia)) as Hb.
  apply max_half_within; [ lia | exact Hb ].
Qed.

(** The multiplier of a risk of [0, 1]: a positive binary64 number of at
    least 1/2 and at most 4. *)
Lemma multiplier_shape (risk : float) :
  PrimFloat.leb 0 risk = true -> PrimFloat.leb risk 1 = true ->
  exists mm em,
    Prim2SF (Py.max 0.5%float (1.0 - (risk * 0.5))%float)
    = S754_finite false mm em
    /\ -53 <= em <= -50 /\ 2 ^ 52 <= Z.pos mm <= 2 ^ (2 - em).
Proof.
  intros Hlo Hhi.
  destruct (multiplier_within risk Hlo Hhi) as [Hw Hs].
  set (b := (1.0 - (risk * 0.5))%float) in *.
  unfold Py.max in *.
  destruct (PrimFloat.ltb 0.5 b) eqn:E.
  - pose proof (Prim2SF_valid b) as V.
    rewrite ltb_spec, half_spec in E. unfold SFltb, SFcompare in E.
    destruct (Prim2SF b) as [s | s | | s mm em]; cbn [Py.within Py.sign_of] in Hw, Hs;
      try contradiction; try discriminate.
    subst s. destruct Hw as [He Hm].
    assert (Hem : -53 <= em).
    { destruct (Z.compare_spec (-53) em); try discriminate; lia. }
    pose proof (normal_mantissa false mm em V ltac:(lia)) as Hn.
    exists mm, em. split; [ reflexivity | ]. split; [ | lia ].
    split; [ exact Hem | ].
    destruct (Z.le_gt_cases em (-50)) as [ | Hgt]; [ assumption | exfalso ].
    assert (2 ^ (2 - em) < 2 ^ 52) by (apply Z.pow_lt_mono_r; lia).
    lia.
  - exists 4503599627370496%positive, (-53). rewrite half_spec.
    split; [ reflexivity | ]. split; [ lia | ].
    change (2 ^ 52) with 4503599627370496.
    change (2 ^ (2 - -53)) with 36028797018963968. split.
    + apply Z.le_refl.
    + apply Pos2Z.pos_le_pos. discriminate.
Qed.

(** The four bases as binary64 numbers. *)
Lemma bases_spec :
  Forall (fun base =>
            exists B eb,
              Prim2SF (Py.of_Z base) = S754_finite false B eb
              /\ -48 <= eb <= -43 /\ Z.pos B = base * 2 ^ (- eb)
              /\ 30 <= base <= 600)
         [ NUDGE_THRESHOLD_SECONDS; WARN_THRESHOLD_SECONDS;
           SOFT_BLOCK_THRESHOLD_SECONDS; HARD_BLOCK_THRESHOLD_SECONDS ].
Proof.
  repeat constructor; eexists; eexists;
    (split; [ vm_compute; reflexivity | ]);
    (split; [ lia | ]); (split; [ reflexivity | ]);
    unfold NUDGE_THRESHOLD_SECONDS, WARN_THRESHOLD_SECONDS,
      SOFT_BLOCK_THRESHOLD_SECONDS, HARD_BLOCK_THRESHOLD_SECONDS; lia.
Qed.

(** A base times a multiplier of [1/2, 4], truncated: within one of the
    integer part of the exact product. *)
Lemma scaled_near (base : Z) (m : float) (mm : positive) (em : Z) :
  In base [ NUDGE_THRESHOLD_SECONDS; WARN_THRESHOLD_SECONDS;
            SOFT_BLOCK_THRESHOLD_SECONDS; HARD_BLOCK_THRESHOLD_SECONDS ] ->
  Prim2SF m = S754_finite false mm em ->
  -53 <= em <= -50 -> 2 ^ 52 <= Z.pos mm <= 2 ^ (2 - em) ->
  exists n,
    scaled base m = Some n
    /\ base * Z.pos mm / 2 ^ (- em) - 1 <= n
       <= base * Z.pos mm / 2 ^ (- em) + 1.
Proof.
  intros Hbase Hm Hem Hmm.
  pose proof bases_spec as HB. rewrite Forall_forall in HB.
  destruct (HB base Hbase) as [B [eb [Hc [Heb [HB' Hrange]]]]].
  assert (Hpb : 0 < 2 ^ (- eb)) by (apply pow2_pos; lia).
  assert (Hpm : 0 < 2 ^ (- em)) by (apply pow2_pos; lia).
  assert (Hbound : Z.pos B * Z.pos mm < 2 ^ (13 - (eb + em))).
  { replace (13 - (eb + em)) with (11 + (- eb) + (2 - em)) by lia.
    rewrite !Z.pow_add_r by lia. rewrite HB'.
    change (2 ^ 11) with 2048.
    assert (0 < 2 ^ (2 - em)) by (apply pow2_pos; lia).
    apply Z.le_lt_trans with (base * 2 ^ (- eb) * 2 ^ (2 - em)).
    - apply Z.mul_le_mono_nonneg_l; lia.
    - apply Z.mul_lt_mono_pos_r; [ lia | ].
      apply Z.mul_lt_mono_pos_r; lia. }
  destruct (mul_int_near (Py.of_Z base) m B mm eb em 13 Hc Hm
              ltac:(lia) ltac:(lia) ltac:(lia) Hbound) as [n [Hn Hnear]].
  exists n. split; [ exact Hn | ].
  replace (Z.pos B * Z.pos mm / 2 ^ (- (eb + em)))
    with (base * Z.pos mm / 2 ^ (- em)) in Hnear; [ exact Hnear | ].
  rewrite HB'.
  replace (- (eb + em)) with (- eb + - em) by lia.
  rewrite Z.pow_add_r by lia.
  replace (base * 2 ^ (- eb) * Z.pos mm)
    with (2 ^ (- eb) * (base * Z.pos mm)) by ring.
  rewrite Z.div_mul_cancel_l by lia. reflexivity.
Qed.

(** The integer parts of the four exact products are at least 15 and at
    least 45, 90 and 150 apart, and at most 2400. *)
Lemma exact_products_apart (mm Q : Z) :
  0 < Q -> Q <= 2 * mm -> mm <= 4 * Q ->
  15 <= 30 * mm / Q
  /\ 30 * mm / Q + 45 <= 120 * mm / Q
  /\ 120 * mm / Q + 90 <= 300 * mm / Q
  /\ 300 * mm / Q + 150 <= 600 * mm / Q
  /\ 600 * mm / Q <= 2400.
Proof.
  intros HQ Hlo Hhi.
  assert (Hadd : forall a c, (a + c * Q) / Q = a / Q + c).
  { intros a c. apply Z.div_add. lia. }
  repeat split.
  - apply Z.div_le_lower_bound; lia.
  - rewrite <- Hadd. apply Z.div_le_mono; lia.
  - rewrite <- Hadd. apply Z.div_le_mono; lia.
  - rewrite <- Hadd. apply Z.div_le_mono; lia.
  - apply Z.div_le_upper_bound; lia.
Qed.

(** The session factor on every integer up to 2403. *)
Lemma session_steps_checked :
  forallb session_step_ok (seq 0 (Z.to_nat 2404)) = true.
Proof. vm_compute. reflexivity. Qed.

Lemma session_step (n : Z) :
  0 <= n <= 2403 ->
  scaled n 0.7%float = Some (session_scaled n)
  /\ session_scaled n <= session_scaled (n + 1)
  /\ session_scaled n < session_scaled (n + 2)
  /\ (14 <= n -> 0 < session_scaled n).
Proof.
  intros Hn. pose proof session_steps_checked as H.
  rewrite forallb_forall in H. specialize (H (Z.to_nat n)).
  assert (Hin : In (Z.to_nat n) (seq 0 (Z.to_nat 2404)))
    by (apply in_seq; lia).
  specialize (H Hin). unfold session_step_ok in H.
  rewrite Z2Nat.id in H by lia.
  apply andb_true_iff in H. destruct H as [H H14].
  apply andb_true_iff in H. destruct H as [H H2].
  apply andb_true_iff in H. destruct H as [H0 H1].
  apply Z.leb_le in H0, H1. apply Z.ltb_lt in H2.
  split; [ | split; [ exact H1 | split; [ exact H2 | ] ] ].
  - unfold session_scaled in *.
    destruct (scaled n 0.7%float); [ reflexivity | lia ].
  - intros Hn14. apply orb_true_iff in H14.
    destruct H14 as [H14 | H14]; [ apply Z.ltb_lt in H14 | apply Z.ltb_lt in H14 ];
      lia.
Qed.

Lemma session_scaled_mono (d : nat) (a : Z) :
  0 <= a -> a + Z.of_nat d <= 2404 ->
  session_scaled a <= session_scaled (a + Z.of_nat d).
Proof.
  induction d as [ | d IH]; intros Ha Hb.
  - rewrite Z.add_0_r. lia.
  - specialize (IH Ha ltac:(lia)).
    destruct (session_step (a + Z.of_nat d) ltac:(lia)) as [_ [Hs _]].
    replace (a + Z.of_nat (S d)) with (a + Z.of_nat d + 1) by lia. lia.
Qed.

Lemma session_scaled_strict (a b : Z) :
  0 <= a -> a + 2 <= b <= 2404 -> session_scaled a < session_scaled b.
Proof.
  intros Ha Hb.
  destruct (session_step a ltac:(lia)) as [_ [_ [Hs _]]].
  pose proof (session_scaled_mono (Z.to_nat (b - (a + 2))) (a + 2)
                ltac:(lia) ltac:(lia)) as Hm.
  rewrite Z2Nat.id in Hm by lia.
  replace (a + 2 + (b - (a + 2))) with b in Hm by lia. lia.
Qed.

(** For every risk of [0, 1] the four thresholds can be computed, in and
    out of a session, and they ascend strictly from a positive nudge
    threshold. *)
Lemma thresholds_ascend (risk : float) (session : bool) :
  PrimFloat.leb 0 risk = true -> PrimFloat.leb risk 1 = true ->
  exists th, thresholds_for risk session = Some th /\ ascending th = true.
Proof.
  intros Hlo Hhi. unfold thresholds_for.
  destruct (multiplier_shape risk Hlo Hhi) as [mm [em [Hm [Hem Hmm]]]].
  set (m := Py.max 0.5%float (1.0 - (risk * 0.5))%float) in *.
  destruct (scaled_near NUDGE_THRESHOLD_SECONDS m mm em
              ltac:(simpl; auto) Hm Hem Hmm) as [n [-> Hn]].
  destruct (scaled_near WARN_THRESHOLD_SECONDS m mm em
              ltac:(simpl; auto) Hm Hem Hmm) as [w [-> Hw]].
  destruct (scaled_near SOFT_BLOCK_THRESHOLD_SECONDS m mm em
              ltac:(simpl; auto 6) Hm Hem Hmm) as [s [-> Hs]].
  destruct (scaled_near HARD_BLOCK_THRESHOLD_SECONDS m mm em
              ltac:(simpl; auto 6) Hm Hem Hmm) as [h [-> Hh]].
  unfold NUDGE_THRESHOLD_SECONDS, WARN_THRESHOLD_SECONDS,
    SOFT_BLOCK_THRESHOLD_SECONDS, HARD_BLOCK_THRESHOLD_SECONDS in *.
  assert (HQ : 0 < 2 ^ (- em)) by (apply pow2_pos; lia).
  assert (HQ1 : 2 ^ (- em) <= 2 * Z.pos mm).
  { assert (2 ^ (- em) <= 2 ^ 53) by (apply Z.pow_le_mono_r; lia).
    change (2 ^ 53) with (2 * 2 ^ 52) in *. lia. }
  assert (HQ2 : Z.pos mm <= 4 * 2 ^ (- em)).
  { replace (2 - em) with (2 + - em) in Hmm by lia.
    rewrite Z.pow_add_r in Hmm by lia. change (2 ^ 2) with 4 in Hmm. lia. }
  destruct (exact_products_apart (Z.pos mm) (2 ^ (- em)) HQ HQ1 HQ2)
    as [H15 [H45 [H90 [H150 H2400]]]].
  destruct session.
  - destruct (session_step n ltac:(lia)) as [-> [_ [_ Hpos]]].
    destruct (session_step w ltac:(lia)) as [-> _].
    destruct (session_step s ltac:(lia)) as [-> _].
    destruct (session_step h ltac:(lia)) as [-> _].
    eexists. split; [ reflexivity | ]. unfold ascending. simpl.
    pose proof (session_scaled_strict n w ltac:(lia) ltac:(lia)).
    pose proof (session_scaled_strict w s ltac:(lia) ltac:(lia)).
    pose proof (session_scaled_strict s h ltac:(lia) ltac:(lia)).
    specialize (Hpos ltac:(lia)).
    repeat (apply andb_true_iff; split); apply Z.ltb_lt; lia.
  - eexists. split; [ reflexivity | ]. unfold ascending. simpl.
    repeat (apply andb_true_iff; split); apply Z.ltb_lt; lia.
Qed.

(** C3. A request whose context is not classified ["distraction"], or
    whose confidence is below 0.3, is answered with level ["none"], no
    intervention and a cooldown of 30 seconds; so is a request in which
    the context, its classification or its confidence is missing, as
    these default to ["neutral"] and 0. *)
Theorem gate_closed_no_intervention (data : Input) :
  (context_result data = None
   \/ (exists c, context_result data = Some c /\ cf_classification c = None)
   \/ (exists c, context_result data = Some c /\ cf_confidence c = None)
   \/ (exists c s, context_result data = Some c
                   /\ cf_classification c = Some s /\ s <> "distraction")
   \/ (exists c x, context_result data = Some c
                   /\ cf_confidence c = Some x
                   /\ PrimFloat.ltb x 0.3 = true)) ->
  analyze data = Some no_intervention
  /\ level no_intervention = "none"
  /\ should_intervene no_intervention = false
  /\ cooldown_seconds no_intervention = 30.
Proof.
  intros H. split; [ | repeat split ].
  unfold analyze.
  assert (Hgate : no_intervention_needed data = true).
  { unfold no_intervention_needed, classification_of, confidence_of.
    destruct H as [H | [[c [Hc H]] | [[c [Hc H]] | [[c [s [Hc [H Hs]]]]
                   | [c [x [Hc [H Hx]]]]]]]].
    - rewrite H. reflexivity.
    - rewrite Hc, H. reflexivity.
    - rewrite Hc, H. apply orb_true_iff. right. reflexivity.
    - rewrite Hc, H. apply orb_true_iff. left.
      apply negb_true_iff, String.eqb_neq. exact Hs.
    - rewrite Hc, H. apply orb_true_iff. right. exact Hx. }
  rewrite Hgate. reflexivity.
Qed.

Lemma gate_closed_witness :
  analyze request_study = Some no_intervention
  /\ level no_intervention = "none"
  /\ should_intervene no_intervention = false
  /\ cooldown_seconds no_intervention = 30.
Proof.
  apply (gate_closed_no_intervention request_study).
  right; right; right; left.
  eexists; exists "study". repeat split. discriminate.
Defined.

(** The level of a decision, given the thresholds: the first of
    hard_block, soft_block, warn, nudge whose threshold the dwell time
    has reached, and ["none"] below all four. *)
Lemma analyze_levels (data : Input) (th : Thresholds) :
  no_intervention_needed data = false ->
  adjusted_thresholds data = Some th ->
  let t := time_on_current_seconds data in
  exists r,
    analyze data = Some r
    /\ (adjusted_hard th <= t -> level r = "hard_block")
    /\ (t < adjusted_hard th -> adjusted_soft th <= t ->
        level r = "soft_block")
    /\ (t < adjusted_hard th -> t < adjusted_soft th ->
        adjusted_warn th <= t -> level r = "warn")
    /\ (t < adjusted_hard th -> t < adjusted_soft th ->
        t < adjusted_warn th -> adjusted_nudge th <= t -> level r = "nudge")
    /\ (t < adjusted_hard th -> t < adjusted_soft th ->
        t < adjusted_warn th -> t < adjusted_nudge th ->
        level r = "none" /\ should_intervene r = false
        /\ cooldown_seconds r = Z.max 5 (adjusted_nudge th - t))
    /\ (level r <> "none" -> should_intervene r = true).
Proof.
  intros Hgate Hth t. unfold analyze. rewrite Hgate, Hth. fold t.
  split_leb; eexists; (split; [ reflexivity | ]); simpl;
    repeat split; intros; try reflexivity; try lia; try congruence.
Qed.

(** C10. With the context a distraction of confidence at least 0.3 and
    everything but the dwell time fixed, the level never decreases as
    the dwell time grows, in the order none < nudge < warn < soft_block
    < hard_block: at two dwell times t1 <= t2 the request is either
    refused at both (the thresholds, which do not depend on the dwell
    time, cannot be computed) or answered at both with the rank of the
    level at t1 at most that at t2.  For every risk score in [0, 1], and
    so for the default 0.5, the request is answered at both: the
    thresholds exist and are strictly ascending after both
    multiplications and truncations. *)
Theorem level_monotone_in_dwell (data : Input) (c : ContextFields)
        (x : float) (t1 t2 : Z) :
  context_result data = Some c ->
  cf_classification c = Some "distraction" ->
  cf_confidence c = Some x ->
  PrimFloat.leb 0.3 x = true ->
  t1 <= t2 ->
  ((adjusted_thresholds data = None
    /\ analyze (with_time data t1) = None
    /\ analyze (with_time data t2) = None)
   \/ (exists r1 r2 k1 k2,
         analyze (with_time data t1) = Some r1
         /\ analyze (with_time data t2) = Some r2
         /\ level_rank (level r1) = Some k1
         /\ level_rank (level r2) = Some k2
         /\ k1 <= k2))
  /\ (PrimFloat.leb 0 (domain_risk_of data) = true ->
      PrimFloat.leb (domain_risk_of data) 1 = true ->
      exists th r1 r2 k1 k2,
        adjusted_thresholds data = Some th
        /\ ascending th = true
        /\ analyze (with_time data t1) = Some r1
        /\ analyze (with_time data t2) = Some r2
        /\ level_rank (level r1) = Some k1
        /\ level_rank (level r2) = Some k2
        /\ k1 <= k2).
Proof.
  intros Hc Hcls Hconf Hx Ht.
  assert (Hgate : forall t, no_intervention_needed (with_time data t) = false).
  { intros t. apply (gate_open (with_time data t) c x); assumption. }
  split.
  - unfold analyze. rewrite !Hgate, !thresholds_with_time.
    destruct (adjusted_thresholds data) as [th | ].
    + right. simpl time_on_current_seconds.
      split_leb; do 4 eexists;
        (split; [ reflexivity | ]); (split; [ reflexivity | ]);
        (split; [ reflexivity | ]); (split; [ reflexivity | ]); lia.
    + left. repeat split.
  - intros Hlo Hhi.
    destruct (thresholds_ascend _ (session_active data) Hlo Hhi)
      as [th [Hth Hasc]].
    exists th. unfold analyze.
    rewrite !Hgate, !thresholds_with_time.
    unfold adjusted_thresholds. rewrite Hth.
    simpl time_on_current_seconds.
    split_leb; do 4 eexists;
      (split; [ reflexivity | ]); (split; [ exact Hasc | ]);
      (split; [ reflexivity | ]); (split; [ reflexivity | ]);
      (split; [ reflexivity | ]); (split; [ reflexivity | ]); lia.
Qed.

Lemma level_monotone_witness :
  (exists r1 r2 k1 k2,
      analyze (with_time request_22s 10) = Some r1
      /\ analyze (with_time request_22s 100) = Some r2
      /\ level_rank (level r1) = Some k1
      /\ level_rank (level r2) = Some k2
      /\ k1 <= k2)
  /\ exists th, adjusted_thresholds request_22s = Some th
                /\ ascending th = true.
Proof.
  destruct (level_monotone_in_dwell request_22s
              {| cf_classification := Some "distraction";
                 cf_context_score := None;
                 cf_confidence := Some 0.8%float |}
              0.8%float 10 100
              eq_refl eq_refl eq_refl eq_refl ltac:(lia)) as [[[H _] | H] G].
  - discriminate H.
  - split; [ exact H | ].
    destruct (G eq_refl eq_refl) as [th [_ [_ [_ [_ [Hth [Hasc _]]]]]]].
    exists th. split; assumption.
Defined.

(** The thresholds are the truncated products, truncated once more
    after the session factor. *)
Lemma thresholds_for_inv (risk : float) (session : bool) (th : Thresholds) :
  thresholds_for risk session = Some th ->
  let m := Py.max 0.5%float (1.0 - (risk * 0.5))%float in
  exists n w s h,
    scaled NUDGE_THRESHOLD_SECONDS m = Some n
    /\ scaled WARN_THRESHOLD_SECONDS m = Some w
    /\ scaled SOFT_BLOCK_THRESHOLD_SECONDS m = Some s
    /\ scaled HARD_BLOCK_THRESHOLD_SECONDS m = Some h
    /\ (session = false ->
        th = {| adjusted_nudge := n; adjusted_warn := w;
                adjusted_soft := s; adjusted_hard := h |})
    /\ (session = true ->
        scaled n 0.7%float = Some (adjusted_nudge th)
        /\ scaled w 0.7%float = Some (adjusted_warn th)
        /\ scaled s 0.7%float = Some (adjusted_soft th)
        /\ scaled h 0.7%float = Some (adjusted_hard th)).
Proof.
  intros H m. unfold thresholds_for in H. fold m in H.
  destruct (scaled NUDGE_THRESHOLD_SECONDS m) as [n | ]; [ | discriminate ].
  destruct (scaled WARN_THRESHOLD_SECONDS m) as [w | ]; [ | discriminate ].
  destruct (scaled SOFT_BLOCK_THRESHOLD_SECONDS m) as [s | ];
    [ | discriminate ].
  destruct (scaled HARD_BLOCK_THRESHOLD_SECONDS m) as [h | ];
    [ | discriminate ].
  exists n, w, s, h. repeat (split; [ reflexivity | ]).
  destruct session.
  - destruct (scaled n 0.7%float) as [n' | ]; [ | discriminate ].
    destruct (scaled w 0.7%float) as [w' | ]; [ | discriminate ].
    destruct (scaled s 0.7%float) as [s' | ]; [ | discriminate ].
    destruct (scaled h 0.7%float) as [h' | ]; [ | discriminate ].
    injection H as <-. split; [ discriminate | ]. intros _. repeat split.
  - injection H as <-. split; [ reflexivity | discriminate ].
Qed.

(** C2, as the code has it. For a request whose context is a
    distraction of confidence at least 0.3: the domain risk is the score
    of the current domain and 0.5 when it has none; each base threshold
    (30, 120, 300, 600 seconds) is multiplied by max(0.5, 1 - risk * 0.5)
    and truncated to an integer, and in a session that integer is
    multiplied by 0.7 and truncated again; the level is the first of
    hard_block, soft_block, warn, nudge whose truncated threshold the
    dwell time has reached, and below all of them the answer is level
    ["none"], no intervention, and a cooldown of
    max(5, adjusted_nudge - dwell).  For every risk score in [0, 1] the
    thresholds exist and ascend strictly, so that "below all of them"
    is "below the nudge threshold". *)
Theorem truncated_thresholds_policy (data : Input) (c : ContextFields)
        (x : float) :
  context_result data = Some c ->
  cf_classification c = Some "distraction" ->
  cf_confidence c = Some x ->
  PrimFloat.leb 0.3 x = true ->
  let t := time_on_current_seconds data in
  let m := Py.max 0.5%float (1.0 - (domain_risk_of data * 0.5))%float in
  (* the risk and its default *)
  (forall d scores,
      current_domain data = Some d ->
      pattern_result data = Some {| pf_domain_risk_scores := Some scores |} ->
      domain_risk_of data
      = match dict_get scores d with Some r => r | None => 0.5%float end)
  /\ (current_domain data = None \/ pattern_result data = None
      \/ pattern_result data = Some {| pf_domain_risk_scores := None |} ->
      domain_risk_of data = 0.5%float)
  (* the thresholds *)
  /\ (forall th, adjusted_thresholds data = Some th ->
      exists n w s h,
        scaled NUDGE_THRESHOLD_SECONDS m = Some n
        /\ scaled WARN_THRESHOLD_SECONDS m = Some w
        /\ scaled SOFT_BLOCK_THRESHOLD_SECONDS m = Some s
        /\ scaled HARD_BLOCK_THRESHOLD_SECONDS m = Some h
        /\ (session_active data = false ->
            th = {| adjusted_nudge := n; adjusted_warn := w;
                    adjusted_soft := s; adjusted_hard := h |})
        /\ (session_active data = true ->
            scaled n 0.7%float = Some (adjusted_nudge th)
            /\ scaled w 0.7%float = Some (adjusted_warn th)
            /\ scaled s 0.7%float = Some (adjusted_soft th)
            /\ scaled h 0.7%float = Some (adjusted_hard th)))
  (* the level *)
  /\ (forall th, adjusted_thresholds data = Some th ->
      exists r,
        analyze data = Some r
        /\ (adjusted_hard th <= t -> level r = "hard_block")
        /\ (t < adjusted_hard th -> adjusted_soft th <= t ->
            level r = "soft_block")
        /\ (t < adjusted_hard th -> t < adjusted_soft th ->
            adjusted_warn th <= t -> level r = "warn")
        /\ (t < adjusted_hard th -> t < adjusted_soft th ->
            t < adjusted_warn th -> adjusted_nudge th <= t ->
            level r = "nudge")
        /\ (t < adjusted_hard th -> t < adjusted_soft th ->
            t < adjusted_warn th -> t < adjusted_nudge th ->
            level r = "none" /\ should_intervene r = false
            /\ cooldown_seconds r = Z.max 5 (adjusted_nudge th - t))
        /\ (level r <> "none" -> should_intervene r = true))
  (* risks of [0, 1] *)
  /\ (PrimFloat.leb 0 (domain_risk_of data) = true ->
      PrimFloat.leb (domain_risk_of data) 1 = true ->
      exists th r,
        adjusted_thresholds data = Some th /\ ascending th = true
        /\ analyze data = Some r
        /\ (t < adjusted_nudge th ->
            level r = "none" /\ should_intervene r = false
            /\ cooldown_seconds r = Z.max 5 (adjusted_nudge th - t))).
Proof.
  intros Hc Hcls Hconf Hx t m.
  pose proof (gate_open data c x Hc Hcls Hconf Hx) as Hgate.
  split; [ | split; [ | split; [ | split ] ] ].
  - intros d scores Hd Hp. unfold domain_risk_of. rewrite Hd, Hp. reflexivity.
  - unfold domain_risk_of. intros [H | [H | H]]; rewrite H.
    + reflexivity.
    + destruct (current_domain data); reflexivity.
    + destruct (current_domain data); reflexivity.
  - intros th Hth. apply (thresholds_for_inv _ _ _ Hth).
  - intros th Hth. apply (analyze_levels data th Hgate Hth).
  - intros Hlo Hhi.
    destruct (thresholds_ascend _ (session_active data) Hlo Hhi)
      as [th [Hth Hasc]].
    assert (Hth' : adjusted_thresholds data = Some th) by exact Hth.
    destruct (analyze_levels data th Hgate Hth')
      as [r [Hr [_ [_ [_ [_ [Hnone _]]]]]]].
    exists th, r. repeat (split; [ assumption | ]).
    fold t in Hnone. intros Hlow.
    unfold ascending in Hasc.
    repeat (apply andb_true_iff in Hasc; destruct Hasc as [Hasc ?]).
    apply Hnone; lia.
Qed.

Lemma truncated_thresholds_witness :
  exists th r,
    adjusted_thresholds request_22s = Some th
    /\ adjusted_nudge th = 22
    /\ analyze request_22s = Some r
    /\ level r = "nudge".
Proof.
  destruct (truncated_thresholds_policy request_22s
              {| cf_classification := Some "distraction";
                 cf_context_score := None;
                 cf_confidence := Some 0.8%float |}
              0.8%float eq_refl eq_refl eq_refl eq_refl)
    as [_ [_ [_ [Hlevel _]]]].
  destruct (Hlevel {| adjusted_nudge := 22; adjusted_warn := 90;
                      adjusted_soft := 225; adjusted_hard := 450 |} eq_refl)
    as [r [Hr [_ [_ [_ [Hnudge _]]]]]].
  eexists; exists r. split; [ reflexivity | ]. split; [ reflexivity | ].
  split; [ exact Hr | ]. apply Hnudge; simpl; lia.
Defined.

(** C2, as the specification words it, fails: with the default risk the
    nudge threshold is 30 * 0.75 = 22.5, which a dwell of 22 seconds does
    not reach, yet the code, comparing with the truncated 22, nudges. *)
Lemma stated_policy_refuted :
  exists r,
    analyze request_22s = Some r
    /\ level r = "nudge"
    /\ StatedPolicy.stated_threshold NUDGE_THRESHOLD_SECONDS request_22s
       = 22.5%float
    /\ StatedPolicy.stated_level request_22s = "none"
    /\ level r <> StatedPolicy.stated_level request_22s.
Proof.
  eexists. split; [ vm_compute; reflexivity | ].
  repeat split; try (vm_compute; reflexivity).
  vm_compute. discriminate.
Qed.

End InterventionFacts.

(** ** Strings *)

Module StrFacts.

Local Open Scope string_scope.

Lemma mem_In (x : string) (S : list string) : Str.mem x S = true <-> In x S.
Proof.
  unfold Str.mem. rewrite existsb_exists. split.
  - intros [y [Hy Heq]]. apply String.eqb_eq in Heq. subst. exact Hy.
  - intros H. exists x. split; [ exact H | apply String.eqb_refl ].
Qed.

Lemma mem_not_In (x : string) (S : list string) :
  Str.mem x S = false <-> ~ In x S.
Proof.
  rewrite <- mem_In. destruct (Str.mem x S); split; congruence.
Qed.

Lemma substring_all (s : string) : substring 0 (String.length s) s = s.
Proof. induction s as [ | c s IH]; simpl; [ | rewrite IH ]; reflexivity. Qed.

Lemma substring_append (pre p : string) :
  substring (String.length pre) (String.length p) (pre ++ p) = p.
Proof.
  induction pre as [ | c pre IH]; simpl.
  - apply substring_all.
  - exact IH.
Qed.

Lemma length_append (a b : string) :
  String.length (a ++ b) = (String.length a + String.length b)%nat.
Proof. induction a as [ | c a IH]; simpl; [ | rewrite IH ]; reflexivity. Qed.

Lemma substring_split (s : string) (i : nat) :
  (i <= String.length s)%nat ->
  s = substring 0 i s ++ substring i (String.length s - i) s.
Proof.
  revert i. induction s as [ | c s IH]; intros i Hi; simpl in Hi.
  - assert (i = 0%nat) by lia. subst. reflexivity.
  - destruct i as [ | i]; simpl.
    + rewrite substring_all. reflexivity.
    + f_equal. apply IH. lia.
Qed.

(** [s.endswith(p)] holds exactly when [s] is some prefix followed by
    [p]. *)
Lemma endswith_spec (s p : string) :
  Str.endswith s p = true <-> exists pre, s = pre ++ p.
Proof.
  unfold Str.endswith. rewrite andb_true_iff, Nat.leb_le, String.eqb_eq.
  split.
  - intros [Hle Heq].
    exists (substring 0 (String.length s - String.length p) s).
    pose proof (substring_split s (String.length s - String.length p)) as H.
    replace (String.length s - (String.length s - String.length p))%nat
      with (String.length p) in H by lia.
    rewrite Heq in H. apply H. lia.
  - intros [pre ->]. rewrite length_append. split; [ lia | ].
    replace (String.length pre + String.length p - String.length p)%nat
      with (String.length pre) by lia.
    apply substring_append.
Qed.

Lemma is_empty_spec (s : string) : Str.is_empty s = true <-> s = "".
Proof. destruct s; simpl; split; congruence. Qed.


Lemma len_ascii (s : string) :
  Str.isascii s = true -> Str.len s = String.length s.
Proof.
  induction s as [ | c s IH]; [ reflexivity | ].
  cbn [Str.isascii Str.len String.length]. cbv zeta.
  intros H. apply andb_true_iff in H. destruct H as [Hc Hs].
  apply Nat.ltb_lt in Hc.
  replace (Nat.leb 128 (nat_of_ascii c)) with false
    by (symmetry; apply Nat.leb_gt; exact Hc).
  cbn [andb]. rewrite (IH Hs). reflexivity.
Qed.

End StrFacts.

(** ** The matcher against what a match is *)

Module RegexFacts.

Import Regex Matching.

Lemma step_spec (ok : ascii -> bool) (q q' : pos) :
  In q' (step ok q)
  <-> exists x rest, snd q = String x rest /\ ok x = true
                     /\ q' = (Some x, rest).
Proof.
  unfold step. destruct (snd q) as [ | x rest].
  - split; [ intros [] | intros [x [rest [H _]]]; discriminate H ].
  - destruct (ok x) eqn:E.
    + split.
      * intros [<- | []]. exists x, rest. auto.
      * intros [x' [rest' [H [_ ->]]]]. injection H as <- <-. left. reflexivity.
    + split; [ intros [] | ].
      intros [x' [rest' [H [Hok _]]]]. injection H as <- <-. congruence.
Qed.

(** A stretch that is not empty leaves less of the subject. *)
Lemma match_progress (r : re) (q q' : pos) :
  Match r q q' ->
  q' = q \/ (String.length (snd q') < String.length (snd q))%nat.
Proof.
  induction 1; auto; try (right; simpl; lia).
  - destruct IHMatch1 as [-> | H1]; [ exact IHMatch2 | ].
    destruct IHMatch2 as [-> | H2]; right; lia.
  - destruct IHMatch1 as [-> | H1]; [ exact IHMatch2 | ].
    destruct IHMatch2 as [-> | H2]; right; lia.
Qed.

Lemma star_iter_first (f : pos -> list pos) (n : nat) (q : pos) :
  In q (star_iter f n q).
Proof. destruct n; simpl; auto. Qed.

Lemma star_iter_more (f : pos -> list pos) (n : nat) (q q' : pos) :
  In q' (star_iter f n q) -> In q' (star_iter f (S n) q).
Proof.
  revert q q'. induction n as [ | n IH]; intros q q' H.
  - destruct H as [<- | []]. left. reflexivity.
  - cbn [star_iter] in H |- *. destruct H as [H | H]; [ left; exact H | ].
    right. apply in_flat_map in H. destruct H as [q1 [H1 H2]].
    apply in_flat_map. exists q1. split; [ exact H1 | ].
    apply IH. exact H2.
Qed.

Lemma star_iter_mono (f : pos -> list pos) (n m : nat) (q q' : pos) :
  (n <= m)%nat -> In q' (star_iter f n q) -> In q' (star_iter f m q).
Proof.
  induction 1 as [ | m Hle IH]; [ auto | ].
  intros H. apply star_iter_more, IH, H.
Qed.

(** Every end position the matcher finds is the end of a match. *)
Lemma run_sound (r : re) (q q' : pos) : In q' (run r q) -> Match r q q'.
Proof.
  revert q q'. induction r as [ | | c | | | | a IHa b IHb | a IHa b IHb
                              | a IHa | a IHa]; intros q q' H; cbn [run] in H.
  - destruct H as [<- | []]. constructor.
  - destruct H.
  - apply step_spec in H. destruct H as [x [rest [Hq [Hx ->]]]].
    destruct q as [prev s]. cbn [snd] in Hq. subst s.
    constructor. apply Ascii.eqb_eq. exact Hx.
  - apply step_spec in H. destruct H as [x [rest [Hq [Hx ->]]]].
    destruct q as [prev s]. cbn [snd] in Hq. subst s.
    constructor. exact Hx.
  - apply step_spec in H. destruct H as [x [rest [Hq [Hx ->]]]].
    destruct q as [prev s]. cbn [snd] in Hq. subst s.
    constructor. exact Hx.
  - destruct (xorb (word_before q) (word_after q)) eqn:E; [ | destruct H ].
    destruct H as [<- | []]. constructor.
    destruct (word_before q), (word_after q); simpl in E; congruence.
  - apply in_flat_map in H. destruct H as [q1 [H1 H2]].
    apply (match_seq a b q q1 q'); auto.
  - apply in_app_iff in H. destruct H as [H | H].
    + apply match_left. auto.
    + apply match_right. auto.
  - apply in_app_iff in H. destruct H as [H | [<- | []]].
    + apply match_some. auto.
    + apply match_none.
  - remember (String.length (snd q)) as n eqn:En. clear En.
    revert q q' H. induction n as [ | n IHn]; intros q q' H; cbn [star_iter] in H.
    + destruct H as [<- | []]. apply match_zero.
    + destruct H as [<- | H]; [ apply match_zero | ].
      apply in_flat_map in H. destruct H as [q1 [H1 H2]].
      apply (match_more a q q1 q'); auto.
Qed.

(** The matcher finds the end of every match. *)
Lemma run_complete (r : re) (q q' : pos) : Match r q q' -> In q' (run r q).
Proof.
  induction 1; cbn [run].
  - left. reflexivity.
  - apply step_spec. exists x, rest. cbn [snd].
    split; [ reflexivity | ]. split; [ apply Ascii.eqb_eq; assumption | ].
    reflexivity.
  - apply step_spec. exists x, rest. auto.
  - apply step_spec. exists x, rest. auto.
  - replace (xorb (word_before q) (word_after q)) with true;
      [ left; reflexivity | ].
    destruct (word_before q), (word_after q); simpl; congruence.
  - apply in_flat_map. exists q1. auto.
  - apply in_app_iff. left. assumption.
  - apply in_app_iff. right. assumption.
  - apply in_app_iff. left. assumption.
  - apply in_app_iff. right. left. reflexivity.
  - apply star_iter_first.
  - cbn [run] in IHMatch2.
    destruct (match_progress a q q1 H) as [-> | Hlt]; [ exact IHMatch2 | ].
    destruct (String.length (snd q)) as [ | n] eqn:E; [ lia | ].
    cbn [star_iter]. right. apply in_flat_map. exists q1.
    split; [ exact IHMatch1 | ].
    apply (star_iter_mono _ (String.length (snd q1))); [ lia | exact IHMatch2 ].
Qed.

Lemma matches_at_spec (r : re) (q : pos) :
  matches_at r q = true <-> exists q', Match r q q'.
Proof.
  unfold matches_at. destruct (run r q) as [ | q1 l] eqn:E.
  - split; [ discriminate | ].
    intros [q' H]. apply run_complete in H. rewrite E in H. destruct H.
  - split; [ | reflexivity ]. intros _. exists q1.
    apply run_sound. rewrite E. left. reflexivity.
Qed.

Lemma last_char_some (c : ascii) (s : string) :
  exists x, last_char (String c s) = Some x.
Proof.
  revert c. induction s as [ | d s IH]; intros c.
  - exists c. reflexivity.
  - destruct (IH d) as [x Hx]. exists x. exact Hx.
Qed.

Lemma last_char_cons (c : ascii) (s : string) :
  last_char (String c s)
  = match last_char s with Some x => Some x | None => Some c end.
Proof.
  destruct s as [ | d s]; [ reflexivity | ].
  destruct (last_char_some d s) as [x Hx]. rewrite Hx.
  change (last_char (String c (String d s))) with (last_char (String d s)).
  exact Hx.
Qed.

Lemma search_from_spec (r : re) (prev : option ascii) (s : string) :
  search_from r prev s = true
  <-> exists pre post q,
      s = (pre ++ post)%string
      /\ Match r (match last_char pre with Some x => Some x | None => prev end,
                  post) q.
Proof.
  revert prev. induction s as [ | c s IH]; intros prev; cbn [search_from].
  - rewrite orb_false_r, matches_at_spec. split.
    + intros [q H]. exists EmptyString, EmptyString, q. auto.
    + intros [pre [post [q [Hs H]]]].
      destruct pre; [ | discriminate Hs ]. simpl in Hs. subst post.
      exists q. exact H.
  - rewrite orb_true_iff, matches_at_spec, IH. split.
    + intros [[q H] | [pre [post [q [Hs H]]]]].
      * exists EmptyString, (String c s), q. auto.
      * exists (String c pre), post, q. split; [ simpl; rewrite Hs; reflexivity | ].
        rewrite last_char_cons. destruct (last_char pre); exact H.
    + intros [pre [post [q [Hs H]]]]. destruct pre as [ | d pre].
      * left. simpl in Hs. subst post. exists q. exact H.
      * right. simpl in Hs. injection Hs as <- ->.
        exists pre, post, q. split; [ reflexivity | ].
        rewrite last_char_cons in H. destruct (last_char pre); exact H.
Qed.

(** [re.search] succeeds exactly when the pattern matches somewhere in
    the subject. *)
Lemma search_found (pattern subject : string) :
  search pattern subject = true <-> Found (compile pattern) subject.
Proof.
  unfold search, Found. rewrite search_from_spec. split.
  - intros [pre [post [q [Hs H]]]]. exists pre, post, q.
    split; [ exact Hs | ]. destruct (last_char pre); exact H.
  - intros [pre [post [q [Hs H]]]]. exists pre, post, q.
    split; [ exact Hs | ]. destruct (last_char pre); exact H.
Qed.

End RegexFacts.

(** ** The context scorer *)

Module ContextFacts.

Import ContextAgent Examples.
Local Open Scope string_scope.

Lemma suffix_spec (h : string) (S : list string) :
  existsb (fun d => Str.endswith h ("." ++ d)) S = true <-> subdomain_of h S.
Proof.
  rewrite existsb_exists. unfold subdomain_of. split.
  - intros [d [Hd He]]. apply StrFacts.endswith_spec in He.
    destruct He as [pre He]. exists d, pre. split; assumption.
  - intros [d [pre [Hd He]]]. exists d. split; [ exact Hd | ].
    apply StrFacts.endswith_spec. exists pre. exact He.
Qed.

Lemma suffix_false (h : string) (S : list string) :
  existsb (fun d => Str.endswith h ("." ++ d)) S = false
  <-> ~ subdomain_of h S.
Proof.
  rewrite <- suffix_spec.
  destruct (existsb _ S); split; congruence.
Qed.

(** C5. The domain score of a hostname is one of -2.0, -0.8, -0.6, 0.0,
    0.6, 0.8 (and, [_score_domain] being a function of the hostname alone,
    the same at every call).  An absent or an empty hostname scores 0.0.
    Otherwise exact membership is decided first, in the order severe
    (-2.0), study (0.8), mixed (0.0), distraction (-0.8); a hostname in
    none of the sets is then scored as a subdomain, in the same order:
    severe -2.0, study 0.6, mixed 0.0, distraction -0.6; and 0.0 when
    nothing matches. *)
Theorem score_domain_catalogue (domain : option string) :
  let score := _score_domain domain in
  In score [(-2.0)%float; (-0.8)%float; (-0.6)%float; 0.0%float;
            0.6%float; 0.8%float]
  /\ (domain = None \/ domain = Some "" -> score = 0.0%float)
  /\ (forall h, domain = Some h -> h <> "" ->
      (listed h ADULT_DOMAINS -> score = (-2.0)%float)
      /\ (~ listed h ADULT_DOMAINS -> listed h STUDY_DOMAINS ->
          score = 0.8%float)
      /\ (~ listed h ADULT_DOMAINS -> ~ listed h STUDY_DOMAINS ->
          listed h MIXED_DOMAINS -> score = 0.0%float)
      /\ (~ listed h ADULT_DOMAINS -> ~ listed h STUDY_DOMAINS ->
          ~ listed h MIXED_DOMAINS -> listed h DISTRACTION_DOMAINS ->
          score = (-0.8)%float)
      /\ (unlisted h -> subdomain_of h ADULT_DOMAINS ->
          score = (-2.0)%float)
      /\ (unlisted h -> ~ subdomain_of h ADULT_DOMAINS ->
          subdomain_of h STUDY_DOMAINS -> score = 0.6%float)
      /\ (unlisted h -> ~ subdomain_of h ADULT_DOMAINS ->
          ~ subdomain_of h STUDY_DOMAINS ->
          subdomain_of h MIXED_DOMAINS -> score = 0.0%float)
      /\ (unlisted h -> ~ subdomain_of h ADULT_DOMAINS ->
          ~ subdomain_of h STUDY_DOMAINS ->
          ~ subdomain_of h MIXED_DOMAINS ->
          subdomain_of h DISTRACTION_DOMAINS -> score = (-0.6)%float)
      /\ (unlisted h -> ~ subdomain_of h ADULT_DOMAINS ->
          ~ subdomain_of h STUDY_DOMAINS ->
          ~ subdomain_of h MIXED_DOMAINS ->
          ~ subdomain_of h DISTRACTION_DOMAINS -> score = 0.0%float)).
Proof.
  intros score. subst score. unfold _score_domain, unlisted, listed.
  destruct domain as [h | ].
  2:{ split; [ simpl; tauto | ]. split; [ reflexivity | discriminate ]. }
  destruct (Str.is_empty h) eqn:Hempty.
  { apply StrFacts.is_empty_spec in Hempty. subst h.
    split; [ simpl; tauto | ]. split; [ reflexivity | ].
    intros h [= <-] Hne. congruence. }
  assert (Hne : h <> "").
  { intros ->. discriminate Hempty. }
  destruct (Str.mem h ADULT_DOMAINS) eqn:Ea;
    [ apply StrFacts.mem_In in Ea | apply StrFacts.mem_not_In in Ea ].
  { split; [ simpl; tauto | ]. split; [ intros [H | [= H]]; congruence | ].
    intros h' [= <-] _. repeat split; intros; tauto. }
  destruct (Str.mem h STUDY_DOMAINS) eqn:Es;
    [ apply StrFacts.mem_In in Es | apply StrFacts.mem_not_In in Es ].
  { split; [ simpl; tauto | ]. split; [ intros [H | [= H]]; congruence | ].
    intros h' [= <-] _. repeat split; intros; tauto. }
  destruct (Str.mem h MIXED_DOMAINS) eqn:Em;
    [ apply StrFacts.mem_In in Em | apply StrFacts.mem_not_In in Em ].
  { split; [ simpl; tauto | ]. split; [ intros [H | [= H]]; congruence | ].
    intros h' [= <-] _. repeat split; intros; tauto. }
  destruct (Str.mem h DISTRACTION_DOMAINS) eqn:Ed;
    [ apply StrFacts.mem_In in Ed | apply StrFacts.mem_not_In in Ed ].
  { split; [ simpl; tauto | ]. split; [ intros [H | [= H]]; congruence | ].
    intros h' [= <-] _. repeat split; intros; tauto. }
  destruct (existsb _ ADULT_DOMAINS) eqn:Sa;
    [ apply suffix_spec in Sa | apply suffix_false in Sa ].
  { split; [ simpl; tauto | ]. split; [ intros [H | [= H]]; congruence | ].
    intros h' [= <-] _. repeat split; intros; tauto. }
  destruct (existsb _ STUDY_DOMAINS) eqn:Ss;
    [ apply suffix_spec in Ss | apply suffix_false in Ss ].
  { split; [ simpl; tauto | ]. split; [ intros [H | [= H]]; congruence | ].
    intros h' [= <-] _. repeat split; intros; tauto. }
  destruct (existsb _ MIXED_DOMAINS) eqn:Sm;
    [ apply suffix_spec in Sm | apply suffix_false in Sm ].
  { split; [ simpl; tauto | ]. split; [ intros [H | [= H]]; congruence | ].
    intros h' [= <-] _. repeat split; intros; tauto. }
  destruct (existsb _ DISTRACTION_DOMAINS) eqn:Sd;
    [ apply suffix_spec in Sd | apply suffix_false in Sd ].
  { split; [ simpl; tauto | ]. split; [ intros [H | [= H]]; congruence | ].
    intros h' [= <-] _. repeat split; intros; tauto. }
  split; [ simpl; tauto | ]. split; [ intros [H | [= H]]; congruence | ].
  intros h' [= <-] _. repeat split; intros; tauto.
Qed.

(** The catalogue at work: an exact member of two sets, subdomains, and
    a hostname that merely ends like a member. *)
Example score_domain_examples :
  _score_domain (Some "ocw.mit.edu") = 0.8%float
  /\ _score_domain (Some "cs.mit.edu") = 0.6%float
  /\ _score_domain (Some "m.youtube.com") = 0.0%float
  /\ _score_domain (Some "m.facebook.com") = (-0.6)%float
  /\ _score_domain (Some "de.pornhub.com") = (-2.0)%float
  /\ _score_domain (Some "notgithub.com") = 0.0%float.
Proof. vm_compute. repeat split. Qed.

Lemma count_hits_from (keywords : list string) (title : string) (acc : Z) :
  fold_left (fun a kw => if Regex.search kw title then (a + 1)%Z else a)
            keywords acc
  = (acc + Z.of_nat (List.length (hits keywords title)))%Z.
Proof.
  revert acc. induction keywords as [ | kw rest IH]; intros acc; simpl.
  - lia.
  - rewrite IH. unfold hits. simpl.
    destruct (Regex.search kw title); simpl List.length; lia.
Qed.

Lemma count_hits_length (keywords : list string) (title : string) :
  count_hits keywords title = Z.of_nat (List.length (hits keywords title)).
Proof. unfold count_hits. rewrite count_hits_from. lia. Qed.

Lemma any_hit_spec (keywords : list string) (title : string) :
  any_hit keywords title = true
  <-> exists kw, In kw keywords /\ Regex.search kw title = true.
Proof.
  induction keywords as [ | kw rest IH]; simpl.
  - split; [ discriminate | intros [kw [[] _]] ].
  - destruct (Regex.search kw title) eqn:E.
    + split; [ intros _; exists kw; auto | reflexivity ].
    + rewrite IH. split.
      * intros [k [Hk Hs]]. exists k. auto.
      * intros [k [[<- | Hk] Hs]]; [ congruence | exists k; auto ].
Qed.

(** No pattern of the three tables matches the empty title. *)
Lemma no_hit_on_empty :
  any_hit ADULT_KEYWORDS "" = false
  /\ hits STUDY_KEYWORDS "" = [] /\ hits DISTRACTION_KEYWORDS "" = [].
Proof. vm_compute. repeat split. Qed.

Lemma count_hits_with_length (search : string -> string -> bool)
      (keywords : list string) (title : string) :
  count_hits_with search keywords title
  = Z.of_nat (List.length (filter (fun kw => search kw title) keywords)).
Proof.
  unfold count_hits_with.
  assert (H : forall acc,
             fold_left (fun a kw => if search kw title then (a + 1)%Z else a)
                       keywords acc
             = (acc + Z.of_nat (List.length
                                  (filter (fun kw => search kw title)
                                          keywords)))%Z).
  { induction keywords as [ | kw rest IH]; intros acc; simpl; [ lia | ].
    rewrite IH. destruct (search kw title); simpl List.length; lia. }
  rewrite H. lia.
Qed.

Lemma any_hit_with_spec (search : string -> string -> bool)
      (keywords : list string) (title : string) :
  any_hit_with search keywords title = true
  <-> exists kw, In kw keywords /\ search kw title = true.
Proof.
  induction keywords as [ | kw rest IH]; simpl.
  - split; [ discriminate | intros [kw [[] _]] ].
  - destruct (search kw title) eqn:E.
    + split; [ intros _; exists kw; auto | reflexivity ].
    + rewrite IH. split.
      * intros [k [Hk Hs]]. exists k. auto.
      * intros [k [[<- | Hk] Hs]]; [ congruence | exists k; auto ].
Qed.

Lemma tables_without_repeats :
  NoDup STUDY_KEYWORDS /\ NoDup DISTRACTION_KEYWORDS.
Proof.
  split.
  - replace STUDY_KEYWORDS with (nodup string_dec STUDY_KEYWORDS)
      by (vm_compute; reflexivity).
    apply NoDup_nodup.
  - replace DISTRACTION_KEYWORDS with (nodup string_dec DISTRACTION_KEYWORDS)
      by (vm_compute; reflexivity).
    apply NoDup_nodup.
Qed.

(** C6.  Whatever [re.search] answers, and so for every title: the
    regex title score is 0.0 for the empty title; otherwise it is -2.0
    as soon as a severe keyword pattern matches, whatever else matches;
    otherwise, with s the number of study patterns and d the number of
    distraction patterns that match (no pattern stands twice in a
    table), it is min(0.7, s * 0.2) when s > d, max(-0.7, d * -0.2) when
    d > s, and 0.0 on a tie.  On an ASCII title the scorer of the model
    is this one, with a pattern matching when it matches a stretch
    somewhere in the title, letters compared without regard to case; and
    the patterns of the three tables are read as the trees of
    [KeywordPatterns]. *)
Theorem score_title_regex_counts :
  (forall (search : string -> string -> bool) (title : string),
      let hit kw := search kw title = true in
      let s := Z.of_nat (List.length
                           (filter (fun kw => search kw title)
                                   STUDY_KEYWORDS)) in
      let d := Z.of_nat (List.length
                           (filter (fun kw => search kw title)
                                   DISTRACTION_KEYWORDS)) in
      let score := score_title_with search title in
      (title = "" -> score = 0.0%float)
      /\ (title <> "" ->
          (exists kw, In kw ADULT_KEYWORDS /\ hit kw) ->
          score = (-2.0)%float)
      /\ (title <> "" ->
          (forall kw, In kw ADULT_KEYWORDS -> ~ hit kw) ->
          (d < s -> score = Py.min 0.7%float (Py.of_Z s * 0.2)%float)
          /\ (s < d ->
              score = Py.max (-0.7)%float (Py.of_Z d * (-0.2))%float)
          /\ (s = d -> score = 0.0%float))%Z)
  /\ (forall title,
         Str.isascii title = true ->
         _score_title_regex title = score_title_with Regex.search title
         /\ forall kw, Regex.search kw title = true
                       <-> Matching.Found (Regex.compile kw) title)
  /\ NoDup STUDY_KEYWORDS /\ NoDup DISTRACTION_KEYWORDS
  /\ map Regex.compile STUDY_KEYWORDS = KeywordPatterns.STUDY_PATTERNS
  /\ map Regex.compile DISTRACTION_KEYWORDS
     = KeywordPatterns.DISTRACTION_PATTERNS
  /\ map Regex.compile ADULT_KEYWORDS = KeywordPatterns.ADULT_PATTERNS.
Proof.
  destruct tables_without_repeats as [Ns Nd].
  split; [ | split; [ | split; [ exact Ns | split; [ exact Nd | ] ] ] ].
  - intros search title hit s d score. subst score hit.
    unfold score_title_with. rewrite !count_hits_with_length. fold s d.
    split; [ intros ->; reflexivity | ].
    assert (Hne : title <> "" -> Str.is_empty title = false)
      by (intros H; destruct title; [ contradiction | reflexivity ]).
    split.
    + intros Ht Hsevere. rewrite (Hne Ht).
      apply any_hit_with_spec in Hsevere. rewrite Hsevere. reflexivity.
    + intros Ht Hnone. rewrite (Hne Ht).
      assert (Hno : any_hit_with search ADULT_KEYWORDS title = false).
      { destruct (any_hit_with search ADULT_KEYWORDS title) eqn:E;
          [ | reflexivity ].
        apply any_hit_with_spec in E. destruct E as [kw [Hkw H]].
        exfalso. exact (Hnone kw Hkw H). }
      rewrite Hno.
      destruct (Z.ltb_spec d s);
        [ repeat split; intros; try reflexivity; lia | ].
      destruct (Z.ltb_spec s d); repeat split; intros; try reflexivity; lia.
  - intros title _. split; [ reflexivity | ].
    intros kw. apply RegexFacts.search_found.
  - repeat split; vm_compute; reflexivity.
Qed.

Lemma score_title_regex_witness :
  _score_title_regex "XXX Lecture" = (-2.0)%float
  /\ _score_title_regex "MIT 6.006 Data Structures ALGORITHM lecture 1"
     = Py.min 0.7%float (Py.of_Z 4 * 0.2)%float.
Proof.
  destruct score_title_regex_counts as [Hscore [Hascii _]].
  split.
  - destruct (Hascii "XXX Lecture" eq_refl) as [-> _].
    destruct (Hscore Regex.search "XXX Lecture") as [_ [Hsevere _]].
    apply Hsevere; [ discriminate | ].
    exists "\b(porn|porno|pornography|xxx|nsfw|sex|camgirl|adult\s*video)s?\b".
    split; [ left; reflexivity | vm_compute; reflexivity ].
  - destruct (Hascii "MIT 6.006 Data Structures ALGORITHM lecture 1" eq_refl)
      as [-> _].
    destruct (Hscore Regex.search
                "MIT 6.006 Data Structures ALGORITHM lecture 1")
      as [_ [_ Hcount]].
    destruct Hcount as [Hstudy _].
    + discriminate.
    + intros kw [<- | []]. vm_compute. discriminate.
    + apply Hstudy. vm_compute. reflexivity.
Defined.

(** The scorer at work: four study patterns cap at 0.7, two distraction
    patterns give -0.4, a severe keyword overrides a study keyword, and
    case is ignored. *)
Example score_title_regex_examples :
  _score_title_regex "MIT 6.006 Data Structures Algorithm Lecture 1"
  = 0.7%float
  /\ _score_title_regex "Funny Cat Compilation 2024" = (-0.4)%float
  /\ _score_title_regex "xxx lecture" = (-2.0)%float
  /\ _score_title_regex "LECTURE" = 0.2%float
  /\ _score_title_regex "YouTube" = 0.0%float.
Proof. vm_compute. repeat split. Qed.

Section Scorer.

Variable urlparse_hostname : string -> option string.
Variable gemini_configured : bool.
Variable generate_content : string -> option string.

Local Abbreviation analyze :=
  (analyze urlparse_hostname gemini_configured generate_content).
Local Abbreviation title_score_of :=
  (title_score_of urlparse_hostname gemini_configured generate_content).
Local Abbreviation domain_of := (domain_of urlparse_hostname).
Local Abbreviation title_step := (title_step gemini_configured generate_content).

(** The title score does not depend on the reasons collected so far. *)
Lemma title_step_score (domain : option string) (title : string)
      (reasons reasons' : list string) :
  fst (title_step domain title reasons) = fst (title_step domain title reasons').
Proof.
  unfold title_step, ContextAgent.title_step.
  destruct (_ && gemini_configured); [ | reflexivity ].
  destruct (String.eqb _ "distraction"); [ reflexivity | ].
  destruct (String.eqb _ "study"); reflexivity.
Qed.

(** [analyze] ends in the aggregation of the domain score, the title
    score, a topic relevance and the two lists. *)
Lemma analyze_aggregate (data : Input) :
  exists topic_relevance st,
    analyze data
    = aggregate (_score_domain (domain_of data)) (title_score_of data)
                topic_relevance st.
Proof.
  unfold analyze, ContextAgent.analyze, title_score_of,
    ContextAgent.title_score_of.
  cbv zeta.
  rewrite (title_step_score _ _ _ []).
  eexists. eexists. reflexivity.
Qed.

Lemma clamp_cases (x : float) :
  clamp x = (-1)%float \/ clamp x = 1%float
  \/ (clamp x = x /\ PrimFloat.ltb (-1) x = true
      /\ PrimFloat.ltb x 1 = true).
Proof.
  unfold clamp, Py.max, Py.min.
  destruct (PrimFloat.ltb x 1) eqn:Hhi.
  - destruct (PrimFloat.ltb (-1) x) eqn:Hlo; auto.
  - right. left. reflexivity.
Qed.

(** The score of an aggregation lies in [-1, 1]. *)
Lemma aggregate_score_bounds (domain_score title_score relevance : float)
      (st : State) :
  let r := aggregate domain_score title_score relevance st in
  PrimFloat.leb (-1) (context_score r) = true
  /\ PrimFloat.leb (context_score r) 1 = true.
Proof.
  destruct st as [scores reasons]. unfold aggregate.
  destruct (PrimFloat.leb domain_score (-2) || PrimFloat.leb title_score (-2));
    cbv zeta; simpl context_score.
  - split; vm_compute; reflexivity.
  - destruct (clamp_cases (mean scores)) as [-> | [-> | [-> [Hlo Hhi]]]].
    + split; vm_compute; reflexivity.
    + split; vm_compute; reflexivity.
    + apply FloatFacts.round3_unit; assumption.
Qed.

(** C4. Whatever the request, the context score returned lies in the
    closed interval [-1.0, 1.0]. *)
Theorem context_score_in_unit_interval (data : Input) :
  PrimFloat.leb (-1.0) (context_score (analyze data)) = true
  /\ PrimFloat.leb (context_score (analyze data)) 1.0 = true.
Proof.
  destruct (analyze_aggregate data) as [relevance [st ->]].
  apply aggregate_score_bounds.
Qed.

(** C1. A domain score or a title score of -2.0 or less (the severe
    signal) forces the classification ["distraction"], the context score
    -1.0 and the confidence 1.0, whatever the topic, the session flag,
    the trajectory and the override signals are. *)
Theorem severe_signal_forces_distraction (data : Input) :
  PrimFloat.leb (_score_domain (domain_of data)) (-2.0) = true
  \/ PrimFloat.leb (title_score_of data) (-2.0) = true ->
  classification (analyze data) = "distraction"
  /\ context_score (analyze data) = (-1.0)%float
  /\ confidence (analyze data) = 1.0%float
  /\ is_adult (analyze data) = true.
Proof.
  intros H.
  destruct (analyze_aggregate data) as [relevance [[scores reasons] ->]].
  unfold aggregate.
  assert (Hsevere : PrimFloat.leb (_score_domain (domain_of data)) (-2)
                    || PrimFloat.leb (title_score_of data) (-2) = true).
  { apply orb_true_iff. exact H. }
  rewrite Hsevere. cbv zeta. simpl. repeat split.
Qed.

End Scorer.

Lemma severe_signal_witness :
  classification (analyze no_hostname false no_answer severe_page)
  = "distraction"
  /\ context_score (analyze no_hostname false no_answer severe_page)
     = (-1.0)%float
  /\ confidence (analyze no_hostname false no_answer severe_page) = 1.0%float
  /\ is_adult (analyze no_hostname false no_answer severe_page) = true.
Proof.
  apply (severe_signal_forces_distraction no_hostname false no_answer
           severe_page).
  left. vm_compute. reflexivity.
Defined.

(** C8, on the code. For the home page of youtube.com, titled "YouTube",
    with no topic, no session, no trajectory and no semantic classifier,
    both scores are 0.0, no override applies, and the classification is
    ["neutral"], not the ["distraction"] that the specification and the
    case "YouTube homepage" of [tests/test_context_override.py] ask for. *)
Theorem youtube_homepage_is_neutral
        (urlparse_hostname : string -> option string)
        (generate_content : string -> option string) :
  let r := analyze urlparse_hostname false generate_content youtube_homepage in
  _score_domain (Some "youtube.com") = 0.0%float
  /\ _score_title_regex "YouTube" = 0.0%float
  /\ classification r = "neutral"
  /\ context_score r = 0.0%float
  /\ confidence r = 0.0%float
  /\ classification r <> "distraction".
Proof.
  vm_compute. repeat split. discriminate.
Qed.

End ContextFacts.

(** ** Counters and sorting *)

Module DictFacts.

Section Sorting.

Variable A : Type.
Variable key : A -> Z.

Local Abbreviation ltb := (fun a b : A => key a <? key b).
Local Abbreviation ge := (fun a b : A => key b <= key a).

Lemma insert_desc_perm (x : A) (l : list A) :
  Permutation (Dict.insert_desc ltb x l) (x :: l).
Proof.
  induction l as [ | y l IH]; simpl.
  - reflexivity.
  - cbv beta. destruct (key x <? key y).
    + rewrite IH. apply perm_swap.
    + reflexivity.
Qed.

Lemma sorted_desc_perm (l : list A) :
  Permutation (Dict.sorted_desc ltb l) l.
Proof.
  induction l as [ | x l IH]; simpl.
  - reflexivity.
  - unfold Dict.sorted_desc in *. simpl.
    rewrite insert_desc_perm. constructor. exact IH.
Qed.

Lemma insert_desc_sorted (x : A) (l : list A) :
  StronglySorted ge l -> StronglySorted ge (Dict.insert_desc ltb x l).
Proof.
  induction l as [ | y l IH]; simpl; intros H.
  - constructor; constructor.
  - inversion H as [ | ? ? Hs Hall]; subst.
    cbv beta. destruct (key x <? key y) eqn:E.
    + apply Z.ltb_lt in E. constructor; [ apply IH, Hs | ].
      apply Forall_forall. intros z Hz.
      apply (Permutation_in _ (insert_desc_perm x l)) in Hz.
      destruct Hz as [<- | Hz]; [ lia | ].
      rewrite Forall_forall in Hall. apply Hall, Hz.
    + apply Z.ltb_ge in E. constructor; [ exact H | ].
      constructor; [ exact E | ].
      apply (Forall_impl (P := ge y)); [ | exact Hall ].
      cbv beta. intros; lia.
Qed.

Lemma sorted_desc_sorted (l : list A) :
  StronglySorted ge (Dict.sorted_desc ltb l).
Proof.
  induction l as [ | x l IH]; simpl.
  - constructor.
  - apply insert_desc_sorted, IH.
Qed.

(** What a sorted list leaves out after its first [n] elements is at
    most each of these, and they are [n]. *)
Lemma firstn_sorted_top (n : nat) (l : list A) (x : A) :
  StronglySorted ge l -> In x l -> ~ In x (firstn n l) ->
  List.length (firstn n l) = n
  /\ forall y, In y (firstn n l) -> key x <= key y.
Proof.
  revert l. induction n as [ | n IH]; intros l Hs Hin Hout.
  - split; [ reflexivity | intros y [] ].
  - destruct l as [ | a l]; [ contradiction | ]. simpl in *.
    inversion Hs as [ | ? ? Hs' Hall]; subst.
    destruct Hin as [-> | Hin]; [ tauto | ].
    destruct (IH l Hs' Hin) as [Hlen Htop]; [ tauto | ].
    split; [ lia | ].
    intros y [<- | Hy]; [ | apply Htop, Hy ].
    rewrite Forall_forall in Hall. apply (Hall x Hin).
Qed.

End Sorting.

Section Counter.

Variable K : Type.
Variable eqb : K -> K -> bool.
Hypothesis eqb_spec : forall a b, eqb a b = true <-> a = b.

Lemma eqb_refl (a : K) : eqb a a = true.
Proof. apply eqb_spec. reflexivity. Qed.

Lemma eqb_neq (a b : K) : a <> b -> eqb a b = false.
Proof.
  intros H. destruct (eqb a b) eqn:E; [ | reflexivity ].
  apply eqb_spec in E. contradiction.
Qed.

Lemma get_add_same (c : list (K * Z)) (k : K) (v : Z) :
  Dict.get eqb (Dict.add eqb c k v) k = Dict.get eqb c k + v.
Proof.
  induction c as [ | [k' n] c IH]; simpl.
  - rewrite eqb_refl. lia.
  - destruct (eqb k' k) eqn:E; simpl; rewrite E; [ reflexivity | exact IH ].
Qed.

Lemma get_add_other (c : list (K * Z)) (k k' : K) (v : Z) :
  k' <> k -> Dict.get eqb (Dict.add eqb c k v) k' = Dict.get eqb c k'.
Proof.
  intros Hne. induction c as [ | [k0 n] c IH]; simpl.
  - rewrite eqb_neq by congruence. reflexivity.
  - destruct (eqb k0 k) eqn:E; simpl.
    + apply eqb_spec in E. subst k0. rewrite eqb_neq by congruence.
      reflexivity.
    + destruct (eqb k0 k'); [ reflexivity | exact IH ].
Qed.

Lemma keys_add (c : list (K * Z)) (k k' : K) (v : Z) :
  In k' (map fst (Dict.add eqb c k v)) <-> In k' (map fst c) \/ k' = k.
Proof.
  induction c as [ | [k0 n] c IH]; simpl.
  - intuition congruence.
  - destruct (eqb k0 k) eqn:E; simpl.
    + apply eqb_spec in E. subst k0. intuition congruence.
    + rewrite IH. tauto.
Qed.

Lemma NoDup_add (c : list (K * Z)) (k : K) (v : Z) :
  NoDup (map fst c) -> NoDup (map fst (Dict.add eqb c k v)).
Proof.
  induction c as [ | [k0 n] c IH]; simpl; intros H.
  - constructor; [ intros [] | constructor ].
  - destruct (eqb k0 k) eqn:E; simpl.
    + exact H.
    + inversion H as [ | ? ? Hnot Hrest]; subst. constructor.
      * rewrite keys_add. intros [Hin | ->]; [ contradiction | ].
        rewrite eqb_refl in E. discriminate.
      * apply IH. exact Hrest.
Qed.

Lemma get_In (c : list (K * Z)) (k : K) (n : Z) :
  NoDup (map fst c) -> In (k, n) c -> Dict.get eqb c k = n.
Proof.
  induction c as [ | [k0 n0] c IH]; simpl; intros Hnd Hin; [ contradiction | ].
  inversion Hnd as [ | ? ? Hnot Hrest]; subst.
  destruct Hin as [[= -> ->] | Hin].
  - rewrite eqb_refl. reflexivity.
  - destruct (eqb k0 k) eqn:E.
    + apply eqb_spec in E. subst k0. exfalso. apply Hnot.
      apply (in_map fst) in Hin. exact Hin.
    + apply IH; assumption.
Qed.

Lemma In_get (c : list (K * Z)) (k : K) :
  In k (map fst c) -> In (k, Dict.get eqb c k) c.
Proof.
  induction c as [ | [k0 n0] c IH]; simpl; intros Hin; [ contradiction | ].
  destruct (eqb k0 k) eqn:E.
  - apply eqb_spec in E. subst. left. reflexivity.
  - right. apply IH. destruct Hin as [-> | Hin]; [ | exact Hin ].
    rewrite eqb_refl in E. discriminate.
Qed.

Lemma occurrences_cons (k x : K) (l : list K) :
  PatternAgent.occurrences eqb k (x :: l)
  = (if eqb k x then 1 else 0) + PatternAgent.occurrences eqb k l.
Proof.
  unfold PatternAgent.occurrences. simpl.
  destruct (eqb k x); simpl List.length; lia.
Qed.

Lemma occurrences_nonneg (k : K) (l : list K) :
  0 <= PatternAgent.occurrences eqb k l.
Proof. unfold PatternAgent.occurrences. lia. Qed.

Lemma occurrences_pos (k : K) (l : list K) :
  0 < PatternAgent.occurrences eqb k l <-> In k l.
Proof.
  induction l as [ | x l IH].
  - unfold PatternAgent.occurrences. simpl. split; [ lia | contradiction ].
  - rewrite occurrences_cons. simpl. pose proof (occurrences_nonneg k l).
    destruct (eqb k x) eqn:E.
    + apply eqb_spec in E. subst. split; [ auto | lia ].
    + rewrite Z.add_0_l, IH. split; [ auto | ].
      intros [-> | Hin]; [ | exact Hin ].
      rewrite eqb_refl in E. discriminate.
Qed.

Lemma get_tally (ks : list K) (c : list (K * Z)) (k : K) :
  Dict.get eqb (Dict.tally eqb ks c) k
  = Dict.get eqb c k + PatternAgent.occurrences eqb k ks.
Proof.
  revert c. induction ks as [ | x ks IH]; intros c; simpl.
  - unfold PatternAgent.occurrences. simpl. lia.
  - unfold Dict.tally in *. simpl. rewrite IH, occurrences_cons.
    destruct (eqb k x) eqn:E.
    + apply eqb_spec in E. subst x. rewrite get_add_same. lia.
    + rewrite get_add_other; [ lia | ].
      intros ->. rewrite eqb_refl in E. discriminate.
Qed.

Lemma keys_tally (ks : list K) (c : list (K * Z)) (k : K) :
  In k (map fst (Dict.tally eqb ks c)) <-> In k (map fst c) \/ In k ks.
Proof.
  revert c. induction ks as [ | x ks IH]; intros c; simpl.
  - tauto.
  - unfold Dict.tally in *. simpl. rewrite IH, keys_add. intuition congruence.
Qed.

Lemma NoDup_tally (ks : list K) (c : list (K * Z)) :
  NoDup (map fst c) -> NoDup (map fst (Dict.tally eqb ks c)).
Proof.
  revert c. induction ks as [ | x ks IH]; intros c H; simpl.
  - exact H.
  - apply IH, NoDup_add, H.
Qed.

(** A loop that counts [f i] when [p (f i)] holds is the Dict.tally eqb of the
    values that pass. *)
Lemma fold_tally {I : Type} (f : I -> K) (p : K -> bool) (ixs : list I)
      (c : list (K * Z)) :
  fold_left (fun c i => if p (f i) then Dict.add eqb c (f i) 1 else c) ixs c
  = Dict.tally eqb (filter p (map f ixs)) c.
Proof.
  revert c. induction ixs as [ | i ixs IH]; intros c; simpl.
  - reflexivity.
  - rewrite IH. destruct (p (f i)); reflexivity.
Qed.

(** Every entry of a Dict.tally eqb gives the number of occurrences of its key. *)
Lemma tally_entries (ks : list K) (k : K) (n : Z) :
  In (k, n) (Dict.tally eqb ks []) ->
  n = PatternAgent.occurrences eqb k ks /\ In k ks.
Proof.
  intros Hin.
  assert (Hnd : NoDup (map fst (Dict.tally eqb ks []))).
  { apply NoDup_tally. constructor. }
  pose proof (get_In _ _ _ Hnd Hin) as Hget.
  rewrite get_tally in Hget. simpl in Hget.
  split; [ lia | ].
  apply (in_map fst) in Hin. apply keys_tally in Hin.
  destruct Hin as [[] | Hin]. exact Hin.
Qed.

Lemma tally_complete (ks : list K) (k : K) :
  In k ks -> In (k, PatternAgent.occurrences eqb k ks) (Dict.tally eqb ks []).
Proof.
  intros Hin.
  assert (Hk : In k (map fst (Dict.tally eqb ks []))).
  { apply keys_tally. right. exact Hin. }
  apply In_get in Hk. rewrite get_tally in Hk. simpl in Hk. exact Hk.
Qed.

Lemma occurrences_filter (p : K -> bool) (k : K) (l : list K) :
  PatternAgent.occurrences eqb k (filter p l)
  = if p k then PatternAgent.occurrences eqb k l else 0.
Proof.
  induction l as [ | x l IH]; simpl.
  - destruct (p k); reflexivity.
  - destruct (p x) eqn:Ex; rewrite ?occurrences_cons, IH.
    + destruct (p k) eqn:Ek; [ reflexivity | ].
      rewrite eqb_neq; [ reflexivity | congruence ].
    + destruct (p k) eqn:Ek; [ | reflexivity ].
      rewrite eqb_neq; [ lia | congruence ].
Qed.

Lemma In_firstn {A : Type} (n : nat) (l : list A) (x : A) :
  In x (firstn n l) -> In x l.
Proof.
  intros H. rewrite <- (firstn_skipn n l). apply in_or_app. left. exact H.
Qed.

Lemma NoDup_keys_firstn (n : nat) (c : list (K * Z)) :
  NoDup (map fst c) -> NoDup (map fst (firstn n c)).
Proof.
  intros H. rewrite <- (firstn_skipn n c), map_app in H.
  apply NoDup_app_remove_r in H. exact H.
Qed.

Lemma NoDup_keys_filter (f : K * Z -> bool) (c : list (K * Z)) :
  NoDup (map fst c) -> NoDup (map fst (filter f c)).
Proof.
  induction c as [ | e c IH]; simpl; intros H; [ constructor | ].
  inversion H as [ | ? ? Hnot Hrest]; subst.
  destruct (f e); simpl; [ | apply IH, Hrest ].
  constructor; [ | apply IH, Hrest ].
  intros Hin. apply Hnot.
  apply in_map_iff in Hin. destruct Hin as [e' [He' Hin]].
  apply filter_In in Hin. apply in_map_iff. exists e'. tauto.
Qed.

(** The entries [most_common n] retains with a count of at least [m]:
    at most [n], with distinct keys, each an entry of the counter; an
    entry of the counter with such a count is left out only when [n]
    entries are retained, none of a smaller count. *)
Lemma most_common_at_least (n : nat) (m : Z) (c : list (K * Z)) :
  NoDup (map fst c) ->
  let top := filter (fun e => m <=? snd e) (Dict.most_common n c) in
  (List.length top <= n)%nat
  /\ NoDup (map fst top)
  /\ (forall e, In e top -> In e c /\ m <= snd e)
  /\ (forall e, In e c -> m <= snd e -> ~ In e top ->
      List.length top = n /\ forall e', In e' top -> snd e <= snd e').
Proof.
  intros Hnd top. unfold Dict.most_common in top.
  set (sorted := Dict.sorted_desc (fun a b : K * Z => snd a <? snd b) c)
    in top.
  assert (Hperm : Permutation sorted c) by apply (sorted_desc_perm _ snd).
  assert (Hsorted : StronglySorted (fun a b : K * Z => snd b <= snd a) sorted)
    by apply (sorted_desc_sorted _ snd).
  split; [ | split; [ | split ] ].
  - unfold top. etransitivity; [ apply filter_length_le | ].
    apply firstn_le_length.
  - unfold top. apply NoDup_keys_filter, NoDup_keys_firstn.
    apply (Permutation_NoDup (l := map fst c)); [ | exact Hnd ].
    apply Permutation_map. symmetry. exact Hperm.
  - intros e He. unfold top in He. apply filter_In in He.
    destruct He as [He Hm]. split; [ | apply Z.leb_le, Hm ].
    apply (Permutation_in _ Hperm), (In_firstn n), He.
  - intros e He Hm Hout.
    assert (Hes : In e sorted).
    { apply (Permutation_in _ (Permutation_sym Hperm)), He. }
    assert (Hnot : ~ In e (firstn n sorted)).
    { intros Hin. apply Hout. unfold top. apply filter_In.
      split; [ exact Hin | apply Z.leb_le, Hm ]. }
    destruct (firstn_sorted_top _ snd n sorted e Hsorted Hes Hnot)
      as [Hlen Htop].
    assert (Hall : filter (fun e0 : K * Z => m <=? snd e0) (firstn n sorted)
                   = firstn n sorted).
    { apply forallb_filter_id. apply forallb_forall. intros y Hy.
      apply Z.leb_le. specialize (Htop y Hy). lia. }
    unfold top. rewrite Hall. split; [ exact Hlen | exact Htop ].
Qed.

(** The keys that a Dict.tally eqb of the values passing [p] reports among its
    [n] most common with a count of at least [m]. *)
Lemma frequent_keys (p : K -> bool) (ws : list K) (m : Z) (n : nat) :
  0 < m ->
  let occ g := PatternAgent.occurrences eqb g ws in
  let G := map fst (filter (fun e => m <=? snd e)
                           (Dict.most_common n (Dict.tally eqb (filter p ws) []))) in
  (List.length G <= n)%nat
  /\ NoDup G
  /\ (forall g, In g G -> p g = true /\ m <= occ g)
  /\ (forall g, p g = true -> m <= occ g -> ~ In g G ->
      List.length G = n /\ forall g', In g' G -> occ g <= occ g').
Proof.
  intros Hm occ G.
  set (c := Dict.tally eqb (filter p ws) []) in G.
  assert (Hnd : NoDup (map fst c)) by (apply NoDup_tally; constructor).
  destruct (most_common_at_least n m c Hnd) as [Hlen [Hkeys [Hin Hout]]].
  assert (Hentry : forall g k, In (g, k) c -> p g = true /\ k = occ g).
  { intros g k Hgk. apply tally_entries in Hgk. destruct Hgk as [-> Hg].
    apply filter_In in Hg. destruct Hg as [_ Hp].
    rewrite occurrences_filter, Hp. auto. }
  split; [ | split; [ | split ] ].
  - unfold G. rewrite length_map. exact Hlen.
  - exact Hkeys.
  - intros g Hg. apply in_map_iff in Hg. destruct Hg as [[g' k] [<- Hg]].
    destruct (Hin _ Hg) as [Hc Hk]. destruct (Hentry _ _ Hc) as [Hp ->].
    auto.
  - intros g Hp Hocc Hnot.
    assert (Hc : In (g, occ g) c).
    { assert (Hg : In g (filter p ws)).
      { apply filter_In. split; [ | exact Hp ].
        apply occurrences_pos. fold (occ g). lia. }
      apply tally_complete in Hg. rewrite occurrences_filter, Hp in Hg.
      exact Hg. }
    destruct (Hout (g, occ g) Hc Hocc) as [Hfull Htop].
    { intros Hin'. apply Hnot. apply in_map_iff. exists (g, occ g). auto. }
    split; [ unfold G; rewrite length_map; exact Hfull | ].
    intros g' Hg'. apply in_map_iff in Hg'.
    destruct Hg' as [[g0 k] [<- Hg']].
    specialize (Htop _ Hg'). destruct (Hin _ Hg') as [Hc' _].
    destruct (Hentry _ _ Hc') as [_ ->]. exact Htop.
Qed.

End Counter.

End DictFacts.

Module PatternFacts.

Import PatternAgent Examples.
Local Open Scope string_scope.

Lemma pair_eqb_spec (a b : string * string) : pair_eqb a b = true <-> a = b.
Proof.
  destruct a as [a1 a2], b as [b1 b2]. unfold pair_eqb. simpl.
  rewrite andb_true_iff, !String.eqb_eq. split.
  - intros [-> ->]. reflexivity.
  - intros [= -> ->]. auto.
Qed.

Lemma triple_eqb_spec (a b : string * string * string) :
  triple_eqb a b = true <-> a = b.
Proof.
  destruct a as [a12 a3], b as [b12 b3]. unfold triple_eqb. simpl.
  rewrite andb_true_iff, pair_eqb_spec, String.eqb_eq. split.
  - intros [-> ->]. reflexivity.
  - intros [= -> ->]. auto.
Qed.

(** The index loops visit the consecutive pairs and triples. *)
Lemma pairs_by_index (l : list string) :
  map (fun i => (nth i l "", nth (i + 1) l "")) (seq 0 (List.length l - 1))
  = pairs_of l.
Proof.
  induction l as [ | a rest IH]; [ reflexivity | ].
  destruct rest as [ | b rest']; [ reflexivity | ].
  replace (List.length (a :: b :: rest') - 1)%nat
    with (S (List.length (b :: rest') - 1)) by (simpl; lia).
  rewrite <- cons_seq, <- seq_shift, map_cons, map_map.
  change (pairs_of (a :: b :: rest')) with ((a, b) :: pairs_of (b :: rest')).
  rewrite <- IH. reflexivity.
Qed.

Lemma triples_by_index (l : list string) :
  map (fun i => (nth i l "", nth (i + 1) l "", nth (i + 2) l ""))
      (seq 0 (List.length l - 2))
  = triples_of l.
Proof.
  induction l as [ | a rest IH]; [ reflexivity | ].
  destruct rest as [ | b [ | c rest']]; [ reflexivity | reflexivity | ].
  replace (List.length (a :: b :: c :: rest') - 2)%nat
    with (S (List.length (b :: c :: rest') - 2)) by (simpl; lia).
  rewrite <- cons_seq, <- seq_shift, map_cons, map_map.
  change (triples_of (a :: b :: c :: rest'))
    with ((a, b, c) :: triples_of (b :: c :: rest')).
  rewrite <- IH. reflexivity.
Qed.

Lemma count_bigrams_tally (sequence : list string) :
  count_bigrams sequence
  = Dict.tally pair_eqb (filter not_loop (pairs_of sequence)) [].
Proof.
  unfold count_bigrams. rewrite <- pairs_by_index.
  exact (DictFacts.fold_tally _ pair_eqb
           (fun i => (nth i sequence "", nth (i + 1) sequence ""))
           not_loop _ []).
Qed.

Lemma count_trigrams_tally (sequence : list string) :
  count_trigrams sequence
  = Dict.tally triple_eqb (filter varied (triples_of sequence)) [].
Proof.
  unfold count_trigrams. rewrite <- triples_by_index.
  exact (DictFacts.fold_tally _ triple_eqb
           (fun i => (nth i sequence "", nth (i + 1) sequence "",
                      nth (i + 2) sequence ""))
           varied _ []).
Qed.

Lemma not_loop_spec (p : string * string) :
  not_loop p = true <-> fst p <> snd p.
Proof.
  unfold not_loop. rewrite negb_true_iff. apply String.eqb_neq.
Qed.

Lemma varied_spec (t : string * string * string) :
  varied t = true <-> ~ collapses t.
Proof.
  destruct t as [[a b] c]. unfold varied, collapses. simpl.
  rewrite negb_true_iff, andb_false_iff, !String.eqb_neq. split.
  - intros [H | H] [Hab Hbc]; contradiction.
  - intros H. destruct (string_dec a b) as [-> | Hab]; [ | auto ].
    right. intros ->. apply H. auto.
Qed.

Lemma short_sequence (l : list string) :
  (List.length l < 2)%nat -> pairs_of l = [] /\ triples_of l = [].
Proof.
  destruct l as [ | a [ | b l]]; simpl; intros H; try lia; auto.
Qed.

Section Chains.

Variable urlparse_hostname : string -> option string.

Local Abbreviation domain_of := (domain_of urlparse_hostname).
Local Abbreviation is_distr := (is_distr urlparse_hostname).
Local Abbreviation distraction_sequence :=
  (distraction_sequence urlparse_hostname).
Local Abbreviation detect := (_detect_distraction_chains urlparse_hostname).

(** The sequence is the domains of the distraction events, in order. *)
Lemma distraction_sequence_spec (events : list Event) :
  distraction_sequence events
  = flat_map (fun ev => match domain_of ev with
                        | Some d => if is_distr ev then [d] else []
                        | None => []
                        end) events.
Proof.
  induction events as [ | ev rest IH]; [ reflexivity | ].
  cbn [PatternAgent.distraction_sequence flat_map]. rewrite <- IH.
  destruct (domain_of ev); [ | reflexivity ].
  destruct (is_distr ev); reflexivity.
Qed.

(** C7. The chain miner works on the domains of the distraction events
    alone, in their order.  It reports trigrams first, then bigrams: at
    most five of each, without repetition; every reported trigram spans
    more than one domain and occurs at least twice among the consecutive
    triples of the sequence, every reported bigram is no self-loop and
    occurs at least three times among the consecutive pairs; and such a
    trigram or bigram goes unreported only when five others, none less
    frequent, are reported.  On youtube, reddit, instagram repeated three
    times the first chain is [youtube, reddit, instagram], which occurs
    three times. *)
Theorem chains_are_frequent_ngrams :
  (forall events,
      let sequence := distraction_sequence events in
      let occ3 t := occurrences triple_eqb t (triples_of sequence) in
      let occ2 p := occurrences pair_eqb p (pairs_of sequence) in
      sequence
      = flat_map (fun ev => match domain_of ev with
                            | Some d => if is_distr ev then [d] else []
                            | None => []
                            end) events
      /\ exists T B,
          detect events = (map list_of_triple T ++ map list_of_pair B)%list
          /\ (List.length T <= 5)%nat /\ (List.length B <= 5)%nat
          /\ NoDup T /\ NoDup B
          /\ (forall t, In t T -> ~ collapses t /\ 2 <= occ3 t)
          /\ (forall p, In p B -> fst p <> snd p /\ 3 <= occ2 p)
          /\ (forall t, ~ collapses t -> 2 <= occ3 t -> ~ In t T ->
              List.length T = 5%nat
              /\ forall t', In t' T -> occ3 t <= occ3 t')
          /\ (forall p, fst p <> snd p -> 3 <= occ2 p -> ~ In p B ->
              List.length B = 5%nat
              /\ forall p', In p' B -> occ2 p <= occ2 p'))
  /\ (detect (map flagged spiral)
      = [ ["youtube"; "reddit"; "instagram"];
          ["reddit"; "instagram"; "youtube"];
          ["instagram"; "youtube"; "reddit"];
          ["youtube"; "reddit"]; ["reddit"; "instagram"] ]
      /\ hd_error (detect (map flagged spiral))
         = Some ["youtube"; "reddit"; "instagram"]
      /\ occurrences triple_eqb ("youtube", "reddit", "instagram")
                     (triples_of spiral) = 3
      /\ hd_error (detect (map unflagged spiral_com))
         = Some ["youtube.com"; "reddit.com"; "instagram.com"]).
Proof.
  split; [ | vm_compute; repeat split ].
  intros events sequence occ3 occ2.
  split; [ apply distraction_sequence_spec | ].
  unfold detect, _detect_distraction_chains.
  fold distraction_sequence. fold sequence. cbv zeta.
  destruct (Nat.ltb_spec (List.length sequence) 2) as [Hshort | Hlong].
  - destruct (short_sequence sequence Hshort) as [Hp Ht].
    exists [], []. simpl.
    repeat (split; [ solve [ reflexivity | lia | constructor
                           | intros ? [] ] | ]).
    unfold occ3, occ2. rewrite Hp, Ht. unfold occurrences. simpl.
    split; intros; lia.
  - rewrite count_trigrams_tally, count_bigrams_tally.
    rewrite <- !(map_map fst).
    destruct (DictFacts.frequent_keys _ triple_eqb triple_eqb_spec varied
                (triples_of sequence) 2 5 ltac:(lia))
      as [HlenT [HndT [HinT HoutT]]].
    destruct (DictFacts.frequent_keys _ pair_eqb pair_eqb_spec not_loop
                (pairs_of sequence) 3 5 ltac:(lia))
      as [HlenB [HndB [HinB HoutB]]].
    eexists. eexists. split; [ reflexivity | ].
    repeat (split; [ assumption | ]).
    split; [ | split; [ | split ] ].
    + intros t Ht. destruct (HinT t Ht) as [Hv Ho].
      apply varied_spec in Hv. auto.
    + intros p Hp. destruct (HinB p Hp) as [Hl Ho].
      apply not_loop_spec in Hl. auto.
    + intros t Ht. apply HoutT. apply varied_spec, Ht.
    + intros p Hp. apply HoutB. apply not_loop_spec, Hp.
Qed.

End Chains.

(** C9. Without events (an empty list, or no list at all) the analysis
    returns, without raising, the result with no patterns, no hourly
    vulnerability, no domain risk scores and no chains. *)
Theorem empty_history_empty_result
        (urlparse_hostname : string -> option string)
        (fromisoformat_hour : string -> option Z) :
  analyze urlparse_hostname fromisoformat_hour (Some []) = Some empty_result
  /\ analyze urlparse_hostname fromisoformat_hour None = Some empty_result
  /\ patterns empty_result = []
  /\ hourly_vulnerability empty_result = []
  /\ domain_risk_scores empty_result = []
  /\ distraction_chains empty_result = [].
Proof. repeat split. Qed.

End PatternFacts.

(** ** Decisions, messages and thresholds *)

Module DecisionFacts.

Import Config InterventionAgent Examples FloatFacts InterventionFacts Variants.
Local Open Scope string_scope.

(** The index of a message is always inside its pool. *)
Lemma pick_in_pool (pool : list (string -> string)) (i : Z) (d : string) :
  pool <> [] ->
  exists f, nth_error pool (Z.to_nat (i mod Z.of_nat (List.length pool))) = Some f
            /\ pick pool i d = f d.
Proof.
  intros Hne. unfold pick.
  set (n := Z.of_nat (List.length pool)).
  assert (Hn : 0 < n).
  { subst n. destruct pool; [ contradiction | simpl List.length; lia ]. }
  pose proof (Z.mod_pos_bound i n Hn) as Hb.
  assert (Hlt : (Z.to_nat (i mod n) < List.length pool)%nat) by lia.
  destruct (nth_error pool (Z.to_nat (i mod n))) as [f | ] eqn:E.
  - exists f. split; [ reflexivity | ].
    rewrite (nth_error_nth _ _ _ E). reflexivity.
  - apply nth_error_None in E. lia.
Qed.

(** Whenever the agent answers, the message is empty for level "none" and
    otherwise a template of the level's pool, chosen by the count of
    earlier interventions modulo the size of the pool (a negative count
    included), with the formatted dwell time filled in. *)
Theorem message_from_level_pool (data : Input) (r : Decision) :
  analyze data = Some r ->
  let d := _format_duration (time_on_current_seconds data) in
  let i := interventions_today data in
  let chosen pool :=
    exists f, nth_error pool (Z.to_nat (i mod Z.of_nat (List.length pool)))
              = Some f /\ message r = f d in
  (level r = "none" -> message r = "")
  /\ (level r = "nudge" -> chosen NUDGE_MESSAGES)
  /\ (level r = "warn" -> chosen WARN_MESSAGES)
  /\ (level r = "soft_block" -> chosen SOFT_BLOCK_MESSAGES)
  /\ (level r = "hard_block" -> chosen HARD_BLOCK_MESSAGES)
  /\ In (level r) ["none"; "nudge"; "warn"; "soft_block"; "hard_block"].
Proof.
  intros H d i chosen. unfold analyze in H.
  destruct (no_intervention_needed data).
  { injection H as <-. simpl. repeat split; try discriminate; auto. }
  destruct (adjusted_thresholds data) as [th | ]; [ | discriminate ].
  fold d i in H.
  repeat match type of H with
         | (if ?c then _ else _) = _ => destruct c
         end;
    injection H as <-; cbn [level message]; subst chosen; cbv beta;
    (repeat split; try discriminate; try intros _;
     try (apply pick_in_pool; discriminate); simpl; auto 10).
Qed.

(** An answer carries one of the five levels of [INTERVENTION_LEVELS];
    the intervention flag and the urgency follow the level, an
    intervening level fixes the cooldown, and a decision not to intervene
    asks for a re-check after at least five seconds. *)
Theorem decision_follows_level (data : Input) (r : Decision) :
  analyze data = Some r ->
  In (level r, should_intervene r, urgency r)
     [ ("none", false, 0.0%float); ("nudge", true, 0.3%float);
       ("warn", true, 0.6%float); ("soft_block", true, 0.8%float);
       ("hard_block", true, 1.0%float) ]
  /\ (should_intervene r = true ->
      In (level r, cooldown_seconds r)
         [ ("nudge", 60); ("warn", 30); ("soft_block", 15); ("hard_block", 0) ])
  /\ (should_intervene r = false -> 5 <= cooldown_seconds r)
  /\ (exists k, level_rank (level r) = Some k
                /\ (should_intervene r = true <-> 0 < k)).
Proof.
  intros H. unfold analyze in H.
  destruct (no_intervention_needed data).
  { injection H as <-. simpl. split; [ auto | ]. split; [ discriminate | ].
    split; [ lia | ]. exists 0. split; [ reflexivity | ].
    split; [ discriminate | lia ]. }
  destruct (adjusted_thresholds data) as [th | ]; [ | discriminate ].
  repeat match type of H with
         | (if ?c then _ else _) = _ => destruct c
         end;
    injection H as <-;
    cbn [level should_intervene urgency cooldown_seconds];
    (split; [ simpl; auto 10 | ]);
    (split; [ try discriminate; intros _; simpl; auto 10 | ]);
    (split; [ try discriminate; intros _; lia | ]);
    eexists; (split; [ reflexivity | ]); split; try discriminate; try lia;
    reflexivity.
Qed.

(** When a confident distraction is not yet answered with an
    intervention, the cooldown of the answer leads to one: the same
    request, asked again after the cooldown has been spent on the page,
    intervenes. *)
Theorem recheck_after_cooldown (data : Input) (c : ContextFields)
        (x : float) (r : Decision) :
  context_result data = Some c ->
  cf_classification c = Some "distraction" ->
  cf_confidence c = Some x ->
  PrimFloat.leb 0.3 x = true ->
  analyze data = Some r ->
  should_intervene r = false ->
  time_on_current_seconds data < time_on_current_seconds data + cooldown_seconds r
  /\ exists r',
      analyze (with_time data (time_on_current_seconds data + cooldown_seconds r))
      = Some r'
      /\ should_intervene r' = true.
Proof.
  intros Hc Hcls Hconf Hx Hr Hno.
  assert (Hgate : forall t, no_intervention_needed (with_time data t) = false).
  { intros t. apply (gate_open (with_time data t) c x); assumption. }
  pose proof (gate_open data c x Hc Hcls Hconf Hx) as Hg.
  unfold analyze in *. rewrite Hgate, thresholds_with_time. rewrite Hg in Hr.
  destruct (adjusted_thresholds data) as [th | ]; [ | discriminate ].
  simpl time_on_current_seconds.
  set (t := time_on_current_seconds data) in *.
  repeat match type of Hr with
         | (if ?c then _ else _) = _ => destruct c eqn:?
         end;
    injection Hr as <-; try discriminate.
  cbn [cooldown_seconds]. split; [ lia | ].
  split_leb; eexists; (split; [ reflexivity | ]); try reflexivity.
  exfalso. lia.
Qed.

Lemma session_tight_checked :
  forallb session_tight_ok (seq 0 (Z.to_nat 2404)) = true.
Proof. vm_compute. reflexivity. Qed.

Lemma session_tight (n : Z) : 0 <= n <= 2403 -> session_scaled n <= n.
Proof.
  intros Hn. pose proof session_tight_checked as H.
  rewrite forallb_forall in H. specialize (H (Z.to_nat n)).
  assert (Hin : In (Z.to_nat n) (seq 0 (Z.to_nat 2404)))
    by (apply in_seq; lia).
  specialize (H Hin). unfold session_tight_ok in H.
  rewrite Z2Nat.id in H by lia. apply Z.leb_le in H. exact H.
Qed.

(** The thresholds of a risk of [0, 1], out of a session and in one. *)
Lemma unit_thresholds (risk : float) :
  PrimFloat.leb 0 risk = true -> PrimFloat.leb risk 1 = true ->
  exists n w s h,
    (14 <= n <= 2401 /\ 14 <= w <= 2401 /\ 14 <= s <= 2401 /\ 14 <= h <= 2401)
    /\ thresholds_for risk false
       = Some {| adjusted_nudge := n; adjusted_warn := w;
                 adjusted_soft := s; adjusted_hard := h |}
    /\ thresholds_for risk true
       = Some {| adjusted_nudge := session_scaled n;
                 adjusted_warn := session_scaled w;
                 adjusted_soft := session_scaled s;
                 adjusted_hard := session_scaled h |}.
Proof.
  intros Hlo Hhi. unfold thresholds_for.
  destruct (multiplier_shape risk Hlo Hhi) as [mm [em [Hm [Hem Hmm]]]].
  set (m := Py.max 0.5%float (1.0 - (risk * 0.5))%float) in *.
  destruct (scaled_near NUDGE_THRESHOLD_SECONDS m mm em
              ltac:(simpl; auto) Hm Hem Hmm) as [n [-> Hn]].
  destruct (scaled_near WARN_THRESHOLD_SECONDS m mm em
              ltac:(simpl; auto) Hm Hem Hmm) as [w [-> Hw]].
  destruct (scaled_near SOFT_BLOCK_THRESHOLD_SECONDS m mm em
              ltac:(simpl; auto 6) Hm Hem Hmm) as [s [-> Hs]].
  destruct (scaled_near HARD_BLOCK_THRESHOLD_SECONDS m mm em
              ltac:(simpl; auto 6) Hm Hem Hmm) as [h [-> Hh]].
  unfold NUDGE_THRESHOLD_SECONDS, WARN_THRESHOLD_SECONDS,
    SOFT_BLOCK_THRESHOLD_SECONDS, HARD_BLOCK_THRESHOLD_SECONDS in *.
  assert (HQ : 0 < 2 ^ (- em)) by (apply pow2_pos; lia).
  assert (HQ1 : 2 ^ (- em) <= 2 * Z.pos mm).
  { assert (2 ^ (- em) <= 2 ^ 53) by (apply Z.pow_le_mono_r; lia).
    change (2 ^ 53) with (2 * 2 ^ 52) in *. lia. }
  assert (HQ2 : Z.pos mm <= 4 * 2 ^ (- em)).
  { replace (2 - em) with (2 + - em) in Hmm by lia.
    rewrite Z.pow_add_r in Hmm by lia. change (2 ^ 2) with 4 in Hmm. lia. }
  destruct (exact_products_apart (Z.pos mm) (2 ^ (- em)) HQ HQ1 HQ2)
    as [H15 [H45 [H90 [H150 H2400]]]].
  exists n, w, s, h. split; [ lia | ]. split; [ reflexivity | ].
  destruct (session_step n ltac:(lia)) as [-> _].
  destruct (session_step w ltac:(lia)) as [-> _].
  destruct (session_step s ltac:(lia)) as [-> _].
  destruct (session_step h ltac:(lia)) as [-> _].
  reflexivity.
Qed.

(** For a risk score of [0, 1], an active study session never loosens
    the policy: each of the four thresholds in a session is at most the
    threshold out of one, and so a confident distraction is answered in a
    session with a level at least as high as out of it. *)
Theorem session_never_loosens (data : Input) (c : ContextFields) (x : float) :
  context_result data = Some c ->
  cf_classification c = Some "distraction" ->
  cf_confidence c = Some x ->
  PrimFloat.leb 0.3 x = true ->
  PrimFloat.leb 0 (domain_risk_of data) = true ->
  PrimFloat.leb (domain_risk_of data) 1 = true ->
  exists off on r_off r_on k_off k_on,
    adjusted_thresholds (with_session data false) = Some off
    /\ adjusted_thresholds (with_session data true) = Some on
    /\ adjusted_nudge on <= adjusted_nudge off
    /\ adjusted_warn on <= adjusted_warn off
    /\ adjusted_soft on <= adjusted_soft off
    /\ adjusted_hard on <= adjusted_hard off
    /\ analyze (with_session data false) = Some r_off
    /\ analyze (with_session data true) = Some r_on
    /\ level_rank (level r_off) = Some k_off
    /\ level_rank (level r_on) = Some k_on
    /\ k_off <= k_on.
Proof.
  intros Hc Hcls Hconf Hx Hlo Hhi.
  assert (Hgate : forall b, no_intervention_needed (with_session data b) = false).
  { intros b. apply (gate_open (with_session data b) c x); assumption. }
  destruct (unit_thresholds _ Hlo Hhi) as [n [w [s [h [Hb [Hoff Hon]]]]]].
  pose proof (session_tight n ltac:(lia)).
  pose proof (session_tight w ltac:(lia)).
  pose proof (session_tight s ltac:(lia)).
  pose proof (session_tight h ltac:(lia)).
  unfold analyze. rewrite !Hgate.
  unfold adjusted_thresholds.
  change (domain_risk_of (with_session data false)) with (domain_risk_of data).
  change (domain_risk_of (with_session data true)) with (domain_risk_of data).
  cbn [session_active with_session]. rewrite Hoff, Hon.
  do 2 eexists.
  cbn [adjusted_nudge adjusted_warn adjusted_soft adjusted_hard
       time_on_current_seconds with_session].
  split_leb; do 4 eexists;
    (split; [ reflexivity | ]); (split; [ reflexivity | ]);
    (split; [ assumption | ]); (split; [ assumption | ]);
    (split; [ assumption | ]); (split; [ assumption | ]);
    (split; [ reflexivity | ]); (split; [ reflexivity | ]);
    (split; [ reflexivity | ]); (split; [ reflexivity | ]); lia.
Qed.

Lemma risk_steps_checked (session : bool) :
  forallb (risk_step_ok session) (seq 0 1000) = true.
Proof. destruct session; vm_compute; reflexivity. Qed.

Lemma tighter_spec (a b : Thresholds) :
  tighter a b = true
  <-> adjusted_nudge a <= adjusted_nudge b
      /\ adjusted_warn a <= adjusted_warn b
      /\ adjusted_soft a <= adjusted_soft b
      /\ adjusted_hard a <= adjusted_hard b.
Proof.
  unfold tighter. rewrite !andb_true_iff, !Z.leb_le. tauto.
Qed.

Lemma tighter_trans (a b c : Thresholds) :
  tighter a b = true -> tighter b c = true -> tighter a c = true.
Proof. rewrite !tighter_spec. lia. Qed.

Lemma risk_step (session : bool) (k : Z) :
  0 <= k < 1000 ->
  exists a b,
    thresholds_for (milli_risk k) session = Some a
    /\ thresholds_for (milli_risk (k + 1)) session = Some b
    /\ tighter b a = true /\ tighter (halved session) b = true
    /\ tighter a (full session) = true.
Proof.
  intros Hk. pose proof (risk_steps_checked session) as H.
  rewrite forallb_forall in H. specialize (H (Z.to_nat k)).
  assert (Hin : In (Z.to_nat k) (seq 0 1000)) by (apply in_seq; lia).
  specialize (H Hin). unfold risk_step_ok in H.
  rewrite Z2Nat.id in H by lia.
  destruct (thresholds_for (milli_risk k) session) as [a | ];
    [ | discriminate ].
  destruct (thresholds_for (milli_risk (k + 1)) session) as [b | ];
    [ | discriminate ].
  apply andb_true_iff in H. destruct H as [H H3].
  apply andb_true_iff in H. destruct H as [H1 H2].
  exists a, b. auto.
Qed.

Lemma risk_steps (session : bool) (d : nat) (j : Z) :
  0 <= j -> j + Z.of_nat d <= 1000 -> (0 < d)%nat ->
  exists a b,
    thresholds_for (milli_risk j) session = Some a
    /\ thresholds_for (milli_risk (j + Z.of_nat d)) session = Some b
    /\ tighter b a = true /\ tighter (halved session) b = true
    /\ tighter a (full session) = true.
Proof.
  induction d as [ | d IH]; intros Hj Hd Hpos; [ lia | ].
  destruct d as [ | d'].
  - replace (j + Z.of_nat 1) with (j + 1) by lia. apply risk_step. lia.
  - destruct (IH Hj ltac:(lia) ltac:(lia)) as [a [b [Ha [Hb [H1 [H2 H3]]]]]].
    destruct (risk_step session (j + Z.of_nat (S d')) ltac:(lia))
      as [b' [c [Hb' [Hc [H4 [H5 H6]]]]]].
    rewrite Hb in Hb'. injection Hb' as <-.
    replace (j + Z.of_nat (S (S d'))) with (j + Z.of_nat (S d') + 1) by lia.
    exists a, c. repeat (split; [ assumption | ]).
    split; [ apply (tighter_trans c b a); assumption | ]. auto.
Qed.

Lemma risk_point (session : bool) (k : Z) :
  0 <= k <= 1000 ->
  exists a,
    thresholds_for (milli_risk k) session = Some a
    /\ tighter (halved session) a = true
    /\ tighter a (full session) = true.
Proof.
  intros Hk. destruct (Z.eq_dec k 0) as [-> | Hne].
  - destruct (risk_step session 0 ltac:(lia)) as [a [b [Ha [Hb [H1 [H2 H3]]]]]].
    exists a. repeat split; try assumption.
    apply (tighter_trans _ b a); assumption.
  - destruct (risk_step session (k - 1) ltac:(lia))
      as [a [b [Ha [Hb [H1 [H2 H3]]]]]].
    replace (k - 1 + 1) with k in Hb by lia.
    exists b. repeat split; try assumption.
    apply (tighter_trans _ a); assumption.
Qed.

(** Higher-risk domains get tighter thresholds.  Over the risk scores of
    three decimals in [0, 1] (the scores [PatternAgent] rounds to), in a
    session or out of one: the four thresholds exist, none of them grows
    when the risk grows, and all of them lie between the thresholds of
    risk 1 (15, 60, 150, 300; in a session 10, 42, 105, 210) and those
    of risk 0 (30, 120, 300, 600; in a session 21, 84, 210, 420). *)
Theorem higher_risk_tighter_thresholds (session : bool) (j k : Z) :
  0 <= j <= k -> k <= 1000 ->
  exists a b,
    thresholds_for (milli_risk j) session = Some a
    /\ thresholds_for (milli_risk k) session = Some b
    /\ tighter b a = true
    /\ tighter (halved session) b = true
    /\ tighter a (full session) = true
    /\ thresholds_for (milli_risk 0) session = Some (full session)
    /\ thresholds_for (milli_risk 1000) session = Some (halved session).
Proof.
  intros Hj Hk.
  assert (Hends : thresholds_for (milli_risk 0) session = Some (full session)
                  /\ thresholds_for (milli_risk 1000) session
                     = Some (halved session)).
  { destruct session; split; vm_compute; reflexivity. }
  destruct (Z.eq_dec j k) as [-> | Hne].
  - destruct (risk_point session k ltac:(lia)) as [a [Ha [H1 H2]]].
    exists a, a. repeat (split; [ assumption | ]).
    split; [ apply tighter_spec; lia | ]. auto.
  - destruct (risk_steps session (Z.to_nat (k - j)) j ltac:(lia) ltac:(lia)
                ltac:(lia)) as [a [b [Ha [Hb [H1 [H2 H3]]]]]].
    rewrite Z2Nat.id in Hb by lia.
    replace (j + (k - j)) with k in Hb by lia.
    exists a, b. repeat (split; [ assumption | ]). exact Hends.
Qed.

End DecisionFacts.

(** ** Risks of three decimals *)

Module GridFacts.

Import FloatFacts Variants Grid.

Lemma unit_risks_checked : forallb unit_risk (seq 0 1001) = true.
Proof. vm_compute. reflexivity. Qed.

(** A risk on the grid lies in [0, 1]. *)
Lemma milli_risk_unit (k : Z) :
  0 <= k <= 1000 ->
  PrimFloat.leb 0 (milli_risk k) = true
  /\ PrimFloat.leb (milli_risk k) 1 = true.
Proof.
  intros Hk. pose proof unit_risks_checked as H.
  rewrite forallb_forall in H. specialize (H (Z.to_nat k)).
  assert (Hin : In (Z.to_nat k) (seq 0 1001)) by (apply in_seq; lia).
  specialize (H Hin). unfold unit_risk in H.
  rewrite Z2Nat.id in H by lia.
  apply andb_true_iff in H. exact H.
Qed.

Lemma div_half_even_unit (n d : Z) :
  0 < d -> 0 <= n <= 1000 * d -> 0 <= Py.div_half_even n d <= 1000.
Proof.
  intros Hd Hn.
  destruct (Z.eq_dec n (1000 * d)) as [-> | Hne].
  - unfold Py.div_half_even.
    rewrite Z.div_mul, Z.mod_mul by lia.
    replace (2 * 0 <? d) with true by (symmetry; apply Z.ltb_lt; lia). lia.
  - apply div_half_even_bound; lia.
Qed.

(** Rounding a number of [0, 1] to three places gives a number of the
    grid. *)
Lemma round3_grid (x : float) :
  Py.sign_of (Prim2SF x) = false -> Py.within (Prim2SF x) 0 ->
  exists k, 0 <= k <= 1000 /\ Py.round3 x = milli_risk k.
Proof.
  intros Hs Hw. unfold Py.round3.
  pose proof (Prim2SF_valid x) as V.
  pose proof (SF2Prim_Prim2SF x) as Hx.
  destruct (Prim2SF x) as [s | s | | s m e] eqn:E;
    cbn [Py.within Py.sign_of] in Hs, Hw; try contradiction.
  - subst s. exists 0. split; [ lia | ]. rewrite <- Hx. reflexivity.
  - subst s. destruct Hw as [He Hm].
    destruct (Z.leb_spec 0 e) as [Hpos | Hneg].
    + exfalso. assert (e = 0) by lia. subst e.
      change (2 ^ (0 - 0)) with 1 in Hm.
      assert (m = 1%positive) by lia. subst m. discriminate V.
    + exists (Py.milli_of_spec (S754_finite false m e)).
      split; [ | reflexivity ].
      unfold Py.milli_of_spec. apply div_half_even_unit.
      * apply Z.pow_pos_nonneg; lia.
      * rewrite Z.sub_0_l in Hm. lia.
Qed.

End GridFacts.

(** ** The result of the context agent *)

Module ResultFacts.

Import ContextAgent FloatFacts Variants Grid GridFacts.
Local Open Scope string_scope.

Lemma abs_within (x : float) (k : Z) :
  Py.within (Prim2SF x) k ->
  Py.within (Prim2SF (PrimFloat.abs x)) k
  /\ Py.sign_of (Prim2SF (PrimFloat.abs x)) = false.
Proof.
  intros H. rewrite abs_spec.
  destruct (Prim2SF x); simpl in *; auto.
Qed.

(** A number strictly between -1 and 1 is within 2^0. *)
Lemma open_unit_within (x : float) :
  PrimFloat.ltb (-1) x = true -> PrimFloat.ltb x 1 = true ->
  Py.within (Prim2SF x) 0.
Proof.
  intros Hlo Hhi.
  destruct (Prim2SF x) as [s | s | | s m e] eqn:E; cbn [Py.within].
  - exact I.
  - rewrite ltb_spec, E in Hlo, Hhi. rewrite one_spec in Hhi.
    rewrite minus_one_spec in Hlo. destruct s; discriminate.
  - rewrite ltb_spec, E in Hhi. discriminate.
  - assert (Hm : e < 0 /\ Z.pos m < 2 ^ (- e)).
    { destruct s; [ apply (above_minus_one x) | apply (below_one x) ];
        assumption. }
    rewrite Z.sub_0_l. lia.
Qed.

(** A number that is not negative and below 1 is within 2^0. *)
Lemma below_one_within (y : float) :
  Py.sign_of (Prim2SF y) = false -> PrimFloat.ltb y 1 = true ->
  Py.within (Prim2SF y) 0.
Proof.
  intros Hs Hhi.
  destruct (Prim2SF y) as [s | s | | s m e] eqn:E; cbn [Py.within Py.sign_of] in *.
  - exact I.
  - subst s. rewrite ltb_spec, E, one_spec in Hhi. discriminate.
  - rewrite ltb_spec, E in Hhi. discriminate.
  - subst s. destruct (below_one y m e E Hhi). rewrite Z.sub_0_l. lia.
Qed.

Lemma three_halves_spec :
  Prim2SF 1.5%float = S754_finite false 6755399441055744 (-52).
Proof. reflexivity. Qed.

(** The confidence of a clamped score is a number of the grid. *)
Lemma confidence_grid (x : float) :
  exists k,
    0 <= k <= 1000
    /\ Py.round3 (Py.min 1.0 (PrimFloat.abs (clamp x) * 1.5)%float)
       = milli_risk k.
Proof.
  destruct (ContextFacts.clamp_cases x) as [-> | [-> | [-> [Hlo Hhi]]]].
  - exists 1000. split; [ lia | ]. vm_compute. reflexivity.
  - exists 1000. split; [ lia | ]. vm_compute. reflexivity.
  - pose proof (open_unit_within x Hlo Hhi) as Hw.
    destruct (abs_within x 0 Hw) as [Ha Hsa].
    assert (Hc : Py.within (Prim2SF 1.5%float) 1).
    { rewrite three_halves_spec. simpl. split; [ lia | ].
      change (2 ^ (1 - -52)) with 9007199254740992. lia. }
    destruct (mul_within (PrimFloat.abs x) 1.5%float 0 1 Ha Hc
                ltac:(lia) ltac:(lia)) as [_ Hsy].
    rewrite Hsa, three_halves_spec in Hsy. simpl in Hsy.
    unfold Py.min.
    destruct (PrimFloat.ltb (PrimFloat.abs x * 1.5) 1.0) eqn:Hy.
    + apply round3_grid; [ exact Hsy | ].
      apply below_one_within; assumption.
    + exists 1000. split; [ lia | ]. vm_compute. reflexivity.
Qed.

Section Result.

Variable urlparse_hostname : string -> option string.
Variable gemini_configured : bool.
Variable generate_content : string -> option string.

Local Abbreviation analyze :=
  (analyze urlparse_hostname gemini_configured generate_content).

(** Whatever the request, the classification is one of the three labels
    and the confidence returned lies in [0.0, 1.0]. *)
Theorem confidence_in_unit_interval (data : Input) :
  In (classification (analyze data)) ["study"; "distraction"; "neutral"]
  /\ PrimFloat.leb 0.0 (confidence (analyze data)) = true
  /\ PrimFloat.leb (confidence (analyze data)) 1.0 = true.
Proof.
  destruct (ContextFacts.analyze_aggregate urlparse_hostname gemini_configured
              generate_content data) as [relevance [[scores reasons] ->]].
  unfold aggregate.
  destruct (PrimFloat.leb _ (-2) || PrimFloat.leb _ (-2));
    cbv zeta; cbn [classification confidence].
  - split; [ simpl; auto | ]. split; vm_compute; reflexivity.
  - split.
    + destruct (Py.gtb _ _); [ simpl; auto | ].
      destruct (PrimFloat.ltb _ _); simpl; auto.
    + destruct (confidence_grid (mean scores)) as [k [Hk ->]].
      apply milli_risk_unit. exact Hk.
Qed.


(** Every step after the second only appends to the reasons. *)
Lemma later_steps_append (data : Input) (domain_score title_score : float)
      (st : State) :
  let st3 := override_step (domain_of urlparse_hostname data) domain_score
                           title_score st in
  let relevant := topic_step (study_topic data) (title_of data) domain_score
                             st3 in
  let st5 := session_step (session_active data) domain_score title_score
                          (snd relevant) in
  let st6 := trajectory_step (recent_domains data) st5 in
  exists more,
    reasons (aggregate domain_score title_score (fst relevant) st6)
    = (snd st ++ more)%list.
Proof.
  destruct st as [scores rs]. cbv zeta.
  unfold override_step, topic_step, session_step, trajectory_step, aggregate,
    append.
  repeat first
    [ progress cbn [fst snd reasons]
    | match goal with
      | |- context [ if ?c then _ else _ ] => destruct c
      | |- context [ match ?o with Some _ => _ | None => _ end ] =>
          destruct o
      end ];
    rewrite <- ?app_assoc;
    try (eexists; reflexivity);
    exists []; rewrite app_nil_r; reflexivity.
Qed.

(** On a domain that scores 0.0 (a mixed or an unknown one, or none),
    with the semantic classifier not configured, no reason has been
    recorded when the title is looked at, and the test for the keyword
    reason then takes its [else True] branch: the first reason returned
    is "Page title contains study-related keywords", whatever the
    title is. *)
Theorem study_reason_on_unscored_domain (other : string -> option string)
        (data : Input) :
  _score_domain (domain_of urlparse_hostname data) = 0.0%float ->
  hd_error (reasons (ContextAgent.analyze urlparse_hostname false other data))
  = Some "Page title contains study-related keywords".
Proof.
  intros H0. unfold ContextAgent.analyze. cbv zeta. rewrite H0.
  unfold title_step. rewrite andb_false_r.
  unfold domain_step. cbn [fst snd].
  change (Py.gtb 0 0) with false. change (PrimFloat.ltb 0 0) with false.
  cbn iota. cbn [fst snd].
  unfold keyword_step, keyword_reason_due. cbn [append app].
  destruct (later_steps_append data 0.0%float
              (_score_title_regex (title_of data))
              ([0.0%float; _score_title_regex (title_of data)],
               ["Page title contains study-related keywords"]))
    as [more Hmore].
  cbv zeta in Hmore. unfold append in Hmore. cbn [app] in Hmore.
  rewrite Hmore. reflexivity.
Qed.

End Result.

End ResultFacts.

(** ** The trajectory of the recent domains *)

Module TrajectoryFacts.

Import ContextAgent Trajectory.
Local Open Scope string_scope.

Lemma mark_lists_complete (ms : list mark) :
  In ms (mark_lists (List.length ms)).
Proof.
  induction ms as [ | m ms IH]; [ simpl; auto | ].
  cbn [List.length mark_lists]. apply in_flat_map.
  exists ms. split; [ exact IH | ].
  destruct m; simpl; auto.
Qed.

Lemma means_checked :
  forallb (fun n => forallb mean_ok (mark_lists n)) (seq 0 6) = true.
Proof. vm_compute. reflexivity. Qed.

Lemma mean_checked (ms : list mark) :
  (List.length ms <= 5)%nat -> mean_ok ms = true.
Proof.
  intros Hlen. pose proof means_checked as H.
  rewrite forallb_forall in H.
  specialize (H (List.length ms) ltac:(apply in_seq; lia)).
  rewrite forallb_forall in H. apply H. apply mark_lists_complete.
Qed.

(** The score is the weighted mean of the marks of the last five
    domains. *)
Lemma score_trajectory_marks (recent : list string) :
  _score_trajectory recent
  = weighted_mean
      (map mark_value
           (map domain_mark (skipn (List.length recent - 5) recent))).
Proof.
  unfold _score_trajectory, weighted_mean.
  destruct recent as [ | d rest]; [ reflexivity | ].
  rewrite map_map. unfold domain_mark, mark_value.
  set (f := fun d : string => _).
  set (g := fun x : string => _).
  assert (Hfg : forall l, map f l = map g l).
  { intros l. apply map_ext. intros a. subst f g. cbv beta.
    destruct (Str.mem a STUDY_DOMAINS); [ reflexivity | ].
    destruct (Str.mem a DISTRACTION_DOMAINS); reflexivity. }
  rewrite Hfg. reflexivity.
Qed.

Lemma last_five_length {A : Type} (l : list A) :
  (List.length (skipn (List.length l - 5) l) <= 5)%nat.
Proof. rewrite length_skipn. lia. Qed.

Lemma study_not_distraction (d : string) :
  In d DISTRACTION_DOMAINS -> Str.mem d STUDY_DOMAINS = false.
Proof.
  intros H. unfold DISTRACTION_DOMAINS in H. simpl in H.
  repeat (destruct H as [<- | H]; [ reflexivity | ]). contradiction.
Qed.

Lemma uniform_marks (m : mark) (l : list string) :
  (forall d, In d l -> domain_mark d = m) ->
  map domain_mark l = repeat m (List.length l).
Proof.
  induction l as [ | d l IH]; intros H; [ reflexivity | ].
  simpl. rewrite (H d) by (left; reflexivity).
  rewrite IH; [ reflexivity | ]. intros d' Hd'. apply H. right. exact Hd'.
Qed.

Lemma uniform_mean (m : mark) (n : nat) :
  (0 < n <= 5)%nat ->
  weighted_mean (map mark_value (repeat m n)) = mark_value m.
Proof.
  intros Hn.
  do 6 (destruct n as [ | n]; [ try lia; destruct m; reflexivity | ]).
  lia.
Qed.

(** The trajectory score depends on the last five domains only.  It
    lies in [-1, 1]; on a history that is not empty it is 1.0 when these
    are all study domains and -1.0 when they are all distraction domains;
    it is not negative when none of them is a distraction domain and not
    positive when none is a study domain. *)
Theorem trajectory_of_last_five (recent : list string) :
  let last5 := skipn (List.length recent - 5) recent in
  _score_trajectory recent = _score_trajectory last5
  /\ PrimFloat.leb (-1) (_score_trajectory recent) = true
  /\ PrimFloat.leb (_score_trajectory recent) 1 = true
  /\ (recent <> [] -> (forall d, In d last5 -> In d STUDY_DOMAINS) ->
      _score_trajectory recent = 1.0%float)
  /\ (recent <> [] -> (forall d, In d last5 -> In d DISTRACTION_DOMAINS) ->
      _score_trajectory recent = (-1.0)%float)
  /\ ((forall d, In d last5 -> ~ In d DISTRACTION_DOMAINS) ->
      PrimFloat.leb 0 (_score_trajectory recent) = true)
  /\ ((forall d, In d last5 -> ~ In d STUDY_DOMAINS) ->
      PrimFloat.leb (_score_trajectory recent) 0 = true).
Proof.
  intros last5.
  pose proof (last_five_length recent) as Hlen. fold last5 in Hlen.
  assert (Hlast : skipn (List.length last5 - 5) last5 = last5).
  { replace (List.length last5 - 5)%nat with 0%nat by lia. reflexivity. }
  rewrite (score_trajectory_marks last5), Hlast.
  rewrite (score_trajectory_marks recent). fold last5.
  set (ms := map domain_mark last5).
  assert (Hms : (List.length ms <= 5)%nat)
    by (subst ms; rewrite length_map; exact Hlen).
  pose proof (mean_checked ms Hms) as Hok. unfold mean_ok in Hok.
  apply andb_true_iff in Hok. destruct Hok as [Hok Hnostudy].
  apply andb_true_iff in Hok. destruct Hok as [Hok Hnodis].
  apply andb_true_iff in Hok. destruct Hok as [Hlo Hhi].
  assert (Hne : recent <> [] -> (0 < List.length last5)%nat).
  { intros Hr. subst last5. rewrite length_skipn.
    destruct recent; [ contradiction | simpl List.length; lia ]. }
  split; [ reflexivity | ]. split; [ exact Hlo | ]. split; [ exact Hhi | ].
  split; [ | split; [ | split ] ].
  - intros Hr Hall. subst ms.
    rewrite (uniform_marks Study).
    + apply (uniform_mean Study). specialize (Hne Hr). lia.
    + intros d Hd. unfold domain_mark.
      replace (Str.mem d STUDY_DOMAINS) with true; [ reflexivity | ].
      symmetry. apply StrFacts.mem_In. apply Hall. exact Hd.
  - intros Hr Hall. subst ms.
    rewrite (uniform_marks Distraction).
    + apply (uniform_mean Distraction). specialize (Hne Hr). lia.
    + intros d Hd. unfold domain_mark.
      rewrite (study_not_distraction d (Hall d Hd)).
      replace (Str.mem d DISTRACTION_DOMAINS) with true; [ reflexivity | ].
      symmetry. apply StrFacts.mem_In. apply Hall. exact Hd.
  - intros Hnone. apply orb_true_iff in Hnodis.
    destruct Hnodis as [Hex | H]; [ exfalso | exact H ].
    apply existsb_exists in Hex. destruct Hex as [m [Hm Hd]].
    subst ms. apply in_map_iff in Hm. destruct Hm as [d [<- Hin]].
    unfold domain_mark in Hd.
    destruct (Str.mem d STUDY_DOMAINS); [ discriminate | ].
    destruct (Str.mem d DISTRACTION_DOMAINS) eqn:E; [ | discriminate ].
    apply StrFacts.mem_In in E. exact (Hnone d Hin E).
  - intros Hnone. apply orb_true_iff in Hnostudy.
    destruct Hnostudy as [Hex | H]; [ exfalso | exact H ].
    apply existsb_exists in Hex. destruct Hex as [m [Hm Hd]].
    subst ms. apply in_map_iff in Hm. destruct Hm as [d [<- Hin]].
    unfold domain_mark in Hd.
    destruct (Str.mem d STUDY_DOMAINS) eqn:E; [ | ].
    + apply StrFacts.mem_In in E. exact (Hnone d Hin E).
    + destruct (Str.mem d DISTRACTION_DOMAINS); discriminate.
Qed.

End TrajectoryFacts.

(** ** Quotients of integers *)

Module DivFacts.

Import FloatFacts.

Lemma digits_unique (m : positive) (d : Z) :
  2 ^ (d - 1) <= Z.pos m < 2 ^ d -> Z.pos (digits2_pos m) = d.
Proof.
  intros [Hlo Hhi].
  pose proof (digits_bound m) as Hb. pose proof (digits_lower m) as Hl.
  set (D := Z.pos (digits2_pos m)) in *.
  assert (HD : 0 < D) by (subst D; lia).
  assert (Hd : 0 < d).
  { destruct (Z.lt_trichotomy d 0) as [Hneg | [-> | Hpos]]; [ | | exact Hpos ].
    - rewrite (Z.pow_neg_r 2 d Hneg) in Hhi. lia.
    - change (2 ^ 0) with 1 in Hhi. lia. }
  destruct (Z.lt_trichotomy D d) as [Hlt | [Heq | Hgt]]; [ | exact Heq | ].
  - exfalso.
    assert (2 ^ D <= 2 ^ (d - 1)) by (apply Z.pow_le_mono_r; lia). lia.
  - exfalso.
    assert (2 ^ d <= 2 ^ (D - 1)) by (apply Z.pow_le_mono_r; lia). lia.
Qed.

(** Rounding a mantissa below 2^(k - ex), whatever lies beyond its last
    digit, gives a zero or a finite number of magnitude at most 2^k. *)
Lemma binary_round_aux_located (s : bool) (mx : positive) (ex k : Z)
      (l : location) :
  -1074 <= k <= 1023 -> ex <= 971 -> ex <= k ->
  Z.pos mx < 2 ^ (k - ex) ->
  let y := binary_round_aux prec emax s (Z.pos mx) ex l in
  Py.within y k /\ Py.sign_of y = s.
Proof.
  intros Hk Hex Hexk Hmx. unfold binary_round_aux.
  pose proof (shr_fexp_cases (Z.pos mx) ex l ltac:(lia)) as H1.
  destruct (shr_fexp prec emax (Z.pos mx) ex l) as [mrs1 e1].
  simpl fst in H1. simpl snd in H1.
  set (m1 := round_nearest_even (shr_m mrs1) (loc_of_shr_record mrs1)).
  assert (Hd : Zdigits2 (Z.pos mx) + ex <= k).
  { change (Zdigits2 (Z.pos mx)) with (Z.pos (digits2_pos mx)).
    pose proof (digits_lt mx (k - ex) ltac:(lia) Hmx). lia. }
  assert (H0 : 0 <= shr_m mrs1 < 2 ^ (k - e1) /\ e1 <= k /\ e1 <= 971).
  { destruct H1 as [[-> ->] | [Hlt [He ->]]].
    - repeat split; lia.
    - rewrite fexp_eq in He.
      assert (Hp : 0 < 2 ^ (e1 - ex)) by (apply Z.pow_pos_nonneg; lia).
      repeat split; try lia.
      + apply Z.div_pos; lia.
      + apply Z.div_lt_upper_bound; [ exact Hp | ].
        rewrite <- Z.pow_add_r by lia.
        replace (e1 - ex + (k - e1)) with (k - ex) by lia. exact Hmx. }
  destruct H0 as [[Hm0 Hm0'] [He1 He1']].
  pose proof (round_nearest_even_bounds (shr_m mrs1) (loc_of_shr_record mrs1))
    as Hr. fold m1 in Hr.
  assert (Hm1 : 0 <= m1 <= 2 ^ (k - e1)) by lia.
  pose proof (shr_fexp_cases m1 e1 loc_Exact ltac:(lia)) as H2.
  destruct (shr_fexp prec emax m1 e1 loc_Exact) as [mrs2 e2].
  simpl fst in H2. simpl snd in H2.
  assert (H3 : 0 <= shr_m mrs2 <= 2 ^ (k - e2) /\ e2 <= k /\ e2 <= 971).
  { destruct H2 as [[-> ->] | [Hlt [He ->]]].
    - repeat split; lia.
    - rewrite fexp_eq in He.
      pose proof (digits_le m1 (k - e1) ltac:(lia) ltac:(lia) ltac:(lia)).
      assert (Hp : 0 < 2 ^ (e2 - e1)) by (apply Z.pow_pos_nonneg; lia).
      repeat split; try lia.
      + apply Z.div_pos; lia.
      + apply Z.div_le_upper_bound; [ exact Hp | ].
        rewrite <- Z.pow_add_r by lia.
        replace (e2 - e1 + (k - e2)) with (k - e1) by lia. lia. }
  destruct H3 as [[Hm2 Hm2'] [He2 He2']].
  destruct (shr_m mrs2) as [ | m2 | m2]; cbn iota.
  - split; [ exact I | reflexivity ].
  - replace (e2 <=? emax - prec) with true
      by (symmetry; apply Z.leb_le; unfold emax, prec; lia).
    split; [ split; assumption | reflexivity ].
  - lia.
Qed.

Lemma shifted_mantissa (p d : Z) :
  1 <= d <= 53 -> 2 ^ (d - 1) <= p < 2 ^ d ->
  2 ^ 52 <= p * 2 ^ (53 - d) < 2 ^ 53.
Proof.
  intros Hd [Hl Hb].
  assert (Hp : 0 < 2 ^ (53 - d)) by (apply Z.pow_pos_nonneg; lia).
  assert (E52 : 2 ^ 52 = 2 ^ (d - 1) * 2 ^ (53 - d)).
  { rewrite <- Z.pow_add_r by lia. f_equal. lia. }
  assert (E53 : 2 ^ 53 = 2 ^ d * 2 ^ (53 - d)).
  { rewrite <- Z.pow_add_r by lia. f_equal. lia. }
  rewrite E52, E53. split.
  - apply Z.mul_le_mono_nonneg_r; lia.
  - apply Z.mul_lt_mono_pos_r; lia.
Qed.

(** [float(n)] for a positive [n] below 2^53: the number itself, with a
    mantissa of 53 digits. *)
Lemma of_Z_spec (n : Z) :
  0 < n < 2 ^ 53 ->
  exists m e,
    Prim2SF (Py.of_Z n) = S754_finite false m e
    /\ -52 <= e <= 0 /\ Z.pos m = n * 2 ^ (- e)
    /\ 2 ^ 52 <= Z.pos m < 2 ^ 53.
Proof.
  intros Hn. destruct n as [ | p | p]; try lia.
  set (d := Z.pos (digits2_pos p)).
  assert (Hd : 1 <= d <= 53).
  { subst d. pose proof (digits_lt p 53 ltac:(lia) ltac:(lia)). lia. }
  assert (Hround : binary_normalize prec emax (Z.pos p) 0 false
                   = S754_finite false (fst (shl_align p 0 (d - 53))) (d - 53)
                   /\ Z.pos (fst (shl_align p 0 (d - 53)))
                      = Z.pos p * 2 ^ (53 - d)).
  { cbn [binary_normalize]. unfold binary_round.
    rewrite fexp_eq. fold d.
    replace (Z.max (d + 0 - 53) (-1074)) with (d - 53) by lia.
    pose proof (shl_align_spec p 0 (d - 53)) as H. cbv zeta in H.
    destruct (shl_align p 0 (d - 53)) as [mz ez]. cbn [fst snd] in *.
    destruct H as [H1 [H2 H3]].
    specialize (H2 ltac:(lia)). subst ez.
    replace (0 - (d - 53)) with (53 - d) in H3 by lia.
    split; [ | exact H3 ].
    assert (Hmz : 2 ^ 52 <= Z.pos mz < 2 ^ 53).
    { rewrite H3. apply shifted_mantissa; [ exact Hd | ].
      split; [ apply digits_lower | apply digits_bound ]. }
    assert (Hdig : Z.pos (digits2_pos mz) = 53)
      by (apply digits_unique; exact Hmz).
    unfold binary_round_aux, shr_fexp.
    change (Zdigits2 (Z.pos mz)) with (Z.pos (digits2_pos mz)).
    rewrite Hdig, fexp_eq.
    replace (Z.max (53 + (d - 53) - 53) (-1074) - (d - 53)) with 0 by lia.
    cbn [shr shr_record_of_loc shr_m loc_of_shr_record round_nearest_even].
    change (Zdigits2 (Z.pos mz)) with (Z.pos (digits2_pos mz)).
    rewrite Hdig, fexp_eq.
    replace (Z.max (53 + (d - 53) - 53) (-1074) - (d - 53)) with 0 by lia.
    cbn [shr shr_record_of_loc shr_m].
    replace (d - 53 <=? emax - prec) with true
      by (symmetry; apply Z.leb_le; unfold emax, prec; lia).
    reflexivity. }
  destruct Hround as [Hround Hval].
  set (mz := fst (shl_align p 0 (d - 53))) in *.
  assert (Hmz : 2 ^ 52 <= Z.pos mz < 2 ^ 53).
  { rewrite Hval. apply shifted_mantissa; [ exact Hd | ].
    split; [ apply digits_lower | apply digits_bound ]. }
  exists mz, (d - 53).
  split; [ | split; [ lia | split; [ | exact Hmz ] ] ].
  - unfold Py.of_Z. rewrite Hround. apply Prim2SF_SF2Prim.
    cbn [valid_binary]. unfold bounded, canonical_mantissa.
    rewrite (digits_unique mz 53 Hmz), fexp_eq.
    apply andb_true_iff. split.
    + apply Z.eqb_eq. lia.
    + apply Z.leb_le. unfold emax, prec. lia.
  - rewrite Hval. f_equal. f_equal. lia.
Qed.

Lemma of_Z_zero : Prim2SF (Py.of_Z 0) = S754_zero false.
Proof. reflexivity. Qed.

(** The quotient of two positive numbers with mantissas of 53 digits,
    the first below the second times 2^k. *)
Lemma SFdiv_within (mx my : positive) (ex ey k : Z) :
  2 ^ 52 <= Z.pos mx < 2 ^ 53 -> 2 ^ 52 <= Z.pos my < 2 ^ 53 ->
  -52 <= ex <= 0 -> -52 <= ey <= 0 -> 0 <= k <= 1023 ->
  Z.pos mx * 2 ^ (- ey) < Z.pos my * 2 ^ (k - ex) ->
  let q := SFdiv prec emax (S754_finite false mx ex) (S754_finite false my ey) in
  Py.within q k /\ Py.sign_of q = false.
Proof.
  intros Hmx Hmy Hex Hey Hk Hlt.
  unfold SFdiv, SFdiv_core_binary.
  change (Zdigits2 (Z.pos mx)) with (Z.pos (digits2_pos mx)).
  change (Zdigits2 (Z.pos my)) with (Z.pos (digits2_pos my)).
  rewrite (digits_unique mx 53 Hmx), (digits_unique my 53 Hmy), fexp_eq.
  replace (Z.min (Z.max (53 + ex - (53 + ey) - 53) (-1074)) (ex - ey))
    with (ex - ey - 53) by lia.
  replace (ex - ey - (ex - ey - 53)) with 53 by lia.
  cbv zeta. rewrite Z.shiftl_mul_pow2 by lia.
  set (e' := ex - ey - 53).
  pose proof (Z_div_mod (Z.pos mx * 2 ^ 53) (Z.pos my) ltac:(lia)) as Hdiv.
  destruct (Z.div_eucl (Z.pos mx * 2 ^ 53) (Z.pos my)) as [q r].
  destruct Hdiv as [Hq Hr]. cbn [xorb].
  assert (Hqpos : 0 < q).
  { assert (Z.pos my * 1 <= Z.pos my * q + r); [ | nia ].
    rewrite <- Hq. change (2 ^ 53) with 9007199254740992 in *.
    change (2 ^ 52) with 4503599627370496 in *. lia. }
  destruct q as [ | qp | qp]; try lia.
  apply binary_round_aux_located; try lia.
  assert (Hup : Z.pos mx * 2 ^ 53 < Z.pos my * 2 ^ (k - e')).
  { subst e'.
    replace (k - (ex - ey - 53)) with (k - ex + (53 + ey)) by lia.
    rewrite Z.pow_add_r by lia.
    replace (2 ^ 53) with (2 ^ (- ey) * 2 ^ (53 + ey)).
    2:{ rewrite <- Z.pow_add_r by lia. f_equal. lia. }
    rewrite !Z.mul_assoc.
    apply Z.mul_lt_mono_pos_r; [ apply Z.pow_pos_nonneg; lia | exact Hlt ]. }
  assert (Hp : 0 < 2 ^ (k - e')) by (apply Z.pow_pos_nonneg; subst e'; lia).
  nia.
Qed.

(** [a / b] for two positive [int]s below 2^53 with a < b * 2^k. *)
Lemma truediv_within (a b k : Z) :
  0 < a < 2 ^ 53 -> 0 < b < 2 ^ 53 -> 0 <= k <= 1023 -> a < b * 2 ^ k ->
  Py.within (Prim2SF (PatternAgent.truediv a b)) k
  /\ Py.sign_of (Prim2SF (PatternAgent.truediv a b)) = false.
Proof.
  intros Ha Hb Hk Hlt. unfold PatternAgent.truediv. rewrite div_spec.
  destruct (of_Z_spec a Ha) as [mx [ex [-> [Hex [Hvx Hmx]]]]].
  destruct (of_Z_spec b Hb) as [my [ey [-> [Hey [Hvy Hmy]]]]].
  apply SFdiv_within; try assumption.
  rewrite Hvx, Hvy.
  replace (k - ex) with (k + - ex) by lia. rewrite Z.pow_add_r by lia.
  assert (0 < 2 ^ (- ex)) by (apply Z.pow_pos_nonneg; lia).
  assert (0 < 2 ^ (- ey)) by (apply Z.pow_pos_nonneg; lia).
  replace (a * 2 ^ (- ex) * 2 ^ (- ey)) with (a * (2 ^ (- ex) * 2 ^ (- ey)))
    by ring.
  replace (b * 2 ^ (- ey) * (2 ^ k * 2 ^ (- ex)))
    with (b * 2 ^ k * (2 ^ (- ex) * 2 ^ (- ey))) by ring.
  apply Z.mul_lt_mono_pos_r; [ lia | exact Hlt ].
Qed.

(** [n / n] is 1.0, and [0 / n] is 0.0. *)
Lemma truediv_same (n : Z) :
  0 < n < 2 ^ 53 -> PatternAgent.truediv n n = 1.0%float.
Proof.
  intros Hn. apply Prim2SF_inj.
  unfold PatternAgent.truediv. rewrite div_spec.
  destruct (of_Z_spec n Hn) as [m [e [-> [He [Hv Hm]]]]].
  unfold SF64div, SFdiv, SFdiv_core_binary.
  change (Zdigits2 (Z.pos m)) with (Z.pos (digits2_pos m)).
  rewrite (digits_unique m 53 Hm), fexp_eq.
  replace (Z.min (Z.max (53 + e - (53 + e) - 53) (-1074)) (e - e))
    with (-53) by lia.
  replace (e - e - -53) with 53 by lia.
  cbv zeta. rewrite Z.shiftl_mul_pow2 by lia.
  pose proof (Z_div_mod (Z.pos m * 2 ^ 53) (Z.pos m) ltac:(lia)) as Hdiv.
  destruct (Z.div_eucl (Z.pos m * 2 ^ 53) (Z.pos m)) as [q r].
  destruct Hdiv as [Hq Hr].
  assert (Hq' : q = 2 ^ 53).
  { rewrite (Z.div_unique_pos _ _ q r Hr Hq).
    rewrite Z.mul_comm. apply Z.div_mul. lia. }
  subst q. assert (r = 0) by lia. subst r.
  replace (new_location (Z.pos m) 0) with loc_Exact.
  2:{ unfold new_location, new_location_even, new_location_odd.
      destruct (Z.even (Z.pos m)); reflexivity. }
  reflexivity.
Qed.

Lemma truediv_zero (n : Z) :
  0 < n < 2 ^ 53 -> PatternAgent.truediv 0 n = 0.0%float.
Proof.
  intros Hn. apply Prim2SF_inj.
  unfold PatternAgent.truediv. rewrite div_spec, of_Z_zero.
  destruct (of_Z_spec n Hn) as [m [e [-> _]]]. reflexivity.
Qed.

End DivFacts.

(** ** The order of the risks *)

Module OrderFacts.

Import FloatFacts Order.

(** On valid numbers that are zero or positive and finite, the order of
    the numbers is the order of their keys. *)
Lemma compare_keys (x y : spec_float) (a b : Z) :
  valid_binary x = true -> valid_binary y = true ->
  Py.within x a -> Py.within y b ->
  Py.sign_of x = false -> Py.sign_of y = false ->
  SFcompare x y = Some (order_key x ?= order_key y).
Proof.
  intros Vx Vy Wx Wy Sx Sy.
  destruct x as [sx | sx | | sx mx ex]; cbn [Py.within Py.sign_of] in *;
    try contradiction;
    destruct y as [sy | sy | | sy my ey]; cbn [Py.within Py.sign_of] in *;
    try contradiction; subst; cbn [SFcompare order_key].
  - reflexivity.
  - pose proof (valid_mantissa _ _ _ Vy).
    assert (-1074 <= ey).
    { cbn [valid_binary] in Vy. unfold bounded, canonical_mantissa in Vy.
      apply andb_true_iff in Vy. destruct Vy as [Vy _].
      apply Z.eqb_eq in Vy. rewrite fexp_eq in Vy. lia. }
    f_equal. symmetry. apply Z.compare_lt_iff.
    change (2 ^ 53) with 9007199254740992. lia.
  - pose proof (valid_mantissa _ _ _ Vx).
    assert (-1074 <= ex).
    { cbn [valid_binary] in Vx. unfold bounded, canonical_mantissa in Vx.
      apply andb_true_iff in Vx. destruct Vx as [Vx _].
      apply Z.eqb_eq in Vx. rewrite fexp_eq in Vx. lia. }
    f_equal. symmetry. apply Z.compare_gt_iff.
    change (2 ^ 53) with 9007199254740992. lia.
  - pose proof (valid_mantissa _ _ _ Vx) as Hx.
    pose proof (valid_mantissa _ _ _ Vy) as Hy.
    change (2 ^ 53) with 9007199254740992 in *.
    f_equal. destruct (Z.compare_spec ex ey) as [-> | Hlt | Hgt].
    + rewrite Z.add_compare_mono_l. reflexivity.
    + symmetry. apply Z.compare_lt_iff. lia.
    + symmetry. apply Z.compare_gt_iff. lia.
Qed.

(** The numbers of [0, 1] compare as their keys do. *)
Lemma unit_keys (u v : float) :
  PrimFloat.leb 0 u = true -> PrimFloat.leb u 1 = true ->
  PrimFloat.leb 0 v = true -> PrimFloat.leb v 1 = true ->
  PrimFloat.ltb u v
  = (order_key (Prim2SF u) <? order_key (Prim2SF v))
  /\ PrimFloat.leb u v
     = (order_key (Prim2SF u) <=? order_key (Prim2SF v)).
Proof.
  intros Hu0 Hu1 Hv0 Hv1.
  assert (Hnn : forall x, PrimFloat.leb 0 x = true -> PrimFloat.leb x 1 = true ->
                          exists y, order_key y = order_key (Prim2SF x)
                                    /\ SFcompare y = SFcompare (Prim2SF x)
                                    /\ (forall z, SFcompare z y
                                                  = SFcompare z (Prim2SF x))
                                    /\ valid_binary y = true
                                    /\ Py.within y 0 /\ Py.sign_of y = false).
  { intros x H0 H1. pose proof (unit_within x H0 H1) as Hw.
    pose proof (Prim2SF_valid x) as V.
    rewrite leb_spec, zero_spec in H0.
    destruct (Prim2SF x) as [s | s | | s m e]; cbn [Py.within] in Hw;
      try contradiction.
    - exists (S754_zero false). repeat split; reflexivity.
    - destruct s; [ discriminate H0 | ].
      exists (S754_finite false m e). repeat split; try reflexivity;
        try assumption; apply Hw. }
  destruct (Hnn u Hu0 Hu1) as [x [Kx [Cx [_ [Vx [Wx Sx]]]]]].
  destruct (Hnn v Hv0 Hv1) as [y [Ky [_ [Cy [Vy [Wy Sy]]]]]].
  pose proof (compare_keys x y 0 0 Vx Vy Wx Wy Sx Sy) as H.
  rewrite Cx, Cy, Kx, Ky in H.
  rewrite ltb_spec, leb_spec. unfold SFltb, SFleb. rewrite H.
  unfold Z.ltb, Z.leb.
  destruct (order_key (Prim2SF u) ?= order_key (Prim2SF v)); split; reflexivity.
Qed.

End OrderFacts.

(** ** Seconds of a history *)

Module UsageFacts.

Import PatternAgent Usage FloatFacts.

Lemma dur_of_nonneg (ev : Event) : 0 <= dur_of ev.
Proof. unfold dur_of. lia. Qed.

Lemma seconds_nonneg (sel : Event -> bool) (events : list Event) :
  0 <= seconds sel events.
Proof.
  induction events as [ | ev events IH]; simpl; [ lia | ].
  pose proof (dur_of_nonneg ev). destruct (sel ev); lia.
Qed.

Lemma seconds_le (sel sel' : Event -> bool) (events : list Event) :
  (forall ev, sel ev = true -> sel' ev = true) ->
  seconds sel events <= seconds sel' events.
Proof.
  intros H. induction events as [ | ev events IH]; simpl; [ lia | ].
  pose proof (dur_of_nonneg ev). pose proof (seconds_nonneg sel' events).
  destruct (sel ev) eqn:E.
  - rewrite (H ev E). lia.
  - destruct (sel' ev); lia.
Qed.

Lemma seconds_ext (sel sel' : Event -> bool) (events : list Event) :
  (forall ev, sel ev = sel' ev) -> seconds sel events = seconds sel' events.
Proof.
  intros H. induction events as [ | ev events IH]; simpl; [ reflexivity | ].
  rewrite H, IH. reflexivity.
Qed.

Lemma seconds_none (sel : Event -> bool) (events : list Event) :
  (forall ev, In ev events -> sel ev = false) -> seconds sel events = 0.
Proof.
  induction events as [ | ev events IH]; intros H; simpl; [ reflexivity | ].
  rewrite (H ev) by (left; reflexivity).
  apply IH. intros ev' Hin. apply H. right. exact Hin.
Qed.

Lemma seconds_pos (sel : Event -> bool) (events : list Event) :
  0 < seconds sel events -> exists ev, In ev events /\ sel ev = true.
Proof.
  induction events as [ | ev events IH]; simpl; [ lia | ].
  destruct (sel ev) eqn:E.
  - intros _. exists ev. auto.
  - intros H. destruct (IH H) as [ev' [Hin Hs]]. exists ev'. auto.
Qed.

Section Accounts.

Variable K : Type.
Variable eqb : K -> K -> bool.
Hypothesis eqb_spec : forall a b, eqb a b = true <-> a = b.
Variable key_of : Event -> option K.
Variable flag : Event -> K -> bool.

Local Abbreviation account := (account K eqb key_of flag).
Local Abbreviation has_key := (has_key K eqb key_of).

Lemma get_add (c : list (K * Z)) (k' k : K) (v : Z) :
  Dict.get eqb (Dict.add eqb c k' v) k
  = Dict.get eqb c k + if eqb k' k then v else 0.
Proof.
  destruct (eqb k' k) eqn:E.
  - apply eqb_spec in E. subst k'.
    apply (DictFacts.get_add_same K eqb eqb_spec).
  - rewrite (DictFacts.get_add_other K eqb eqb_spec); [ lia | ].
    intros ->. rewrite (DictFacts.eqb_refl K eqb eqb_spec) in E.
    discriminate.
Qed.

(** One round of the loop. *)
Lemma account_once (ev : Event) (tot dis : list (K * Z)) (k : K) :
  let acc := account (tot, dis) ev in
  Dict.get eqb (fst acc) k
  = Dict.get eqb tot k + (if has_key k ev then dur_of ev else 0)
  /\ Dict.get eqb (snd acc) k
     = Dict.get eqb dis k
       + (if has_key k ev && flag ev k then dur_of ev else 0)
  /\ (In k (map fst (fst acc)) <-> In k (map fst tot) \/ key_of ev = Some k)
  /\ (NoDup (map fst tot) -> NoDup (map fst (fst acc))).
Proof.
  unfold Usage.account, Usage.has_key. cbv zeta.
  destruct (key_of ev) as [k' | ].
  - assert (Hflag : eqb k' k = true -> flag ev k' = flag ev k).
    { intros E. apply eqb_spec in E. subst k'. reflexivity. }
    assert (Hkey : Some k' = Some k <-> k' = k)
      by (split; congruence).
    destruct (flag ev k') eqn:Ef; cbn [fst snd];
      rewrite ?get_add, (DictFacts.keys_add K eqb eqb_spec), Hkey;
      (split; [ reflexivity | ]);
      (split; [ destruct (eqb k' k) eqn:E;
                [ rewrite <- (Hflag eq_refl) | ]; cbn [andb]; lia | ]);
      (split; [ intuition congruence | ]);
      apply (DictFacts.NoDup_add K eqb eqb_spec).
  - cbn [fst snd andb]. repeat split; try lia; try tauto.
    intros [H | H]; [ exact H | discriminate ].
Qed.

Lemma seconds_cons (sel : Event -> bool) (ev : Event) (events : list Event) :
  seconds sel (ev :: events)
  = (if sel ev then dur_of ev else 0) + seconds sel events.
Proof. unfold seconds. simpl. destruct (sel ev); lia. Qed.

(** What the loop leaves in its two dictionaries. *)
Lemma accounts (events : list Event) (tot dis : list (K * Z)) (k : K) :
  let acc := fold_left account events (tot, dis) in
  Dict.get eqb (fst acc) k = Dict.get eqb tot k + seconds (has_key k) events
  /\ Dict.get eqb (snd acc) k
     = Dict.get eqb dis k
       + seconds (fun ev => has_key k ev && flag ev k) events
  /\ (In k (map fst (fst acc))
      <-> In k (map fst tot) \/ exists ev, In ev events /\ key_of ev = Some k)
  /\ (NoDup (map fst tot) -> NoDup (map fst (fst acc))).
Proof.
  revert tot dis. induction events as [ | ev events IH]; intros tot dis.
  - simpl. repeat split; try lia; try tauto.
    intros [H | [ev [[] _]]]. exact H.
  - cbn [fold_left]. cbv zeta. rewrite !seconds_cons.
    pose proof (account_once ev tot dis k) as H1. cbv zeta in H1.
    destruct (account (tot, dis) ev) as [tot' dis'].
    cbn [fst snd] in H1. destruct H1 as [H1 [H2 [H3 H4]]].
    specialize (IH tot' dis'). cbv zeta in IH.
    destruct IH as [IH1 [IH2 [IH3 IH4]]].
    split; [ lia | ]. split; [ lia | ]. split; [ | auto ].
    rewrite IH3, H3. split.
    + intros [[H | H] | [ev' [Hin Hk]]].
      * left. exact H.
      * right. exists ev. split; [ left; reflexivity | exact H ].
      * right. exists ev'. split; [ right; exact Hin | exact Hk ].
    + intros [H | [ev' [[<- | Hin] Hk]]].
      * left. left. exact H.
      * left. right. exact Hk.
      * right. exists ev'. split; assumption.
Qed.

End Accounts.

End UsageFacts.

(** ** Sorting by a comparison *)

Module SortFacts.

Section Any.

Variable A : Type.

Lemma In_insert_desc (f : A -> A -> bool) (x y : A) (l : list A) :
  In y (Dict.insert_desc f x l) <-> y = x \/ In y l.
Proof.
  induction l as [ | z l IH]; simpl.
  - intuition congruence.
  - destruct (f x z); simpl; rewrite ?IH; intuition congruence.
Qed.

Lemma In_sorted_desc (f : A -> A -> bool) (y : A) (l : list A) :
  In y (Dict.sorted_desc f l) <-> In y l.
Proof.
  induction l as [ | x l IH]; simpl; [ tauto | ].
  rewrite In_insert_desc, IH. intuition congruence.
Qed.

Lemma insert_desc_ext (f g : A -> A -> bool) (x : A) (l : list A) :
  (forall y, In y l -> f x y = g x y) ->
  Dict.insert_desc f x l = Dict.insert_desc g x l.
Proof.
  induction l as [ | z l IH]; simpl; intros H; [ reflexivity | ].
  rewrite (H z) by (left; reflexivity).
  rewrite IH; [ reflexivity | ]. intros y Hy. apply H. right. exact Hy.
Qed.

(** Sorting depends on the comparison of the elements of the list
    only. *)
Lemma sorted_desc_ext (f g : A -> A -> bool) (l : list A) :
  (forall a b, In a l -> In b l -> f a b = g a b) ->
  Dict.sorted_desc f l = Dict.sorted_desc g l.
Proof.
  induction l as [ | x l IH]; simpl; intros H; [ reflexivity | ].
  rewrite IH by (intros a b Ha Hb; apply H; right; assumption).
  apply insert_desc_ext. intros y Hy. apply In_sorted_desc in Hy.
  apply H; [ left; reflexivity | right; exact Hy ].
Qed.

Lemma insert_desc_perm_any (f : A -> A -> bool) (x : A) (l : list A) :
  Permutation (Dict.insert_desc f x l) (x :: l).
Proof.
  induction l as [ | z l IH]; simpl; [ reflexivity | ].
  destruct (f x z); [ | reflexivity ].
  rewrite IH. apply perm_swap.
Qed.

Lemma sorted_desc_perm_any (f : A -> A -> bool) (l : list A) :
  Permutation (Dict.sorted_desc f l) l.
Proof.
  induction l as [ | x l IH]; simpl; [ constructor | ].
  rewrite insert_desc_perm_any. constructor. exact IH.
Qed.

Lemma StronglySorted_weaken (R R' : A -> A -> Prop) (l : list A) :
  StronglySorted R l ->
  (forall a b, In a l -> In b l -> R a b -> R' a b) ->
  StronglySorted R' l.
Proof.
  induction 1 as [ | x l Hs IH Hall]; intros H; constructor.
  - apply IH. intros a b Ha Hb. apply H; right; assumption.
  - rewrite Forall_forall in *. intros y Hy.
    apply H; [ left; reflexivity | right; exact Hy | apply Hall, Hy ].
Qed.

End Any.

End SortFacts.

(** ** The risk table and the hourly table *)

Module RiskFacts.

Import PatternAgent Usage UsageFacts FloatFacts Variants Grid GridFacts
       DivFacts Order OrderFacts.

(** The share of a part in a total below 2^53, rounded to three places:
    a number of the grid, 1.0 for the whole and 0.0 for nothing. *)
Lemma share_grid (a b : Z) :
  0 <= a <= b -> 0 < b < 2 ^ 53 ->
  let v := Py.round3 (truediv a b) in
  (exists k, 0 <= k <= 1000 /\ v = milli_risk k)
  /\ (a = b -> v = 1.0%float)
  /\ (a = 0 -> v = 0.0%float).
Proof.
  intros Ha Hb v.
  destruct (Z.eq_dec a 0) as [-> | Hne0].
  - assert (Hv : v = 0.0%float).
    { subst v. rewrite (truediv_zero b Hb). reflexivity. }
    split; [ exists 0; split; [ lia | rewrite Hv; reflexivity ] | ].
    split; [ lia | auto ].
  - destruct (Z.eq_dec a b) as [-> | Hne].
    + assert (Hv : v = 1.0%float).
      { subst v. rewrite (truediv_same b Hb). reflexivity. }
      split; [ exists 1000; split; [ lia | rewrite Hv; reflexivity ] | ].
      split; [ auto | lia ].
    + split; [ | split; lia ].
      destruct (truediv_within a b 0 ltac:(lia) Hb ltac:(lia) ltac:(lia))
        as [Hw Hs].
      apply round3_grid; assumption.
Qed.

Lemma get_absent {K : Type} (eqb : K -> K -> bool)
      (eqb_spec : forall a b, eqb a b = true <-> a = b)
      (c : list (K * Z)) (k : K) :
  ~ In k (map fst c) -> Dict.get eqb c k = 0.
Proof.
  induction c as [ | [k' n] c IH]; simpl; intros H; [ reflexivity | ].
  destruct (eqb k' k) eqn:E.
  - apply eqb_spec in E. tauto.
  - apply IH. tauto.
Qed.

Lemma fold_left_agree {A B : Type} (f g : A -> B -> A) (l : list B) (a : A) :
  (forall x y, f x y = g x y) -> fold_left f l a = fold_left g l a.
Proof.
  intros H. revert a. induction l as [ | y l IH]; intros a; simpl.
  - reflexivity.
  - rewrite H. apply IH.
Qed.

Lemma string_eqb_spec (a b : string) : String.eqb a b = true <-> a = b.
Proof. apply String.eqb_eq. Qed.

(** The entries a dictionary of totals gives rise to: one for each key
    with a positive total. *)
Lemma positive_entries {K V : Type} (g : K -> Z -> V) (c : list (K * Z)) :
  let out := flat_map (fun '(k, total) =>
                         if 0 <? total then [(k, g k total)] else []) c in
  (NoDup (map fst c) -> NoDup (map fst out))
  /\ forall k v, In (k, v) out
                 <-> exists total, In (k, total) c /\ 0 < total
                                   /\ v = g k total.
Proof.
  induction c as [ | [k' n] c [IH1 IH2]]; cbn [flat_map].
  - split; [ auto | ]. intros k v. split; [ intros [] | ].
    intros [t [[] _]].
  - split.
    + intros H. inversion H as [ | ? ? Hnot Hrest]; subst.
      destruct (Z.ltb_spec 0 n); cbn [app]; [ | apply IH1, Hrest ].
      cbn [map fst]. constructor; [ | apply IH1, Hrest ].
      intros Hin. apply in_map_iff in Hin. destruct Hin as [[k v] [<- Hin]].
      apply IH2 in Hin. destruct Hin as [t [Hin _]].
      apply Hnot. apply in_map_iff. exists (k, t). auto.
    + intros k v. rewrite in_app_iff, IH2. split.
      * intros [H | [t [Hin Ht]]].
        -- destruct (Z.ltb_spec 0 n); [ | destruct H ].
           destruct H as [H | []]. injection H as <- <-.
           exists n. split; [ left; reflexivity | auto ].
        -- exists t. split; [ right; exact Hin | exact Ht ].
      * intros [t [[H | Hin] [Ht Hv]]].
        -- injection H as <- <-. left.
           replace (0 <? n) with true by (symmetry; apply Z.ltb_lt; exact Ht).
           left. rewrite Hv. reflexivity.
        -- right. exists t. auto.
Qed.

Section Risks.

Variable urlparse_hostname : string -> option string.

Local Abbreviation domain_of := (domain_of urlparse_hostname).
Local Abbreviation time_on := (time_on urlparse_hostname).
Local Abbreviation distraction_time_on :=
  (distraction_time_on urlparse_hostname).
Local Abbreviation risk_account :=
  (account string String.eqb domain_of
           (fun ev d => is_distraction ev || Str.mem d DISTRACTION_DOMAINS)).

Lemma domain_risks_unfold (events : list Event) :
  _analyze_domain_risks urlparse_hostname events
  = Dict.sorted_desc
      (fun a b => PrimFloat.ltb (snd a) (snd b))
      (flat_map
         (fun '(d, total) =>
            if 0 <? total
            then [(d, Py.round3
                        (truediv
                           (Dict.get String.eqb
                              (snd (fold_left risk_account events ([], []))) d)
                           total))]
            else [])
         (fst (fold_left risk_account events ([], [])))).
Proof.
  unfold _analyze_domain_risks.
  match goal with
  | |- context [ fold_left ?f events ([], []) ] =>
      rewrite (fold_left_agree f risk_account)
        by (intros [tot dis] ev; reflexivity)
  end.
  destruct (fold_left risk_account events ([], [])) as [tot dis].
  reflexivity.
Qed.

Lemma time_on_le_total (d : string) (events : list Event) :
  0 <= distraction_time_on d events <= time_on d events
  /\ time_on d events <= total_time events.
Proof.
  unfold Usage.distraction_time_on, Usage.time_on, total_time.
  split; [ split | ].
  - apply seconds_nonneg.
  - apply seconds_le. intros ev H. apply andb_true_iff in H. apply H.
  - apply seconds_le. reflexivity.
Qed.

(** What an entry of the risk table is. *)
Lemma risk_entry (events : list Event) (d : string) (v : float) :
  total_time events < 2 ^ 53 ->
  In (d, v) (_analyze_domain_risks urlparse_hostname events) ->
  0 < time_on d events
  /\ v = Py.round3 (truediv (distraction_time_on d events)
                            (time_on d events))
  /\ (exists k, 0 <= k <= 1000 /\ v = milli_risk k)
  /\ (In d DISTRACTION_DOMAINS -> v = 1.0%float)
  /\ (distraction_time_on d events = 0 -> v = 0.0%float).
Proof.
  intros Htot Hin. rewrite domain_risks_unfold in Hin.
  apply SortFacts.In_sorted_desc in Hin.
  set (F := fold_left risk_account events ([], [])) in *.
  pose proof (accounts string String.eqb string_eqb_spec domain_of
                (fun ev d => is_distraction ev || Str.mem d DISTRACTION_DOMAINS)
                events [] [] d) as Hacc.
  cbv zeta in Hacc. fold F in Hacc.
  destruct Hacc as [Htotal [Hdis [_ Hnd]]].
  cbn [Dict.get] in Htotal, Hdis. rewrite Z.add_0_l in Htotal, Hdis.
  assert (Htotal' : Dict.get String.eqb (fst F) d = time_on d events)
    by exact Htotal.
  assert (Hdis' : Dict.get String.eqb (snd F) d = distraction_time_on d events)
    by exact Hdis.
  clear Htotal Hdis.
  specialize (Hnd ltac:(constructor)).
  pose proof (positive_entries
                (fun d total =>
                   Py.round3 (truediv (Dict.get String.eqb (snd F) d) total))
                (fst F)) as Hent.
  cbv zeta in Hent. destruct Hent as [_ Hent].
  apply Hent in Hin. destruct Hin as [total [Hin [Hpos Hv]]].
  rewrite <- (DictFacts.get_In string String.eqb string_eqb_spec _ _ _ Hnd Hin)
    in *.
  rewrite Hdis', Htotal' in Hv. rewrite Htotal' in Hpos.
  destruct (time_on_le_total d events) as [Hshare Hle].
  destruct (share_grid (distraction_time_on d events) (time_on d events)
              Hshare ltac:(lia)) as [Hgrid [Hone Hzero]].
  rewrite <- Hv in Hgrid, Hone, Hzero.
  split; [ exact Hpos | ]. split; [ exact Hv | ]. split; [ exact Hgrid | ].
  split; [ | exact Hzero ].
  intros Hd. apply Hone.
  unfold Usage.distraction_time_on, Usage.time_on. apply seconds_ext.
  intros ev. replace (Str.mem d DISTRACTION_DOMAINS) with true.
  - rewrite orb_true_r, andb_true_r. reflexivity.
  - symmetry. apply StrFacts.mem_In. exact Hd.
Qed.

Lemma risk_keys (events : list Event) :
  let risks := _analyze_domain_risks urlparse_hostname events in
  NoDup (map fst risks)
  /\ forall d, In d (map fst risks) <-> 0 < time_on d events.
Proof.
  cbv zeta. rewrite domain_risks_unfold.
  set (F := fold_left risk_account events ([], [])).
  assert (Hacc : forall d,
             Dict.get String.eqb (fst F) d = time_on d events
             /\ NoDup (map fst (fst F))).
  { intros d.
    pose proof (accounts string String.eqb string_eqb_spec domain_of
                  (fun ev d => is_distraction ev
                               || Str.mem d DISTRACTION_DOMAINS)
                  events [] [] d) as Hacc.
    cbv zeta in Hacc. fold F in Hacc.
    destruct Hacc as [Htotal [_ [_ Hnd]]].
    split; [ exact Htotal | apply Hnd; constructor ]. }
  pose proof (positive_entries
                (fun d total =>
                   Py.round3 (truediv (Dict.get String.eqb (snd F) d) total))
                (fst F)) as Hent.
  cbv zeta in Hent. destruct Hent as [Hnd Hent].
  set (out := flat_map _ (fst F)) in *.
  pose proof (SortFacts.sorted_desc_perm_any _
                (fun a b : string * float => PrimFloat.ltb (snd a) (snd b))
                out) as Hperm.
  split.
  - apply (Permutation_NoDup (l := map fst out)).
    + apply Permutation_map. symmetry. exact Hperm.
    + apply Hnd. apply (Hacc ""%string).
  - intros d. split.
    + intros Hin. apply in_map_iff in Hin. destruct Hin as [[d' v] [<- Hin]].
      apply SortFacts.In_sorted_desc in Hin. apply Hent in Hin.
      destruct Hin as [total [Hin [Hpos _]]]. cbn [fst].
      destruct (Hacc d') as [Hget Hnodup].
      rewrite <- Hget.
      rewrite (DictFacts.get_In string String.eqb string_eqb_spec _ _ _
                 Hnodup Hin). exact Hpos.
    + intros Hpos. destruct (Hacc d) as [Hget Hnodup].
      destruct (in_dec string_dec d (map fst (fst F))) as [Hin | Hout].
      * apply (DictFacts.In_get string String.eqb string_eqb_spec) in Hin.
        apply in_map_iff.
        eexists (d, _). split; [ reflexivity | ].
        apply SortFacts.In_sorted_desc. apply Hent.
        exists (Dict.get String.eqb (fst F) d).
        split; [ exact Hin | ]. split; [ lia | reflexivity ].
      * rewrite (get_absent String.eqb string_eqb_spec _ _ Hout) in Hget. lia.
Qed.

(** The risk table of a history whose seconds sum to less than 2^53.
    Its keys are the domains on which time was spent, each once; the
    risk of a domain is the share of its seconds that count as
    distraction (the event is flagged, or the domain is a known
    distraction), rounded to three places: a number k/1000 of [0, 1],
    which is 1.0 for every known distraction domain and 0.0 for a domain
    without a distracting second; and the table is in descending order
    of risk. *)
Theorem domain_risks_are_time_shares (events : list Event) :
  total_time events < 2 ^ 53 ->
  let risks := _analyze_domain_risks urlparse_hostname events in
  NoDup (map fst risks)
  /\ (forall d, In d (map fst risks) <-> 0 < time_on d events)
  /\ (forall d v, In (d, v) risks ->
      v = Py.round3 (truediv (distraction_time_on d events)
                             (time_on d events))
      /\ (exists k, 0 <= k <= 1000 /\ v = milli_risk k)
      /\ PrimFloat.leb 0 v = true /\ PrimFloat.leb v 1 = true
      /\ (In d DISTRACTION_DOMAINS -> v = 1.0%float)
      /\ (distraction_time_on d events = 0 -> v = 0.0%float))
  /\ StronglySorted (fun a b => PrimFloat.leb (snd b) (snd a) = true) risks.
Proof.
  intros Htot risks.
  destruct (risk_keys events) as [Hnd Hkeys]. fold risks in Hnd, Hkeys.
  assert (Hentry : forall d v, In (d, v) risks ->
             v = Py.round3 (truediv (distraction_time_on d events)
                                    (time_on d events))
             /\ (exists k, 0 <= k <= 1000 /\ v = milli_risk k)
             /\ PrimFloat.leb 0 v = true /\ PrimFloat.leb v 1 = true
             /\ (In d DISTRACTION_DOMAINS -> v = 1.0%float)
             /\ (distraction_time_on d events = 0 -> v = 0.0%float)).
  { intros d v Hin.
    destruct (risk_entry events d v Htot Hin)
      as [_ [Hv [[k [Hk Hgrid]] [Hone Hzero]]]].
    split; [ exact Hv | ]. split; [ exists k; auto | ].
    destruct (milli_risk_unit k Hk) as [H0 H1]. rewrite <- Hgrid in H0, H1.
    auto. }
  split; [ exact Hnd | ]. split; [ exact Hkeys | ]. split; [ exact Hentry | ].
  subst risks. rewrite domain_risks_unfold in *.
  set (out := flat_map _ _) in *.
  set (key := fun a : string * float => order_key (Prim2SF (snd a))).
  assert (Hunit : forall a, In a out ->
             PrimFloat.leb 0 (snd a) = true /\ PrimFloat.leb (snd a) 1 = true).
  { intros [d v] Hin. cbn [snd].
    apply (SortFacts.In_sorted_desc _
             (fun a b : string * float => PrimFloat.ltb (snd a) (snd b)))
      in Hin.
    destruct (Hentry d v Hin) as [_ [_ [H0 [H1 _]]]]. auto. }
  rewrite (SortFacts.sorted_desc_ext _ _ (fun a b => key a <? key b)).
  2:{ intros a b Ha Hb. destruct (Hunit a Ha) as [Ha0 Ha1].
      destruct (Hunit b Hb) as [Hb0 Hb1].
      apply (unit_keys (snd a) (snd b)); assumption. }
  apply (SortFacts.StronglySorted_weaken _ (fun a b => key b <= key a)).
  - apply DictFacts.sorted_desc_sorted.
  - intros a b Ha Hb Hle.
    apply SortFacts.In_sorted_desc in Ha, Hb.
    destruct (Hunit a Ha) as [Ha0 Ha1]. destruct (Hunit b Hb) as [Hb0 Hb1].
    destruct (unit_keys (snd b) (snd a) Hb0 Hb1 Ha0 Ha1) as [_ ->].
    apply Z.leb_le. exact Hle.
Qed.

End Risks.

Section Hours.

Variable urlparse_hostname : string -> option string.
Variable fromisoformat_hour : string -> option Z.

Local Abbreviation time_at := (time_at fromisoformat_hour).
Local Abbreviation distraction_time_at :=
  (distraction_time_at urlparse_hostname fromisoformat_hour).
Local Abbreviation hour_account :=
  (account Z Z.eqb (fun ev => _hour_bucket fromisoformat_hour (timestamp ev))
           (fun ev _ => is_distr urlparse_hostname ev)).

Lemma hourly_unfold (events : list Event) :
  _analyze_hourly_vulnerability urlparse_hostname fromisoformat_hour events
  = map (fun h =>
           let total :=
             Dict.get Z.eqb (fst (fold_left hour_account events ([], []))) h in
           if 0 <? total
           then (h, Py.round3
                      (truediv
                         (Dict.get Z.eqb
                            (snd (fold_left hour_account events ([], []))) h)
                         total))
           else (h, 0.0%float))
        (map Z.of_nat (seq 0 24)).
Proof.
  unfold _analyze_hourly_vulnerability.
  match goal with
  | |- context [ fold_left ?f events ([], []) ] =>
      rewrite (fold_left_agree f hour_account)
        by (intros [tot dis] ev; reflexivity)
  end.
  destruct (fold_left hour_account events ([], [])) as [tot dis].
  reflexivity.
Qed.

(** What an entry of the hourly table is. *)
Lemma hour_entry (events : list Event) (h : Z) (v : float) :
  In (h, v) (_analyze_hourly_vulnerability urlparse_hostname
               fromisoformat_hour events) ->
  0 <= h <= 23
  /\ v = (if 0 <? time_at h events
          then Py.round3 (truediv (distraction_time_at h events)
                                  (time_at h events))
          else 0.0%float).
Proof.
  rewrite hourly_unfold.
  set (F := fold_left hour_account events ([], [])).
  intros Hin. apply in_map_iff in Hin. destruct Hin as [h' [Heq Hh]].
  apply in_map_iff in Hh. destruct Hh as [n [<- Hn]]. apply in_seq in Hn.
  pose proof (accounts Z Z.eqb Z.eqb_eq
                (fun ev => _hour_bucket fromisoformat_hour (timestamp ev))
                (fun ev _ => is_distr urlparse_hostname ev)
                events [] [] (Z.of_nat n)) as Hacc.
  cbv zeta in Hacc. fold F in Hacc.
  destruct Hacc as [Htotal [Hdis _]].
  cbn [Dict.get] in Htotal, Hdis. rewrite Z.add_0_l in Htotal, Hdis.
  cbv zeta in Heq.
  assert (Htotal' : Dict.get Z.eqb (fst F) (Z.of_nat n)
                    = time_at (Z.of_nat n) events) by exact Htotal.
  assert (Hdis' : Dict.get Z.eqb (snd F) (Z.of_nat n)
                  = distraction_time_at (Z.of_nat n) events) by exact Hdis.
  rewrite Htotal', Hdis' in Heq.
  destruct (0 <? time_at (Z.of_nat n) events) eqn:E;
    injection Heq as <- <-; rewrite E; (split; [ lia | reflexivity ]).
Qed.

(** The hourly table of a history whose seconds sum to less than 2^53.
    It has the 24 hours of the day as keys, in order; the value of an
    hour is the share of the seconds spent in that hour that count as
    distraction, rounded to three places, a number k/1000 of [0, 1], and
    0.0 for an hour in which no time was spent. *)
Theorem hourly_vulnerability_is_time_share (events : list Event) :
  total_time events < 2 ^ 53 ->
  let table :=
    _analyze_hourly_vulnerability urlparse_hostname fromisoformat_hour events in
  map fst table = map Z.of_nat (seq 0 24)
  /\ forall h v, In (h, v) table ->
       0 <= h <= 23
       /\ v = (if 0 <? time_at h events
               then Py.round3 (truediv (distraction_time_at h events)
                                       (time_at h events))
               else 0.0%float)
       /\ (exists k, 0 <= k <= 1000 /\ v = milli_risk k)
       /\ PrimFloat.leb 0 v = true /\ PrimFloat.leb v 1 = true.
Proof.
  intros Htot table. subst table.
  split.
  - rewrite hourly_unfold, map_map.
    transitivity (map (fun h : Z => h) (map Z.of_nat (seq 0 24)));
      [ | apply map_id ].
    apply map_ext. intros h. cbv zeta.
    destruct (0 <? _); reflexivity.
  - intros h v Hin. destruct (hour_entry events h v Hin) as [Hh Hv].
    split; [ exact Hh | ]. split; [ exact Hv | ].
    assert (Hgrid : exists k, 0 <= k <= 1000 /\ v = milli_risk k).
    { rewrite Hv. destruct (Z.ltb_spec 0 (time_at h events)) as [Hpos | _].
      - assert (Hshare : 0 <= distraction_time_at h events
                         <= time_at h events).
        { split; [ apply seconds_nonneg | ].
          apply seconds_le. intros ev H. apply andb_true_iff in H. apply H. }
        assert (Hle : time_at h events <= total_time events)
          by (apply seconds_le; reflexivity).
        apply (share_grid _ _ Hshare). lia.
      - exists 0. split; [ lia | reflexivity ]. }
    split; [ exact Hgrid | ].
    destruct Hgrid as [k [Hk ->]]. apply milli_risk_unit. exact Hk.
Qed.

End Hours.

End RiskFacts.

(** ** Long dwells *)

Module DwellFacts.

Import PatternAgent Usage UsageFacts FloatFacts DivFacts RiskFacts.

Lemma fold_left_add (l : list Z) (a : Z) :
  fold_left Z.add l a = a + fold_right Z.add 0 l.
Proof.
  revert a. induction l as [ | x l IH]; intros a; simpl; [ lia | ].
  rewrite IH. lia.
Qed.

Lemma fold_right_shift (l : list Z) (a : Z) :
  fold_right Z.add a l = fold_right Z.add 0 l + a.
Proof. induction l as [ | x l IH]; simpl; lia. Qed.

Section Pushed.

Variable K : Type.
Variable eqb : K -> K -> bool.
Hypothesis eqb_spec : forall a b, eqb a b = true <-> a = b.

Lemma push_stored (dd : list (K * list Z)) (k : K) (v : Z) :
  fold_right Z.add 0 (flat_map snd (Dict.push eqb dd k v))
  = v + fold_right Z.add 0 (flat_map snd dd)
  /\ List.length (flat_map snd (Dict.push eqb dd k v))
     = S (List.length (flat_map snd dd))
  /\ (Forall (fun x => 0 <= x) (flat_map snd dd) -> 0 <= v ->
      Forall (fun x => 0 <= x) (flat_map snd (Dict.push eqb dd k v))).
Proof.
  induction dd as [ | [k' l] dd [IH1 [IH2 IH3]]]; cbn [Dict.push flat_map snd].
  - simpl. repeat split; try lia. intros _ Hv. constructor; [ exact Hv | constructor ].
  - destruct (eqb k' k); cbn [flat_map snd].
    + rewrite <- !app_assoc, !fold_right_app, !length_app.
      cbn [fold_right app List.length].
      split; [ | split ].
      * induction l as [ | x l IHl]; simpl; lia.
      * simpl. lia.
      * intros H Hv. rewrite Forall_app in H. destruct H as [Hl Hdd].
        apply Forall_app. split; [ exact Hl | ].
        constructor; [ exact Hv | exact Hdd ].
    + rewrite !fold_right_app, !length_app.
      split; [ | split ].
      * rewrite IH1. induction l as [ | x l IHl]; simpl; lia.
      * rewrite IH2. lia.
      * intros H Hv. rewrite !Forall_app in *. destruct H as [Hl Hdd].
        split; [ exact Hl | apply IH3; assumption ].
Qed.

Lemma keys_push (dd : list (K * list Z)) (k k' : K) (v : Z) :
  In k' (map fst (Dict.push eqb dd k v)) <-> In k' (map fst dd) \/ k' = k.
Proof.
  induction dd as [ | [k0 l] dd IH]; cbn [Dict.push map fst].
  - simpl. intuition congruence.
  - destruct (eqb k0 k) eqn:E; cbn [map fst].
    + apply eqb_spec in E. subst k0. simpl. intuition congruence.
    + simpl. rewrite IH. intuition congruence.
Qed.

Lemma NoDup_push (dd : list (K * list Z)) (k : K) (v : Z) :
  NoDup (map fst dd) -> NoDup (map fst (Dict.push eqb dd k v)).
Proof.
  induction dd as [ | [k0 l] dd IH]; cbn [Dict.push map fst]; intros H.
  - constructor; [ intros [] | constructor ].
  - inversion H as [ | ? ? Hnot Hrest]; subst.
    destruct (eqb k0 k) eqn:E; cbn [map fst].
    + constructor; assumption.
    + constructor; [ | apply IH, Hrest ].
      rewrite keys_push. intros [Hin | ->]; [ contradiction | ].
      rewrite (DictFacts.eqb_refl K eqb eqb_spec) in E. discriminate.
Qed.

End Pushed.

Lemma entry_le_stored {K : Type} (dd : list (K * list Z)) (e : K * list Z) :
  Forall (fun x => 0 <= x) (flat_map snd dd) -> In e dd ->
  Forall (fun x => 0 <= x) (snd e)
  /\ fold_right Z.add 0 (snd e) <= fold_right Z.add 0 (flat_map snd dd)
  /\ (List.length (snd e) <= List.length (flat_map snd dd))%nat.
Proof.
  assert (Hsum : forall l, Forall (fun x => 0 <= x) l ->
                           0 <= fold_right Z.add 0 l).
  { induction 1; simpl; lia. }
  induction dd as [ | e' dd IH]; cbn [flat_map]; intros Hall Hin;
    [ destruct Hin | ].
  destruct Hin as [-> | Hin].
  - rewrite Forall_app in Hall. destruct Hall as [He Hdd].
    rewrite fold_right_app, length_app.
    pose proof (Hsum _ Hdd).
    split; [ exact He | ]. split; [ | lia ].
    rewrite (fold_right_shift (snd e) (fold_right Z.add 0 (flat_map snd dd))).
    lia.
  - rewrite Forall_app in Hall. destruct Hall as [He Hdd].
    destruct (IH Hdd Hin) as [H1 [H2 H3]].
    rewrite fold_right_app, length_app.
    pose proof (Hsum _ He).
    split; [ exact H1 | ]. split; [ | lia ].
    rewrite (fold_right_shift (snd e') (fold_right Z.add 0 (flat_map snd dd))).
    lia.
Qed.

(** [round] of a number that is zero or finite is an integer. *)
Lemma round0_finite (x : float) (k : Z) :
  Py.within (Prim2SF x) k -> exists r, Py.round0 x = Some r.
Proof.
  unfold Py.round0.
  destruct (Prim2SF x); simpl; try contradiction; eauto.
Qed.

(** [round] of a number that is at least 120 is at least 120. *)
Lemma round0_long (x : float) (r : Z) :
  Py.geb x (Py.of_Z 120) = true -> Py.round0 x = Some r -> 120 <= r.
Proof.
  unfold Py.geb, Py.round0. rewrite leb_spec.
  pose proof (Prim2SF_valid x) as V.
  change (Prim2SF (Py.of_Z 120))
    with (S754_finite false 8444249301319680 (-46)).
  destruct (Prim2SF x) as [s | s | | s m e]; try discriminate.
  unfold SFleb, SFcompare. destruct s; [ discriminate | ].
  intros Hc Hr. injection Hr as <-.
  pose proof (valid_mantissa _ _ _ V) as Hm.
  destruct (Z.compare_spec (-46) e) as [<- | Hlt | Hgt]; try discriminate.
  - change (0 <=? -46) with false. cbv iota.
    assert (Hge : 8444249301319680 <= Z.pos m).
    { destruct (Pos.compare_cont Eq 8444249301319680 m) eqn:C;
        try discriminate.
      - apply Pos.compare_eq in C. subst m. lia.
      - apply Z.lt_le_incl, Pos2Z.pos_lt_pos, Pos.compare_lt_iff. exact C. }
    unfold Py.div_half_even.
    change (2 ^ (- -46)) with 70368744177664.
    assert (120 <= Z.pos m / 70368744177664)
      by (apply Z.div_le_lower_bound; lia).
    destruct (_ <? _); [ lia | ]. destruct (_ <? _); [ lia | ].
    destruct (Z.even _); lia.
  - pose proof (normal_mantissa _ _ _ V ltac:(lia)) as Hn.
    change (2 ^ 52) with 4503599627370496 in Hn.
    set (up := Z.pos m * 2 ^ e).
    set (down := Py.div_half_even (Z.pos m) (2 ^ (- e))).
    destruct (Z.leb_spec 0 e); cbv iota; subst up down.
    + assert (0 < 2 ^ e) by (apply Z.pow_pos_nonneg; lia).
      assert (Z.pos m * 1 <= Z.pos m * 2 ^ e)
        by (apply Z.mul_le_mono_nonneg_l; lia).
      change (120 <= Z.pos m * 2 ^ e). lia.
    + unfold Py.div_half_even.
      assert (Hp : 0 < 2 ^ (- e) <= 2 ^ 45).
      { split; [ apply Z.pow_pos_nonneg; lia | apply Z.pow_le_mono_r; lia ]. }
      change (2 ^ 45) with 35184372088832 in Hp.
      assert (120 <= Z.pos m / 2 ^ (- e)).
      { apply Z.div_le_lower_bound; [ lia | ]. nia. }
      destruct (_ <? _); [ lia | ]. destruct (_ <? _); [ lia | ].
      destruct (Z.even _); lia.
Qed.

Section Dwells.

Variable urlparse_hostname : string -> option string.

Local Abbreviation domain_of := (domain_of urlparse_hostname).
Local Abbreviation is_distr := (is_distr urlparse_hostname).
Local Abbreviation store :=
  (fun (acc : list (string * list Z)) (ev : Event) =>
     match domain_of ev with
     | Some d => if is_distr ev then Dict.push String.eqb acc d (dur_of ev)
                 else acc
     | None => acc
     end).

(** What the first loop of [_detect_long_dwells] stores. *)
Lemma dwell_store (events : list Event) (acc : list (string * list Z)) :
  let out := fold_left store events acc in
  fold_right Z.add 0 (flat_map snd out)
  <= fold_right Z.add 0 (flat_map snd acc) + total_time events
  /\ (List.length (flat_map snd out)
      <= List.length (flat_map snd acc) + List.length events)%nat
  /\ (Forall (fun x => 0 <= x) (flat_map snd acc) ->
      Forall (fun x => 0 <= x) (flat_map snd out))
  /\ (NoDup (map fst acc) -> NoDup (map fst out))
  /\ (forall d, In d (map fst out) ->
      In d (map fst acc)
      \/ exists ev, In ev events /\ domain_of ev = Some d
                    /\ is_distr ev = true).
Proof.
  revert acc. induction events as [ | ev events IH]; intros acc.
  - simpl. unfold total_time. simpl. repeat split; try lia; auto.
  - cbn [fold_left]. cbv zeta. unfold total_time.
    rewrite seconds_cons. fold (total_time events).
    pose proof (dur_of_nonneg ev) as Hdur.
    specialize (IH (store acc ev)). cbv zeta in IH.
    destruct IH as [IH1 [IH2 [IH3 [IH4 IH5]]]].
    cbn [List.length].
    destruct (domain_of ev) as [d | ] eqn:Ed.
    + destruct (is_distr ev) eqn:Ei.
      * destruct (push_stored string String.eqb acc d (dur_of ev))
          as [P1 [P2 P3]].
        split; [ lia | ]. split; [ lia | ]. split; [ auto | ].
        split; [ intros H; apply IH4, (NoDup_push string String.eqb
                                         string_eqb_spec), H | ].
        intros d' Hin. destruct (IH5 d' Hin) as [H | [ev' [H1 [H2 H3]]]].
        -- apply (keys_push string String.eqb string_eqb_spec) in H.
           destruct H as [H | ->]; [ left; exact H | ].
           right. exists ev. split; [ left; reflexivity | auto ].
        -- right. exists ev'. split; [ right; exact H1 | auto ].
      * split; [ lia | ]. split; [ lia | ]. split; [ auto | ].
        split; [ auto | ].
        intros d' Hin. destruct (IH5 d' Hin) as [H | [ev' [H1 [H2 H3]]]].
        -- left. exact H.
        -- right. exists ev'. split; [ right; exact H1 | auto ].
    + split; [ lia | ]. split; [ lia | ]. split; [ auto | ].
      split; [ auto | ].
      intros d' Hin. destruct (IH5 d' Hin) as [H | [ev' [H1 [H2 H3]]]].
      * left. exact H.
      * right. exists ev'. split; [ right; exact H1 | auto ].
Qed.

Local Abbreviation mean_of :=
  (fun durations : list Z =>
     match durations with
     | [] => Py.of_Z 0
     | _ => truediv (fold_left Z.add durations 0)
                    (Z.of_nat (List.length durations))
     end).

Local Abbreviation report :=
  (fun (acc : option (list (string * Z))) (entry : string * list Z) =>
     let '(d, durations) := entry in
     match acc with
     | None => None
     | Some l =>
         let avg :=
           match durations with
           | [] => Py.of_Z 0
           | _ => truediv (fold_left Z.add durations 0%Z)
                          (Z.of_nat (List.length durations))
           end in
         if Py.geb avg (Py.of_Z 120) then
           match Py.round0 avg with
           | Some r => Some (l ++ [(d, r)])%list
           | None => None
           end
         else Some l
     end).

(** The mean of durations that sum to less than 2^53 can be rounded. *)
Lemma mean_rounds (durations : list Z) :
  Forall (fun x => 0 <= x) durations ->
  fold_right Z.add 0 durations < 2 ^ 53 ->
  Z.of_nat (List.length durations) < 2 ^ 53 ->
  exists r, Py.round0 (mean_of durations) = Some r.
Proof.
  intros Hnn Hsum Hlen. cbv beta.
  destruct durations as [ | x rest] eqn:E; [ exists 0; reflexivity | ].
  rewrite <- E in *. rewrite fold_left_add, Z.add_0_l.
  assert (Hn : 0 < Z.of_nat (List.length durations))
    by (subst durations; simpl List.length; lia).
  assert (Hs : 0 <= fold_right Z.add 0 durations).
  { clear - Hnn. induction Hnn; simpl; lia. }
  destruct (Z.eq_dec (fold_right Z.add 0 durations) 0) as [-> | Hne].
  - rewrite truediv_zero by lia. exists 0. reflexivity.
  - destruct (truediv_within (fold_right Z.add 0 durations)
                (Z.of_nat (List.length durations)) 53
                ltac:(lia) ltac:(lia) ltac:(lia)) as [Hw _].
    + assert (1 * 2 ^ 53 <= Z.of_nat (List.length durations) * 2 ^ 53)
        by (apply Z.mul_le_mono_nonneg_r; lia).
      lia.
    + apply (round0_finite _ 53 Hw).
Qed.

(** What the second loop reports. *)
Lemma dwell_report (dd : list (string * list Z)) (l0 : list (string * Z)) :
  (forall e, In e dd -> exists r, Py.round0 (mean_of (snd e)) = Some r) ->
  exists l,
    fold_left report dd (Some l0) = Some (l0 ++ l)%list
    /\ (forall d r, In (d, r) l ->
        In d (map fst dd)
        /\ exists durations,
            In (d, durations) dd
            /\ Py.geb (mean_of durations) (Py.of_Z 120) = true
            /\ Py.round0 (mean_of durations) = Some r)
    /\ (NoDup (map fst dd) -> NoDup (map fst l)).
Proof.
  revert l0. induction dd as [ | [d durations] dd IH]; intros l0 Hall.
  - exists []. rewrite app_nil_r. simpl. split; [ reflexivity | ].
    split; [ intros ? ? [] | intros _; constructor ].
  - cbn [fold_left]. cbv beta iota zeta.
    destruct (Hall (d, durations) ltac:(left; reflexivity)) as [r Hr].
    cbn [snd] in Hr. cbv beta in Hr.
    assert (Hrest : forall e, In e dd ->
                      exists r, Py.round0 (mean_of (snd e)) = Some r)
      by (intros e He; apply Hall; right; exact He).
    destruct (Py.geb _ (Py.of_Z 120)) eqn:Eg.
    + rewrite Hr.
      destruct (IH (l0 ++ [(d, r)])%list Hrest) as [l [Hl [Hin Hnd]]].
      exists ((d, r) :: l). rewrite <- app_assoc in Hl.
      split; [ exact Hl | ]. split.
      * intros d' r' [H | H].
        -- injection H as <- <-. split; [ left; reflexivity | ].
           exists durations. split; [ left; reflexivity | auto ].
        -- destruct (Hin d' r' H) as [Hk [ds [H1 H2]]].
           split; [ right; exact Hk | ].
           exists ds. split; [ right; exact H1 | exact H2 ].
      * intros H. inversion H as [ | ? ? Hnot Hnd']; subst.
        cbn [map fst]. constructor; [ | apply Hnd, Hnd' ].
        intros Hd. apply in_map_iff in Hd. destruct Hd as [[d' r'] [<- Hd]].
        apply Hnot. apply (Hin d' r' Hd).
    + destruct (IH l0 Hrest) as [l [Hl [Hin Hnd]]].
      exists l. split; [ exact Hl | ]. split.
      * intros d' r' H. destruct (Hin d' r' H) as [Hk [ds [H1 H2]]].
        split; [ right; exact Hk | ].
        exists ds. split; [ right; exact H1 | exact H2 ].
      * intros H. inversion H; subst. auto.
Qed.

(** On a history of fewer than 2^53 events whose seconds sum to less
    than 2^53, no average fails to round. *)
Lemma long_dwells_total (events : list Event) :
  total_time events < 2 ^ 53 ->
  Z.of_nat (List.length events) < 2 ^ 53 ->
  exists dwells, _detect_long_dwells urlparse_hostname events = Some dwells.
Proof.
  intros Htot Hlen. unfold _detect_long_dwells. cbv zeta.
  pose proof (dwell_store events []) as Hstore. cbv zeta in Hstore.
  set (dd := fold_left store events []) in *.
  cbn [flat_map fold_right List.length map] in Hstore.
  destruct Hstore as [Hsum [Hcount [Hnn _]]].
  specialize (Hnn ltac:(constructor)).
  assert (Hround : forall e, In e dd ->
             exists r, Py.round0 (mean_of (snd e)) = Some r).
  { intros e He. destruct (entry_le_stored dd e Hnn He) as [H1 [H2 H3]].
    apply mean_rounds; [ exact H1 | lia | lia ]. }
  destruct (dwell_report dd [] Hround) as [l [Hl _]].
  change (fold_left _ dd (Some [])) with (fold_left report dd (Some [])).
  rewrite Hl. eexists. reflexivity.
Qed.

(** Long-dwell detection on a history of fewer than 2^53 events whose
    seconds sum to less than 2^53: it does not raise; it reports a domain
    at most once, and only a domain with an event that counts as
    distraction; every reported average, rounded to an integer, is at
    least the threshold of 120 seconds; and the report is in descending
    order of the rounded average. *)
Theorem long_dwells_reported (events : list Event) :
  total_time events < 2 ^ 53 ->
  Z.of_nat (List.length events) < 2 ^ 53 ->
  exists dwells,
    _detect_long_dwells urlparse_hostname events = Some dwells
    /\ NoDup (map fst dwells)
    /\ StronglySorted (fun a b => snd b <= snd a) dwells
    /\ forall d r, In (d, r) dwells ->
         120 <= r
         /\ exists ev, In ev events /\ domain_of ev = Some d
                       /\ is_distr ev = true.
Proof.
  intros Htot Hlen. unfold _detect_long_dwells. cbv zeta.
  pose proof (dwell_store events []) as Hstore. cbv zeta in Hstore.
  set (dd := fold_left store events []) in *.
  cbn [flat_map fold_right List.length map] in Hstore.
  destruct Hstore as [Hsum [Hcount [Hnn [Hnd Hkeys]]]].
  specialize (Hnn ltac:(constructor)). specialize (Hnd ltac:(constructor)).
  assert (Hround : forall e, In e dd ->
             exists r, Py.round0 (mean_of (snd e)) = Some r).
  { intros e He. destruct (entry_le_stored dd e Hnn He) as [H1 [H2 H3]].
    apply mean_rounds; [ exact H1 | lia | lia ]. }
  destruct (dwell_report dd [] Hround) as [l [Hl [Hin Hnodup]]].
  change (fold_left _ dd (Some [])) with (fold_left report dd (Some [])).
  rewrite Hl. cbn [app].
  eexists. split; [ reflexivity | ].
  pose proof (DictFacts.sorted_desc_perm _ (fun a : string * Z => snd a) l)
    as Hperm.
  split; [ | split ].
  - apply (Permutation_NoDup (l := map fst l)).
    + apply Permutation_map. symmetry. exact Hperm.
    + apply Hnodup, Hnd.
  - apply (DictFacts.sorted_desc_sorted _ (fun a : string * Z => snd a)).
  - intros d r Hd. apply (Permutation_in _ Hperm) in Hd.
    destruct (Hin d r Hd) as [Hk [ds [H1 [H2 H3]]]].
    split; [ apply (round0_long _ _ H2 H3) | ].
    destruct (Hkeys d Hk) as [[] | H]. exact H.
Qed.

End Dwells.

End DwellFacts.

(** ** The confidence of a label *)

Module ConfidentFacts.

Import ContextAgent FloatFacts Variants Grid GridFacts ResultFacts Confident.

Lemma confident_risks_checked :
  forallb confident_risk (seq 300 701) = true.
Proof. vm_compute. reflexivity. Qed.

Lemma confident_milli (k : Z) :
  300 <= k <= 1000 -> PrimFloat.leb 0.3 (milli_risk k) = true.
Proof.
  intros Hk. pose proof confident_risks_checked as H.
  rewrite forallb_forall in H. specialize (H (Z.to_nat k)).
  assert (Hin : In (Z.to_nat k) (seq 300 701)) by (apply in_seq; lia).
  specialize (H Hin). unfold confident_risk in H.
  rewrite Z2Nat.id in H by lia. exact H.
Qed.

(** Rounding to the nearest of a quotient that is at least 299.5. *)
Lemma div_half_even_300 (n d : Z) :
  0 < d -> 599 * d <= 2 * n -> 300 <= Py.div_half_even n d.
Proof.
  intros Hd Hn. unfold Py.div_half_even.
  pose proof (Z.div_mod n d ltac:(lia)) as Hdm.
  pose proof (Z.mod_pos_bound n d Hd) as Hr.
  assert (Hq : 299 <= n / d) by nia.
  destruct (Z.ltb_spec (2 * (n mod d)) d) as [Hlow | Hhigh].
  - nia.
  - destruct (Z.ltb_spec d (2 * (n mod d))) as [_ | Htie]; [ lia | ].
    destruct (Z.even (n / d)) eqn:E; [ | lia ].
    destruct (Z.eq_dec (n / d) 299) as [Heq | Hne]; [ | lia ].
    rewrite Heq in E. discriminate E.
Qed.

(** A score strictly beyond 0.2 on either side has a confidence of at
    least 0.3. *)
Lemma beyond_fifth_confident (x : float) (s : bool) (m : positive) (e : Z) :
  PrimFloat.ltb (-1) x = true -> PrimFloat.ltb x 1 = true ->
  Prim2SF x = S754_finite s m e ->
  -55 < e \/ (e = -55 /\ 7205759403792794 < Z.pos m) ->
  exists k,
    300 <= k <= 1000
    /\ Py.round3 (Py.min 1.0 (PrimFloat.abs x * 1.5)%float) = milli_risk k.
Proof.
  intros Hlo Hhi E Hbig.
  pose proof (Prim2SF_valid x) as V. rewrite E in V.
  assert (Hm : e < 0 /\ Z.pos m < 2 ^ (- e)).
  { destruct s; [ apply (above_minus_one x) | apply (below_one x) ];
      assumption. }
  destruct Hm as [Hneg Hm].
  assert (He : -55 <= e) by lia.
  pose proof (normal_mantissa _ _ _ V ltac:(lia)) as Hnorm.
  pose proof (valid_mantissa _ _ _ V) as Hm53.
  assert (Hval : 7205759403792794 <= Z.pos m * 2 ^ (e + 55)).
  { destruct Hbig as [Hgt | [-> Hgt]].
    - assert (2 <= 2 ^ (e + 55)).
      { change 2 with (2 ^ 1) at 1. apply Z.pow_le_mono_r; lia. }
      change (2 ^ 52) with 4503599627370496 in Hnorm. nia.
    - change (2 ^ (-55 + 55)) with 1. lia. }
  unfold Py.min.
  destruct (PrimFloat.ltb (PrimFloat.abs x * 1.5) 1.0) eqn:Hy.
  2:{ exists 1000. split; [ lia | ]. vm_compute. reflexivity. }
  pose proof (Prim2SF_valid (PrimFloat.abs x * 1.5)) as Vy.
  assert (Hprod : Prim2SF (PrimFloat.abs x * 1.5)
                  = binary_round_aux prec emax false
                      (Z.pos (m * 6755399441055744)) (e + -52) loc_Exact).
  { rewrite mul_spec, abs_spec, E, three_halves_spec. reflexivity. }
  destruct (binary_round_aux_value false (m * 6755399441055744) (e + -52)
              (e + 54) ltac:(lia) ltac:(lia) ltac:(lia)) as [m2 [e2 H]].
  { replace (e + 54 - (e + -52)) with 106 by lia.
    rewrite Pos2Z.inj_mul.
    change (2 ^ 106) with (2 ^ 53 * 2 ^ 53).
    apply Z.mul_lt_mono_nonneg; lia. }
  destruct H as [Hm2 [Hres [He2 [Herr _]]]].
  rewrite <- Hprod in Hres.
  set (T := 2 ^ (e2 - (e + -52))) in *.
  assert (HT : 1 <= T <= 2 ^ 54).
  { subst T. split.
    - change 1 with (2 ^ 0). apply Z.pow_le_mono_r; lia.
    - apply Z.pow_le_mono_r; lia. }
  change (2 ^ 54) with 18014398509481984 in HT.
  rewrite Pos2Z.inj_mul in Herr.
  destruct m2 as [ | p2 | p2]; [ exfalso | | lia ].
  { change (2 ^ 52) with 4503599627370496 in Hnorm. lia. }
  destruct (below_one _ p2 e2 Hres Hy) as [He2neg Hp2].
  exists (Py.milli_of_spec (S754_finite false p2 e2)).
  assert (Hround : Py.round3 (PrimFloat.abs x * 1.5)
                   = milli_risk (Py.milli_of_spec (S754_finite false p2 e2))).
  { unfold Py.round3. rewrite Hres.
    replace (0 <=? e2) with false by (symmetry; apply Z.leb_gt; lia).
    reflexivity. }
  split; [ | exact Hround ].
  unfold Py.milli_of_spec.
  set (D := 2 ^ (- e2)).
  assert (HD : 0 < D) by (subst D; apply Z.pow_pos_nonneg; lia).
  split.
  - apply div_half_even_300; [ exact HD | ].
    assert (HTD : T * D = 2 ^ (52 - e)).
    { subst T D. rewrite <- Z.pow_add_r by lia. f_equal. lia. }
    assert (HC : 7205759403792794 * (T * D) <= Z.pos m * 2 ^ 107).
    { rewrite HTD.
      replace (2 ^ 107) with (2 ^ (e + 55) * 2 ^ (52 - e)).
      2:{ rewrite <- Z.pow_add_r by lia. f_equal. lia. }
      rewrite Z.mul_assoc.
      apply Z.mul_le_mono_nonneg_r; [ apply Z.pow_nonneg; lia | exact Hval ]. }
    change (2 ^ 107) with 162259276829213363391578010288128 in HC.
    change (2 ^ 52) with 4503599627370496 in Hnorm.
    set (X := Z.pos p2 * T) in *. set (Y := T * D) in *.
    assert (Hgoal : 599 * Y <= 2000 * X) by lia.
    subst X Y. nia.
  - apply div_half_even_unit; [ exact HD | ]. subst D. lia.
Qed.

Lemma fifth_spec :
  Prim2SF 0.2%float = S754_finite false 7205759403792794 (-55)
  /\ Prim2SF (-0.2)%float = S754_finite true 7205759403792794 (-55).
Proof. split; reflexivity. Qed.

(** The confidence that goes with the labels "study" and "distraction"
    is at least 0.3. *)
Lemma label_confident (x : float) :
  Py.gtb (clamp x) 0.2 = true \/ PrimFloat.ltb (clamp x) (-0.2) = true ->
  PrimFloat.leb 0.3
    (Py.round3 (Py.min 1.0 (PrimFloat.abs (clamp x) * 1.5)%float)) = true.
Proof.
  intros H.
  destruct (ContextFacts.clamp_cases x) as [-> | [-> | [Hc [Hlo Hhi]]]].
  - vm_compute. reflexivity.
  - vm_compute. reflexivity.
  - rewrite Hc in *. clear Hc. destruct fifth_spec as [Hp Hn].
    assert (Hbig : exists s m e,
               Prim2SF x = S754_finite s m e
               /\ (-55 < e \/ (e = -55 /\ 7205759403792794 < Z.pos m))).
    { unfold Py.gtb in H. rewrite !ltb_spec, Hp, Hn in H.
      unfold SFltb, SFcompare in H.
      destruct (Prim2SF x) as [s | s | | s m e] eqn:E.
      - destruct H as [H | H]; cbv beta iota in H; discriminate H.
      - rewrite ltb_spec, E in Hlo, Hhi. rewrite one_spec in Hhi.
        rewrite minus_one_spec in Hlo. unfold SFltb, SFcompare in Hlo, Hhi.
        cbv beta iota in Hlo, Hhi.
        destruct s; [ discriminate Hlo | discriminate Hhi ].
      - destruct H as [H | H]; cbv beta iota in H; discriminate H.
      - exists s, m, e. split; [ reflexivity | ].
        clear Hp Hn.
        destruct H as [H | H]; destruct s; try discriminate H.
        + destruct (Z.compare_spec (-55) e) as [<- | Hlt | Hgt];
            try discriminate H; [ | left; exact Hlt ].
          right. split; [ reflexivity | ].
          destruct (Pos.compare_cont Eq 7205759403792794 m) eqn:C;
            try discriminate H.
          apply Pos2Z.pos_lt_pos, Pos.compare_lt_iff. exact C.
        + destruct (Z.compare_spec e (-55)) as [-> | Hlt | Hgt];
            try discriminate H; [ | left; lia ].
          right. split; [ reflexivity | ].
          destruct (Pos.compare_cont Eq m 7205759403792794) eqn:C;
            try discriminate H.
          apply Pos2Z.pos_lt_pos, Pos.compare_gt_iff. exact C. }
    destruct Hbig as [s [m [e [E Hbig]]]].
    destruct (beyond_fifth_confident x s m e Hlo Hhi E Hbig) as [k [Hk ->]].
    apply confident_milli. exact Hk.
Qed.

(** The aggregation gives a label other than "neutral" a confidence of
    at least 0.3. *)
Lemma aggregate_confident (domain_score title_score relevance : float)
      (st : State) :
  classification (aggregate domain_score title_score relevance st)
  <> "neutral"%string ->
  PrimFloat.leb 0.3 (confidence (aggregate domain_score title_score
                                           relevance st)) = true.
Proof.
  destruct st as [scores reasons]. unfold aggregate.
  destruct (PrimFloat.leb _ (-2) || PrimFloat.leb _ (-2));
    cbv zeta; cbn [classification confidence].
  - intros _. vm_compute. reflexivity.
  - intros H. apply label_confident.
    destruct (Py.gtb (clamp (mean scores)) 0.2); [ left; reflexivity | ].
    destruct (PrimFloat.ltb (clamp (mean scores)) (-0.2));
      [ right; reflexivity | ].
    contradiction H. reflexivity.
Qed.

Section Labels.

Variable urlparse_hostname : string -> option string.
Variable gemini_configured : bool.
Variable generate_content : string -> option string.

Local Abbreviation analyze :=
  (analyze urlparse_hostname gemini_configured generate_content).

(** A page that is given the label "study" or "distraction" is given it
    with a confidence of at least 0.3: the floor [InterventionAgent]
    asks of a distraction is met by every distraction [ContextAgent]
    reports. *)
Theorem labels_are_confident (data : Input) :
  classification (analyze data) <> "neutral"%string ->
  PrimFloat.leb 0.3 (confidence (analyze data)) = true.
Proof.
  destruct (ContextFacts.analyze_aggregate urlparse_hostname gemini_configured
              generate_content data) as [relevance [st ->]].
  apply aggregate_confident.
Qed.

End Labels.

End ConfidentFacts.

(** ** The title against the domain *)

Module OverrideFacts.

Import ContextAgent.
Local Open Scope string_scope.

Lemma hits_length (keywords : list string) (title : string) :
  (List.length (hits keywords title) <= List.length keywords)%nat.
Proof. unfold hits. apply filter_length_le. Qed.

(** The values of the keyword score. *)
Lemma title_regex_values (title : string) :
  In (_score_title_regex title)
     [ (-2.0)%float; (-0.7)%float; (-0.6000000000000001)%float;
       (-0.4)%float; (-0.2)%float; 0.0%float; 0.2%float; 0.4%float;
       0.6000000000000001%float; 0.7%float ].
Proof.
  unfold _score_title_regex.
  destruct (Str.is_empty title); [ simpl; auto 10 | ].
  destruct (any_hit ADULT_KEYWORDS title); [ simpl; auto 10 | ].
  rewrite !ContextFacts.count_hits_length.
  pose proof (hits_length STUDY_KEYWORDS title) as Hs.
  pose proof (hits_length DISTRACTION_KEYWORDS title) as Hd.
  set (s := List.length (hits STUDY_KEYWORDS title)) in *.
  set (d := List.length (hits DISTRACTION_KEYWORDS title)) in *.
  change (List.length STUDY_KEYWORDS) with 16%nat in Hs.
  change (List.length DISTRACTION_KEYWORDS) with 6%nat in Hd.
  clearbody s d.
  assert (Hs' : In s (seq 0 17)) by (apply in_seq; lia).
  assert (Hd' : In d (seq 0 7)) by (apply in_seq; lia).
  clear Hs Hd. cbn [seq In] in Hs', Hd'.
  repeat (destruct Hs' as [<- | Hs']; [ | ]); [ .. | contradiction ];
    (repeat (destruct Hd' as [<- | Hd']; [ | ]); [ .. | contradiction ]);
    vm_compute; auto 12.
Qed.

(** The values of the domain score. *)
Lemma domain_score_values (domain : option string) :
  In (_score_domain domain)
     [ (-2.0)%float; (-0.8)%float; (-0.6)%float; 0.0%float; 0.6%float;
       0.8%float ].
Proof.
  unfold _score_domain. destruct domain as [d | ]; [ | simpl; auto 10 ].
  repeat match goal with
         | |- context [ if ?c then _ else _ ] => destruct c
         end; simpl; auto 10.
Qed.

Section Override.

Variable urlparse_hostname : string -> option string.
Variable gemini_configured : bool.
Variable generate_content : string -> option string.

Local Abbreviation analyze :=
  (analyze urlparse_hostname gemini_configured generate_content).
Local Abbreviation title_score_of :=
  (title_score_of urlparse_hostname gemini_configured generate_content).
Local Abbreviation domain_of := (domain_of urlparse_hostname).

(** The values of the title score, from the keywords or from the
    semantic classifier. *)
Lemma title_score_values (data : Input) :
  In (title_score_of data)
     [ (-2.0)%float; (-0.8)%float; (-0.7)%float;
       (-0.6000000000000001)%float; (-0.4)%float; (-0.2)%float; 0.0%float;
       0.2%float; 0.4%float; 0.6000000000000001%float; 0.7%float;
       0.8%float ].
Proof.
  unfold title_score_of, ContextAgent.title_score_of, title_step.
  pose proof (title_regex_values (title_of data)) as H.
  assert (Hin : In (_score_title_regex (title_of data))
                   [ (-2.0)%float; (-0.8)%float; (-0.7)%float;
                     (-0.6000000000000001)%float; (-0.4)%float;
                     (-0.2)%float; 0.0%float; 0.2%float; 0.4%float;
                     0.6000000000000001%float; 0.7%float; 0.8%float ]).
  { simpl in H |- *. intuition. }
  destruct (_ && gemini_configured); [ | exact Hin ].
  destruct (String.eqb _ "distraction"); [ simpl; auto 15 | ].
  destruct (String.eqb _ "study"); [ simpl; auto 15 | exact Hin ].
Qed.

Ltac settle_scores Dv Tv d t :=
  cbv zeta; cbn [classification];
  decompose [or] Dv; try subst d; try discriminate; try contradiction;
  decompose [or] Tv; try subst t; try discriminate; try contradiction;
  vm_compute; reflexivity.

(** The title can flip the domain.  On a domain that is not a study
    domain and not a severe one (its score is 0.0, -0.6 or -0.8), a title
    with a positive score, be it from the keywords or from the semantic
    classifier, makes the page a study page, in a session or out of one
    and whatever the study topic is, when there is no recent browsing to
    weigh in: provided the domain is not a known distraction domain
    (score above -0.8) or the title scores more than one study keyword
    (above 0.2). *)
Theorem study_title_overrides_domain (data : Input) :
  recent_domains data = [] ->
  PrimFloat.leb (_score_domain (domain_of data)) 0 = true ->
  PrimFloat.ltb (-2.0) (_score_domain (domain_of data)) = true ->
  PrimFloat.ltb 0 (title_score_of data) = true ->
  PrimFloat.ltb (-0.8) (_score_domain (domain_of data))
  || PrimFloat.ltb 0.2 (title_score_of data) = true ->
  classification (analyze data) = "study".
Proof.
  intros Hrecent Hd Hd2 Ht Hor.
  unfold analyze, ContextAgent.analyze. cbv zeta.
  rewrite (ContextFacts.title_step_score _ _ _ _ _ []).
  fold (ContextAgent.title_score_of urlparse_hostname gemini_configured
          generate_content data).
  rewrite Hrecent.
  pose proof (domain_score_values (domain_of data)) as Dv.
  pose proof (title_score_values data) as Tv.
  set (d := _score_domain (domain_of data)) in *.
  set (t := title_score_of data) in *.
  set (dom := domain_of data).
  set (rs := snd (title_step _ _ dom _ _)).
  clearbody d t dom rs.
  unfold domain_step, keyword_step, override_step, topic_step, session_step,
    trajectory_step, aggregate.
  cbn [fst snd].
  assert (Hov : PrimFloat.leb d 0 && Py.gtb t 0 = true)
    by (unfold Py.gtb; rewrite Hd, Ht; reflexivity).
  rewrite Hov.
  assert (Hsess : forall b, b && PrimFloat.ltb d 0 && PrimFloat.leb t 0 = false).
  { intros b. rewrite (FloatFacts.ltb_not_leb _ _ Ht). apply andb_false_r. }
  change (_score_trajectory []) with 0.0%float.
  change (Py.gtb (PrimFloat.abs 0) 0.1) with false.
  assert (Hadult : PrimFloat.leb d (-2) || PrimFloat.leb t (-2) = false).
  { rewrite (FloatFacts.ltb_not_leb _ _ Hd2).
    simpl in Tv. decompose [or] Tv; try subst t; try reflexivity;
      try discriminate Ht; contradiction. }
  simpl in Dv, Tv.
  destruct (study_topic data) as [topic | ].
  - destruct (negb (Str.is_empty topic) && negb (Str.is_empty (title_of data))).
    + destruct (Py.gtb (_compute_topic_relevance topic (title_of data)) 0.3);
        cbn [fst snd]; rewrite Hsess; cbn [fst snd]; rewrite Hadult;
        clear Hov Hsess Hadult; settle_scores Dv Tv d t.
    + cbn [fst snd]; rewrite Hsess; cbn [fst snd]; rewrite Hadult;
        clear Hov Hsess Hadult; settle_scores Dv Tv d t.
  - cbn [fst snd]; rewrite Hsess; cbn [fst snd]; rewrite Hadult;
      clear Hov Hsess Hadult; settle_scores Dv Tv d t.
Qed.

(** One study keyword does not redeem a known distraction domain.  With
    a domain score of -0.8, a title score of 0.2, no study topic and no
    recent browsing, the scores -0.8, 0.2 and the override bonus 1.2 have
    a mean that is not above 0.2: the page is neutral, in a session or out
    of one. *)
Theorem one_keyword_on_distraction_domain (data : Input) :
  recent_domains data = [] ->
  study_topic data = None ->
  _score_domain (domain_of data) = (-0.8)%float ->
  title_score_of data = 0.2%float ->
  classification (analyze data) = "neutral".
Proof.
  intros Hrecent Htopic Hd Ht.
  unfold analyze, ContextAgent.analyze. cbv zeta.
  rewrite (ContextFacts.title_step_score _ _ _ _ _ []).
  fold (ContextAgent.title_score_of urlparse_hostname gemini_configured
          generate_content data).
  rewrite Hrecent, Htopic, Hd, Ht.
  set (dom := domain_of data).
  set (rs := snd (title_step _ _ dom _ _)).
  clearbody dom rs.
  unfold domain_step, keyword_step, override_step, topic_step, session_step,
    trajectory_step, aggregate.
  cbn [fst snd].
  change (PrimFloat.leb (-0.8) 0 && Py.gtb 0.2 0) with true. cbv iota.
  cbn [fst snd].
  change (PrimFloat.leb 0.2 0) with false. rewrite andb_false_r.
  cbn [fst snd].
  reflexivity.
Qed.

End Override.

End OverrideFacts.

(** ** The session penalty *)

Module PenaltyFacts.

Import ContextAgent Trajectory TrajectoryFacts Penalty.
Local Open Scope string_scope.

Lemma penalties_checked :
  forallb (fun n => forallb penalty_ok (mark_lists n)) (seq 0 6) = true.
Proof. vm_compute. reflexivity. Qed.

Lemma penalty_checked (d t : float) (boosted : bool) (ms : list mark) :
  (List.length ms <= 5)%nat ->
  In d [ (-0.8)%float; (-0.6)%float ] ->
  In t [ (-0.8)%float; (-0.7)%float; (-0.6000000000000001)%float;
         (-0.4)%float; (-0.2)%float; 0.0%float ] ->
  (label_rank (label (penalised d t boosted true ms))
   <= label_rank (label (penalised d t boosted false ms)))%Z.
Proof.
  intros Hlen Hd Ht. pose proof penalties_checked as H.
  rewrite forallb_forall in H.
  specialize (H (List.length ms) ltac:(apply in_seq; lia)).
  rewrite forallb_forall in H. specialize (H ms (mark_lists_complete ms)).
  unfold penalty_ok in H. rewrite forallb_forall in H.
  specialize (H d Hd). rewrite forallb_forall in H.
  specialize (H t Ht). rewrite forallb_forall in H.
  specialize (H boosted ltac:(destruct boosted; simpl; auto)).
  apply Z.leb_le in H. exact H.
Qed.

Lemma label_rank_distraction (scores : list float) :
  label_rank (label scores) = 0%Z <-> label scores = "distraction".
Proof.
  unfold label. destruct (Py.gtb _ 0.2); [ split; discriminate | ].
  destruct (PrimFloat.ltb _ (-0.2)); split; try discriminate; reflexivity.
Qed.

Lemma label_rank_study (scores : list float) :
  label_rank (label scores) = 2%Z <-> label scores = "study".
Proof.
  unfold label. destruct (Py.gtb _ 0.2); [ split; reflexivity | ].
  destruct (PrimFloat.ltb _ (-0.2)); split; discriminate.
Qed.

Lemma label_rank_bounds (scores : list float) :
  (0 <= label_rank (label scores) <= 2)%Z.
Proof.
  unfold label. destruct (Py.gtb _ 0.2); [ vm_compute; split; discriminate | ].
  destruct (PrimFloat.ltb _ (-0.2)); vm_compute; split; discriminate.
Qed.

(** The label of an aggregation. *)
Lemma aggregate_label (d t relevance : float) (scores : list float)
      (reasons : list string) :
  classification (aggregate d t relevance (scores, reasons))
  = if PrimFloat.leb d (-2) || PrimFloat.leb t (-2) then "distraction"
    else label scores.
Proof.
  unfold aggregate, label.
  destruct (PrimFloat.leb d (-2) || PrimFloat.leb t (-2)); reflexivity.
Qed.

Section Session.

Variable urlparse_hostname : string -> option string.
Variable gemini_configured : bool.
Variable generate_content : string -> option string.

Local Abbreviation analyze :=
  (analyze urlparse_hostname gemini_configured generate_content).
Local Abbreviation title_score_of :=
  (title_score_of urlparse_hostname gemini_configured generate_content).
Local Abbreviation domain_of := (domain_of urlparse_hostname).

(** The session flag is read by step 5 alone; when the penalty can
    apply, the scores that reach it are the domain score, the title score
    and the topic boost, if any. *)
Lemma analyze_in_session (data : Input) :
  let d := _score_domain (domain_of data) in
  let t := title_score_of data in
  exists relevance scores reasons,
    (PrimFloat.ltb d 0 = true -> PrimFloat.leb t 0 = true ->
     exists boosted : bool,
       scores = if boosted then [d; t; 0.8%float] else [d; t])
    /\ forall active,
        analyze (in_session data active)
        = aggregate d t relevance
            (trajectory_step (recent_domains data)
               (session_step active d t (scores, reasons))).
Proof.
  intros d t.
  set (rs := snd (title_step gemini_configured generate_content
                    (domain_of data) (title_of data)
                    (snd (domain_step (domain_of data) d ([], []))))).
  set (R := topic_step (study_topic data) (title_of data) d
              (override_step (domain_of data) d t
                 (keyword_step t ([d], rs)))).
  exists (fst R), (fst (snd R)), (snd (snd R)). split.
  - intros Hd Ht. subst R.
    unfold keyword_step, override_step.
    unfold Py.gtb, Py.geb. rewrite (FloatFacts.leb_not_ltb _ _ Ht).
    rewrite andb_false_r. rewrite (FloatFacts.ltb_not_leb _ _ Hd).
    cbn [andb]. unfold topic_step, append. cbn [app].
    destruct (study_topic data) as [topic | ];
      [ | exists false; reflexivity ].
    destruct (negb (Str.is_empty topic) && negb (Str.is_empty (title_of data)));
      [ | exists false; reflexivity ].
    destruct (Py.gtb _ 0.3); [ | exists false; reflexivity ].
    rewrite Hd. exists true. reflexivity.
  - intros active. rewrite <- !surjective_pairing.
    unfold analyze, ContextAgent.analyze. cbv zeta.
    rewrite (ContextFacts.title_step_score _ _ _ _ _ []).
    reflexivity.
Qed.

(** The scores that reach the aggregation when the penalty applies. *)
Lemma penalised_steps (d t : float) (boosted active : bool)
      (recent : list string) (reasons : list string) :
  PrimFloat.ltb d 0 = true -> PrimFloat.leb t 0 = true ->
  fst (trajectory_step recent
         (session_step active d t
            (if boosted then [d; t; 0.8%float] else [d; t], reasons)))
  = penalised d t boosted active
      (map domain_mark (skipn (List.length recent - 5) recent)).
Proof.
  intros Hd Ht. unfold session_step, trajectory_step, penalised.
  rewrite Hd, Ht, andb_true_r, andb_true_r.
  rewrite score_trajectory_marks. cbv zeta.
  destruct active, boosted;
    destruct (Py.gtb (PrimFloat.abs _) 0.1); reflexivity.
Qed.

(** A study session never makes the verdict on a page more lenient.
    Of two requests that differ in the session flag alone: when the page
    is a distraction out of a session it is one in a session, when it is
    a study page in a session it is one out of a session, and the severe
    flag and the topic relevance are the same. *)
Theorem session_never_more_lenient (data : Input) :
  let off := analyze (in_session data false) in
  let on := analyze (in_session data true) in
  (classification off = "distraction" -> classification on = "distraction")
  /\ (classification on = "study" -> classification off = "study")
  /\ is_adult on = is_adult off
  /\ topic_relevance on = topic_relevance off.
Proof.
  cbv zeta.
  destruct (analyze_in_session data) as [rel [scores [reasons [Hsc Han]]]].
  cbv zeta in Hsc, Han. rewrite (Han true), (Han false). clear Han.
  pose proof (OverrideFacts.domain_score_values (domain_of data)) as Dv.
  pose proof (OverrideFacts.title_score_values urlparse_hostname
                gemini_configured generate_content data) as Tv.
  set (d := _score_domain (domain_of data)) in *.
  set (t := title_score_of data) in *.
  clearbody d t.
  destruct (PrimFloat.ltb d 0 && PrimFloat.leb t 0) eqn:E.
  - apply andb_true_iff in E. destruct E as [Hd Ht].
    destruct (Hsc Hd Ht) as [boosted ->]. clear Hsc.
    pose proof (penalised_steps d t boosted true (recent_domains data)
                  reasons Hd Ht) as Hon.
    pose proof (penalised_steps d t boosted false (recent_domains data)
                  reasons Hd Ht) as Hoff.
    destruct (trajectory_step (recent_domains data)
                (session_step true d t _)) as [son ron].
    destruct (trajectory_step (recent_domains data)
                (session_step false d t _)) as [soff roff].
    cbn [fst] in Hon, Hoff. subst son soff.
    rewrite !aggregate_label.
    assert (Hflags : forall s r s' r',
               is_adult (aggregate d t rel (s, r))
               = is_adult (aggregate d t rel (s', r'))
               /\ topic_relevance (aggregate d t rel (s, r))
                  = topic_relevance (aggregate d t rel (s', r'))).
    { intros s r s' r'. unfold aggregate.
      destruct (PrimFloat.leb d (-2) || PrimFloat.leb t (-2)); split;
        reflexivity. }
    destruct (Hflags (penalised d t boosted true
                        (map domain_mark
                             (skipn (List.length (recent_domains data) - 5)
                                    (recent_domains data)))) ron
                     (penalised d t boosted false
                        (map domain_mark
                             (skipn (List.length (recent_domains data) - 5)
                                    (recent_domains data)))) roff)
      as [Hadult Hrel].
    set (ms := map domain_mark
                   (skipn (List.length (recent_domains data) - 5)
                          (recent_domains data))) in *.
    assert (Hms : (List.length ms <= 5)%nat)
      by (subst ms; rewrite length_map; apply last_five_length).
    clearbody ms. clear Hflags.
    destruct (PrimFloat.leb d (-2) || PrimFloat.leb t (-2)) eqn:A;
      [ repeat split; auto | ].
    apply orb_false_iff in A. destruct A as [Ad At].
    assert (Hdin : In d [ (-0.8)%float; (-0.6)%float ]).
    { simpl in Dv |- *.
      decompose [or] Dv; try subst d; try discriminate Hd;
        try discriminate Ad; try contradiction; auto. }
    assert (Htin : In t [ (-0.8)%float; (-0.7)%float;
                          (-0.6000000000000001)%float; (-0.4)%float;
                          (-0.2)%float; 0.0%float ]).
    { simpl in Tv |- *.
      decompose [or] Tv; try subst t; try discriminate Ht;
        try discriminate At; try contradiction; auto 10. }
    pose proof (penalty_checked d t boosted ms Hms Hdin Htin) as Hrank.
    pose proof (label_rank_bounds (penalised d t boosted true ms)) as Hb.
    pose proof (label_rank_bounds (penalised d t boosted false ms)) as Hb'.
    split; [ | split; [ | split; assumption ] ].
    + intros H. apply label_rank_distraction.
      apply label_rank_distraction in H. lia.
    + intros H. apply label_rank_study.
      apply label_rank_study in H. lia.
  - assert (Hsame : forall active,
               session_step active d t (scores, reasons) = (scores, reasons)).
    { intros active. unfold session_step.
      rewrite <- andb_assoc, E, andb_false_r. reflexivity. }
    rewrite !Hsame. auto.
Qed.

End Session.

End PenaltyFacts.

(** ** The topic relevance *)

Module RelevanceFacts.

Import ContextAgent FloatFacts Variants Grid GridFacts DivFacts.

Lemma filter_all {A : Type} (f : A -> bool) (l : list A) :
  (forall x, In x l -> f x = true) -> filter f l = l.
Proof.
  induction l as [ | a l IH]; intros H; [ reflexivity | ].
  simpl. rewrite (H a) by (left; reflexivity).
  rewrite IH; [ reflexivity | ]. intros x Hx. apply H. right. exact Hx.
Qed.

Lemma filter_none {A : Type} (f : A -> bool) (l : list A) :
  (forall x, In x l -> f x = false) -> filter f l = [].
Proof.
  induction l as [ | a l IH]; intros H; [ reflexivity | ].
  simpl. rewrite (H a) by (left; reflexivity).
  apply IH. intros x Hx. apply H. right. exact Hx.
Qed.

(** The relevance that step 4 hands on. *)
Lemma topic_step_relevance (study_topic : option string) (title : string)
      (domain_score : float) (st : State) :
  fst (topic_step study_topic title domain_score st)
  = match study_topic with
    | Some topic =>
        if negb (Str.is_empty topic) && negb (Str.is_empty title)
        then _compute_topic_relevance topic title else 0.0%float
    | None => 0.0%float
    end.
Proof.
  destruct st as [scores reasons]. unfold topic_step.
  destruct study_topic as [topic | ]; [ | reflexivity ].
  destruct (negb (Str.is_empty topic) && negb (Str.is_empty title));
    [ | reflexivity ].
  destruct (Py.gtb _ 0.3); reflexivity.
Qed.

(** The relevance of a title to a topic of fewer than 2^53 words is the
    share of the topic words that occur in the title. *)
Lemma relevance_share (topic title : string) :
  Z.of_nat (List.length (words_of topic)) < 2 ^ 53 ->
  let r := Py.round3 (_compute_topic_relevance topic title) in
  (exists k, 0 <= k <= 1000 /\ r = milli_risk k)
  /\ ((forall w, In w (words_of topic) -> ~ In w (words_of title)) ->
      r = 0.0%float)
  /\ (words_of topic <> [] ->
      (forall w, In w (words_of topic) -> In w (words_of title)) ->
      r = 1.0%float).
Proof.
  intros Hlen r. subst r. unfold _compute_topic_relevance.
  set (shared := filter (fun w => Str.mem w (words_of title))
                        (words_of topic)).
  assert (Hle : (List.length shared <= List.length (words_of topic))%nat)
    by apply filter_length_le.
  assert (Hnone : (forall w, In w (words_of topic) -> ~ In w (words_of title))
                  -> shared = []).
  { intros H. apply filter_none. intros w Hw.
    apply StrFacts.mem_not_In. apply H, Hw. }
  assert (Hall : (forall w, In w (words_of topic) -> In w (words_of title))
                 -> shared = words_of topic).
  { intros H. apply filter_all. intros w Hw.
    apply StrFacts.mem_In. apply H, Hw. }
  destruct (words_of topic) as [ | w ws] eqn:E.
  - split; [ exists 0; split; [ lia | reflexivity ] | ].
    split; [ reflexivity | intros H; contradiction ].
  - rewrite <- E in *.
    assert (Hpos : 0 < Z.of_nat (List.length (words_of topic)))
      by (rewrite E; simpl List.length; lia).
    change (Py.of_Z (Z.of_nat (List.length shared))
            / Py.of_Z (Z.of_nat (List.length (words_of topic))))%float
      with (PatternAgent.truediv (Z.of_nat (List.length shared))
              (Z.of_nat (List.length (words_of topic)))).
    destruct (RiskFacts.share_grid (Z.of_nat (List.length shared))
                (Z.of_nat (List.length (words_of topic)))
                ltac:(lia) ltac:(lia)) as [Hgrid [Hone Hzero]].
    split; [ exact Hgrid | ]. split.
    + intros H. apply Hzero. rewrite (Hnone H). reflexivity.
    + intros _ H. apply Hone. rewrite (Hall H). reflexivity.
Qed.

Section Relevance.

Variable urlparse_hostname : string -> option string.
Variable gemini_configured : bool.
Variable generate_content : string -> option string.

Local Abbreviation analyze :=
  (analyze urlparse_hostname gemini_configured generate_content).

(** The relevance returned is the one of step 4. *)
Lemma analyze_relevance (data : Input) :
  exists d st,
    topic_relevance (analyze data)
    = Py.round3 (fst (topic_step (study_topic data) (title_of data) d st)).
Proof.
  unfold analyze, ContextAgent.analyze. cbv zeta.
  match goal with
  | |- context [ aggregate ?d ?t (fst (topic_step ?a ?b ?c ?s)) ?st ] =>
      exists c, s; generalize (fst (topic_step a b c s)); generalize st;
        generalize d; generalize t
  end.
  intros t d [scores reasons] rel. unfold aggregate.
  destruct (_ || _); reflexivity.
Qed.

(** The topic relevance of a result, for an ASCII title and an ASCII
    study topic of fewer than 2^53 words: a number k/1000 of [0, 1]; 0.0
    when no topic is given, when the title is empty and when no word of
    the topic (stop words apart) is a word of the title; 1.0 when the
    topic has such words, the title is not empty and every one of them
    is a word of the title. *)
Theorem topic_relevance_is_word_share (data : Input) :
  Str.isascii (title_of data) = true ->
  (forall topic, study_topic data = Some topic ->
                 Str.isascii topic = true
                 /\ Z.of_nat (List.length (words_of topic)) < 2 ^ 53) ->
  let r := topic_relevance (analyze data) in
  (exists k, 0 <= k <= 1000 /\ r = milli_risk k)
  /\ PrimFloat.leb 0 r = true /\ PrimFloat.leb r 1 = true
  /\ (study_topic data = None \/ title_of data = ""%string -> r = 0.0%float)
  /\ forall topic,
      study_topic data = Some topic ->
      ((forall w, In w (words_of topic) -> ~ In w (words_of (title_of data)))
       -> r = 0.0%float)
      /\ (title_of data <> ""%string -> words_of topic <> [] ->
          (forall w, In w (words_of topic) -> In w (words_of (title_of data)))
          -> r = 1.0%float).
Proof.
  intros _ Hascii r. subst r.
  assert (Hlen : forall topic, study_topic data = Some topic ->
                   Z.of_nat (List.length (words_of topic)) < 2 ^ 53)
    by (intros topic Htopic; apply (Hascii topic Htopic)).
  clear Hascii.
  destruct (analyze_relevance data) as [d [st ->]].
  rewrite topic_step_relevance.
  assert (Hzero : exists k, 0 <= k <= 1000
                            /\ Py.round3 0.0%float = milli_risk k)
    by (exists 0; split; [ lia | reflexivity ]).
  assert (Hgrid : exists k, 0 <= k <= 1000
                    /\ Py.round3
                         match study_topic data with
                         | Some topic =>
                             if negb (Str.is_empty topic)
                                && negb (Str.is_empty (title_of data))
                             then _compute_topic_relevance topic
                                                           (title_of data)
                             else 0.0%float
                         | None => 0.0%float
                         end
                       = milli_risk k).
  { destruct (study_topic data) as [topic | ]; [ | exact Hzero ].
    destruct (negb (Str.is_empty topic) && negb (Str.is_empty (title_of data)));
      [ | exact Hzero ].
    destruct (relevance_share topic (title_of data) (Hlen topic eq_refl))
      as [Hg _].
    exact Hg. }
  split; [ exact Hgrid | ].
  destruct Hgrid as [k [Hk Hv]].
  split; [ rewrite Hv; apply milli_risk_unit; exact Hk | ].
  split; [ rewrite Hv; apply milli_risk_unit; exact Hk | ].
  clear k Hk Hv Hzero. split.
  - intros [-> | Ht]; [ reflexivity | ].
    rewrite Ht. destruct (study_topic data) as [topic | ]; [ | reflexivity ].
    rewrite andb_false_r. reflexivity.
  - intros topic Htopic. rewrite Htopic.
    destruct (relevance_share topic (title_of data) (Hlen topic Htopic))
      as [_ [Hnone Hall]].
    split.
    + intros H.
      destruct (negb (Str.is_empty topic) && negb (Str.is_empty (title_of data)));
        [ | reflexivity ].
      apply Hnone, H.
    + intros Htitle Hwords H.
      assert (Et : Str.is_empty (title_of data) = false)
        by (destruct (title_of data); [ contradiction | reflexivity ]).
      assert (Ep : Str.is_empty topic = false)
        by (destruct topic; [ contradiction Hwords | ]; reflexivity).
      rewrite Et, Ep. cbn [negb andb].
      apply Hall; assumption.
Qed.

End Relevance.

End RelevanceFacts.

(** ** The patterns of a history *)

Module ReportFacts.

Import PatternAgent Usage UsageFacts.
Local Open Scope string_scope.

Section Report.

Variable urlparse_hostname : string -> option string.
Variable fromisoformat_hour : string -> option Z.

Local Abbreviation analyze := (analyze urlparse_hostname fromisoformat_hour).
Local Abbreviation domain_of := (domain_of urlparse_hostname).
Local Abbreviation is_distr := (is_distr urlparse_hostname).
Local Abbreviation time_on := (time_on urlparse_hostname).

(** A pattern that has been added stays. *)
Lemma appended_stays (kind : string) (l : list Pattern) (y : Pattern) :
  (exists p, In p l /\ type p = kind) ->
  exists p, In p (append l y) /\ type p = kind.
Proof.
  intros [p [Hin Hp]]. exists p. split; [ | exact Hp ].
  unfold append. apply in_or_app. left. exact Hin.
Qed.

(** Time spent on a known distraction domain is always reported.  For
    a history of fewer than 2^53 events whose seconds sum to less than
    2^53: the analysis returns, the domain has the risk 1.0 in the risk
    table, and the patterns include one of type "high_risk_domains". *)
Theorem visited_distraction_domain_reported (events : list Event)
        (d : string) :
  total_time events < 2 ^ 53 ->
  Z.of_nat (List.length events) < 2 ^ 53 ->
  In d DISTRACTION_DOMAINS ->
  0 < time_on d events ->
  exists r,
    analyze (Some events) = Some r
    /\ In (d, 1.0%float) (domain_risk_scores r)
    /\ exists p, In p (patterns r) /\ type p = "high_risk_domains".
Proof.
  intros Htot Hlen Hd Hpos.
  destruct (DwellFacts.long_dwells_total urlparse_hostname events Htot Hlen)
    as [dwells Hdw].
  assert (Hrisk : In (d, 1.0%float)
                     (_analyze_domain_risks urlparse_hostname events)).
  { destruct (RiskFacts.risk_keys urlparse_hostname events) as [_ Hkeys].
    apply Hkeys in Hpos. apply in_map_iff in Hpos.
    destruct Hpos as [[d' v] [Hfst Hin]]. cbn [fst] in Hfst. subst d'.
    destruct (RiskFacts.risk_entry urlparse_hostname events d v Htot Hin)
      as [_ [_ [_ [Hone _]]]].
    rewrite <- (Hone Hd). exact Hin. }
  unfold analyze, PatternAgent.analyze.
  destruct events as [ | ev rest] eqn:E;
    [ unfold time_on, Usage.time_on in Hpos; simpl in Hpos; lia | ].
  rewrite <- E in *. cbv zeta. rewrite Hdw.
  eexists. split; [ reflexivity | ]. cbn [domain_risk_scores patterns].
  split; [ exact Hrisk | ].
  set (high := map fst (filter (fun ds => Py.gtb (snd ds) 0.6)
                               (_analyze_domain_risks urlparse_hostname events))).
  assert (Hhigh : In d high).
  { subst high. apply in_map_iff. exists (d, 1.0%float).
    split; [ reflexivity | ]. apply filter_In. split; [ exact Hrisk | ].
    reflexivity. }
  destruct high as [ | d0 ds] eqn:Eh; [ destruct Hhigh | ].
  destruct dwells; [ | apply appended_stays ];
    (destruct (_detect_distraction_chains urlparse_hostname events);
     [ | apply appended_stays ]);
    (eexists; split;
     [ unfold append; apply in_or_app; right; left; reflexivity
     | reflexivity ]).
Qed.

Lemma clean_sequence (events : list Event) :
  (forall ev, In ev events -> is_distr ev = false) ->
  distraction_sequence urlparse_hostname events = [].
Proof.
  induction events as [ | ev events IH]; intros H; [ reflexivity | ].
  cbn [distraction_sequence].
  rewrite (H ev) by (left; reflexivity).
  rewrite IH by (intros ev' Hin; apply H; right; exact Hin).
  destruct (PatternAgent.domain_of urlparse_hostname ev); reflexivity.
Qed.

Lemma clean_store (events : list Event) (acc : list (string * list Z)) :
  (forall ev, In ev events -> is_distr ev = false) ->
  fold_left
    (fun acc ev =>
       match domain_of ev with
       | Some d => if is_distr ev then Dict.push String.eqb acc d (dur_of ev)
                   else acc
       | None => acc
       end) events acc = acc.
Proof.
  revert acc. induction events as [ | ev events IH]; intros acc H;
    [ reflexivity | ].
  cbn [fold_left]. rewrite (H ev) by (left; reflexivity).
  replace (match domain_of ev with Some _ => acc | None => acc end) with acc
    by (destruct (domain_of ev); reflexivity).
  apply IH. intros ev' Hin. apply H. right. exact Hin.
Qed.

(** A history without a distraction gives no pattern.  When no event
    is flagged and none is on a known distraction domain, and the seconds
    sum to less than 2^53, the analysis returns without a pattern and
    without a chain, and every risk and every hourly vulnerability is
    0.0. *)
Theorem clean_history_no_patterns (events : list Event) :
  total_time events < 2 ^ 53 ->
  (forall ev, In ev events -> is_distr ev = false) ->
  exists r,
    analyze (Some events) = Some r
    /\ patterns r = []
    /\ distraction_chains r = []
    /\ (forall d v, In (d, v) (domain_risk_scores r) -> v = 0.0%float)
    /\ (forall h v, In (h, v) (hourly_vulnerability r) -> v = 0.0%float).
Proof.
  intros Htot Hclean.
  assert (Hrisks : forall d v,
             In (d, v) (_analyze_domain_risks urlparse_hostname events) ->
             v = 0.0%float).
  { intros d v Hin.
    destruct (RiskFacts.risk_entry urlparse_hostname events d v Htot Hin)
      as [_ [_ [_ [_ Hzero]]]].
    apply Hzero. apply seconds_none. intros ev Hev.
    specialize (Hclean ev Hev). unfold is_distr, PatternAgent.is_distr in Hclean.
    apply orb_false_iff in Hclean. destruct Hclean as [Hflag Hdom].
    rewrite Hflag. cbn [orb].
    unfold at_domain, has_key.
    destruct (PatternAgent.domain_of urlparse_hostname ev) as [d' | ];
      [ | reflexivity ].
    destruct (String.eqb d' d) eqn:Ed; [ | reflexivity ].
    apply String.eqb_eq in Ed. subst d'. rewrite Hdom. reflexivity. }
  assert (Hhours : forall h v,
             In (h, v) (_analyze_hourly_vulnerability urlparse_hostname
                          fromisoformat_hour events) ->
             v = 0.0%float).
  { intros h v Hin.
    destruct (RiskFacts.hour_entry urlparse_hostname fromisoformat_hour
                events h v Hin) as [_ ->].
    destruct (Z.ltb_spec 0 (time_at fromisoformat_hour h events))
      as [Hpos | _]; [ | reflexivity ].
    replace (distraction_time_at urlparse_hostname fromisoformat_hour h events)
      with 0.
    - rewrite DivFacts.truediv_zero; [ reflexivity | ].
      split; [ exact Hpos | ].
      assert (time_at fromisoformat_hour h events <= total_time events)
        by (apply seconds_le; reflexivity).
      lia.
    - symmetry. apply seconds_none. intros ev Hev.
      rewrite (Hclean ev Hev). apply andb_false_r. }
  unfold analyze, PatternAgent.analyze.
  destruct events as [ | ev rest] eqn:E.
  { eexists. split; [ reflexivity | ]. simpl. repeat split; intros ? ? []. }
  rewrite <- E in *. cbv zeta.
  unfold _detect_long_dwells. cbv zeta.
  rewrite (clean_store events [] Hclean). cbn [fold_left].
  unfold _detect_distraction_chains. cbv zeta.
  rewrite (clean_sequence events Hclean). cbn [List.length Nat.ltb Nat.leb].
  rewrite (RelevanceFacts.filter_none (fun hs => Py.gtb (snd hs) 0.5)
             (_analyze_hourly_vulnerability urlparse_hostname
                fromisoformat_hour events)).
  2:{ intros [h v] Hin. rewrite (Hhours h v Hin). reflexivity. }
  rewrite (RelevanceFacts.filter_none (fun ds => Py.gtb (snd ds) 0.6)
             (_analyze_domain_risks urlparse_hostname events)).
  2:{ intros [d v] Hin. rewrite (Hrisks d v Hin). reflexivity. }
  eexists. split; [ reflexivity | ].
  cbn [patterns distraction_chains domain_risk_scores hourly_vulnerability map].
  split; [ reflexivity | ]. split; [ reflexivity | ].
  split; assumption.
Qed.

End Report.

End ReportFacts.

(** ** The coordinator *)

Module CoordinatorFacts.

Import CoordinatorAgent Usage Variants.
Local Open Scope string_scope.

Lemma dict_get_In {V : Type} (d : list (string * V)) (k : string) (v : V) :
  dict_get d k = Some v -> In (k, v) d.
Proof.
  induction d as [ | [k' v'] d IH]; simpl; [ discriminate | ].
  destruct (String.eqb k' k) eqn:E.
  - apply String.eqb_eq in E. subst k'. intros H. injection H as <-.
    left. reflexivity.
  - intros H. right. apply IH, H.
Qed.

Lemma dict_get_absent {V : Type} (d : list (string * V)) (k : string) :
  ~ In k (map fst d) -> dict_get d k = None.
Proof.
  induction d as [ | [k' v'] d IH]; simpl; [ reflexivity | ].
  intros H. destruct (String.eqb k' k) eqn:E.
  - apply String.eqb_eq in E. tauto.
  - apply IH. tauto.
Qed.

Lemma dict_get_present {V : Type} (d : list (string * V)) (k : string)
      (v : V) :
  NoDup (map fst d) -> In (k, v) d -> dict_get d k = Some v.
Proof.
  induction d as [ | [k' v'] d IH]; simpl; [ intros _ [] | ].
  intros Hnd [H | H].
  - injection H as -> ->. rewrite String.eqb_refl. reflexivity.
  - inversion Hnd as [ | ? ? Hnot Hrest]; subst.
    destruct (String.eqb k' k) eqn:E; [ | apply IH; assumption ].
    apply String.eqb_eq in E. subst k'. exfalso. apply Hnot.
    apply in_map_iff. exists (k, v). split; [ reflexivity | exact H ].
Qed.

Lemma default_risk_on_grid : 0.5%float = milli_risk 500.
Proof. vm_compute. reflexivity. Qed.

Section Pipeline.

Variable urlparse_hostname : string -> option string.
Variable gemini_configured : bool.
Variable generate_content : string -> option string.
Variable fromisoformat_hour : string -> option Z.

Local Abbreviation analyze :=
  (analyze urlparse_hostname gemini_configured generate_content
           fromisoformat_hour).
Local Abbreviation context_of :=
  (fun data => ContextAgent.analyze urlparse_hostname gemini_configured
                 generate_content (context_request data)).
Local Abbreviation history := (fun data => get (historical_events data) []).
Local Abbreviation dwell := (fun data => get (time_on_current_seconds data) 0%Z).
Local Abbreviation in_session := (fun data => get (session_active data) false).

(** The pattern analysis of a history of fewer than 2^53 events whose
    seconds sum to less than 2^53 does not raise. *)
Lemma pattern_analysis_total (events : list PatternAgent.Event) :
  (total_time events < 2 ^ 53)%Z ->
  (Z.of_nat (List.length events) < 2 ^ 53)%Z ->
  exists p,
    PatternAgent.analyze urlparse_hostname fromisoformat_hour (Some events)
    = Some p
    /\ PatternAgent.domain_risk_scores p
       = PatternAgent._analyze_domain_risks urlparse_hostname events.
Proof.
  intros Htot Hlen.
  destruct (DwellFacts.long_dwells_total urlparse_hostname events Htot Hlen)
    as [dwells Hdw].
  unfold PatternAgent.analyze.
  destruct events as [ | ev rest]; [ eexists; split; reflexivity | ].
  cbv zeta. rewrite Hdw. eexists. split; reflexivity.
Qed.

(** The risk the coordinator's request carries is a number of the
    grid. *)
Lemma pipeline_risk (data : Input) (c : ContextAgent.Result)
      (p : PatternAgent.Result) :
  (total_time (history data) < 2 ^ 53)%Z ->
  PatternAgent.domain_risk_scores p
  = PatternAgent._analyze_domain_risks urlparse_hostname (history data) ->
  exists k,
    (0 <= k <= 1000)%Z
    /\ InterventionAgent.domain_risk_of (intervention_request data c p)
       = milli_risk k.
Proof.
  intros Htot Hp. unfold InterventionAgent.domain_risk_of.
  cbn [intervention_request InterventionAgent.pattern_result
       InterventionAgent.current_domain pattern_fields
       InterventionAgent.pf_domain_risk_scores].
  destruct (current_domain data) as [d | ];
    [ | exists 500%Z; split; [ lia | apply default_risk_on_grid ] ].
  destruct (dict_get (PatternAgent.domain_risk_scores p) d) as [v | ] eqn:E;
    [ | exists 500%Z; split; [ lia | apply default_risk_on_grid ] ].
  apply dict_get_In in E. rewrite Hp in E.
  destruct (RiskFacts.risk_entry urlparse_hostname (history data) d v Htot E)
    as [_ [_ [Hgrid _]]].
  exact Hgrid.
Qed.

(** What the intervention agent makes of the coordinator's request. *)
Lemma pipeline_decision (data : Input) (p : PatternAgent.Result) :
  (total_time (history data) < 2 ^ 53)%Z ->
  PatternAgent.domain_risk_scores p
  = PatternAgent._analyze_domain_risks urlparse_hostname (history data) ->
  let c := context_of data in
  let request := intervention_request data c p in
  exists r th,
    InterventionAgent.analyze request = Some r
    /\ InterventionAgent.adjusted_thresholds request = Some th
    /\ tighter (halved (in_session data)) th = true
    /\ tighter th (full (in_session data)) = true
    /\ (ContextAgent.classification c <> "distraction" ->
        r = Examples.no_intervention)
    /\ (ContextAgent.classification c = "distraction" ->
        InterventionAgent.no_intervention_needed request = false).
Proof.
  intros Htot Hp c request.
  destruct (pipeline_risk data c p Htot Hp) as [k [Hk Hrisk]].
  fold request in Hrisk.
  destruct (DecisionFacts.risk_point (in_session data) k Hk)
    as [th [Hth [Hlow Hhigh]]].
  assert (Hadj : InterventionAgent.adjusted_thresholds request = Some th).
  { unfold InterventionAgent.adjusted_thresholds. rewrite Hrisk. exact Hth. }
  destruct (String.eqb (ContextAgent.classification c) "distraction") eqn:E.
  - apply String.eqb_eq in E.
    assert (Hgate : InterventionAgent.no_intervention_needed request = false).
    { apply (InterventionFacts.gate_open request (context_fields c)
               (ContextAgent.confidence c)); try reflexivity.
      - cbn [context_fields InterventionAgent.cf_classification].
        rewrite E. reflexivity.
      - destruct (ContextFacts.analyze_aggregate urlparse_hostname
                    gemini_configured generate_content (context_request data))
          as [relevance [st Hagg]].
        change (c = ContextAgent.aggregate
                      (ContextAgent._score_domain
                         (ContextAgent.domain_of urlparse_hostname
                                                 (context_request data)))
                      (ContextAgent.title_score_of urlparse_hostname
                         gemini_configured generate_content
                         (context_request data))
                      relevance st) in Hagg.
        clearbody c. subst c.
        apply ConfidentFacts.aggregate_confident. rewrite E. discriminate. }
    destruct (InterventionFacts.analyze_levels request th Hgate Hadj)
      as [r [Hr _]].
    exists r, th. repeat (split; [ assumption | ]).
    split; [ intros H; contradiction | auto ].
  - apply String.eqb_neq in E.
    exists Examples.no_intervention, th.
    split.
    + unfold InterventionAgent.analyze.
      replace (InterventionAgent.no_intervention_needed request) with true;
        [ reflexivity | ].
      symmetry. unfold InterventionAgent.no_intervention_needed.
      apply orb_true_iff. left. apply negb_true_iff, String.eqb_neq. exact E.
    + repeat (split; [ assumption | ]).
      split; [ reflexivity | intros H; contradiction ].
Qed.

(** The coordinator on a history of fewer than 2^53 events whose seconds
    sum to less than 2^53.  It returns a decision, with the context the
    context agent gives the request.  A page that the context agent does
    not label a distraction is left alone, with a re-check after 30
    seconds.  A page it labels a distraction is answered by the dwell
    time alone, whatever the confidence: with the hard block from 600
    seconds on.  And no page is intervened on in its first 10
    seconds. *)
Theorem coordinator_decides (data : Input) :
  (total_time (history data) < 2 ^ 53)%Z ->
  (Z.of_nat (List.length (history data)) < 2 ^ 53)%Z ->
  exists out,
    analyze data = Some out
    /\ context out = context_of data
    /\ (ContextAgent.classification (context out) <> "distraction" ->
        decision out = Examples.no_intervention)
    /\ (ContextAgent.classification (context out) = "distraction" ->
        (600 <= dwell data)%Z ->
        InterventionAgent.level (decision out) = "hard_block"
        /\ InterventionAgent.should_intervene (decision out) = true)
    /\ ((dwell data < 10)%Z ->
        InterventionAgent.should_intervene (decision out) = false).
Proof.
  intros Htot Hlen.
  destruct (pattern_analysis_total (history data) Htot Hlen) as [p [Hp Hrisks]].
  destruct (pipeline_decision data p Htot Hrisks)
    as [r [th [Hr [Hth [Hlow [Hhigh [Hother Hgate]]]]]]].
  unfold CoordinatorAgent.analyze. rewrite Hp, Hr.
  eexists. split; [ reflexivity | ]. cbn [context decision].
  split; [ reflexivity | ]. split; [ exact Hother | ].
  apply DecisionFacts.tighter_spec in Hlow, Hhigh.
  assert (Hb : (10 <= InterventionAgent.adjusted_nudge th
                /\ 10 <= InterventionAgent.adjusted_warn th
                /\ 10 <= InterventionAgent.adjusted_soft th
                /\ 10 <= InterventionAgent.adjusted_hard th
                /\ InterventionAgent.adjusted_hard th <= 600)%Z).
  { destruct (in_session data); cbn in Hlow, Hhigh; lia. }
  split.
  - intros Hcls Hlong. specialize (Hgate Hcls).
    destruct (InterventionFacts.analyze_levels _ th Hgate Hth)
      as [r' [Hr' [Hhard [_ [_ [_ [_ Hyes]]]]]]].
    rewrite Hr in Hr'. injection Hr' as <-.
    cbn [intervention_request InterventionAgent.time_on_current_seconds]
      in Hhard.
    assert (Hlevel : InterventionAgent.level r = "hard_block")
      by (apply Hhard; lia).
    split; [ exact Hlevel | ]. apply Hyes. rewrite Hlevel. discriminate.
  - intros Hshort.
    destruct (String.eqb (ContextAgent.classification (context_of data))
                         "distraction") eqn:E.
    + apply String.eqb_eq in E. specialize (Hgate E).
      destruct (InterventionFacts.analyze_levels _ th Hgate Hth)
        as [r' [Hr' [_ [_ [_ [_ [Hnone _]]]]]]].
      rewrite Hr in Hr'. injection Hr' as <-.
      cbn [intervention_request InterventionAgent.time_on_current_seconds]
        in Hnone.
      apply Hnone; lia.
    + apply String.eqb_neq in E. rewrite (Hother E). reflexivity.
Qed.

(** The intervention agent looks the risk up under the [current_domain]
    of the request as it was sent.  A request that names no domain (the
    context agent then takes the host of the URL), or names one on which
    no time was spent in the history, is judged with the default risk
    0.5: thresholds of 22, 90, 225 and 450 seconds, and 15, 62, 157 and
    315 seconds in a session. *)
Theorem unknown_domain_default_thresholds (data : Input) :
  (total_time (history data) < 2 ^ 53)%Z ->
  (Z.of_nat (List.length (history data)) < 2 ^ 53)%Z ->
  current_domain data = None
  \/ (exists d, current_domain data = Some d
                /\ time_on urlparse_hostname d (history data) = 0%Z) ->
  exists out,
    analyze data = Some out
    /\ InterventionAgent.adjusted_thresholds
         (intervention_request data (context out) (patterns out))
       = Some (default_thresholds (in_session data)).
Proof.
  intros Htot Hlen Hdom.
  destruct (pattern_analysis_total (history data) Htot Hlen) as [p [Hp Hrisks]].
  destruct (pipeline_decision data p Htot Hrisks) as [r [th [Hr _]]].
  unfold CoordinatorAgent.analyze. rewrite Hp, Hr.
  eexists. split; [ reflexivity | ]. cbn [context patterns].
  unfold InterventionAgent.adjusted_thresholds.
  assert (Hrisk : InterventionAgent.domain_risk_of
                    (intervention_request data (context_of data) p)
                  = 0.5%float).
  { unfold InterventionAgent.domain_risk_of.
    cbn [intervention_request InterventionAgent.pattern_result
         InterventionAgent.current_domain pattern_fields
         InterventionAgent.pf_domain_risk_scores].
    destruct Hdom as [-> | [d [-> Hzero]]]; [ reflexivity | ].
    rewrite dict_get_absent; [ reflexivity | ].
    rewrite Hrisks.
    destruct (RiskFacts.risk_keys urlparse_hostname (history data))
      as [_ Hkeys].
    intros Hin. apply Hkeys in Hin. lia. }
  rewrite Hrisk.
  cbn [intervention_request InterventionAgent.session_active].
  destruct (in_session data); vm_compute; reflexivity.
Qed.

(** A known distraction domain on which the history spent time is
    judged with the risk 1.0, the tightest thresholds there are: 15, 60,
    150 and 300 seconds, and 10, 42, 105 and 210 seconds in a session. *)
Theorem visited_distraction_domain_tightest (data : Input) (d : string) :
  (total_time (history data) < 2 ^ 53)%Z ->
  (Z.of_nat (List.length (history data)) < 2 ^ 53)%Z ->
  current_domain data = Some d ->
  In d PatternAgent.DISTRACTION_DOMAINS ->
  (0 < time_on urlparse_hostname d (history data))%Z ->
  exists out,
    analyze data = Some out
    /\ InterventionAgent.adjusted_thresholds
         (intervention_request data (context out) (patterns out))
       = Some (halved (in_session data)).
Proof.
  intros Htot Hlen Hdom Hd Hpos.
  destruct (pattern_analysis_total (history data) Htot Hlen) as [p [Hp Hrisks]].
  destruct (pipeline_decision data p Htot Hrisks) as [r [th [Hr _]]].
  unfold CoordinatorAgent.analyze. rewrite Hp, Hr.
  eexists. split; [ reflexivity | ]. cbn [context patterns].
  unfold InterventionAgent.adjusted_thresholds.
  assert (Hrisk : InterventionAgent.domain_risk_of
                    (intervention_request data (context_of data) p)
                  = 1.0%float).
  { unfold InterventionAgent.domain_risk_of.
    cbn [intervention_request InterventionAgent.pattern_result
         InterventionAgent.current_domain pattern_fields
         InterventionAgent.pf_domain_risk_scores].
    rewrite Hdom, Hrisks.
    destruct (RiskFacts.risk_keys urlparse_hostname (history data))
      as [Hnd Hkeys].
    apply Hkeys in Hpos. apply in_map_iff in Hpos.
    destruct Hpos as [[d' v] [Hfst Hin]]. cbn [fst] in Hfst. subst d'.
    destruct (RiskFacts.risk_entry urlparse_hostname (history data) d v
                Htot Hin) as [_ [_ [_ [Hone _]]]].
    rewrite (Hone Hd) in Hin.
    rewrite (dict_get_present _ d 1.0%float Hnd Hin). reflexivity. }
  rewrite Hrisk.
  cbn [intervention_request InterventionAgent.session_active].
  destruct (in_session data); vm_compute; reflexivity.
Qed.

End Pipeline.

End CoordinatorFacts.

(** ** The domain of a URL *)

Module ExtractFacts.

Local Open Scope string_scope.

Lemma lower_ascii_idempotent (c : ascii) :
  Str.lower_ascii (Str.lower_ascii c) = Str.lower_ascii c.
Proof.
  destruct c as [b0 b1 b2 b3 b4 b5 b6 b7].
  destruct b0, b1, b2, b3, b4, b5, b6, b7; reflexivity.
Qed.

Lemma lower_idempotent (s : string) : Str.lower (Str.lower s) = Str.lower s.
Proof.
  induction s as [ | c s IH]; [ reflexivity | ].
  simpl. rewrite lower_ascii_idempotent, IH. reflexivity.
Qed.

Section Extract.

Variable urlparse_hostname : string -> option string.

(** The domain of a URL is normalised, and alike in both agents.  The
    two copies of [_extract_domain] agree; a domain that is returned is
    not empty and is in lower case: the lower-cased host of the URL,
    without one leading "www."; and nothing is returned for a missing or
    empty URL, a URL without a host, and the host "www." itself. *)
Theorem extracted_domain_normalised (url : option string) :
  PatternAgent._extract_domain urlparse_hostname url
  = ContextAgent._extract_domain urlparse_hostname url
  /\ (forall h,
         ContextAgent._extract_domain urlparse_hostname url = Some h ->
         h <> "" /\ Str.lower h = h
         /\ exists u host,
             url = Some u /\ u <> ""
             /\ urlparse_hostname u = Some host
             /\ h = Str.lower
                      (if Str.startswith host "www."
                       then substring 4 (String.length host - 4) host
                       else host))
  /\ (url = None \/ url = Some ""
      \/ (exists u, url = Some u
                    /\ (urlparse_hostname u = None
                        \/ urlparse_hostname u = Some ""
                        \/ urlparse_hostname u = Some "www.")) ->
      ContextAgent._extract_domain urlparse_hostname url = None).
Proof.
  split; [ reflexivity | ]. unfold ContextAgent._extract_domain. split.
  - intros h H. destruct url as [u | ]; [ | discriminate H ].
    destruct (Str.is_empty u) eqn:Eu; [ discriminate H | ].
    cbv zeta in H.
    destruct (urlparse_hostname u) as [host | ] eqn:Eh.
    + destruct (Str.is_empty (Str.lower _)) eqn:El; [ discriminate H | ].
      injection H as <-.
      split; [ intros E; rewrite E in El; discriminate El | ].
      split; [ apply lower_idempotent | ].
      exists u, host. split; [ reflexivity | ].
      split; [ intros ->; discriminate Eu | ].
      split; [ exact Eh | reflexivity ].
    + discriminate H.
  - intros [-> | [-> | [u [-> [H | [H | H]]]]]]; try reflexivity;
      rewrite H; destruct (Str.is_empty u); reflexivity.
Qed.

End Extract.

End ExtractFacts.

(** ** The events route *)

Module EventsFacts.

Import EventsRoute FloatFacts.

(** The opposite of a number that is at least -1 is at most 1. *)
Lemma opp_at_most_one (x : float) :
  PrimFloat.leb (-1) x = true -> PrimFloat.leb (- x) 1 = true.
Proof.
  rewrite !leb_spec, opp_spec, minus_one_spec, one_spec.
  destruct (Prim2SF x) as [s | s | | s m e];
    unfold SFleb, SFopp, SFcompare; cbv beta iota.
  - intros _. reflexivity.
  - destruct s; intros H; [ discriminate H | reflexivity ].
  - intros H. discriminate H.
  - destruct s; cbn [negb]; cbv beta iota; [ | intros _; reflexivity ].
    rewrite (Z.compare_antisym (-52) e).
    rewrite (compare_cont_swap m 4503599627370496).
    destruct (-52 ?= e); cbn [CompOpp]; cbv beta iota;
      try (intros H; exact H).
    destruct (Pos.compare_cont Eq m 4503599627370496); cbn [CompOpp];
      intros H; exact H.
Qed.

(** On numbers that are not negative, not below is at least. *)
Lemma not_below (a b : float) :
  PrimFloat.leb 0 a = true -> PrimFloat.leb 0 b = true ->
  PrimFloat.ltb a b = false -> PrimFloat.leb b a = true.
Proof.
  rewrite !leb_spec, ltb_spec, zero_spec.
  unfold SFleb, SFltb. rewrite (SFcompare_swap (Prim2SF a) (Prim2SF b)).
  destruct (Prim2SF a) as [sa | sa | | sa ma ea];
    destruct (Prim2SF b) as [sb | sb | | sb mb eb];
    unfold SFcompare at 1 2; cbv beta iota; intros Ha Hb;
    try discriminate Ha; try discriminate Hb;
    destruct (SFcompare _ _) as [[ | | ] | ] eqn:E; cbn [option_map CompOpp];
    intros H; try discriminate H; try reflexivity;
    unfold SFcompare in E;
    repeat match type of E with
           | context [ if ?s then _ else _ ] => destruct s
           | context [ match ?c with Eq => _ | Lt => _ | Gt => _ end ] =>
               destruct c
           end;
    cbv beta iota in E; discriminate E.
Qed.

Lemma known_distraction_spec (domain : option string) :
  known_distraction domain = true
  <-> exists d, domain = Some d /\ In d ContextAgent.DISTRACTION_DOMAINS.
Proof.
  unfold known_distraction. destruct domain as [d | ].
  - split.
    + intros H. apply andb_true_iff in H. destruct H as [_ H].
      exists d. split; [ reflexivity | ]. apply StrFacts.mem_In. exact H.
    + intros [d' [Hd Hin]]. injection Hd as <-.
      apply andb_true_iff. split; [ | apply StrFacts.mem_In; exact Hin ].
      unfold ContextAgent.DISTRACTION_DOMAINS in Hin. simpl in Hin.
      repeat (destruct Hin as [<- | Hin]; [ reflexivity | ]).
      contradiction.
  - split; [ discriminate | ]. intros [d [Hd _]]. discriminate Hd.
Qed.

(** [max(0.0, -score)] for a score of [-1, 1] lies in [0, 1]. *)
Lemma distraction_score_unit (score : float) :
  PrimFloat.leb (-1) score = true ->
  PrimFloat.leb 0 (Py.max 0.0 (- score)) = true
  /\ PrimFloat.leb (Py.max 0.0 (- score)) 1 = true.
Proof.
  intros Hlo. unfold Py.max.
  destruct (PrimFloat.ltb 0 (- score)) eqn:E.
  - split; [ apply ltb_leb; exact E | apply opp_at_most_one; exact Hlo ].
  - split; reflexivity.
Qed.

Section Route.

Variable urlparse_hostname : string -> option string.
Variable gemini_configured : bool.
Variable generate_content : string -> option string.
Variable utcnow : string.

Local Abbreviation create_event :=
  (create_event urlparse_hostname gemini_configured generate_content utcnow).
Local Abbreviation context_of :=
  (fun event =>
     ContextAgent.analyze urlparse_hostname gemini_configured generate_content
                          (context_request urlparse_hostname event)).

(** The flag and the score [create_event] stores.  An event is stored
    as a distraction exactly when the context agent labels it one or its
    domain is a known distraction domain, whatever the label; the score
    stored lies in [0, 1]; it is [max(0.0, -context_score)] for a page
    the agent labels a distraction, and at least 0.7 for a page of a
    known distraction domain that the agent does not label one. *)
Theorem stored_distraction_flag (event : EventCreate) :
  let row := create_event event in
  let context := context_of event in
  let known :=
    exists d, row_domain row = Some d
              /\ In d ContextAgent.DISTRACTION_DOMAINS in
  (row_is_distraction row = true
   <-> ContextAgent.classification context = "distraction"%string \/ known)
  /\ PrimFloat.leb 0 (row_distraction_score row) = true
  /\ PrimFloat.leb (row_distraction_score row) 1 = true
  /\ (ContextAgent.classification context = "distraction"%string ->
      row_distraction_score row
      = Py.max 0.0 (- ContextAgent.context_score context))
  /\ (ContextAgent.classification context <> "distraction"%string ->
      known -> PrimFloat.leb 0.7 (row_distraction_score row) = true).
Proof.
  cbv zeta. unfold create_event, EventsRoute.create_event. cbv zeta.
  set (context := ContextAgent.analyze _ _ _ _).
  assert (Hscore : PrimFloat.leb (-1) (ContextAgent.context_score context)
                   = true).
  { subst context.
    destruct (ContextFacts.analyze_aggregate urlparse_hostname
                gemini_configured generate_content
                (context_request urlparse_hostname event))
      as [relevance [st ->]].
    apply ContextFacts.aggregate_score_bounds. }
  destruct (distraction_score_unit _ Hscore) as [Hlo Hhi].
  set (score := Py.max 0.0 (- ContextAgent.context_score context)) in *.
  pose proof (known_distraction_spec (domain_of urlparse_hostname event))
    as Hknown.
  destruct (String.eqb (ContextAgent.classification context) "distraction")
    eqn:E.
  - apply String.eqb_eq in E. cbn [negb andb].
    cbn [row_is_distraction row_distraction_score row_domain].
    split; [ split; [ intros _; left; exact E | reflexivity ] | ].
    split; [ exact Hlo | ]. split; [ exact Hhi | ].
    split; [ reflexivity | ]. intros H. contradiction.
  - apply String.eqb_neq in E. cbn [negb andb].
    destruct (known_distraction (domain_of urlparse_hostname event)) eqn:K;
      cbn [row_is_distraction row_distraction_score row_domain].
    + assert (Hfloor : PrimFloat.leb 0 (Py.max score 0.7) = true
                       /\ PrimFloat.leb (Py.max score 0.7) 1 = true
                       /\ PrimFloat.leb 0.7 (Py.max score 0.7) = true).
      { unfold Py.max. destruct (PrimFloat.ltb score 0.7) eqn:L.
        - repeat split; reflexivity.
        - split; [ exact Hlo | ]. split; [ exact Hhi | ].
          apply not_below; [ exact Hlo | reflexivity | exact L ]. }
      destruct Hfloor as [F1 [F2 F3]].
      split; [ split; [ intros _; right; apply Hknown; reflexivity
                      | reflexivity ] | ].
      split; [ exact F1 | ]. split; [ exact F2 | ].
      split; [ intros H; contradiction | intros _ _; exact F3 ].
    + split.
      * split; [ discriminate | ].
        intros [H | H]; [ contradiction | ].
        apply Hknown in H. discriminate H.
      * split; [ exact Hlo | ]. split; [ exact Hhi | ].
        split; [ intros H; contradiction | ].
        intros _ H. apply Hknown in H. discriminate H.
Qed.

End Route.

End EventsFacts.

(** ** The properties at concrete requests *)

Module ScenarioFacts.

Import Examples Scenarios Variants.
Local Open Scope string_scope.

Lemma message_from_level_pool_witness :
  exists r,
    InterventionAgent.analyze request_22s = Some r
    /\ InterventionAgent.level r = "nudge"
    /\ exists f,
        nth_error InterventionAgent.NUDGE_MESSAGES 0 = Some f
        /\ InterventionAgent.message r = f "22s".
Proof.
  eexists. split; [ vm_compute; reflexivity | ].
  split; [ reflexivity | ].
  destruct (DecisionFacts.message_from_level_pool request_22s _ eq_refl)
    as [_ [Hnudge _]].
  exact (Hnudge eq_refl).
Defined.

Lemma decision_follows_level_witness :
  exists r,
    InterventionAgent.analyze request_10s = Some r
    /\ In (InterventionAgent.level r, InterventionAgent.should_intervene r,
           InterventionAgent.urgency r)
          [ ("none", false, 0.0%float); ("nudge", true, 0.3%float);
            ("warn", true, 0.6%float); ("soft_block", true, 0.8%float);
            ("hard_block", true, 1.0%float) ]
    /\ 5 <= InterventionAgent.cooldown_seconds r.
Proof.
  eexists. split; [ vm_compute; reflexivity | ].
  destruct (DecisionFacts.decision_follows_level request_10s _ eq_refl)
    as [Hlevel [_ [Hwait _]]].
  split; [ exact Hlevel | exact (Hwait eq_refl) ].
Defined.

Lemma recheck_after_cooldown_witness :
  exists r r',
    InterventionAgent.analyze request_10s = Some r
    /\ InterventionAgent.should_intervene r = false
    /\ InterventionAgent.analyze
         (InterventionAgent.with_time request_10s
            (10 + InterventionAgent.cooldown_seconds r)) = Some r'
    /\ InterventionAgent.should_intervene r' = true.
Proof.
  destruct (DecisionFacts.recheck_after_cooldown request_10s
              {| InterventionAgent.cf_classification := Some "distraction";
                 InterventionAgent.cf_context_score := None;
                 InterventionAgent.cf_confidence := Some 0.8%float |}
              0.8%float _ eq_refl eq_refl eq_refl eq_refl eq_refl eq_refl)
    as [_ [r' [Hr' Hyes]]].
  eexists; exists r'. split; [ vm_compute; reflexivity | ].
  split; [ reflexivity | ]. split; [ exact Hr' | exact Hyes ].
Defined.

Lemma session_never_loosens_witness :
  exists off on,
    InterventionAgent.adjusted_thresholds (with_session request_22s false)
    = Some off
    /\ InterventionAgent.adjusted_thresholds (with_session request_22s true)
       = Some on
    /\ tighter on off = true.
Proof.
  destruct (DecisionFacts.session_never_loosens request_22s
              {| InterventionAgent.cf_classification := Some "distraction";
                 InterventionAgent.cf_context_score := None;
                 InterventionAgent.cf_confidence := Some 0.8%float |}
              0.8%float eq_refl eq_refl eq_refl eq_refl eq_refl eq_refl)
    as [off [on [_ [_ [_ [_ [Hoff [Hon [Hn [Hw [Hs [Hh _]]]]]]]]]]]].
  exists off, on. split; [ exact Hoff | ]. split; [ exact Hon | ].
  unfold tighter. rewrite !andb_true_iff, !Z.leb_le. auto.
Defined.

Lemma higher_risk_tighter_witness :
  exists a b,
    InterventionAgent.thresholds_for (milli_risk 250) true = Some a
    /\ InterventionAgent.thresholds_for (milli_risk 750) true = Some b
    /\ tighter b a = true.
Proof.
  destruct (DecisionFacts.higher_risk_tighter_thresholds true 250 750
              ltac:(lia) ltac:(lia)) as [a [b [Ha [Hb [Hab _]]]]].
  exists a, b. auto.
Defined.


Lemma study_reason_witness :
  hd_error (ContextAgent.reasons
              (ContextAgent.analyze no_hostname false no_answer
                 (page "example.org" "funny meme compilation")))
  = Some "Page title contains study-related keywords".
Proof.
  apply (ResultFacts.study_reason_on_unscored_domain no_hostname no_answer).
  reflexivity.
Defined.

Lemma domain_risks_witness :
  let risks := PatternAgent._analyze_domain_risks no_hostname history in
  map fst risks = ["reddit.com"; "example.org"; "github.com"]
  /\ forall d v, In (d, v) risks ->
       PrimFloat.leb 0 v = true /\ PrimFloat.leb v 1 = true
       /\ (In d PatternAgent.DISTRACTION_DOMAINS -> v = 1.0%float).
Proof.
  split; [ vm_compute; reflexivity | ].
  intros d v Hin.
  destruct (RiskFacts.domain_risks_are_time_shares no_hostname history
              ltac:(vm_compute; reflexivity)) as [_ [_ [Hentry _]]].
  destruct (Hentry d v Hin) as [_ [_ [Hlo [Hhi [Hone _]]]]]. auto.
Defined.

Lemma hourly_vulnerability_witness :
  let table :=
    PatternAgent._analyze_hourly_vulnerability no_hostname at_nine
      (map stamped history) in
  map fst table = map Z.of_nat (seq 0 24)
  /\ forall h v, In (h, v) table ->
       PrimFloat.leb 0 v = true /\ PrimFloat.leb v 1 = true.
Proof.
  destruct (RiskFacts.hourly_vulnerability_is_time_share no_hostname at_nine
              (map stamped history) ltac:(vm_compute; reflexivity))
    as [Hkeys Hentry].
  split; [ exact Hkeys | ].
  intros h v Hin. destruct (Hentry h v Hin) as [_ [_ [_ Hunit]]]. exact Hunit.
Defined.

Lemma long_dwells_witness :
  exists dwells,
    PatternAgent._detect_long_dwells no_hostname
      [binge 100; binge 200; flagged "reddit.com"] = Some dwells
    /\ map fst dwells = ["netflix.com"]
    /\ forall d r, In (d, r) dwells -> 120 <= r.
Proof.
  destruct (DwellFacts.long_dwells_reported no_hostname
              [binge 100; binge 200; flagged "reddit.com"]
              ltac:(vm_compute; reflexivity) ltac:(vm_compute; reflexivity))
    as [dwells [Hd [_ [_ Hlong]]]].
  exists dwells. split; [ exact Hd | ].
  split.
  - assert (H : Some dwells = Some [("netflix.com", 150)])
      by (rewrite <- Hd; vm_compute; reflexivity).
    injection H as ->. reflexivity.
  - intros d r Hin. apply (Hlong d r Hin).
Defined.

Lemma labels_are_confident_witness :
  ContextAgent.classification
    (ContextAgent.analyze no_hostname false no_answer
       (page "facebook.com" "funny meme compilation")) = "distraction"
  /\ PrimFloat.leb 0.3
       (ContextAgent.confidence
          (ContextAgent.analyze no_hostname false no_answer
             (page "facebook.com" "funny meme compilation"))) = true.
Proof.
  split; [ vm_compute; reflexivity | ].
  apply (ConfidentFacts.labels_are_confident no_hostname false no_answer).
  vm_compute. discriminate.
Defined.

Lemma coordinator_decides_witness :
  exists out,
    CoordinatorAgent.analyze no_hostname false no_answer at_nine
      (visit (Some "reddit.com") "funny meme compilation" 700) = Some out
    /\ ContextAgent.classification (CoordinatorAgent.context out)
       = "distraction"
    /\ InterventionAgent.level (CoordinatorAgent.decision out) = "hard_block"
    /\ InterventionAgent.should_intervene (CoordinatorAgent.decision out)
       = true.
Proof.
  destruct (CoordinatorFacts.coordinator_decides no_hostname false no_answer
              at_nine (visit (Some "reddit.com") "funny meme compilation" 700)
              ltac:(vm_compute; reflexivity) ltac:(vm_compute; reflexivity))
    as [out [Hout [Hctx [_ [Hhard _]]]]].
  exists out. split; [ exact Hout | ].
  assert (Hcls : ContextAgent.classification (CoordinatorAgent.context out)
                 = "distraction")
    by (rewrite Hctx; vm_compute; reflexivity).
  split; [ exact Hcls | ].
  apply (Hhard Hcls). simpl. lia.
Defined.

Lemma unknown_domain_witness :
  exists out,
    CoordinatorAgent.analyze no_hostname false no_answer at_nine
      (visit None "funny meme compilation" 700) = Some out
    /\ InterventionAgent.adjusted_thresholds
         (CoordinatorAgent.intervention_request
            (visit None "funny meme compilation" 700)
            (CoordinatorAgent.context out) (CoordinatorAgent.patterns out))
       = Some (CoordinatorAgent.default_thresholds true).
Proof.
  apply (CoordinatorFacts.unknown_domain_default_thresholds no_hostname false
           no_answer at_nine (visit None "funny meme compilation" 700)).
  - vm_compute. reflexivity.
  - vm_compute. reflexivity.
  - left. reflexivity.
Defined.

Lemma visited_domain_tightest_witness :
  exists out,
    CoordinatorAgent.analyze no_hostname false no_answer at_nine
      (visit (Some "reddit.com") "funny meme compilation" 700) = Some out
    /\ InterventionAgent.adjusted_thresholds
         (CoordinatorAgent.intervention_request
            (visit (Some "reddit.com") "funny meme compilation" 700)
            (CoordinatorAgent.context out) (CoordinatorAgent.patterns out))
       = Some (halved true).
Proof.
  apply (CoordinatorFacts.visited_distraction_domain_tightest no_hostname
           false no_answer at_nine
           (visit (Some "reddit.com") "funny meme compilation" 700)
           "reddit.com").
  - vm_compute. reflexivity.
  - vm_compute. reflexivity.
  - reflexivity.
  - vm_compute. auto 10.
  - vm_compute. reflexivity.
Defined.

Lemma study_title_overrides_witness :
  ContextAgent.classification
    (ContextAgent.analyze no_hostname false no_answer
       (page "youtube.com" "MIT Linear Algebra Lecture 4")) = "study".
Proof.
  apply (OverrideFacts.study_title_overrides_domain no_hostname false
           no_answer); vm_compute; reflexivity.
Defined.

Lemma one_keyword_witness :
  ContextAgent.classification
    (ContextAgent.analyze no_hostname false no_answer
       (page "facebook.com" "lecture")) = "neutral".
Proof.
  apply (OverrideFacts.one_keyword_on_distraction_domain no_hostname false
           no_answer); vm_compute; reflexivity.
Defined.

Lemma topic_relevance_witness :
  ContextAgent.topic_relevance
    (ContextAgent.analyze no_hostname false no_answer on_topic) = 1.0%float.
Proof.
  destruct (RelevanceFacts.topic_relevance_is_word_share no_hostname false
              no_answer on_topic) as [_ [_ [_ [_ Hshare]]]].
  - reflexivity.
  - intros topic Htopic. injection Htopic as <-.
    split; vm_compute; reflexivity.
  - destruct (Hshare "linear algebra" eq_refl) as [_ Hall].
    apply Hall.
    + discriminate.
    + vm_compute. discriminate.
    + intros w Hw. vm_compute in Hw. vm_compute.
      destruct Hw as [<- | [<- | []]]; auto.
Defined.

Lemma visited_distraction_domain_witness :
  exists r,
    PatternAgent.analyze no_hostname at_nine (Some history) = Some r
    /\ In ("reddit.com", 1.0%float) (PatternAgent.domain_risk_scores r)
    /\ exists p, In p (PatternAgent.patterns r)
                 /\ PatternAgent.type p = "high_risk_domains".
Proof.
  apply (ReportFacts.visited_distraction_domain_reported no_hostname at_nine
           history "reddit.com").
  - vm_compute. reflexivity.
  - vm_compute. reflexivity.
  - vm_compute. auto 10.
  - vm_compute. reflexivity.
Defined.

Lemma clean_history_witness :
  exists r,
    PatternAgent.analyze no_hostname at_nine (Some clean_history) = Some r
    /\ PatternAgent.patterns r = []
    /\ PatternAgent.distraction_chains r = [].
Proof.
  destruct (ReportFacts.clean_history_no_patterns no_hostname at_nine
              clean_history) as [r [Hr [Hp [Hc _]]]].
  - vm_compute. reflexivity.
  - intros ev Hev. vm_compute in Hev.
    destruct Hev as [<- | [<- | [<- | []]]]; reflexivity.
  - exists r. auto.
Defined.

End ScenarioFacts.
